(** * The NoSIP plugin of the Janus gateway (src/plugins/janus_nosip.c)

    A shallow embedding of the plugin's media bridge: the RTP/RTCP port-pair
    allocator, the SDES-SRTP policy installation, the processing of a remote
    session description, the outbound RTP entry point and the request
    handler, followed by the properties the specification states about them.

    C integers are modelled as [Z]; an unsigned 16-bit or 32-bit variable has
    its wrap-around written out.  Pointers that may be NULL are [option]s.
    The operating system and the libraries the plugin links against are
    interfaces ([Kernel], [Libs]); every theorem holds for every
    implementation of them. *)

From Stdlib Require Import ZArith List Bool String Ascii DecimalString Lia Permutation.
Import ListNotations.
Local Open Scope string_scope.
Local Open Scope list_scope.
Local Open Scope Z_scope.

(** ** Record update

    [x <| f := v |>] is the C assignment [x.f = v]: the record [x] with field
    [f] replaced and every other field kept. *)

Class Setter {R T : Type} (proj : R -> T) := set : T -> R -> R.
Arguments set {R T} proj {Setter} _ _ /.

#[warnings="-postfix-notation-not-level-1"]
Notation "x <| proj := v |>" := (set proj v x)
  (at level 12, left associativity, format "x  <| proj  :=  v |>").

Ltac mk_setter eta :=
  match goal with
  | |- @Setter ?R ?T ?proj =>
      unfold Setter;
      let v := fresh "v" in
      let x := fresh "x" in
      intros v x;
      let e := eval cbv beta delta [eta] in (eta x) in
      match eval pattern (proj x) in e with
      | ?f _ => let r := eval cbv beta in (f v) in exact r
      end
  end.

(** ** The operating system, as the allocator sees it *)

(** What a socket option call sets: [IPV6_V6ONLY] or [IP_TOS]. *)
Inductive sockopt : Type :=
| IPV6_V6ONLY (v : Z)
| IP_TOS (v : Z).

(** The system calls of the allocator, with their arguments and results, in
    the order they are made. *)
Inductive syscall : Type :=
| Socket (inet6 : bool) (fd : Z)
| Setsockopt (fd : Z) (opt : sockopt) (res : Z)
| Bind (fd : Z) (port : Z) (res : Z)
| Close (fd : Z)
| Pipe (res : option (Z * Z))
| Write (fd : Z) (res : Z).

Class Kernel (World : Type) : Type := {
  (** [socket(family, SOCK_DGRAM, 0)]: a descriptor, or -1 *)
  sys_socket : bool -> World -> Z * World;
  (** [setsockopt(fd, ...)]: 0, or a negative value *)
  sys_setsockopt : Z -> sockopt -> World -> Z * World;
  (** [bind(fd, address:port)]: 0, or a negative value *)
  sys_bind : Z -> Z -> World -> Z * World;
  (** [close(fd)] *)
  sys_close : Z -> World -> World;
  (** [pipe(fds)]: the two descriptors, or nothing written on failure *)
  sys_pipe : World -> option (Z * Z) * World;
  (** [write(fd, &code, sizeof(int))], retried while interrupted *)
  sys_write : Z -> World -> Z * World
}.

Definition closed_fds (tr : list syscall) : list Z :=
  flat_map (fun e => match e with Close fd => [fd] | _ => [] end) tr.

Definition bind_calls (tr : list syscall) : list syscall :=
  filter (fun e => match e with Bind _ _ _ => true | _ => false end) tr.

(** ** Process-wide configuration and the port cursor *)

Inductive address_family : Type := AF_INET | AF_INET6.

Record Globals : Type := {
  rtp_range_min : Z;      (* uint16_t *)
  rtp_range_max : Z;      (* uint16_t *)
  rtp_range_slider : Z;   (* uint16_t *)
  ipv6_disabled : bool;
  janus_network_local_ip : option address_family;  (* None: the null address *)
  dscp_audio_rtp : Z;
  dscp_video_rtp : Z;
  local_ip : option string;
  sdp_ip : option string;
  notify_events : bool;
  initialized : Z;        (* volatile gint *)
  stopping : Z;           (* volatile gint *)
  gateway : bool          (* whether the callbacks pointer is set *)
}.

Definition Globals_eta (g : Globals) : Globals :=
  Build_Globals (rtp_range_min g) (rtp_range_max g) (rtp_range_slider g)
    (ipv6_disabled g) (janus_network_local_ip g)
    (dscp_audio_rtp g) (dscp_video_rtp g) (local_ip g) (sdp_ip g) (notify_events g)
    (initialized g) (stopping g) (gateway g).

#[export] Instance set_rtp_range_min : Setter rtp_range_min := ltac:(mk_setter Globals_eta).
#[export] Instance set_rtp_range_max : Setter rtp_range_max := ltac:(mk_setter Globals_eta).
#[export] Instance set_rtp_range_slider : Setter rtp_range_slider := ltac:(mk_setter Globals_eta).

Definition DEFAULT_RTP_RANGE_MIN : Z := 10000.
Definition DEFAULT_RTP_RANGE_MAX : Z := 60000.

Definition uint16 (z : Z) : Z := z mod 65536.
Definition uint32 (z : Z) : Z := z mod 4294967296.

(** The part of [janus_nosip_init] that follows the parsing of
    [rtp_port_range]: [rtp_range_min] and [rtp_range_max] hold the two parsed
    numbers. *)
Definition janus_nosip_init_port_range (g : Globals) : Globals :=
  let g :=
    if rtp_range_max g <? rtp_range_min g
    then g <| rtp_range_min := rtp_range_max g |> <| rtp_range_max := rtp_range_min g |>
    else g in
  let g :=
    if negb (rtp_range_min g mod 2 =? 0)
    then g <| rtp_range_min := uint16 (rtp_range_min g + 1) |>   (* Pick an even port for RTP *)
    else g in
  let g :=
    if rtp_range_max g <? rtp_range_min g
    then g <| rtp_range_max := rtp_range_min g |> <| rtp_range_min := rtp_range_max g |>
    else g in
  let g :=
    if rtp_range_max g =? 0
    then g <| rtp_range_max := 65535 |>
    else g in
  g <| rtp_range_slider := rtp_range_min g |>.

(** ** The port-pair allocator *)

(** [use_ipv6_address_family], as [janus_nosip_bind_socket] and
    [janus_nosip_allocate_port_pair] both compute it. *)
Definition use_ipv6_address_family (g : Globals) : bool :=
  negb (ipv6_disabled g) &&
  match janus_network_local_ip g with
  | None => true
  | Some AF_INET6 => true
  | Some AF_INET => false
  end.

(** The local variables of [janus_nosip_allocate_port_pair] that live across
    iterations of its [while(1)]. *)
Record port_cursor : Type := {
  rtp_port_next : Z;      (* uint16_t *)
  rtp_port_wrap : bool;
  rtp_fd : Z;
  rtcp_fd : Z
}.

(** The two [break] statements of the loop. *)
Inductive break_reason : Type :=
| FullRangeScanned
| SocketError.

(** How one pass through the loop body ends. *)
Inductive iteration_end : Type :=
| Continue (c : port_cursor)
| Break (why : break_reason) (c : port_cursor)
| Return0 (fds : Z * Z) (ports : Z * Z) (slider : Z).

Section Allocator.
Context {World : Type} {K : Kernel World}.

Definition janus_nosip_bind_socket (fd port : Z) (w : World) : Z * World :=
  let '(res, w) := sys_bind fd port w in
  if res <? 0 then (-1, w) else (0, w).

(** [if(rtp_fd == -1) { rtp_fd = socket(...); ... }] *)
Definition open_rtp_socket (video : bool) (g : Globals) (fd : Z) (w : World)
  : Z * World * list syscall :=
  if fd =? -1 then
    let inet6 := use_ipv6_address_family g in
    let '(fd, w) := sys_socket inet6 w in
    let '(w, tr) :=
      if inet6 && negb (fd =? -1) then
        let '(res, w) := sys_setsockopt fd (IPV6_V6ONLY 0) w in
        (w, [Socket inet6 fd; Setsockopt fd (IPV6_V6ONLY 0) res])
      else (w, [Socket inet6 fd]) in
    (* Set the DSCP value if set in the config file *)
    if negb (fd =? -1) && negb video && (0 <? dscp_audio_rtp g) then
      let optval := Z.shiftl (dscp_audio_rtp g) 2 in
      let '(res, w) := sys_setsockopt fd (IP_TOS optval) w in
      (fd, w, tr ++ [Setsockopt fd (IP_TOS optval) res])
    else if negb (fd =? -1) && video && (0 <? dscp_video_rtp g) then
      let optval := Z.shiftl (dscp_video_rtp g) 2 in
      let '(res, w) := sys_setsockopt fd (IP_TOS optval) w in
      (fd, w, tr ++ [Setsockopt fd (IP_TOS optval) res])
    else (fd, w, tr)
  else (fd, w, []).

(** [if(rtcp_fd == -1) { rtcp_fd = socket(...); ... }] *)
Definition open_rtcp_socket (g : Globals) (fd : Z) (w : World)
  : Z * World * list syscall :=
  if fd =? -1 then
    let inet6 := use_ipv6_address_family g in
    let '(fd, w) := sys_socket inet6 w in
    if inet6 && negb (fd =? -1) then
      let '(res, w) := sys_setsockopt fd (IPV6_V6ONLY 0) w in
      (fd, w, [Socket inet6 fd; Setsockopt fd (IPV6_V6ONLY 0) res])
    else (fd, w, [Socket inet6 fd])
  else (fd, w, []).

(** One pass through the body of [while(1)]: how it ends, the world it
    leaves, the system calls it made and the RTP port it tried to bind, if it
    got that far. *)
Definition port_pair_iteration (video : bool) (g : Globals) (rtp_port_start : Z)
    (c : port_cursor) (w : World)
  : iteration_end * World * list syscall * option Z :=
  if rtp_port_wrap c && (rtp_port_start <=? rtp_port_next c) then
    (* Full range scanned *)
    (Break FullRangeScanned c, w, [], None)
  else
    let '(rtp_fd, w, tr1) := open_rtp_socket video g (rtp_fd c) w in
    let '(rtcp_fd, w, tr2) := open_rtcp_socket g (rtcp_fd c) w in
    if (rtp_fd =? -1) || (rtcp_fd =? -1) then
      (Break SocketError
         {| rtp_port_next := rtp_port_next c; rtp_port_wrap := rtp_port_wrap c;
            rtp_fd := rtp_fd; rtcp_fd := rtcp_fd |},
       w, tr1 ++ tr2, None)
    else
      let rtp_port := rtp_port_next c in
      let rtcp_port := rtp_port + 1 in
      let '(next, wrap) :=
        if uint32 (rtp_port_next c + 2) <? rtp_range_max g
        then (uint16 (rtp_port_next c + 2), rtp_port_wrap c)   (* Advance to next pair *)
        else (rtp_range_min g, true) in
      let '(res, w) := janus_nosip_bind_socket rtp_fd rtp_port w in
      if negb (res =? 0) then
        (* rtp_fd still unbound, reuse it *)
        (Continue {| rtp_port_next := next; rtp_port_wrap := wrap;
                     rtp_fd := rtp_fd; rtcp_fd := rtcp_fd |},
         w, tr1 ++ tr2 ++ [Bind rtp_fd rtp_port res], Some rtp_port)
      else
        let '(res', w) := janus_nosip_bind_socket rtcp_fd rtcp_port w in
        if negb (res' =? 0) then
          let w := sys_close rtp_fd w in
          (* rtcp_fd still unbound, reuse it *)
          (Continue {| rtp_port_next := next; rtp_port_wrap := wrap;
                       rtp_fd := -1; rtcp_fd := rtcp_fd |},
           w,
           tr1 ++ tr2 ++ [Bind rtp_fd rtp_port res; Bind rtcp_fd rtcp_port res'; Close rtp_fd],
           Some rtp_port)
        else
          (Return0 (rtp_fd, rtcp_fd) (rtp_port, rtcp_port) next,
           w,
           tr1 ++ tr2 ++ [Bind rtp_fd rtp_port res; Bind rtcp_fd rtcp_port res'],
           Some rtp_port).

(** What a call of [janus_nosip_allocate_port_pair] leaves behind. [ret] is
    the C return value, [fds] and [ports] the two output arrays (written on
    success only), [globals] carries the cursor written back.  [left_at],
    [tried] and [calls] are observations: why the loop was left without a
    pair, the RTP ports the call tried to bind, in order, and its system
    calls. *)
Record allocation : Type := {
  ret : Z;
  fds : option (Z * Z);
  ports : option (Z * Z);
  globals : Globals;
  left_at : option (break_reason * port_cursor);
  tried : list Z;
  calls : list syscall
}.

Definition add_iteration (tr : list syscall) (p : option Z) (a : allocation) : allocation :=
  {| ret := ret a; fds := fds a; ports := ports a; globals := globals a;
     left_at := left_at a;
     tried := match p with Some p => p :: tried a | None => tried a end;
     calls := tr ++ calls a |}.

(** The code after the loop: close what is still open, return -1. *)
Definition allocation_failed (g : Globals) (why : break_reason) (c : port_cursor) (w : World)
  : allocation * World :=
  let '(w, tr1) :=
    if negb (rtp_fd c =? -1) then (sys_close (rtp_fd c) w, [Close (rtp_fd c)]) else (w, []) in
  let '(w, tr2) :=
    if negb (rtcp_fd c =? -1) then (sys_close (rtcp_fd c) w, [Close (rtcp_fd c)]) else (w, []) in
  ({| ret := -1; fds := None; ports := None; globals := g;
      left_at := Some (why, c); tried := []; calls := tr1 ++ tr2 |}, w).

(** The [while(1)] loop.  [fuel] bounds the number of iterations the model
    follows; [None] means the bound was reached with the loop still
    running. *)
Fixpoint allocate_loop (fuel : nat) (video : bool) (g : Globals) (rtp_port_start : Z)
    (c : port_cursor) (w : World) : option (allocation * World) :=
  match fuel with
  | O => None
  | S fuel =>
      match port_pair_iteration video g rtp_port_start c w with
      | (Continue c, w, tr, p) =>
          match allocate_loop fuel video g rtp_port_start c w with
          | Some (a, w) => Some (add_iteration tr p a, w)
          | None => None
          end
      | (Break why c, w, tr, p) =>
          let '(a, w) := allocation_failed g why c w in
          Some (add_iteration tr p a, w)
      | (Return0 fds ports slider, w, tr, p) =>
          Some (add_iteration tr p
                  {| ret := 0; fds := Some fds; ports := Some ports;
                     globals := g <| rtp_range_slider := slider |>;   (* Write global slider *)
                     left_at := None; tried := []; calls := [] |}, w)
      end
  end.

(** Bind RTP/RTCP port pair *)
Definition janus_nosip_allocate_port_pair (fuel : nat) (video : bool) (g : Globals) (w : World)
  : option (allocation * World) :=
  let rtp_port_next := rtp_range_slider g in   (* Read global slider *)
  let rtp_port_start := rtp_port_next in
  allocate_loop fuel video g rtp_port_start
    {| rtp_port_next := rtp_port_next; rtp_port_wrap := false; rtp_fd := -1; rtcp_fd := -1 |} w.

End Allocator.

(** A small operating system to run the allocator on: a table of ports that
    cannot be bound, a number of descriptors that can still be created, and
    the next descriptor number. *)
Record SimWorld : Type := {
  sim_busy : list Z;
  sim_fds_left : nat;
  sim_next_fd : Z
}.

#[export] Instance sim_kernel : Kernel SimWorld := {
  sys_socket := fun _ w =>
    match sim_fds_left w with
    | O => (-1, w)
    | S n => (sim_next_fd w,
              {| sim_busy := sim_busy w; sim_fds_left := n; sim_next_fd := sim_next_fd w + 1 |})
    end;
  sys_setsockopt := fun _ _ w => (0, w);
  sys_bind := fun _ port w =>
    if existsb (Z.eqb port) (sim_busy w) then (-1, w) else (0, w);
  sys_close := fun _ w =>
    {| sim_busy := sim_busy w; sim_fds_left := S (sim_fds_left w); sim_next_fd := sim_next_fd w |};
  sys_pipe := fun w =>
    match sim_fds_left w with
    | S (S n) => (Some (sim_next_fd w, sim_next_fd w + 1),
                  {| sim_busy := sim_busy w; sim_fds_left := n; sim_next_fd := sim_next_fd w + 2 |})
    | _ => (None, w)
    end;
  sys_write := fun _ w => (4, w)
}.

Definition default_globals : Globals :=
  {| rtp_range_min := DEFAULT_RTP_RANGE_MIN; rtp_range_max := DEFAULT_RTP_RANGE_MAX;
     rtp_range_slider := DEFAULT_RTP_RANGE_MIN;
     ipv6_disabled := false; janus_network_local_ip := None;
     dscp_audio_rtp := 0; dscp_video_rtp := 0;
     local_ip := Some "192.0.2.1"; sdp_ip := None; notify_events := true;
     initialized := 1; stopping := 0; gateway := true |}.

(** ** C strings *)

Definition tolower (c : ascii) : ascii :=
  let n := nat_of_ascii c in
  if (65 <=? n)%nat && (n <=? 90)%nat then ascii_of_nat (n + 32) else c.

Definition char_code (c : ascii) : Z := Z.of_nat (nat_of_ascii c).

(** [strcmp(a, b)]: zero exactly when the two strings are equal. *)
Fixpoint strcmp (a b : string) : Z :=
  match a, b with
  | EmptyString, EmptyString => 0
  | EmptyString, String d _ => - char_code d
  | String c _, EmptyString => char_code c
  | String c a', String d b' =>
      if Ascii.eqb c d then strcmp a' b' else char_code c - char_code d
  end.

(** [strcasecmp(a, b)]: [strcmp] on the lower-cased strings. *)
Fixpoint strcasecmp (a b : string) : Z :=
  match a, b with
  | EmptyString, EmptyString => 0
  | EmptyString, String d _ => - char_code (tolower d)
  | String c _, EmptyString => char_code (tolower c)
  | String c a', String d b' =>
      if Ascii.eqb (tolower c) (tolower d) then strcasecmp a' b'
      else char_code (tolower c) - char_code (tolower d)
  end.

(** [strstr(haystack, needle)]: the suffix of [haystack] that starts with
    the first occurrence of [needle], or NULL. *)
Fixpoint strstr (haystack needle : string) : option string :=
  if String.prefix needle haystack then Some haystack
  else match haystack with
       | EmptyString => None
       | String _ rest => strstr rest needle
       end.

Definition is_null {A : Type} (p : option A) : bool :=
  match p with None => true | Some _ => false end.

Definition not_null {A : Type} (p : option A) : bool := negb (is_null p).

(** ** JSON values (jansson) *)

#[warnings="-register-all"]
Inductive json_t : Type :=
| json_null
| json_true
| json_false
| json_integer (value : Z)
| json_string (value : string)
| json_array (items : list json_t)
| json_object (members : list (string * json_t)).

Fixpoint assoc_get (key : string) (members : list (string * json_t)) : option json_t :=
  match members with
  | [] => None
  | (k, v) :: rest => if String.eqb k key then Some v else assoc_get key rest
  end.

(** [json_object_get(json, key)]: NULL when [json] is NULL, is not an object
    or has no such member. *)
Definition json_object_get (json : option json_t) (key : string) : option json_t :=
  match json with
  | Some (json_object members) => assoc_get key members
  | _ => None
  end.

Definition json_string_value (json : option json_t) : option string :=
  match json with
  | Some (json_string s) => Some s
  | _ => None
  end.

Definition json_is_true (json : option json_t) : bool :=
  match json with
  | Some json_true => true
  | _ => false
  end.

Definition json_is_object (json : option json_t) : bool :=
  match json with
  | Some (json_object _) => true
  | _ => false
  end.

Definition json_integer_value (json : option json_t) : Z :=
  match json with
  | Some (json_integer z) => z
  | _ => 0
  end.

Definition json_array_size (json : option json_t) : Z :=
  match json with
  | Some (json_array items) => Z.of_nat (List.length items)
  | _ => 0
  end.

Definition json_array_get (json : option json_t) (i : nat) : option json_t :=
  match json with
  | Some (json_array items) => nth_error items i
  | _ => None
  end.

(** The element types a request parameter may be declared with. *)
Inductive json_type : Type := JSON_STRING | JSON_INTEGER | JANUS_JSON_BOOL.

Record janus_json_parameter : Type := {
  name : string;
  jtype : json_type;
  required : bool   (* JANUS_JSON_PARAM_REQUIRED *)
}.

Definition janus_json_is_valid (val : json_t) (t : json_type) : bool :=
  match t, val with
  | JSON_STRING, json_string _ => true
  | JSON_INTEGER, json_integer _ => true
  | JANUS_JSON_BOOL, json_true => true
  | JANUS_JSON_BOOL, json_false => true
  | _, _ => false
  end.

(** Modelled from the spec: the macro [JANUS_VALIDATE_JSON_OBJECT] is defined
    in utils.h, which is not among the sources.  It walks the parameter table
    in order and stops at the first parameter that is required and missing
    ([missing_code]) or present with the wrong type ([invalid_code]); the
    result is the error code, 0 when the object is valid, and the cause. *)
Fixpoint JANUS_VALIDATE_JSON_OBJECT (obj : option json_t) (params : list janus_json_parameter)
    (missing_code invalid_code : Z) : Z * string :=
  match params with
  | [] => (0, "")
  | p :: rest =>
      match json_object_get obj (name p) with
      | None =>
          if required p
          then (missing_code, ("Missing mandatory element (" ++ name p ++ ")")%string)
          else JANUS_VALIDATE_JSON_OBJECT obj rest missing_code invalid_code
      | Some val =>
          if janus_json_is_valid val (jtype p)
          then JANUS_VALIDATE_JSON_OBJECT obj rest missing_code invalid_code
          else (invalid_code, ("Invalid element type (" ++ name p ++ ")")%string)
      end
  end.

(** Parameter validation *)
Definition request_parameters : list janus_json_parameter :=
  [ {| name := "request"; jtype := JSON_STRING; required := true |} ].

Definition generate_parameters : list janus_json_parameter :=
  [ {| name := "info"; jtype := JSON_STRING; required := false |};
    {| name := "srtp"; jtype := JSON_STRING; required := false |};
    {| name := "srtp_profile"; jtype := JSON_STRING; required := false |};
    {| name := "update"; jtype := JANUS_JSON_BOOL; required := false |} ].

Definition process_parameters : list janus_json_parameter :=
  [ {| name := "type"; jtype := JSON_STRING; required := true |};
    {| name := "sdp"; jtype := JSON_STRING; required := true |};
    {| name := "info"; jtype := JSON_STRING; required := false |};
    {| name := "srtp"; jtype := JSON_STRING; required := false |};
    {| name := "srtp_profile"; jtype := JSON_STRING; required := false |};
    {| name := "update"; jtype := JANUS_JSON_BOOL; required := false |} ].

Definition recording_parameters : list janus_json_parameter :=
  [ {| name := "action"; jtype := JSON_STRING; required := true |};
    {| name := "audio"; jtype := JANUS_JSON_BOOL; required := false |};
    {| name := "video"; jtype := JANUS_JSON_BOOL; required := false |};
    {| name := "peer_audio"; jtype := JANUS_JSON_BOOL; required := false |};
    {| name := "peer_video"; jtype := JANUS_JSON_BOOL; required := false |};
    {| name := "filename"; jtype := JSON_STRING; required := false |} ].

Definition keyframe_parameters : list janus_json_parameter :=
  [ {| name := "user"; jtype := JANUS_JSON_BOOL; required := false |};
    {| name := "peer"; jtype := JANUS_JSON_BOOL; required := false |} ].

(** Error codes *)
Definition JANUS_NOSIP_ERROR_UNKNOWN_ERROR : Z := 499.
Definition JANUS_NOSIP_ERROR_NO_MESSAGE : Z := 440.
Definition JANUS_NOSIP_ERROR_INVALID_JSON : Z := 441.
Definition JANUS_NOSIP_ERROR_INVALID_REQUEST : Z := 442.
Definition JANUS_NOSIP_ERROR_MISSING_ELEMENT : Z := 443.
Definition JANUS_NOSIP_ERROR_INVALID_ELEMENT : Z := 444.
Definition JANUS_NOSIP_ERROR_WRONG_STATE : Z := 445.
Definition JANUS_NOSIP_ERROR_MISSING_SDP : Z := 446.
Definition JANUS_NOSIP_ERROR_INVALID_SDP : Z := 447.
Definition JANUS_NOSIP_ERROR_IO_ERROR : Z := 448.
Definition JANUS_NOSIP_ERROR_RECORDING_ERROR : Z := 449.
Definition JANUS_NOSIP_ERROR_TOO_STRICT : Z := 450.

(** ** Session descriptions

    Modelled from the spec: the types [janus_sdp], [janus_sdp_mline] and
    [janus_sdp_attribute] are declared in sdp-utils.h, which is not among the
    sources.  The fields are those [janus_nosip_sdp_process] and
    [janus_nosip_sdp_manipulate] read and write; the port of a media section
    is a UDP port number, an unsigned 16-bit integer ([sdp_ports_ok]). *)

Inductive janus_sdp_mtype : Type :=
| JANUS_SDP_AUDIO
| JANUS_SDP_VIDEO
| JANUS_SDP_APPLICATION
| JANUS_SDP_OTHER.

Inductive janus_sdp_mdirection : Type :=
| JANUS_SDP_DEFAULT
| JANUS_SDP_SENDRECV
| JANUS_SDP_SENDONLY
| JANUS_SDP_RECVONLY
| JANUS_SDP_INACTIVE
| JANUS_SDP_INVALID.

Record janus_sdp_attribute : Type := {
  a_name : option string;
  a_value : option string
}.

Record janus_sdp_mline : Type := {
  m_index : Z;
  m_type : janus_sdp_mtype;
  m_port : Z;
  m_proto : option string;
  m_c_addr : option string;
  m_direction : janus_sdp_mdirection;
  m_ptypes : list Z;
  m_attributes : list janus_sdp_attribute
}.

Record janus_sdp : Type := {
  c_addr : option string;
  m_lines : list janus_sdp_mline
}.

Definition sdp_ports_ok (sdp : janus_sdp) : Prop :=
  Forall (fun m => 0 <= m_port m <= 65535) (m_lines sdp).

Definition mtype_eqb (a b : janus_sdp_mtype) : bool :=
  match a, b with
  | JANUS_SDP_AUDIO, JANUS_SDP_AUDIO => true
  | JANUS_SDP_VIDEO, JANUS_SDP_VIDEO => true
  | JANUS_SDP_APPLICATION, JANUS_SDP_APPLICATION => true
  | JANUS_SDP_OTHER, JANUS_SDP_OTHER => true
  | _, _ => false
  end.

(** ** SRTP (rtpsrtp.h and libsrtp) *)

(** Modelled from the spec: [janus_srtp_profile] is declared in rtpsrtp.h,
    which is not among the sources; the value 0, which
    [janus_nosip_srtp_cleanup] stores, is none of the four profiles. *)
Inductive janus_srtp_profile : Type :=
| JANUS_SRTP_NONE
| JANUS_SRTP_AES128_CM_SHA1_32
| JANUS_SRTP_AES128_CM_SHA1_80
| JANUS_SRTP_AEAD_AES_128_GCM
| JANUS_SRTP_AEAD_AES_256_GCM.

Definition SRTP_MASTER_KEY_LENGTH : Z := 16.
Definition SRTP_MASTER_SALT_LENGTH : Z := 14.
Definition SRTP_MASTER_LENGTH : Z := SRTP_MASTER_KEY_LENGTH + SRTP_MASTER_SALT_LENGTH.
Definition SRTP_AESGCM128_MASTER_KEY_LENGTH : Z := 16.
Definition SRTP_AESGCM128_MASTER_SALT_LENGTH : Z := 12.
Definition SRTP_AESGCM128_MASTER_LENGTH : Z :=
  SRTP_AESGCM128_MASTER_KEY_LENGTH + SRTP_AESGCM128_MASTER_SALT_LENGTH.
Definition SRTP_AESGCM256_MASTER_KEY_LENGTH : Z := 32.
Definition SRTP_AESGCM256_MASTER_SALT_LENGTH : Z := 12.
Definition SRTP_AESGCM256_MASTER_LENGTH : Z :=
  SRTP_AESGCM256_MASTER_KEY_LENGTH + SRTP_AESGCM256_MASTER_SALT_LENGTH.

(** What a [srtp_crypto_policy_t] holds, named after the libsrtp function
    that fills it: [srtp_crypto_policy_set_aes_cm_128_hmac_sha1_32] and so
    on.  [policy_unset] is a policy no such function was called on. *)
Inductive srtp_crypto_policy_t : Type :=
| policy_unset
| aes_cm_128_hmac_sha1_32
| aes_cm_128_hmac_sha1_80
| aes_gcm_128_16_auth
| aes_gcm_256_16_auth.

Inductive srtp_ssrc_type_t : Type :=
| ssrc_undefined
| ssrc_specific
| ssrc_any_inbound
| ssrc_any_outbound.

Record srtp_policy_t : Type := {
  ssrc_type : srtp_ssrc_type_t;
  rtp : srtp_crypto_policy_t;
  rtcp : srtp_crypto_policy_t;
  key : option (list Z)
}.

Definition srtp_policy_t_eta (p : srtp_policy_t) : srtp_policy_t :=
  Build_srtp_policy_t (ssrc_type p) (rtp p) (rtcp p) (key p).

#[export] Instance set_ssrc_type : Setter ssrc_type := ltac:(mk_setter srtp_policy_t_eta).
#[export] Instance set_rtp : Setter rtp := ltac:(mk_setter srtp_policy_t_eta).
#[export] Instance set_rtcp : Setter rtcp := ltac:(mk_setter srtp_policy_t_eta).
#[export] Instance set_key : Setter key := ltac:(mk_setter srtp_policy_t_eta).

(** A [srtp_t] is represented by the policy it was created from. *)
Definition srtp_t : Type := srtp_policy_t.

Definition srtp_err_status_ok : Z := 0.

(** A recorder, as far as the plugin looks into it. *)
Record janus_recorder : Type := {
  codec : option string;
  filename : string;
  opusred_pt_rec : Z
}.

(** ** The session

    [janus_nosip_media], field by field.  The two RTP switching contexts
    [acontext] and [vcontext] are left out: only the relay thread and the
    reset helpers touch them. *)
Record janus_nosip_media : Type := {
  remote_audio_ip : option string;
  remote_video_ip : option string;
  ready : bool;
  require_srtp : bool;
  has_srtp_local : bool;
  has_srtp_remote : bool;
  srtp_profile : janus_srtp_profile;
  has_audio : bool;
  audio_rtp_fd : Z;
  audio_rtcp_fd : Z;
  local_audio_rtp_port : Z;
  remote_audio_rtp_port : Z;
  local_audio_rtcp_port : Z;
  remote_audio_rtcp_port : Z;
  audio_ssrc : Z;
  audio_ssrc_peer : Z;
  audio_pt : Z;
  opusred_pt : Z;
  audio_pt_name : option string;
  audio_srtp_tag : Z;
  audio_srtp_in : option srtp_t;
  audio_srtp_out : option srtp_t;
  audio_remote_policy : srtp_policy_t;
  audio_local_policy : srtp_policy_t;
  audio_srtp_local_profile : option string;
  audio_srtp_local_crypto : option string;
  audio_send : bool;
  has_video : bool;
  video_rtp_fd : Z;
  video_rtcp_fd : Z;
  local_video_rtp_port : Z;
  remote_video_rtp_port : Z;
  local_video_rtcp_port : Z;
  remote_video_rtcp_port : Z;
  video_ssrc : Z;
  video_ssrc_peer : Z;
  simulcast_ssrc : Z;
  video_pt : Z;
  video_pt_name : option string;
  video_srtp_tag : Z;
  video_srtp_in : option srtp_t;
  video_srtp_out : option srtp_t;
  video_remote_policy : srtp_policy_t;
  video_local_policy : srtp_policy_t;
  video_srtp_local_profile : option string;
  video_srtp_local_crypto : option string;
  video_send : bool;
  video_pli_supported : bool;
  pipefd : Z * Z;
  updated : bool;
  video_orientation_extension_id : Z;
  audio_level_extension_id : Z
}.

Definition janus_nosip_media_eta (m : janus_nosip_media) : janus_nosip_media :=
  Build_janus_nosip_media
    (remote_audio_ip m) (remote_video_ip m) (ready m) (require_srtp m) (has_srtp_local m)
    (has_srtp_remote m) (srtp_profile m) (has_audio m) (audio_rtp_fd m) (audio_rtcp_fd m)
    (local_audio_rtp_port m) (remote_audio_rtp_port m) (local_audio_rtcp_port m)
    (remote_audio_rtcp_port m) (audio_ssrc m) (audio_ssrc_peer m) (audio_pt m) (opusred_pt m)
    (audio_pt_name m) (audio_srtp_tag m) (audio_srtp_in m) (audio_srtp_out m)
    (audio_remote_policy m) (audio_local_policy m) (audio_srtp_local_profile m)
    (audio_srtp_local_crypto m) (audio_send m) (has_video m) (video_rtp_fd m)
    (video_rtcp_fd m) (local_video_rtp_port m) (remote_video_rtp_port m)
    (local_video_rtcp_port m) (remote_video_rtcp_port m) (video_ssrc m) (video_ssrc_peer m)
    (simulcast_ssrc m) (video_pt m) (video_pt_name m) (video_srtp_tag m) (video_srtp_in m)
    (video_srtp_out m) (video_remote_policy m) (video_local_policy m)
    (video_srtp_local_profile m) (video_srtp_local_crypto m) (video_send m)
    (video_pli_supported m) (pipefd m) (updated m) (video_orientation_extension_id m)
    (audio_level_extension_id m).

#[export] Instance set_remote_audio_ip : Setter remote_audio_ip := ltac:(mk_setter janus_nosip_media_eta).
#[export] Instance set_remote_video_ip : Setter remote_video_ip := ltac:(mk_setter janus_nosip_media_eta).
#[export] Instance set_ready : Setter ready := ltac:(mk_setter janus_nosip_media_eta).
#[export] Instance set_require_srtp : Setter require_srtp := ltac:(mk_setter janus_nosip_media_eta).
#[export] Instance set_has_srtp_local : Setter has_srtp_local := ltac:(mk_setter janus_nosip_media_eta).
#[export] Instance set_has_srtp_remote : Setter has_srtp_remote := ltac:(mk_setter janus_nosip_media_eta).
#[export] Instance set_srtp_profile : Setter srtp_profile := ltac:(mk_setter janus_nosip_media_eta).
#[export] Instance set_has_audio : Setter has_audio := ltac:(mk_setter janus_nosip_media_eta).
#[export] Instance set_audio_rtp_fd : Setter audio_rtp_fd := ltac:(mk_setter janus_nosip_media_eta).
#[export] Instance set_audio_rtcp_fd : Setter audio_rtcp_fd := ltac:(mk_setter janus_nosip_media_eta).
#[export] Instance set_local_audio_rtp_port : Setter local_audio_rtp_port := ltac:(mk_setter janus_nosip_media_eta).
#[export] Instance set_remote_audio_rtp_port : Setter remote_audio_rtp_port := ltac:(mk_setter janus_nosip_media_eta).
#[export] Instance set_local_audio_rtcp_port : Setter local_audio_rtcp_port := ltac:(mk_setter janus_nosip_media_eta).
#[export] Instance set_remote_audio_rtcp_port : Setter remote_audio_rtcp_port := ltac:(mk_setter janus_nosip_media_eta).
#[export] Instance set_audio_ssrc : Setter audio_ssrc := ltac:(mk_setter janus_nosip_media_eta).
#[export] Instance set_audio_ssrc_peer : Setter audio_ssrc_peer := ltac:(mk_setter janus_nosip_media_eta).
#[export] Instance set_audio_pt : Setter audio_pt := ltac:(mk_setter janus_nosip_media_eta).
#[export] Instance set_opusred_pt : Setter opusred_pt := ltac:(mk_setter janus_nosip_media_eta).
#[export] Instance set_audio_pt_name : Setter audio_pt_name := ltac:(mk_setter janus_nosip_media_eta).
#[export] Instance set_audio_srtp_tag : Setter audio_srtp_tag := ltac:(mk_setter janus_nosip_media_eta).
#[export] Instance set_audio_srtp_in : Setter audio_srtp_in := ltac:(mk_setter janus_nosip_media_eta).
#[export] Instance set_audio_srtp_out : Setter audio_srtp_out := ltac:(mk_setter janus_nosip_media_eta).
#[export] Instance set_audio_remote_policy : Setter audio_remote_policy := ltac:(mk_setter janus_nosip_media_eta).
#[export] Instance set_audio_local_policy : Setter audio_local_policy := ltac:(mk_setter janus_nosip_media_eta).
#[export] Instance set_audio_srtp_local_profile : Setter audio_srtp_local_profile := ltac:(mk_setter janus_nosip_media_eta).
#[export] Instance set_audio_srtp_local_crypto : Setter audio_srtp_local_crypto := ltac:(mk_setter janus_nosip_media_eta).
#[export] Instance set_audio_send : Setter audio_send := ltac:(mk_setter janus_nosip_media_eta).
#[export] Instance set_has_video : Setter has_video := ltac:(mk_setter janus_nosip_media_eta).
#[export] Instance set_video_rtp_fd : Setter video_rtp_fd := ltac:(mk_setter janus_nosip_media_eta).
#[export] Instance set_video_rtcp_fd : Setter video_rtcp_fd := ltac:(mk_setter janus_nosip_media_eta).
#[export] Instance set_local_video_rtp_port : Setter local_video_rtp_port := ltac:(mk_setter janus_nosip_media_eta).
#[export] Instance set_remote_video_rtp_port : Setter remote_video_rtp_port := ltac:(mk_setter janus_nosip_media_eta).
#[export] Instance set_local_video_rtcp_port : Setter local_video_rtcp_port := ltac:(mk_setter janus_nosip_media_eta).
#[export] Instance set_remote_video_rtcp_port : Setter remote_video_rtcp_port := ltac:(mk_setter janus_nosip_media_eta).
#[export] Instance set_video_ssrc : Setter video_ssrc := ltac:(mk_setter janus_nosip_media_eta).
#[export] Instance set_video_ssrc_peer : Setter video_ssrc_peer := ltac:(mk_setter janus_nosip_media_eta).
#[export] Instance set_simulcast_ssrc : Setter simulcast_ssrc := ltac:(mk_setter janus_nosip_media_eta).
#[export] Instance set_video_pt : Setter video_pt := ltac:(mk_setter janus_nosip_media_eta).
#[export] Instance set_video_pt_name : Setter video_pt_name := ltac:(mk_setter janus_nosip_media_eta).
#[export] Instance set_video_srtp_tag : Setter video_srtp_tag := ltac:(mk_setter janus_nosip_media_eta).
#[export] Instance set_video_srtp_in : Setter video_srtp_in := ltac:(mk_setter janus_nosip_media_eta).
#[export] Instance set_video_srtp_out : Setter video_srtp_out := ltac:(mk_setter janus_nosip_media_eta).
#[export] Instance set_video_remote_policy : Setter video_remote_policy := ltac:(mk_setter janus_nosip_media_eta).
#[export] Instance set_video_local_policy : Setter video_local_policy := ltac:(mk_setter janus_nosip_media_eta).
#[export] Instance set_video_srtp_local_profile : Setter video_srtp_local_profile := ltac:(mk_setter janus_nosip_media_eta).
#[export] Instance set_video_srtp_local_crypto : Setter video_srtp_local_crypto := ltac:(mk_setter janus_nosip_media_eta).
#[export] Instance set_video_send : Setter video_send := ltac:(mk_setter janus_nosip_media_eta).
#[export] Instance set_video_pli_supported : Setter video_pli_supported := ltac:(mk_setter janus_nosip_media_eta).
#[export] Instance set_pipefd : Setter pipefd := ltac:(mk_setter janus_nosip_media_eta).
#[export] Instance set_updated : Setter updated := ltac:(mk_setter janus_nosip_media_eta).
#[export] Instance set_video_orientation_extension_id : Setter video_orientation_extension_id := ltac:(mk_setter janus_nosip_media_eta).
#[export] Instance set_audio_level_extension_id : Setter audio_level_extension_id := ltac:(mk_setter janus_nosip_media_eta).

(** [janus_nosip_session], without its two mutexes and its reference
    counter.  [relayer_thread] tells whether the thread pointer is set. *)
Record janus_nosip_session : Type := {
  handle : Z;
  sdp_version : Z;
  media : janus_nosip_media;
  sdp : option janus_sdp;
  arc : option janus_recorder;
  arc_peer : option janus_recorder;
  vrc : option janus_recorder;
  vrc_peer : option janus_recorder;
  relayer_thread : bool;
  hangingup : Z;
  destroyed : Z
}.

Definition janus_nosip_session_eta (s : janus_nosip_session) : janus_nosip_session :=
  Build_janus_nosip_session
    (handle s) (sdp_version s) (media s) (sdp s) (arc s) (arc_peer s)
    (vrc s) (vrc_peer s) (relayer_thread s) (hangingup s) (destroyed s).

#[export] Instance set_handle : Setter handle := ltac:(mk_setter janus_nosip_session_eta).
#[export] Instance set_sdp_version : Setter sdp_version := ltac:(mk_setter janus_nosip_session_eta).
#[export] Instance set_media : Setter media := ltac:(mk_setter janus_nosip_session_eta).
#[export] Instance set_sdp : Setter sdp := ltac:(mk_setter janus_nosip_session_eta).
#[export] Instance set_arc : Setter arc := ltac:(mk_setter janus_nosip_session_eta).
#[export] Instance set_arc_peer : Setter arc_peer := ltac:(mk_setter janus_nosip_session_eta).
#[export] Instance set_vrc : Setter vrc := ltac:(mk_setter janus_nosip_session_eta).
#[export] Instance set_vrc_peer : Setter vrc_peer := ltac:(mk_setter janus_nosip_session_eta).
#[export] Instance set_relayer_thread : Setter relayer_thread := ltac:(mk_setter janus_nosip_session_eta).
#[export] Instance set_hangingup : Setter hangingup := ltac:(mk_setter janus_nosip_session_eta).
#[export] Instance set_destroyed : Setter destroyed := ltac:(mk_setter janus_nosip_session_eta).

(** ** The libraries the plugin calls

    Functions of the Janus core, libsrtp, GLib and libc that the plugin calls
    and that are not among the sources.  Those that depend on or change
    something outside the session take and return the [World]. *)
Class Libs (World : Type) : Type := {
  (** whether the plugin was built with [HAVE_SRTP_AESGCM] *)
  HAVE_SRTP_AESGCM : bool;
  (** [janus_sdp_parse]: the parsed description, or the error text *)
  janus_sdp_parse : string -> janus_sdp + string;
  (** [janus_sdp_write] *)
  janus_sdp_write : janus_sdp -> option string;
  (** [janus_sdp_get_opusred_pt(sdp, index)] *)
  janus_sdp_get_opusred_pt : janus_sdp -> Z -> Z;
  (** [janus_sdp_get_codec_name(sdp, index, pt)] *)
  janus_sdp_get_codec_name : janus_sdp -> Z -> Z -> option string;
  (** [janus_rtp_header_extension_get_id(sdp, extension)] *)
  janus_rtp_header_extension_get_id : string -> string -> Z;
  (** [sscanf(value, "%i %100s inline:%100s", &tag, profile, crypto)]: the
      three items when it returns 3 *)
  sscanf_crypto : string -> option (Z * string * string);
  (** [g_base64_encode], [g_base64_decode] *)
  g_base64_encode : list Z -> string;
  g_base64_decode : string -> list Z;
  (** [srtp_crypto_get_random(key, len)]: the bytes written *)
  srtp_crypto_get_random : Z -> World -> list Z * World;
  (** [srtp_create(&session, policy)]: the status *)
  srtp_create : srtp_policy_t -> World -> Z * World;
  (** [srtp_protect(ctx, buf, &len)]: the status and the protected packet *)
  srtp_protect : option srtp_t -> list Z -> World -> Z * list Z * World;
  (** [send(fd, buf, len, 0)] *)
  send : Z -> list Z -> World -> Z * World;
  (** [janus_recorder_create(NULL, codec, filename)] *)
  janus_recorder_create : option string -> string -> World -> option janus_recorder * World;
  (** [janus_recorder_save_frame(recorder, buf, len)] *)
  janus_recorder_save_frame : option janus_recorder -> list Z -> World -> World;
  (** [janus_recorder_close] followed by [janus_recorder_destroy] *)
  janus_recorder_close : janus_recorder -> World -> World;
  (** the recording file name built from the session pointer and the time,
      ["nosip-%p-%" SCNi64 "<suffix>"] *)
  nosip_filename : Z -> string -> World -> string;
  (** [g_thread_try_new]: whether the thread was started *)
  g_thread_try_new : World -> bool * World;
  (** [gateway->events_is_enabled()] *)
  events_is_enabled : World -> bool;
  (** [janus_rtcp_pli]: the 12 bytes of a PLI *)
  janus_rtcp_pli : list Z;
  (** [janus_rtcp_fix_ssrc(NULL, buf, len, video, ssrc, ssrc_peer)] *)
  janus_rtcp_fix_ssrc : list Z -> bool -> Z -> Z -> list Z;
  (** [srtp_protect_rtcp(ctx, buf, &len)] *)
  srtp_protect_rtcp : option srtp_t -> list Z -> World -> Z * list Z * World
}.

(** [#ifdef HAVE_SRTP_AESGCM ... #endif]-guarded profiles. *)
Definition profile_supported {World} {L : Libs World} (p : janus_srtp_profile) : bool :=
  match p with
  | JANUS_SRTP_NONE => false
  | JANUS_SRTP_AES128_CM_SHA1_32 => true
  | JANUS_SRTP_AES128_CM_SHA1_80 => true
  | JANUS_SRTP_AEAD_AES_128_GCM => HAVE_SRTP_AESGCM
  | JANUS_SRTP_AEAD_AES_256_GCM => HAVE_SRTP_AESGCM
  end.

(** The [switch(session->media.srtp_profile)] of both
    [janus_nosip_srtp_set_local] and [janus_nosip_srtp_set_remote]. *)
Definition set_srtp_policies {World} {L : Libs World}
    (profile : janus_srtp_profile) (policy : srtp_policy_t) : srtp_policy_t :=
  match profile with
  | JANUS_SRTP_AES128_CM_SHA1_32 =>
      policy <| rtp := aes_cm_128_hmac_sha1_32 |> <| rtcp := aes_cm_128_hmac_sha1_80 |>
  | JANUS_SRTP_AES128_CM_SHA1_80 =>
      policy <| rtp := aes_cm_128_hmac_sha1_80 |> <| rtcp := aes_cm_128_hmac_sha1_80 |>
  | JANUS_SRTP_AEAD_AES_128_GCM =>
      if HAVE_SRTP_AESGCM
      then policy <| rtp := aes_gcm_128_16_auth |> <| rtcp := aes_gcm_128_16_auth |>
      else policy
  | JANUS_SRTP_AEAD_AES_256_GCM =>
      if HAVE_SRTP_AESGCM
      then policy <| rtp := aes_gcm_256_16_auth |> <| rtcp := aes_gcm_256_16_auth |>
      else policy
  | JANUS_SRTP_NONE =>
      (* Will never happen? *)
      policy
  end.

Section Srtp.
Context {World : Type} {L : Libs World}.

(** SRTP stuff (in case we need SDES).  The functions below take the
    session's [media]: they use the session through [session->media] only.

    In [janus_nosip_srtp_set_local] the output arguments [profile] and
    [crypto] are, as at its two call sites, the [srtp_local_profile] and
    [srtp_local_crypto] fields of the medium. *)
Definition janus_nosip_srtp_set_local (m : janus_nosip_media) (video : bool) (w : World)
  : Z * janus_nosip_media * World :=
  (* Which SRTP profile are we going to negotiate? *)
  let lengths :=
    match srtp_profile m with
    | JANUS_SRTP_AES128_CM_SHA1_32 =>
        Some (SRTP_MASTER_LENGTH, "AES_CM_128_HMAC_SHA1_32")
    | JANUS_SRTP_AES128_CM_SHA1_80 =>
        Some (SRTP_MASTER_LENGTH, "AES_CM_128_HMAC_SHA1_80")
    | JANUS_SRTP_AEAD_AES_128_GCM =>
        if HAVE_SRTP_AESGCM then Some (SRTP_AESGCM128_MASTER_LENGTH, "AEAD_AES_128_GCM")
        else None
    | JANUS_SRTP_AEAD_AES_256_GCM =>
        if HAVE_SRTP_AESGCM then Some (SRTP_AESGCM256_MASTER_LENGTH, "AEAD_AES_256_GCM")
        else None
    | JANUS_SRTP_NONE => None
    end in
  match lengths with
  | None => (-2, m, w)   (* Unsupported SRTP profile *)
  | Some (master_length, profile) =>
      let m := if video then m <| video_srtp_local_profile := Some profile |>
               else m <| audio_srtp_local_profile := Some profile |> in
      (* Generate key/salt *)
      let '(key_salt, w) := srtp_crypto_get_random master_length w in
      (* Set SRTP policies *)
      let policy := if video then video_local_policy m else audio_local_policy m in
      let policy := set_srtp_policies (srtp_profile m) policy in
      let policy := policy <| ssrc_type := ssrc_any_inbound |> <| key := Some key_salt |> in
      (* Create SRTP context *)
      let '(res, w) := srtp_create policy w in
      if negb (res =? srtp_err_status_ok) then
        (* Something went wrong... *)
        let policy := policy <| key := None |> in
        let m := if video
                 then m <| video_local_policy := policy |> <| video_srtp_local_profile := None |>
                 else m <| audio_local_policy := policy |> <| audio_srtp_local_profile := None |> in
        (-2, m, w)
      else
        (* Base64 encode the salt *)
        let m := if video
                 then m <| video_local_policy := policy |> <| video_srtp_out := Some policy |>
                        <| video_srtp_local_crypto := Some (g_base64_encode key_salt) |>
                 else m <| audio_local_policy := policy |> <| audio_srtp_out := Some policy |>
                        <| audio_srtp_local_crypto := Some (g_base64_encode key_salt) |> in
        (0, m, w)
  end.

Definition janus_nosip_srtp_set_remote (m : janus_nosip_media) (video : bool)
    (profile crypto : option string) (w : World) : Z * janus_nosip_media * World :=
  match profile, crypto with
  | Some profile, Some crypto =>
      (* Which SRTP profile is being negotiated? *)
      let chosen :=
        if strcasecmp profile "AES_CM_128_HMAC_SHA1_32" =? 0 then
          Some (JANUS_SRTP_AES128_CM_SHA1_32, SRTP_MASTER_LENGTH)
        else if strcasecmp profile "AES_CM_128_HMAC_SHA1_80" =? 0 then
          Some (JANUS_SRTP_AES128_CM_SHA1_80, SRTP_MASTER_LENGTH)
        else if HAVE_SRTP_AESGCM && (strcasecmp profile "AEAD_AES_128_GCM" =? 0) then
          Some (JANUS_SRTP_AEAD_AES_128_GCM, SRTP_AESGCM128_MASTER_LENGTH)
        else if HAVE_SRTP_AESGCM && (strcasecmp profile "AEAD_AES_256_GCM" =? 0) then
          Some (JANUS_SRTP_AEAD_AES_256_GCM, SRTP_AESGCM256_MASTER_LENGTH)
        else None in
      match chosen with
      | None => (-2, m, w)   (* Unsupported SRTP profile *)
      | Some (prof, master_length) =>
          let m := m <| srtp_profile := prof |> in
          (* Base64 decode the crypto string and set it as the remote SRTP context *)
          let decoded := g_base64_decode crypto in
          if Z.of_nat (List.length decoded) <? master_length then
            (* FIXME Can this happen? *)
            (-3, m, w)
          else
            (* Set SRTP policies *)
            let policy := if video then video_remote_policy m else audio_remote_policy m in
            let policy := set_srtp_policies (srtp_profile m) policy in
            let policy := policy <| ssrc_type := ssrc_any_inbound |> <| key := Some decoded |> in
            (* Create SRTP context *)
            let '(res, w) := srtp_create policy w in
            if negb (res =? srtp_err_status_ok) then
              (* Something went wrong... *)
              let policy := policy <| key := None |> in
              let m := if video then m <| video_remote_policy := policy |>
                       else m <| audio_remote_policy := policy |> in
              (-2, m, w)
            else
              let m := if video
                       then m <| video_remote_policy := policy |> <| video_srtp_in := Some policy |>
                       else m <| audio_remote_policy := policy |> <| audio_srtp_in := Some policy |> in
              (0, m, w)
      end
  | _, _ => (-1, m, w)
  end.

Definition janus_nosip_srtp_cleanup (m : janus_nosip_media) : janus_nosip_media :=
  m <| require_srtp := false |>
    <| has_srtp_local := false |>
    <| has_srtp_remote := false |>
    <| srtp_profile := JANUS_SRTP_NONE |>
    (* Audio *)
    <| audio_srtp_tag := 0 |>
    <| audio_srtp_out := None |>
    <| audio_local_policy := audio_local_policy m <| key := None |> |>
    <| audio_srtp_in := None |>
    <| audio_remote_policy := audio_remote_policy m <| key := None |> |>
    <| audio_srtp_local_profile := None |>
    <| audio_srtp_local_crypto := None |>
    (* Video *)
    <| video_srtp_tag := 0 |>
    <| video_srtp_out := None |>
    <| video_local_policy := video_local_policy m <| key := None |> |>
    <| video_srtp_in := None |>
    <| video_remote_policy := video_remote_policy m <| key := None |> |>
    <| video_srtp_local_profile := None |>
    <| video_srtp_local_crypto := None |>.

End Srtp.

(** ** SDP parsing and manipulation *)

Definition opt_strcmp_differs (a : string) (b : option string) : bool :=
  (* [!b || strcmp(a, b)] *)
  match b with
  | None => true
  | Some b => negb (strcmp a b =? 0)
  end.

Definition is_audio (m : janus_sdp_mline) : bool := mtype_eqb (m_type m) JANUS_SDP_AUDIO.
Definition is_video (m : janus_sdp_mline) : bool := mtype_eqb (m_type m) JANUS_SDP_VIDEO.

Definition direction_blocks_sending (d : janus_sdp_mdirection) : bool :=
  match d with
  | JANUS_SDP_SENDONLY | JANUS_SDP_INACTIVE => true
  | _ => false
  end.

Section Sdp.
Context {World : Type} {K : Kernel World} {L : Libs World}.

(** The body of the [while(tempA)] loop of [janus_nosip_sdp_process], for
    one attribute of media section [ml]. *)
Definition process_attribute (answer : bool) (ml : janus_sdp_mline)
    (st : janus_nosip_media * World) (a : janus_sdp_attribute) : janus_nosip_media * World :=
  let '(m, w) := st in
  match a_name a with
  | None => (m, w)
  | Some a_name =>
      if strcasecmp a_name "crypto" =? 0 then
        if is_audio ml || is_video ml then
          if (is_audio ml && not_null (audio_srtp_in m)) ||
             (is_video ml && not_null (video_srtp_in m)) then
            (* Remote SRTP is already set *)
            (m, w)
          else
            match match a_value a with Some v => sscanf_crypto v | None => None end with
            | None =>
                (* Failed to parse crypto line, ignoring... *)
                (m, w)
            | Some (tag, profile, crypto) =>
                let video := is_video ml in
                if answer && ((negb video && negb (tag =? audio_srtp_tag m)) ||
                              (video && negb (tag =? video_srtp_tag m))) then
                  (* Not the tag for the crypto line we offered *)
                  (m, w)
                else
                  let '(res, m, w) :=
                    janus_nosip_srtp_set_remote m video (Some profile) (Some crypto) w in
                  if res <? 0 then
                    (* Unsupported profile? *)
                    (m, w)
                  else
                    let m := if negb video then m <| audio_srtp_tag := tag |>
                             else m <| video_srtp_tag := tag |> in
                    (m <| has_srtp_remote := true |>, w)
            end
        else (m, w)
      else if is_video ml && (strcasecmp a_name "rtcp-fb" =? 0) && not_null (a_value a) then
        match a_value a with
        | Some v =>
            if not_null (strstr v " pli") then (m <| video_pli_supported := true |>, w)
            else (m, w)
        | None => (m, w)
        end
      else (m, w)
  end.

(** "Check which codec was negotiated eventually", the block shared by
    [janus_nosip_sdp_process] and [janus_nosip_sdp_manipulate]. *)
Definition negotiated_codec (sdp : janus_sdp) (opusred : Z) (ml : janus_sdp_mline)
    (m : janus_nosip_media) : janus_nosip_media :=
  let pt := match m_ptypes ml with [] => -1 | pt :: _ => pt end in
  if -1 <? pt then
    if is_audio ml then
      let m :=
        if pt =? opusred then
          m <| opusred_pt := pt |>
            <| audio_pt := match m_ptypes ml with _ :: next :: _ => next | _ => -1 end |>
        else m <| audio_pt := pt |> in
      m <| audio_pt_name := janus_sdp_get_codec_name sdp (m_index ml) (audio_pt m) |>
    else
      m <| video_pt := pt |>
        <| video_pt_name := janus_sdp_get_codec_name sdp (m_index ml) pt |>
  else m.

(** The first block of the loop body of [janus_nosip_sdp_process]: the port
    and the direction of an audio or video section. *)
Definition process_mline_port (ml : janus_sdp_mline) (m : janus_nosip_media) (changed : bool)
  : janus_nosip_media * bool :=
  if is_audio ml then
    if negb (m_port ml =? 0) then
      let changed :=
        (* This is an update and an address changed *)
        if negb (m_port ml =? remote_audio_rtp_port m) then true else changed in
      (m <| has_audio := true |>
         <| remote_audio_rtp_port := m_port ml |>
         (* FIXME We're assuming RTCP is on the next port *)
         <| remote_audio_rtcp_port := m_port ml + 1 |>
         <| audio_send := negb (direction_blocks_sending (m_direction ml)) |>,
       changed)
    else (m <| audio_send := false |>, changed)
  else
    if negb (m_port ml =? 0) then
      let changed :=
        (* This is an update and an address changed *)
        if negb (m_port ml =? remote_video_rtp_port m) then true else changed in
      (m <| has_video := true |>
         <| remote_video_rtp_port := m_port ml |>
         (* FIXME We're assuming RTCP is on the next port *)
         <| remote_video_rtcp_port := m_port ml + 1 |>
         <| video_send := negb (direction_blocks_sending (m_direction ml)) |>,
       changed)
    else (m <| video_send := false |>, changed).

(** The second block: the connection address of the section. *)
Definition process_mline_c_addr (update : bool) (ml : janus_sdp_mline)
    (m : janus_nosip_media) (changed : bool) : janus_nosip_media * bool :=
  match m_c_addr ml with
  | Some addr =>
      if is_audio ml then
        (m <| remote_audio_ip := Some addr |>,
         (* This is an update and an address changed *)
         if update && opt_strcmp_differs addr (remote_audio_ip m) then true else changed)
      else
        (m <| remote_video_ip := Some addr |>,
         (* This is an update and an address changed *)
         if update && opt_strcmp_differs addr (remote_video_ip m) then true else changed)
  | None => (m, changed)
  end.

(** The body of the [while(temp)] loop of [janus_nosip_sdp_process], for one
    media section.  [changed] is the caller's flag ([*changed]). *)
Definition process_mline (sdp : janus_sdp) (answer update : bool) (opusred : Z)
    (st : janus_nosip_media * bool * World) (ml : janus_sdp_mline)
  : janus_nosip_media * bool * World :=
  let '(m, changed, w) := st in
  let m := m <| require_srtp :=
                  require_srtp m ||
                  match m_proto ml with
                  | Some proto => strcasecmp proto "RTP/SAVP" =? 0
                  | None => false
                  end |> in
  if is_audio ml || is_video ml then
    let '(m, changed) := process_mline_port ml m changed in
    let '(m, changed) := process_mline_c_addr update ml m changed in
    let '(m, w) := fold_left (process_attribute answer ml) (m_attributes ml) (m, w) in
    let m := if answer then negotiated_codec sdp opusred ml m else m in
    (m, changed, w)
  else
    (* Unsupported media line (not audio/video) *)
    (m, changed, w).

(** [janus_nosip_sdp_process(session, sdp, answer, update, &changed)]: the
    session's media, the caller's [changed] flag and the write on the wake
    pipe, if any. *)
Definition janus_nosip_sdp_process (m : janus_nosip_media) (sdp : janus_sdp)
    (answer update : bool) (changed : bool) (w : World)
  : janus_nosip_media * bool * World * list syscall :=
  (* c= *)
  let opusred := if answer then janus_sdp_get_opusred_pt sdp (-1) else -1 in
  let '(m, changed) :=
    match c_addr sdp with
    | Some addr =>
        let changed :=
          if update then
            let changed :=
              if opt_strcmp_differs addr (remote_audio_ip m) then true else changed in
            if opt_strcmp_differs addr (remote_video_ip m) then true else changed
          else changed in
        (m <| remote_audio_ip := Some addr |> <| remote_video_ip := Some addr |>, changed)
    | None => (m, changed)
    end in
  let '(m, changed, w) :=
    fold_left (process_mline sdp answer update opusred) (m_lines sdp) (m, changed, w) in
  if update && changed then
    (* Something changed: mark this on the session, so that the thread can update the sockets *)
    let m := m <| updated := true |> in
    if 0 <? snd (pipefd m) then
      let '(res, w) := sys_write (snd (pipefd m)) w in
      (m, changed, w, [Write (snd (pipefd m)) res])
    else (m, changed, w, [])
  else (m, changed, w, []).

End Sdp.

(** [printf]'s ["%" SCNi32] and ["%s"]. *)
Definition format_int (z : Z) : string := NilZero.string_of_int (Z.to_int z).
Definition format_str (s : option string) : string :=
  match s with Some s => s | None => "(null)" end.

Section Manipulate.
Context {World : Type} {K : Kernel World} {L : Libs World}.

(** What [janus_nosip_sdp_manipulate] does to one media section before it
    looks at the negotiated codec. *)
Definition manipulate_mline (g : Globals) (ml : janus_sdp_mline)
    (m : janus_nosip_media) (w : World) : janus_sdp_mline * janus_nosip_media * World :=
  let proto := if require_srtp m then "RTP/SAVP" else "RTP/AVP" in
  let '(port, attributes, m, w) :=
    match m_type ml with
    | JANUS_SDP_AUDIO =>
        if has_srtp_local m then
          let '(m, w) :=
            if is_null (audio_srtp_local_profile m) || is_null (audio_srtp_local_crypto m) then
              let '(_, m, w) := janus_nosip_srtp_set_local m false w in (m, w)
            else (m, w) in
          let m := if audio_srtp_tag m =? 0 then m <| audio_srtp_tag := 1 |> else m in
          let a := {| a_name := Some "crypto";
                      a_value := Some (format_int (audio_srtp_tag m) ++ " " ++
                                       format_str (audio_srtp_local_profile m) ++ " inline:" ++
                                       format_str (audio_srtp_local_crypto m))%string |} in
          (local_audio_rtp_port m, m_attributes ml ++ [a], m, w)
        else (local_audio_rtp_port m, m_attributes ml, m, w)
    | JANUS_SDP_VIDEO =>
        if has_srtp_local m then
          let '(m, w) :=
            if is_null (video_srtp_local_profile m) || is_null (video_srtp_local_crypto m) then
              let '(_, m, w) := janus_nosip_srtp_set_local m true w in (m, w)
            else (m, w) in
          let m := if video_srtp_tag m =? 0 then m <| video_srtp_tag := 1 |> else m in
          let a := {| a_name := Some "crypto";
                      a_value := Some (format_int (video_srtp_tag m) ++ " " ++
                                       format_str (video_srtp_local_profile m) ++ " inline:" ++
                                       format_str (video_srtp_local_crypto m))%string |} in
          (local_video_rtp_port m, m_attributes ml ++ [a], m, w)
        else (local_video_rtp_port m, m_attributes ml, m, w)
    | _ => (m_port ml, m_attributes ml, m, w)
    end in
  ({| m_index := m_index ml; m_type := m_type ml; m_port := port;
      m_proto := Some proto;
      m_c_addr := match sdp_ip g with Some ip => Some ip | None => local_ip g end;
      m_direction := m_direction ml; m_ptypes := m_ptypes ml;
      m_attributes := attributes |}, m, w).

(** The [while(temp)] loop of [janus_nosip_sdp_manipulate].  The description
    is rewritten in place: [done] are the sections already rewritten, [todo]
    those still to come. *)
Fixpoint manipulate_mlines (g : Globals) (answer : bool) (opusred : Z)
    (c : option string) (done todo : list janus_sdp_mline)
    (m : janus_nosip_media) (w : World) : list janus_sdp_mline * janus_nosip_media * World :=
  match todo with
  | [] => (done, m, w)
  | ml :: rest =>
      let '(ml, m, w) := manipulate_mline g ml m w in
      let m :=
        if answer && (is_audio ml || is_video ml) then
          negotiated_codec {| c_addr := c; m_lines := done ++ ml :: rest |} opusred ml m
        else m in
      manipulate_mlines g answer opusred c (done ++ [ml]) rest m w
  end.

(** [janus_nosip_sdp_manipulate]: the rendered description, the description
    as rewritten, and the session's media. *)
Definition janus_nosip_sdp_manipulate (g : Globals) (m : janus_nosip_media) (sdp : janus_sdp)
    (answer : bool) (w : World) : option string * janus_sdp * janus_nosip_media * World :=
  (* Start replacing stuff *)
  let c := match c_addr sdp with Some _ => sdp_ip g | None => None end in
  let opusred :=
    if answer then janus_sdp_get_opusred_pt {| c_addr := c; m_lines := m_lines sdp |} (-1)
    else -1 in
  let '(lines, m, w) := manipulate_mlines g answer opusred c [] (m_lines sdp) m w in
  let sdp := {| c_addr := c; m_lines := lines |} in
  (* Generate a SDP string out of our changes *)
  (janus_sdp_write sdp, sdp, m, w).

(** [if(fd != -1) { close(fd); fd = -1; }] *)
Definition close_if_open (fd : Z) (w : World) : World * list syscall :=
  if negb (fd =? -1) then (sys_close fd w, [Close fd]) else (w, []).

(** [if(fd > 0) { close(fd); fd = -1; }], for the two ends of the pipe *)
Definition close_pipe_end (fd : Z) (w : World) : Z * World * list syscall :=
  if 0 <? fd then (-1, sys_close fd w, [Close fd]) else (fd, w, []).

(** What [janus_nosip_allocate_local_ports] leaves behind. *)
Record local_ports : Type := {
  lp_ret : Z;
  lp_media : janus_nosip_media;
  lp_globals : Globals;
  lp_calls : list syscall
}.

(** "Reset status", the block under [if(!update)]. *)
Definition reset_local_ports (m : janus_nosip_media) (w : World)
  : janus_nosip_media * World * list syscall :=
  let '(w, t1) := close_if_open (audio_rtp_fd m) w in
  let '(w, t2) := close_if_open (audio_rtcp_fd m) w in
  let '(w, t3) := close_if_open (video_rtp_fd m) w in
  let '(w, t4) := close_if_open (video_rtcp_fd m) w in
  let '(p0, w, t5) := close_pipe_end (fst (pipefd m)) w in
  let '(p1, w, t6) := close_pipe_end (snd (pipefd m)) w in
  (m <| audio_rtp_fd := -1 |> <| audio_rtcp_fd := -1 |>
     <| local_audio_rtp_port := 0 |> <| local_audio_rtcp_port := 0 |>
     <| audio_ssrc := 0 |>
     <| video_rtp_fd := -1 |> <| video_rtcp_fd := -1 |>
     <| local_video_rtp_port := 0 |> <| local_video_rtcp_port := 0 |>
     <| video_ssrc := 0 |>
     <| pipefd := (p0, p1) |>,
   w, t1 ++ t2 ++ t3 ++ t4 ++ t5 ++ t6).

(** The audio block: [lp_ret] is -1 when the allocator failed. *)
Definition allocate_audio_ports (fuel : nat) (g : Globals) (m : janus_nosip_media) (w : World)
  : option (local_ports * World) :=
  if has_audio m && ((local_audio_rtp_port m =? 0) || (local_audio_rtcp_port m =? 0)) then
    let '(w, t1) := close_if_open (audio_rtp_fd m) w in
    let '(w, t2) := close_if_open (audio_rtcp_fd m) w in
    let m := m <| audio_rtp_fd := -1 |> <| audio_rtcp_fd := -1 |> in
    match janus_nosip_allocate_port_pair fuel false g w with
    | None => None
    | Some (a, w) =>
        match ret a =? 0, fds a, ports a with
        | true, Some (fd0, fd1), Some (port0, port1) =>
            Some ({| lp_ret := 0;
                     lp_media := m <| audio_rtp_fd := fd0 |> <| audio_rtcp_fd := fd1 |>
                                   <| local_audio_rtp_port := port0 |>
                                   <| local_audio_rtcp_port := port1 |>;
                     lp_globals := globals a; lp_calls := t1 ++ t2 ++ calls a |}, w)
        | _, _, _ =>
            Some ({| lp_ret := -1; lp_media := m; lp_globals := globals a;
                     lp_calls := t1 ++ t2 ++ calls a |}, w)
        end
    end
  else Some ({| lp_ret := 0; lp_media := m; lp_globals := g; lp_calls := [] |}, w).

(** The video block. *)
Definition allocate_video_ports (fuel : nat) (g : Globals) (m : janus_nosip_media) (w : World)
  : option (local_ports * World) :=
  if has_video m && ((local_video_rtp_port m =? 0) || (local_video_rtcp_port m =? 0)) then
    let '(w, t1) := close_if_open (video_rtp_fd m) w in
    let '(w, t2) := close_if_open (video_rtcp_fd m) w in
    let m := m <| video_rtp_fd := -1 |> <| video_rtcp_fd := -1 |> in
    match janus_nosip_allocate_port_pair fuel true g w with
    | None => None
    | Some (a, w) =>
        match ret a =? 0, fds a, ports a with
        | true, Some (fd0, fd1), Some (port0, port1) =>
            Some ({| lp_ret := 0;
                     lp_media := m <| video_rtp_fd := fd0 |> <| video_rtcp_fd := fd1 |>
                                   <| local_video_rtp_port := port0 |>
                                   <| local_video_rtcp_port := port1 |>;
                     lp_globals := globals a; lp_calls := t1 ++ t2 ++ calls a |}, w)
        | _, _, _ =>
            Some ({| lp_ret := -1; lp_media := m; lp_globals := globals a;
                     lp_calls := t1 ++ t2 ++ calls a |}, w)
        end
    end
  else Some ({| lp_ret := 0; lp_media := m; lp_globals := g; lp_calls := [] |}, w).

(** "We need this to quickly interrupt the poll when it's time to update a
    session or wrap up": the pipe is created, or written to on an update. *)
Definition wake_pipe (update : bool) (m : janus_nosip_media) (w : World)
  : janus_nosip_media * World * list syscall :=
  if negb update then
    let '(res, w) := sys_pipe w in
    (match res with Some fds => m <| pipefd := fds |> | None => m end, w, [Pipe res])
  else
    (* Something changed: mark this on the session, so that the thread can update the sockets *)
    let m := m <| updated := true |> in
    if 0 <? snd (pipefd m) then
      let '(res, w) := sys_write (snd (pipefd m)) w in
      (m, w, [Write (snd (pipefd m)) res])
    else (m, w, []).

(** Bind local RTP/RTCP sockets *)
Definition janus_nosip_allocate_local_ports (fuel : nat) (g : Globals) (m : janus_nosip_media)
    (update : bool) (w : World) : option (local_ports * World) :=
  (* Reset status *)
  let '(m, w, tr0) := if negb update then reset_local_ports m w else (m, w, []) in
  (* Start *)
  match allocate_audio_ports fuel g m w with
  | None => None
  | Some (audio, w) =>
      if lp_ret audio <? 0 then
        Some ({| lp_ret := -1; lp_media := lp_media audio; lp_globals := lp_globals audio;
                 lp_calls := tr0 ++ lp_calls audio |}, w)
      else
        match allocate_video_ports fuel (lp_globals audio) (lp_media audio) w with
        | None => None
        | Some (video, w) =>
            if lp_ret video <? 0 then
              Some ({| lp_ret := -1; lp_media := lp_media video; lp_globals := lp_globals video;
                       lp_calls := tr0 ++ lp_calls audio ++ lp_calls video |}, w)
            else
              let '(m, w, tr) := wake_pipe update (lp_media video) w in
              Some ({| lp_ret := 0; lp_media := m; lp_globals := lp_globals video;
                       lp_calls := tr0 ++ lp_calls audio ++ lp_calls video ++ tr |}, w)
        end
  end.

End Manipulate.

(** ** The request handler *)

(** What the plugin asks of the Janus core ([gateway->...]). *)
Inductive upcall : Type :=
| notify_event (info : json_t)
| push_event (event : json_t) (jsep : option json_t)
| close_pc
| send_pli.

Record janus_nosip_message : Type := {
  transaction : string;
  message : option json_t;
  jsep : option json_t
}.

(** How the handling of a request leaves the [if]/[else if] chain: by
    falling through to "Prepare JSON event" or by [goto error]. *)
Inductive outcome : Type :=
| Done (result : option json_t) (localjsep : option json_t)
| Fail (error_code : Z) (error_cause : string).

(** Everything a request can change, and what it emitted. *)
Record handler_state (World : Type) : Type := {
  hs_session : janus_nosip_session;
  hs_globals : Globals;
  hs_world : World;
  hs_upcalls : list upcall;
  hs_calls : list syscall
}.
Arguments hs_session {World} _.
Arguments hs_globals {World} _.
Arguments hs_world {World} _.
Arguments hs_upcalls {World} _.
Arguments hs_calls {World} _.
Arguments Build_handler_state {World} _ _ _ _ _.

Definition JANUS_RTP_EXTMAP_VIDEO_ORIENTATION : string := "urn:3gpp:video-orientation".
Definition JANUS_RTP_EXTMAP_AUDIO_LEVEL : string := "urn:ietf:params:rtp-hdrext:ssrc-audio-level".

(** [g_snprintf(filename, 255, ...)] keeps at most 254 characters. *)
Definition snprintf255 (s : string) : string := String.substring 0 254 s.

Section Handler.
Context {World : Type} {K : Kernel World} {L : Libs World}.

Definition janus_nosip_recorder_close (s : janus_nosip_session)
    (stop_audio stop_audio_peer stop_video stop_video_peer : bool) (w : World)
  : janus_nosip_session * World :=
  let '(s, w) :=
    match arc s with
    | Some rc => if stop_audio then (s <| arc := None |>, janus_recorder_close rc w) else (s, w)
    | None => (s, w)
    end in
  let '(s, w) :=
    match arc_peer s with
    | Some rc =>
        if stop_audio_peer then (s <| arc_peer := None |>, janus_recorder_close rc w) else (s, w)
    | None => (s, w)
    end in
  let '(s, w) :=
    match vrc s with
    | Some rc => if stop_video then (s <| vrc := None |>, janus_recorder_close rc w) else (s, w)
    | None => (s, w)
    end in
  match vrc_peer s with
  | Some rc =>
      if stop_video_peer then (s <| vrc_peer := None |>, janus_recorder_close rc w) else (s, w)
  | None => (s, w)
  end.

(** Helper method to send an RTCP PLI to the peer *)
Definition janus_nosip_rtcp_pli_send (s : janus_nosip_session) (w : World) : World :=
  if negb (destroyed s =? 0) then w
  else if negb (has_video (media s)) || (video_rtcp_fd (media s) =? -1) then w
  else
    (* Generate a PLI, fix SSRCs as the Janus core does *)
    let rtcp_buf :=
      janus_rtcp_fix_ssrc janus_rtcp_pli true
        (video_ssrc (media s)) (video_ssrc_peer (media s)) in
    (* Is SRTP involved? *)
    if has_srtp_local (media s) then
      let '(res, sbuf, w) := srtp_protect_rtcp (video_srtp_out (media s)) rtcp_buf w in
      if negb (res =? srtp_err_status_ok) then w
      else snd (send (video_rtcp_fd (media s)) sbuf w)
    else snd (send (video_rtcp_fd (media s)) rtcp_buf w).

(** The SRTP profile named by the [srtp_profile] element of a [generate]
    request; [None] is "unsupported SRTP profile". *)
Definition requested_srtp_profile (profile : option string) : option janus_srtp_profile :=
  match profile with
  | None => Some JANUS_SRTP_AES128_CM_SHA1_80
  | Some profile =>
      if strcmp profile "AES_CM_128_HMAC_SHA1_32" =? 0 then Some JANUS_SRTP_AES128_CM_SHA1_32
      else if strcmp profile "AES_CM_128_HMAC_SHA1_80" =? 0 then Some JANUS_SRTP_AES128_CM_SHA1_80
      else if HAVE_SRTP_AESGCM && (strcmp profile "AEAD_AES_128_GCM" =? 0)
           then Some JANUS_SRTP_AEAD_AES_128_GCM
      else if HAVE_SRTP_AESGCM && (strcmp profile "AEAD_AES_256_GCM" =? 0)
           then Some JANUS_SRTP_AEAD_AES_256_GCM
      else None
  end.

(** "If this is an answer, start the media": the end of the [generate] and
    [process] branch. *)
Definition start_media (sdp_update offer : bool) (s : janus_nosip_session) (w : World)
  : janus_nosip_session * World :=
  if negb sdp_update && negb offer then
    (* Start the media *)
    let '(started, w) := g_thread_try_new w in
    if started
    then (s <| media := media s <| ready := true |> |> <| relayer_thread := true |>, w)
    else (s <| media := media s <| ready := false |> |> <| relayer_thread := false |>, w)
  else (s, w).

(** The [generate] half of the shared branch, from "Allocate RTP ports and
    merge them with the anonymized SDP" on. *)
Definition handle_generate (fuel : nat) (msg : janus_nosip_message) (msg_sdp : string)
    (parsed_sdp : janus_sdp) (offer sdp_update : bool) (st : handler_state World)
  : option (outcome * handler_state World) :=
  let s := hs_session st in
  let m := media s in
  let m :=
    if not_null (strstr msg_sdp "m=audio") && is_null (strstr msg_sdp "m=audio 0")
    then m <| has_audio := true |>   (* FIXME Maybe we need a better way to signal this *)
    else m in
  let m :=
    if not_null (strstr msg_sdp "m=video") && is_null (strstr msg_sdp "m=video 0")
    then m <| has_video := true |>   (* FIXME Maybe we need a better way to signal this *)
    else m in
  match janus_nosip_allocate_local_ports fuel (hs_globals st) m sdp_update (hs_world st) with
  | None => None
  | Some (lp, w) =>
      let m := lp_media lp in
      let g := lp_globals lp in
      let calls := hs_calls st ++ lp_calls lp in
      if lp_ret lp <? 0 then
        Some (Fail JANUS_NOSIP_ERROR_IO_ERROR "Could not allocate RTP/RTCP ports",
              Build_handler_state (s <| media := m |>) g w (hs_upcalls st) calls)
      else
        let '(rendered, parsed_sdp, m, w) := janus_nosip_sdp_manipulate g m parsed_sdp false w in
        match rendered with
        | None =>
            Some (Fail JANUS_NOSIP_ERROR_IO_ERROR "Could not allocate RTP/RTCP ports",
                  Build_handler_state (s <| media := m |>) g w (hs_upcalls st) calls)
        | Some rendered =>
            (* Take note of the SDP (may be useful for UPDATEs or re-INVITEs) *)
            let s := s <| media := m |> <| sdp := Some parsed_sdp |> <| hangingup := 0 |> in
            let type := json_string (if offer then "offer" else "answer") in
            (* Also notify event handlers *)
            let upcalls :=
              if negb sdp_update && notify_events g && events_is_enabled w
              then hs_upcalls st ++
                   [notify_event (json_object [("event", json_string "generated");
                                               ("type", type);
                                               ("sdp", json_string rendered)])]
              else hs_upcalls st in
            (* If the user negotiated simulcasting, just stick with the base substream *)
            let msg_simulcast := json_object_get (jsep msg) "simulcast" in
            let s :=
              if not_null msg_simulcast && (0 <? json_array_size msg_simulcast) then
                let sobj := json_array_get msg_simulcast 0 in
                let ssrcs := json_object_get sobj "ssrcs" in
                (* the first assignment, from the array, is overwritten by the second *)
                s <| media := media s <| simulcast_ssrc :=
                                 uint32 (json_integer_value (json_object_get ssrcs "ssrc-0")) |> |>
              else s in
            (* Send the barebone SDP back *)
            let result :=
              json_object ([("event", json_string "generated");
                            ("type", type);
                            ("sdp", json_string rendered)] ++
                           (if sdp_update then [("update", json_true)] else [])) in
            let '(s, w) := start_media sdp_update offer s w in
            Some (Done (Some result) None, Build_handler_state s g w upcalls calls)
        end
  end.

(** The [process] half: "We got a barebone offer or answer from our peer:
    process it accordingly". *)
Definition handle_process (msg_sdp_type msg_sdp : string)
    (parsed_sdp : janus_sdp) (offer sdp_update : bool) (st : handler_state World)
  : outcome * handler_state World :=
  let s := hs_session st in
  let g := hs_globals st in
  let '(m, changed, w, tr) :=
    janus_nosip_sdp_process (media s) parsed_sdp (negb offer) sdp_update false (hs_world st) in
  let s := s <| media := m |> in
  let calls := hs_calls st ++ tr in
  (* Check if offer has neither audio nor video, fail *)
  if negb (has_audio m) && negb (has_video m) then
    (Fail JANUS_NOSIP_ERROR_INVALID_SDP "No audio and no video being negotiated",
     Build_handler_state s g w (hs_upcalls st) calls)
  (* Also fail if there's no remote IP address that can be used for RTP *)
  else if is_null (remote_audio_ip m) && is_null (remote_video_ip m) then
    (Fail JANUS_NOSIP_ERROR_INVALID_SDP "No remote IP addresses",
     Build_handler_state s g w (hs_upcalls st) calls)
  else if require_srtp m && negb (has_srtp_remote m) then
    (Fail JANUS_NOSIP_ERROR_TOO_STRICT
       "Can't process request: SDES-SRTP required, but caller didn't offer it",
     Build_handler_state s g w (hs_upcalls st) calls)
  else
    (* Take note of the SDP (may be useful for UPDATEs or re-INVITEs) *)
    let s := s <| sdp := Some parsed_sdp |> in
    (* Also notify event handlers *)
    let upcalls :=
      if negb sdp_update && notify_events g && events_is_enabled w
      then hs_upcalls st ++
           [notify_event (json_object [("event", json_string "processed");
                                       ("type", json_string (if offer then "offer" else "answer"));
                                       ("sdp", json_string msg_sdp)])]
      else hs_upcalls st in
    (* Send SDP to the browser *)
    let result :=
      json_object ([("event", json_string "processed")] ++
                   (if has_srtp_remote m
                    then [("srtp", json_string (if require_srtp m then "sdes_mandatory"
                                                else "sdes_optional"))]
                    else []) ++
                   (if sdp_update then [("update", json_true)] else [])) in
    let localjsep :=
      json_object [("type", json_string msg_sdp_type); ("sdp", json_string msg_sdp)] in
    let '(s, w) := start_media sdp_update offer s w in
    (Done (Some result) (Some localjsep), Build_handler_state s g w upcalls calls).

(** What the shared branch reads from the request before it touches the
    session: the type and the text of the description, whether this is an
    update, and whether the description is an offer. *)
Record sdp_request : Type := {
  msg_sdp_type : string;
  msg_sdp : string;
  sdp_update : bool;
  offer : bool
}.

(** The shared branch up to the check for end-to-end encryption.  [generate]
    reads the description from the JSEP, [process] from the request. *)
Definition read_sdp_request (generate : bool) (msg : janus_nosip_message) (is_ready : bool)
  : outcome + sdp_request :=
  let root := message msg in
  let '(error_code, error_cause) :=
    JANUS_VALIDATE_JSON_OBJECT root
      (if generate then generate_parameters else process_parameters)
      JANUS_NOSIP_ERROR_MISSING_ELEMENT JANUS_NOSIP_ERROR_INVALID_ELEMENT in
  if negb (error_code =? 0) then inl (Fail error_code error_cause)
  else
    (* Any SDP to handle? if not, something's wrong *)
    let from := if generate then jsep msg else root in
    let msg_sdp_type := json_string_value (json_object_get from "type") in
    let msg_sdp := json_string_value (json_object_get from "sdp") in
    let sdp_update := json_is_true (json_object_get from "update") in
    let sdp_update := if negb generate && is_ready then true else sdp_update in
    match msg_sdp with
    | None => inl (Fail JANUS_NOSIP_ERROR_MISSING_SDP "Missing SDP")
    | Some msg_sdp =>
        match msg_sdp_type with
        | None => inl (Fail JANUS_NOSIP_ERROR_MISSING_SDP "Missing or invalid SDP type")
        | Some msg_sdp_type =>
            if negb (strcasecmp msg_sdp_type "offer" =? 0) &&
               negb (strcasecmp msg_sdp_type "answer" =? 0) then
              inl (Fail JANUS_NOSIP_ERROR_MISSING_SDP "Missing or invalid SDP type")
            else if not_null (strstr msg_sdp "m=application") then
              inl (Fail JANUS_NOSIP_ERROR_MISSING_SDP
                     "The NoSIP plugin does not support DataChannels")
            else if json_is_true (json_object_get (jsep msg) "e2ee") then
              (* Media is encrypted, but legacy endpoints will need unencrypted media frames *)
              inl (Fail JANUS_NOSIP_ERROR_INVALID_ELEMENT
                     "Media encryption unsupported by this plugin")
            else
              inr {| msg_sdp_type := msg_sdp_type; msg_sdp := msg_sdp;
                     sdp_update := sdp_update;
                     offer := strcasecmp msg_sdp_type "offer" =? 0 |}
        end
    end.

(** "SDES-SRTP is disabled by default, let's see if we need to enable it":
    [do_srtp] and [require_srtp] as the [srtp] element of the request sets
    them. *)
Definition read_srtp_request (root : option json_t) : outcome + bool * bool :=
  match json_object_get root "srtp" with
  | None => inr (false, false)
  | Some srtp =>
      match json_string_value (Some srtp) with
      | Some srtp_text =>
          if strcasecmp srtp_text "sdes_optional" =? 0 then
            (* Negotiate SDES, but make it optional *)
            inr (true, false)
          else if strcasecmp srtp_text "sdes_mandatory" =? 0 then
            (* Negotiate SDES, and require it *)
            inr (true, true)
          else
            inl (Fail JANUS_NOSIP_ERROR_INVALID_ELEMENT
                   "Invalid element (srtp can only be sdes_optional or sdes_mandatory)")
      | None =>
          (* not reached: the validation has made sure it is a string *)
          inl (Fail JANUS_NOSIP_ERROR_INVALID_ELEMENT
                 "Invalid element (srtp can only be sdes_optional or sdes_mandatory)")
      end
  end.

(** From "Clean up SRTP stuff from before first" to the choice of the SRTP
    profile: what the request's [srtp] option does to the session's media.
    [inl]: the request is refused, with the media as it is at that point. *)
Definition apply_srtp_request (generate : bool) (rq : sdp_request) (do_srtp require : bool)
    (root : option json_t) (m : janus_nosip_media) : outcome * janus_nosip_media + janus_nosip_media :=
  (* Clean up SRTP stuff from before first, in case it's still needed *)
  let m := if offer rq && negb (sdp_update rq) then janus_nosip_srtp_cleanup m else m in
  let m := m <| require_srtp := require |> in
  if generate then
    let do_srtp := if negb (offer rq) then do_srtp || has_srtp_remote m else do_srtp in
    (* Make sure the request is consistent with the state (original offer) *)
    if negb (offer rq) && require_srtp m && negb (has_srtp_remote m) then
      inl (Fail JANUS_NOSIP_ERROR_TOO_STRICT
             "Can't generate answer: SDES-SRTP required, but caller didn't offer it", m)
    else
      let m := m <| has_srtp_local := do_srtp |> in
      if do_srtp then
        (* Any SRTP profile different from the default? *)
        match requested_srtp_profile
                (json_string_value (json_object_get root "srtp_profile")) with
        | None => inl (Fail JANUS_NOSIP_ERROR_INVALID_ELEMENT
                         "Invalid element (unsupported SRTP profile)", m)
        | Some profile => inr (m <| srtp_profile := profile |>)
        end
      else inr m
  else inr m.

Definition with_media (st : handler_state World) (m : janus_nosip_media) : handler_state World :=
  Build_handler_state (hs_session st <| media := m |>) (hs_globals st) (hs_world st)
    (hs_upcalls st) (hs_calls st).

(** The branch shared by [generate] and [process]. *)
Definition handle_generate_or_process (fuel : nat) (msg : janus_nosip_message)
    (request_text : string) (st : handler_state World)
  : option (outcome * handler_state World) :=
  let root := message msg in
  let generate := strcasecmp request_text "generate" =? 0 in
  match read_sdp_request generate msg (ready (media (hs_session st))) with
  | inl failure => Some (failure, st)
  | inr rq =>
      match read_srtp_request root with
      | inl failure => Some (failure, st)
      | inr (do_srtp, require) =>
          match apply_srtp_request generate rq do_srtp require root (media (hs_session st)) with
          | inl (failure, m) => Some (failure, with_media st m)
          | inr m =>
              (* Get video-orientation and audio-level extension ids from SDP we got *)
              let m :=
                m <| video_orientation_extension_id :=
                       janus_rtp_header_extension_get_id (msg_sdp rq)
                         JANUS_RTP_EXTMAP_VIDEO_ORIENTATION |>
                  <| audio_level_extension_id :=
                       janus_rtp_header_extension_get_id (msg_sdp rq)
                         JANUS_RTP_EXTMAP_AUDIO_LEVEL |> in
              let st := with_media st m in
              (* Parse the SDP we got, manipulate some things, and generate a new one *)
              match janus_sdp_parse (msg_sdp rq) with
              | inr sdperror =>
                  Some (Fail JANUS_NOSIP_ERROR_MISSING_SDP
                          ("Error parsing SDP: " ++ sdperror)%string, st)
              | inl parsed_sdp =>
                  if generate
                  then handle_generate fuel msg (msg_sdp rq) parsed_sdp
                         (offer rq) (sdp_update rq) st
                  else Some (handle_process (msg_sdp_type rq) (msg_sdp rq) parsed_sdp
                               (offer rq) (sdp_update rq) st)
              end
          end
      end
  end.

End Handler.

Section Requests.
Context {World : Type} {K : Kernel World} {L : Libs World}.

(** [janus_recorder_create] on the file name the handler builds: from the
    [filename] element of the request when there is one, from the session
    and the time otherwise. *)
Definition open_recorder (s : janus_nosip_session) (recording_base : option string)
    (codec_name : option string) (given generated : string) (w : World)
  : option janus_recorder * World :=
  match recording_base with
  | Some base =>
      (* Use the filename and path we have been provided *)
      janus_recorder_create codec_name (snprintf255 (base ++ given)%string) w
  | None =>
      (* Build a filename *)
      janus_recorder_create codec_name (snprintf255 (nosip_filename (handle s) generated w)) w
  end.

(** [janus_recorder_opusred(rc, session->media.opusred_pt)] *)
Definition janus_recorder_opusred (rc : janus_recorder) (pt : Z) : janus_recorder :=
  {| codec := codec rc; filename := filename rc; opusred_pt_rec := pt |}.

(** "Start recording something" *)
Definition recording_start (s : janus_nosip_session) (recording_base : option string)
    (record_audio record_video record_peer_audio record_peer_video : bool) (w : World)
  : janus_nosip_session * World * list upcall :=
  let '(s, w) :=
    if record_peer_audio then
      (* FIXME This only works if offer/answer happened *)
      let '(rc, w) := open_recorder s recording_base (audio_pt_name (media s))
                        "-peer-audio" "-peer-audio" w in
      match rc with
      | None =>
          (* FIXME We should notify the fact the recorder could not be created *)
          (s, w)
      | Some rc =>
          (* If RED is in use, take note of it *)
          let rc := if 0 <? opusred_pt (media s)
                    then janus_recorder_opusred rc (opusred_pt (media s)) else rc in
          (s <| arc_peer := Some rc |>, w)
      end
    else (s, w) in
  let '(s, w) :=
    if record_peer_video then
      (* FIXME This only works if offer/answer happened *)
      let '(rc, w) := open_recorder s recording_base (video_pt_name (media s))
                        "-peer-video" "-peer-video" w in
      (* TODO We should send a FIR/PLI to this peer... *)
      match rc with
      | None =>
          (* FIXME We should notify the fact the recorder could not be created *)
          (s, w)
      | Some rc => (s <| vrc_peer := Some rc |>, w)
      end
    else (s, w) in
  let '(s, w) :=
    if record_audio then
      (* FIXME This only works if offer/answer happened *)
      let '(rc, w) := open_recorder s recording_base (audio_pt_name (media s))
                        "-user-audio" "-own-audio" w in
      match rc with
      | None =>
          (* FIXME We should notify the fact the recorder could not be created *)
          (s, w)
      | Some rc =>
          (* If RED is in use, take note of it *)
          let rc := if 0 <? opusred_pt (media s)
                    then janus_recorder_opusred rc (opusred_pt (media s)) else rc in
          (s <| arc := Some rc |>, w)
      end
    else (s, w) in
  if record_video then
    (* FIXME This only works if offer/answer happened *)
    let '(rc, w) := open_recorder s recording_base (video_pt_name (media s))
                      "-user-video" "-own-video" w in
    let s :=
      match rc with
      | None =>
          (* FIXME We should notify the fact the recorder could not be created *)
          s
      | Some rc => s <| vrc := Some rc |>
      end in
    (* Recording video, sending a PLI to kickstart it *)
    (s, w, [send_pli])
  else (s, w, []).

(** The [recording] branch: start or stop recording. *)
Definition handle_recording (msg : janus_nosip_message) (st : handler_state World)
  : outcome * handler_state World :=
  let root := message msg in
  let '(error_code, error_cause) :=
    JANUS_VALIDATE_JSON_OBJECT root recording_parameters
      JANUS_NOSIP_ERROR_MISSING_ELEMENT JANUS_NOSIP_ERROR_INVALID_ELEMENT in
  if negb (error_code =? 0) then (Fail error_code error_cause, st)
  else
    match json_string_value (json_object_get root "action") with
    | None =>
        (* not reached: the validation has made sure it is a string *)
        (Fail JANUS_NOSIP_ERROR_INVALID_ELEMENT "Invalid action (should be start|stop)", st)
    | Some action_text =>
        if negb (strcasecmp action_text "start" =? 0) &&
           negb (strcasecmp action_text "stop" =? 0) then
          (Fail JANUS_NOSIP_ERROR_INVALID_ELEMENT "Invalid action (should be start|stop)", st)
        else
          (* No media is recorded by default *)
          let record_audio := json_is_true (json_object_get root "audio") in
          let record_video := json_is_true (json_object_get root "video") in
          let record_peer_audio := json_is_true (json_object_get root "peer_audio") in
          let record_peer_video := json_is_true (json_object_get root "peer_video") in
          if negb record_audio && negb record_video &&
             negb record_peer_audio && negb record_peer_video then
            (Fail JANUS_NOSIP_ERROR_RECORDING_ERROR
               "Invalid request (at least one of audio, video, peer_audio and peer_video should be true)",
             st)
          else
            let recording_base := json_string_value (json_object_get root "filename") in
            let '(s, w, upcalls) :=
              if strcasecmp action_text "start" =? 0 then
                recording_start (hs_session st) recording_base
                  record_audio record_video record_peer_audio record_peer_video (hs_world st)
              else
                (* Stop recording something: notice that this never returns an error,
                   even when we were not recording anything *)
                (janus_nosip_recorder_close (hs_session st)
                   record_audio record_peer_audio record_video record_peer_video (hs_world st),
                 []) in
            (* Notify the result *)
            (Done (Some (json_object [("event", json_string "recordingupdated")])) None,
             Build_handler_state s (hs_globals st) w (hs_upcalls st ++ upcalls) (hs_calls st))
    end.

(** The [keyframe] branch. *)
Definition handle_keyframe (msg : janus_nosip_message) (st : handler_state World)
  : outcome * handler_state World :=
  let root := message msg in
  let '(error_code, error_cause) :=
    JANUS_VALIDATE_JSON_OBJECT root keyframe_parameters
      JANUS_NOSIP_ERROR_MISSING_ELEMENT JANUS_NOSIP_ERROR_INVALID_ELEMENT in
  if negb (error_code =? 0) then (Fail error_code error_cause, st)
  else
    let user := json_is_true (json_object_get root "user") in
    let peer := json_is_true (json_object_get root "peer") in
    (* Send a PLI to the WebRTC user *)
    let upcalls := if user then [send_pli] else [] in
    (* Send a PLI to the SIP peer (but only if they negotiated it) *)
    let w := if peer && video_pli_supported (media (hs_session st))
             then janus_nosip_rtcp_pli_send (hs_session st) (hs_world st)
             else hs_world st in
    (Done (Some (json_object [("event", json_string "keyframesent")])) None,
     Build_handler_state (hs_session st) (hs_globals st) w
       (hs_upcalls st ++ upcalls) (hs_calls st)).

(** "Handle request": the [if]/[else if] chain on the request name. *)
Definition handle_request (fuel : nat) (msg : janus_nosip_message) (st : handler_state World)
  : option (outcome * handler_state World) :=
  let root := message msg in
  match root with
  | None => Some (Fail JANUS_NOSIP_ERROR_NO_MESSAGE "No message??", st)
  | Some _ =>
      if negb (json_is_object root) then
        Some (Fail JANUS_NOSIP_ERROR_INVALID_JSON "JSON error: not an object", st)
      else
        let '(error_code, error_cause) :=
          JANUS_VALIDATE_JSON_OBJECT root request_parameters
            JANUS_NOSIP_ERROR_MISSING_ELEMENT JANUS_NOSIP_ERROR_INVALID_ELEMENT in
        if negb (error_code =? 0) then Some (Fail error_code error_cause, st)
        else
          match json_string_value (json_object_get root "request") with
          | None =>
              (* not reached: the validation has made sure it is a string *)
              Some (Fail JANUS_NOSIP_ERROR_INVALID_REQUEST "Unknown request", st)
          | Some request_text =>
              if (strcasecmp request_text "generate" =? 0) ||
                 (strcasecmp request_text "process" =? 0) then
                handle_generate_or_process fuel msg request_text st
              else if strcasecmp request_text "hangup" =? 0 then
                (* Get rid of an ongoing session *)
                Some (Done (Some (json_object [("event", json_string "hangingup")])) None,
                      Build_handler_state (hs_session st) (hs_globals st) (hs_world st)
                        (hs_upcalls st ++ [close_pc]) (hs_calls st))
              else if strcasecmp request_text "recording" =? 0 then
                Some (handle_recording msg st)
              else if strcasecmp request_text "keyframe" =? 0 then
                Some (handle_keyframe msg st)
              else
                Some (Fail JANUS_NOSIP_ERROR_INVALID_REQUEST
                        ("Unknown request (" ++ request_text ++ ")")%string, st)
          end
  end.

(** The event pushed for a request: "Prepare JSON event" and, at the
    [error] label, "Prepare JSON error event". *)
Definition response (o : outcome) : upcall :=
  match o with
  | Done result localjsep =>
      push_event
        (json_object ([("nosip", json_string "event")] ++
                      match result with Some r => [("result", r)] | None => [] end))
        localjsep
  | Fail error_code error_cause =>
      push_event
        (json_object [("nosip", json_string "event");
                      ("error_code", json_integer error_code);
                      ("error", json_string error_cause)])
        None
  end.

(** One turn of the loop of [janus_nosip_handler], for a message whose
    session was found and is not destroyed: the session, the globals and the
    world it leaves, and what it asked of the core, the response last.
    [None]: the port allocator was still running when [fuel] ran out. *)
Definition janus_nosip_handler (fuel : nat) (msg : janus_nosip_message)
    (s : janus_nosip_session) (g : Globals) (w : World) : option (handler_state World) :=
  match handle_request fuel msg (Build_handler_state s g w [] []) with
  | None => None
  | Some (o, st) =>
      Some (Build_handler_state (hs_session st) (hs_globals st) (hs_world st)
              (hs_upcalls st ++ [response o]) (hs_calls st))
  end.

(** The response a handled request ends with. *)
Definition pushed (st : handler_state World) : option json_t :=
  match last (hs_upcalls st) close_pc with
  | push_event event _ => Some event
  | _ => None
  end.

(** The error code of a response, if it is an error. *)
Definition error_code_of (event : option json_t) : option Z :=
  match json_object_get event "error_code" with
  | Some (json_integer code) => Some code
  | _ => None
  end.

(** The event name of a successful response. *)
Definition result_event_of (event : option json_t) : option string :=
  json_string_value (json_object_get (json_object_get event "result") "event").

End Requests.

(** ** Outbound RTP: [janus_nosip_incoming_rtp] *)

(** The core's handle and the packet it delivers (plugin.h). *)
Record janus_plugin_session : Type := {
  stopped : Z;
  plugin_handle : option janus_nosip_session
}.

Record janus_plugin_rtp : Type := {
  pkt_video : bool;
  pkt_buffer : list Z;     (* bytes *)
  pkt_length : Z           (* uint16_t *)
}.

(** Modelled from the spec: [rtp_header] is declared in rtp.h, which is not
    among the sources.  The SSRC is the third 32-bit word of the RTP header,
    in network byte order; [ntohl(header->ssrc)] is its value. *)
Definition ntohl_ssrc (buf : list Z) : Z :=
  Z.lor (Z.shiftl (nth 8 buf 0) 24)
    (Z.lor (Z.shiftl (nth 9 buf 0) 16)
       (Z.lor (Z.shiftl (nth 10 buf 0) 8) (nth 11 buf 0))).

(** A datagram handed to [send]. *)
Record sent_packet : Type := {
  to_fd : Z;
  payload : list Z
}.

Section Outbound.
Context {World : Type} {L : Libs World}.

(** The session the handle points to after the call, the world and the
    datagrams sent. *)
Definition janus_nosip_incoming_rtp (g : Globals) (handle : option janus_plugin_session)
    (packet : janus_plugin_rtp) (w : World)
  : option janus_nosip_session * World * list sent_packet :=
  match handle with
  | None => (None, w, [])
  | Some h =>
      if negb (stopped h =? 0) || negb (stopping g =? 0) || (initialized g =? 0) then
        (plugin_handle h, w, [])
      else if gateway g then
        (* Honour the audio/video active flags *)
        match plugin_handle h with
        | None => (None, w, [])
        | Some session =>
            if negb (destroyed session =? 0) then (Some session, w, [])
            else
              let video := pkt_video packet in
              let buf := pkt_buffer packet in
              let len := pkt_length packet in
              let m := media session in
              (* Forward to our NoSIP peer *)
              if (video && negb (video_send m)) || (negb video && negb (audio_send m)) then
                (* Dropping packet, peer doesn't want to receive it *)
                (Some session, w, [])
              else if video && negb (simulcast_ssrc m =? 0) &&
                      negb (ntohl_ssrc buf =? simulcast_ssrc m) then
                (* The user is simulcasting: drop everything except the base layer *)
                (Some session, w, [])
              else
                let m :=
                  if (video && (video_ssrc m =? 0)) || (negb video && (audio_ssrc m =? 0)) then
                    if video then m <| video_ssrc := ntohl_ssrc buf |>
                    else m <| audio_ssrc := ntohl_ssrc buf |>
                  else m in
                let session := session <| media := m |> in
                if (video && has_video m && negb (video_rtp_fd m =? -1)) ||
                   (negb video && has_audio m && negb (audio_rtp_fd m =? -1)) then
                  (* Save the frame if we're recording *)
                  let w := janus_recorder_save_frame
                             (if video then vrc session else arc session)
                             (firstn (Z.to_nat len) buf) w in
                  let fd := if video then video_rtp_fd m else audio_rtp_fd m in
                  (* Is SRTP involved? *)
                  if has_srtp_local m then
                    let '(res, sbuf, w) :=
                      srtp_protect (if video then video_srtp_out m else audio_srtp_out m)
                        (firstn (Z.to_nat len) buf) w in
                    if negb (res =? srtp_err_status_ok) then (Some session, w, [])
                    else
                      (* Forward the frame to the peer *)
                      let '(_, w) := send fd sbuf w in
                      (Some session, w, [{| to_fd := fd; payload := sbuf |}])
                  else
                    (* Forward the frame to the peer *)
                    let '(_, w) := send fd (firstn (Z.to_nat len) buf) w in
                    (Some session, w,
                     [{| to_fd := fd; payload := firstn (Z.to_nat len) buf |}])
                else (Some session, w, [])
        end
      else (plugin_handle h, w, [])
  end.

End Outbound.

(** ** A session as [janus_nosip_create_session] makes it *)

Definition fresh_policy : srtp_policy_t :=
  {| ssrc_type := ssrc_any_inbound; rtp := policy_unset; rtcp := policy_unset; key := None |}.

Definition fresh_media : janus_nosip_media :=
  {| remote_audio_ip := None; remote_video_ip := None;
     ready := false;
     require_srtp := false; has_srtp_local := false; has_srtp_remote := false;
     srtp_profile := JANUS_SRTP_NONE;
     has_audio := false;
     audio_rtp_fd := -1; audio_rtcp_fd := -1;
     local_audio_rtp_port := 0; remote_audio_rtp_port := 0;
     local_audio_rtcp_port := 0; remote_audio_rtcp_port := 0;
     audio_ssrc := 0; audio_ssrc_peer := 0;
     audio_pt := -1; opusred_pt := -1;
     audio_pt_name := None;
     audio_srtp_tag := 0;
     audio_srtp_in := None; audio_srtp_out := None;
     audio_remote_policy := fresh_policy; audio_local_policy := fresh_policy;
     audio_srtp_local_profile := None; audio_srtp_local_crypto := None;
     audio_send := true;
     has_video := false;
     video_rtp_fd := -1; video_rtcp_fd := -1;
     local_video_rtp_port := 0; remote_video_rtp_port := 0;
     local_video_rtcp_port := 0; remote_video_rtcp_port := 0;
     video_ssrc := 0; video_ssrc_peer := 0;
     simulcast_ssrc := 0;
     video_pt := -1;
     video_pt_name := None;
     video_srtp_tag := 0;
     video_srtp_in := None; video_srtp_out := None;
     video_remote_policy := fresh_policy; video_local_policy := fresh_policy;
     video_srtp_local_profile := None; video_srtp_local_crypto := None;
     video_send := true;
     video_pli_supported := false;
     pipefd := (-1, -1);
     updated := false;
     video_orientation_extension_id := -1;
     audio_level_extension_id := -1 |}.

Definition janus_nosip_create_session (handle : Z) : janus_nosip_session :=
  {| handle := handle; sdp_version := 0; media := fresh_media; sdp := None;
     arc := None; arc_peer := None; vrc := None; vrc_peer := None;
     relayer_thread := false; hangingup := 0; destroyed := 0 |}.

(** ** A small set of libraries to run the plugin on

    [sim_libs table] parses the descriptions listed in [table] and rejects
    every other text; it reads a crypto attribute only in the form
    ["<digit> <profile> inline:<key>"] with a one-digit tag; Base64 is the
    identity on character codes; SRTP contexts are always created; a recorder
    can be opened as long as the world has a descriptor left. *)
Fixpoint sim_parse (table : list (string * janus_sdp)) (text : string) : janus_sdp + string :=
  match table with
  | [] => inr "Invalid SDP"
  | (t, parsed) :: rest => if String.eqb t text then inl parsed else sim_parse rest text
  end.

Definition sim_sscanf_crypto (value : string) : option (Z * string * string) :=
  match value with
  | String d (String " " rest) =>
      let tag := Z.of_nat (nat_of_ascii d) - 48 in
      match String.index 0 " inline:" rest with
      | Some i =>
          if (0 <=? tag) && (tag <=? 9) then
            Some (tag, String.substring 0 i rest,
                  String.substring (i + 8) (String.length rest - (i + 8)) rest)
          else None
      | None => None
      end
  | _ => None
  end.

Definition sim_libs (table : list (string * janus_sdp)) : Libs SimWorld := {|
  HAVE_SRTP_AESGCM := true;
  janus_sdp_parse := sim_parse table;
  janus_sdp_write := fun _ => Some "v=0";
  janus_sdp_get_opusred_pt := fun _ _ => -1;
  janus_sdp_get_codec_name := fun _ _ pt => if pt =? 111 then Some "opus" else None;
  janus_rtp_header_extension_get_id := fun _ _ => -1;
  sscanf_crypto := sim_sscanf_crypto;
  g_base64_encode := fun bytes => string_of_list_ascii (map (fun b => ascii_of_nat (Z.to_nat b)) bytes);
  g_base64_decode := fun text => map char_code (list_ascii_of_string text);
  srtp_crypto_get_random := fun n w => (repeat 65 (Z.to_nat n), w);
  srtp_create := fun _ w => (0, w);
  srtp_protect := fun _ buf w => (0, buf, w);
  send := fun _ buf w => (Z.of_nat (List.length buf), w);
  janus_recorder_create := fun codec_name file w =>
    match sim_fds_left w with
    | O => (None, w)
    | S n => (Some {| codec := codec_name; filename := file; opusred_pt_rec := -1 |},
              {| sim_busy := sim_busy w; sim_fds_left := n; sim_next_fd := sim_next_fd w + 1 |})
    end;
  janus_recorder_save_frame := fun _ _ w => w;
  janus_recorder_close := fun _ w =>
    {| sim_busy := sim_busy w; sim_fds_left := S (sim_fds_left w); sim_next_fd := sim_next_fd w |};
  nosip_filename := fun _ suffix _ => ("nosip-0x1-0" ++ suffix)%string;
  g_thread_try_new := fun w => (true, w);
  events_is_enabled := fun _ => false;
  janus_rtcp_pli := [129; 206; 0; 2; 0; 0; 0; 0; 0; 0; 0; 0];
  janus_rtcp_fix_ssrc := fun buf _ _ _ => buf;
  srtp_protect_rtcp := fun _ buf w => (0, buf, w)
|}.

(** An audio section and a video section, as a peer would describe them. *)
Definition audio_mline (port : Z) (proto : string) (attributes : list janus_sdp_attribute)
  : janus_sdp_mline :=
  {| m_index := 0; m_type := JANUS_SDP_AUDIO; m_port := port; m_proto := Some proto;
     m_c_addr := None; m_direction := JANUS_SDP_SENDRECV; m_ptypes := [111];
     m_attributes := attributes |}.

Definition video_mline (port : Z) (proto : string) (attributes : list janus_sdp_attribute)
  : janus_sdp_mline :=
  {| m_index := 1; m_type := JANUS_SDP_VIDEO; m_port := port; m_proto := Some proto;
     m_c_addr := None; m_direction := JANUS_SDP_SENDRECV; m_ptypes := [96];
     m_attributes := attributes |}.

Definition crypto_attribute (value : string) : janus_sdp_attribute :=
  {| a_name := Some "crypto"; a_value := Some value |}.

(** ** What [janus_nosip_init] and the allocator maintain *)

(** The range and the cursor are 16-bit values, the cursor is one of the
    candidates [min, min+2, ...] of the range. *)
Definition range_ok (g : Globals) : Prop :=
  0 <= rtp_range_min g /\ rtp_range_min g <= rtp_range_max g /\ rtp_range_max g <= 65535 /\
  rtp_range_min g <= rtp_range_slider g /\
  (rtp_range_slider g - rtp_range_min g) mod 2 = 0 /\
  (rtp_range_slider g = rtp_range_min g \/ rtp_range_slider g < rtp_range_max g).

(** The loop invariant of the allocator, for a call that started at
    [start]. *)
Definition cursor_inv (g : Globals) (start : Z) (c : port_cursor) : Prop :=
  rtp_range_min g <= rtp_port_next c /\
  (rtp_port_next c - rtp_range_min g) mod 2 = 0 /\
  (rtp_port_next c = rtp_range_min g \/ rtp_port_next c < rtp_range_max g) /\
  (if rtp_port_wrap c then rtp_port_next c <= start else start <= rtp_port_next c).

(** The ports the loop may still try from cursor [c]. *)
Definition ahead (start : Z) (c : port_cursor) (t : Z) : Prop :=
  if rtp_port_wrap c then rtp_port_next c <= t < start
  else rtp_port_next c <= t \/ t < start.

(** An upper bound on the iterations left from cursor [c]. *)
Definition iterations_left (g : Globals) (start : Z) (c : port_cursor) : Z :=
  if rtp_port_wrap c then start - rtp_port_next c
  else (rtp_range_max g - rtp_port_next c) + (start - rtp_range_min g) + 3.

(** Iterations that are always enough for a call. *)
Definition enough_fuel (g : Globals) : nat :=
  Z.to_nat (rtp_range_max g + 4).



(** A world in which nothing is bound yet and descriptors start at 7. *)
Definition free_world (busy : list Z) (fds_left : nat) : SimWorld :=
  {| sim_busy := busy; sim_fds_left := fds_left; sim_next_fd := 7 |}.

Definition fresh_cursor (g : Globals) : port_cursor :=
  {| rtp_port_next := rtp_range_slider g; rtp_port_wrap := false; rtp_fd := -1; rtcp_fd := -1 |}.

(** The profile table of the specification: the RTP and the RTCP policy of
    each profile. *)
Definition profile_policies (p : janus_srtp_profile) (pol : srtp_policy_t) : Prop :=
  match p with
  | JANUS_SRTP_AES128_CM_SHA1_32 =>
      rtp pol = aes_cm_128_hmac_sha1_32 /\ rtcp pol = aes_cm_128_hmac_sha1_80
  | JANUS_SRTP_AES128_CM_SHA1_80 =>
      rtp pol = aes_cm_128_hmac_sha1_80 /\ rtcp pol = aes_cm_128_hmac_sha1_80
  | JANUS_SRTP_AEAD_AES_128_GCM =>
      rtp pol = aes_gcm_128_16_auth /\ rtcp pol = aes_gcm_128_16_auth
  | JANUS_SRTP_AEAD_AES_256_GCM =>
      rtp pol = aes_gcm_256_16_auth /\ rtcp pol = aes_gcm_256_16_auth
  | JANUS_SRTP_NONE => False
  end.

(** The outbound and the inbound SRTP context of a medium. *)
Definition srtp_out_of (video : bool) (m : janus_nosip_media) : option srtp_t :=
  if video then video_srtp_out m else audio_srtp_out m.

Definition srtp_in_of (video : bool) (m : janus_nosip_media) : option srtp_t :=
  if video then video_srtp_in m else audio_srtp_in m.


(** The local SSRC and the RTP socket of a medium, and whether it is being
    negotiated. *)
Definition local_ssrc_of (video : bool) (m : janus_nosip_media) : Z :=
  if video then video_ssrc m else audio_ssrc m.

Definition rtp_fd_of (video : bool) (m : janus_nosip_media) : Z :=
  if video then video_rtp_fd m else audio_rtp_fd m.

Definition has_medium (video : bool) (m : janus_nosip_media) : bool :=
  if video then has_video m else has_audio m.

Definition send_allowed (video : bool) (m : janus_nosip_media) : bool :=
  if video then video_send m else audio_send m.

(** An RTP packet of twelve header bytes with SSRC [0x01020304]. *)
Definition sample_rtp (video : bool) : janus_plugin_rtp :=
  {| pkt_video := video;
     pkt_buffer := [128; 111; 0; 1; 0; 0; 0; 160; 1; 2; 3; 4];
     pkt_length := 12 |}.


(** Whether some section of the given kind has a non-zero port. *)
Definition offers_audio (sdp : janus_sdp) : bool :=
  existsb (fun ml => is_audio ml && negb (m_port ml =? 0)) (m_lines sdp).

Definition offers_video (sdp : janus_sdp) : bool :=
  existsb (fun ml => is_video ml && negb (m_port ml =? 0)) (m_lines sdp).

(** The flags [has_audio] and [has_video] as C5 states them: for every audio
    (video) section, the flag is the predicate "the port is not zero". *)
Definition has_flags_mirror_ports (m : janus_nosip_media) (sdp : janus_sdp) : Prop :=
  forall ml, In ml (m_lines sdp) ->
    (is_audio ml = true -> has_audio m = negb (m_port ml =? 0)) /\
    (is_video ml = true -> has_video m = negb (m_port ml =? 0)).

(** What the processing of a description leaves untouched when it installs a
    crypto line or notes a codec. *)
Definition same_endpoints (m m' : janus_nosip_media) : Prop :=
  has_audio m' = has_audio m /\ has_video m' = has_video m /\
  remote_audio_rtp_port m' = remote_audio_rtp_port m /\
  remote_audio_rtcp_port m' = remote_audio_rtcp_port m /\
  remote_video_rtp_port m' = remote_video_rtp_port m /\
  remote_video_rtcp_port m' = remote_video_rtcp_port m /\
  remote_audio_ip m' = remote_audio_ip m /\
  remote_video_ip m' = remote_video_ip m /\
  require_srtp m' = require_srtp m /\
  ready m' = ready m.

(** The remote ports of a medium are a port and the next one. *)
Definition remote_audio_pair (m : janus_nosip_media) : Prop :=
  0 < remote_audio_rtp_port m /\ remote_audio_rtcp_port m = remote_audio_rtp_port m + 1.

Definition remote_video_pair (m : janus_nosip_media) : Prop :=
  0 < remote_video_rtp_port m /\ remote_video_rtcp_port m = remote_video_rtp_port m + 1.

(** A remote answer that accepts audio on port 20000 and rejects video. *)
Definition answer_audio_only : janus_sdp :=
  {| c_addr := Some "198.51.100.7";
     m_lines := [audio_mline 20000 "RTP/AVP" [{| a_name := Some "rtcp"; a_value := Some "30000" |}];
                 video_mline 0 "RTP/AVP" []] |}.


(** ** Requests and descriptions to run the handler on *)

Definition webrtc_audio_text : string := "v=0 m=audio 9 UDP/TLS/RTP/SAVPF 111".
Definition plain_audio_text : string := "v=0 c=IN IP4 198.51.100.7 m=audio 20000 RTP/AVP 111".
Definition secure_audio_text : string := "v=0 c=IN IP4 198.51.100.7 m=audio 20000 RTP/SAVP 111".
Definition no_media_text : string := "v=0 c=IN IP4 198.51.100.7".
Definition audio_video_text : string :=
  "v=0 m=audio 9 UDP/TLS/RTP/SAVPF 111 m=video 9 UDP/TLS/RTP/SAVPF 96".
Definition rejected_video_text : string :=
  "v=0 c=IN IP4 198.51.100.7 m=audio 20000 RTP/AVP 111 a=rtcp:30000 m=video 0 RTP/AVP 96".

Definition sample_descriptions : list (string * janus_sdp) :=
  [ (webrtc_audio_text,
     {| c_addr := Some "0.0.0.0"; m_lines := [audio_mline 9 "UDP/TLS/RTP/SAVPF" []] |});
    (plain_audio_text,
     {| c_addr := Some "198.51.100.7"; m_lines := [audio_mline 20000 "RTP/AVP" []] |});
    (secure_audio_text,
     {| c_addr := Some "198.51.100.7"; m_lines := [audio_mline 20000 "RTP/SAVP" []] |});
    (no_media_text,
     {| c_addr := Some "198.51.100.7"; m_lines := [] |});
    (audio_video_text,
     {| c_addr := Some "0.0.0.0";
        m_lines := [audio_mline 9 "UDP/TLS/RTP/SAVPF" []; video_mline 9 "UDP/TLS/RTP/SAVPF" []] |});
    (rejected_video_text, answer_audio_only) ].

Definition srtp_member (srtp : option string) : list (string * json_t) :=
  match srtp with Some v => [("srtp", json_string v)] | None => [] end.

(** [{"request": "generate", "srtp": ...}] with a JSEP of the given type. *)
Definition generate_message (type text : string) (srtp : option string) : janus_nosip_message :=
  {| transaction := "t";
     message := Some (json_object (("request", json_string "generate") :: srtp_member srtp));
     jsep := Some (json_object [("type", json_string type); ("sdp", json_string text)]) |}.

(** [{"request": "process", "type": ..., "sdp": ..., "srtp": ...}] *)
Definition process_message (type text : string) (srtp : option string) : janus_nosip_message :=
  {| transaction := "t";
     message := Some (json_object ([("request", json_string "process");
                                    ("type", json_string type);
                                    ("sdp", json_string text)] ++ srtp_member srtp));
     jsep := None |}.

(** [{"request": "recording", "action": "start", "audio": true}] *)
Definition recording_message : janus_nosip_message :=
  {| transaction := "t";
     message := Some (json_object [("request", json_string "recording");
                                   ("action", json_string "start");
                                   ("audio", json_true)]);
     jsep := None |}.


(** ** Reading requests and responses *)

(** Whether the [request] element of a message names the given request. *)
Definition request_is (name : string) (msg : janus_nosip_message) : bool :=
  match json_string_value (json_object_get (message msg) "request") with
  | Some text => strcasecmp text name =? 0
  | None => false
  end.

(** Whether the JSEP attached to a message has the given type. *)
Definition jsep_type_is (type : string) (msg : janus_nosip_message) : bool :=
  match json_string_value (json_object_get (jsep msg) "type") with
  | Some text => strcasecmp text type =? 0
  | None => false
  end.

(** Whether the [srtp] element of a request selects SDES, optional or
    mandatory. *)
Definition srtp_selected (msg : janus_nosip_message) : bool :=
  match json_string_value (json_object_get (message msg) "srtp") with
  | Some text =>
      (strcasecmp text "sdes_optional" =? 0) || (strcasecmp text "sdes_mandatory" =? 0)
  | None => false
  end.

(** The cause of an error response. *)
Definition error_cause_of (event : option json_t) : option string :=
  json_string_value (json_object_get event "error").

(** The errors the handler reports before it has written to the session:
    every validation error but the two it finds after applying the [srtp]
    option of a [generate] or [process] request, the unsupported SRTP profile
    and the description that does not parse. *)
Definition reported_before_any_change (code : Z) (cause : string) : bool :=
  (code =? JANUS_NOSIP_ERROR_NO_MESSAGE) ||
  (code =? JANUS_NOSIP_ERROR_INVALID_JSON) ||
  (code =? JANUS_NOSIP_ERROR_INVALID_REQUEST) ||
  (code =? JANUS_NOSIP_ERROR_MISSING_ELEMENT) ||
  (code =? JANUS_NOSIP_ERROR_RECORDING_ERROR) ||
  ((code =? JANUS_NOSIP_ERROR_INVALID_ELEMENT) &&
   negb (String.eqb cause "Invalid element (unsupported SRTP profile)")) ||
  ((code =? JANUS_NOSIP_ERROR_MISSING_SDP) &&
   negb (String.prefix "Error parsing SDP: " cause)).

(** A response that shows the request got past the check of the SRTP
    requirement: a success, or an error reported after that check. *)
Definition past_srtp_check (event : option json_t) : bool :=
  match error_code_of event, error_cause_of event with
  | Some code, Some cause =>
      negb (code =? JANUS_NOSIP_ERROR_TOO_STRICT) && negb (reported_before_any_change code cause)
  | _, _ => true
  end.


(** The three SRTP flags of the session are the same in [m] and [m']. *)
Definition same_srtp_flags (m m' : janus_nosip_media) : Prop :=
  require_srtp m' = require_srtp m /\
  has_srtp_local m' = has_srtp_local m /\
  has_srtp_remote m' = has_srtp_remote m.


(** ** Descriptors and candidates of the allocator *)

(** The descriptors a trace created: the results of [socket] other than
    -1. *)
Definition opened_fds (tr : list syscall) : list Z :=
  flat_map (fun e => match e with
                     | Socket _ fd => if fd =? -1 then [] else [fd]
                     | _ => []
                     end) tr.

(** A descriptor variable of the allocator: nothing when it holds -1. *)
Definition open_fd (fd : Z) : list Z := if fd =? -1 then [] else [fd].

(** The sockets the loop holds at the start of an iteration. *)
Definition live_fds (c : port_cursor) : list Z := open_fd (rtp_fd c) ++ open_fd (rtcp_fd c).

(** The sockets a call hands to its caller. *)
Definition returned_fds (a : allocation) : list Z :=
  match fds a with Some (fd0, fd1) => [fd0; fd1] | None => [] end.

(** The RTP ports the scan can stop at: the range minimum and every port
    below the range maximum at an even distance from the minimum. *)
Definition candidate (g : Globals) (t : Z) : Prop :=
  rtp_range_min g <= t /\ (t - rtp_range_min g) mod 2 = 0 /\
  (t = rtp_range_min g \/ t < rtp_range_max g).

(** A [bind] of the pair at RTP port [t] that failed. *)
Definition bind_failed_at (tr : list syscall) (t : Z) : Prop :=
  exists fd res, res <> 0 /\ (In (Bind fd t res) tr \/ In (Bind fd (t + 1) res) tr).


(** A range of two candidate pairs, RTP ports 10 and 12. *)
Definition narrow_globals : Globals :=
  default_globals <| rtp_range_min := 10 |> <| rtp_range_max := 14 |>
                  <| rtp_range_slider := 10 |>.


(** ** Reading the SRTP functions *)

(** The master key and salt length of a profile, as both SRTP functions
    choose it. *)
Definition master_length_of (p : janus_srtp_profile) : Z :=
  match p with
  | JANUS_SRTP_AES128_CM_SHA1_32 | JANUS_SRTP_AES128_CM_SHA1_80 => SRTP_MASTER_LENGTH
  | JANUS_SRTP_AEAD_AES_128_GCM => SRTP_AESGCM128_MASTER_LENGTH
  | JANUS_SRTP_AEAD_AES_256_GCM => SRTP_AESGCM256_MASTER_LENGTH
  | JANUS_SRTP_NONE => 0
  end.

(** The local and the remote policy of a medium, and what
    [janus_nosip_srtp_set_local] stores for the crypto attribute. *)
Definition local_policy_of (video : bool) (m : janus_nosip_media) : srtp_policy_t :=
  if video then video_local_policy m else audio_local_policy m.

Definition remote_policy_of (video : bool) (m : janus_nosip_media) : srtp_policy_t :=
  if video then video_remote_policy m else audio_remote_policy m.

Definition srtp_local_profile_of (video : bool) (m : janus_nosip_media) : option string :=
  if video then video_srtp_local_profile m else audio_srtp_local_profile m.

Definition srtp_local_crypto_of (video : bool) (m : janus_nosip_media) : option string :=
  if video then video_srtp_local_crypto m else audio_srtp_local_crypto m.

(** A session on which SHA1_32 has been chosen for the local crypto. *)
Definition sha1_32_media : janus_nosip_media :=
  fresh_media <| srtp_profile := JANUS_SRTP_AES128_CM_SHA1_32 |>.


(** The name [janus_nosip_srtp_set_local] gives a profile in the crypto
    attribute. *)
Definition srtp_profile_name (p : janus_srtp_profile) : option string :=
  match p with
  | JANUS_SRTP_AES128_CM_SHA1_32 => Some "AES_CM_128_HMAC_SHA1_32"
  | JANUS_SRTP_AES128_CM_SHA1_80 => Some "AES_CM_128_HMAC_SHA1_80"
  | JANUS_SRTP_AEAD_AES_128_GCM => Some "AEAD_AES_128_GCM"
  | JANUS_SRTP_AEAD_AES_256_GCM => Some "AEAD_AES_256_GCM"
  | JANUS_SRTP_NONE => None
  end.


(** ** Reading [janus_nosip_sdp_process] *)

(** The session with the fields [janus_nosip_sdp_process] may write blanked:
    two sessions with the same image differ in those fields only.  They are
    the remote addresses and ports, [require_srtp], [has_audio] and
    [has_video], the send flags, the negotiated codecs, what a remote crypto
    line installs (profile, remote policies, inbound contexts, tags,
    [has_srtp_remote]), [video_pli_supported] and [updated]. *)
Definition outside_sdp_process (m : janus_nosip_media) : janus_nosip_media :=
  m <| remote_audio_ip := None |> <| remote_video_ip := None |>
    <| require_srtp := false |>
    <| has_audio := false |> <| has_video := false |>
    <| remote_audio_rtp_port := 0 |> <| remote_audio_rtcp_port := 0 |>
    <| remote_video_rtp_port := 0 |> <| remote_video_rtcp_port := 0 |>
    <| audio_send := false |> <| video_send := false |>
    <| audio_pt := 0 |> <| opusred_pt := 0 |> <| audio_pt_name := None |>
    <| video_pt := 0 |> <| video_pt_name := None |>
    <| srtp_profile := JANUS_SRTP_NONE |>
    <| audio_remote_policy := fresh_policy |> <| video_remote_policy := fresh_policy |>
    <| audio_srtp_in := None |> <| video_srtp_in := None |>
    <| audio_srtp_tag := 0 |> <| video_srtp_tag := 0 |>
    <| has_srtp_remote := false |>
    <| video_pli_supported := false |>
    <| updated := false |>.

(** The same for the steps of the loop body: what a crypto or [rtcp-fb]
    attribute may write, and what the codec block may write. *)
Definition outside_attributes (m : janus_nosip_media) : janus_nosip_media :=
  m <| srtp_profile := JANUS_SRTP_NONE |>
    <| audio_remote_policy := fresh_policy |> <| video_remote_policy := fresh_policy |>
    <| audio_srtp_in := None |> <| video_srtp_in := None |>
    <| audio_srtp_tag := 0 |> <| video_srtp_tag := 0 |>
    <| has_srtp_remote := false |>
    <| video_pli_supported := false |>.

Definition outside_codecs (m : janus_nosip_media) : janus_nosip_media :=
  m <| audio_pt := 0 |> <| opusred_pt := 0 |> <| audio_pt_name := None |>
    <| video_pt := 0 |> <| video_pt_name := None |>.

Definition outside_ports (m : janus_nosip_media) : janus_nosip_media :=
  m <| has_audio := false |> <| has_video := false |>
    <| remote_audio_rtp_port := 0 |> <| remote_audio_rtcp_port := 0 |>
    <| remote_video_rtp_port := 0 |> <| remote_video_rtcp_port := 0 |>
    <| audio_send := false |> <| video_send := false |>.

Definition outside_remote_ips (m : janus_nosip_media) : janus_nosip_media :=
  m <| remote_audio_ip := None |> <| remote_video_ip := None |>.

(** Whether a media section names the protocol [RTP/SAVP], in any case. *)
Definition names_savp (ml : janus_sdp_mline) : bool :=
  match m_proto ml with
  | Some proto => strcasecmp proto "RTP/SAVP" =? 0
  | None => false
  end.

(** Whether an attribute is an [rtcp-fb] that mentions [pli]. *)
Definition mentions_pli (a : janus_sdp_attribute) : bool :=
  match a_name a, a_value a with
  | Some n, Some v => (strcasecmp n "rtcp-fb" =? 0) && not_null (strstr v " pli")
  | _, _ => false
  end.

(** The remote address of a medium after a description has been processed:
    the address of the last section of that kind that has one, the address
    of the description otherwise, the address stored before if it has
    none. *)
Definition remote_ip_after (of_kind : janus_sdp_mline -> bool) (sdp : janus_sdp)
    (before : option string) : option string :=
  fold_left
    (fun ip ml => if of_kind ml
                  then match m_c_addr ml with Some addr => Some addr | None => ip end
                  else ip)
    (m_lines sdp)
    (match c_addr sdp with Some addr => Some addr | None => before end).

(** [has_srtp_remote] is backed by an inbound context. *)
Definition inbound_srtp_backed (m : janus_nosip_media) : Prop :=
  has_srtp_remote m = true -> audio_srtp_in m <> None \/ video_srtp_in m <> None.

(** Processing only adds to the remote SRTP state: an inbound context that
    is installed stays, [has_srtp_remote] stays set, and it stays backed. *)
Definition srtp_in_grows (m m' : janus_nosip_media) : Prop :=
  (forall ctx, audio_srtp_in m = Some ctx -> audio_srtp_in m' = Some ctx) /\
  (forall ctx, video_srtp_in m = Some ctx -> video_srtp_in m' = Some ctx) /\
  (has_srtp_remote m = true -> has_srtp_remote m' = true) /\
  (inbound_srtp_backed m -> inbound_srtp_backed m').

(** An offer with a section for a data channel over [RTP/SAVP], and an
    answer whose video section asks for PLI and has an address of its own. *)
Definition offer_with_application : janus_sdp :=
  {| c_addr := Some "198.51.100.7";
     m_lines := [audio_mline 20000 "RTP/AVP" [];
                 {| m_index := 1; m_type := JANUS_SDP_APPLICATION; m_port := 20002;
                    m_proto := Some "rtp/savp"; m_c_addr := None;
                    m_direction := JANUS_SDP_SENDRECV; m_ptypes := []; m_attributes := [] |}] |}.

Definition answer_with_video : janus_sdp :=
  {| c_addr := Some "198.51.100.7";
     m_lines := [audio_mline 20000 "RTP/AVP" [];
                 {| m_index := 1; m_type := JANUS_SDP_VIDEO; m_port := 20002;
                    m_proto := Some "RTP/AVP"; m_c_addr := Some "198.51.100.9";
                    m_direction := JANUS_SDP_SENDRECV; m_ptypes := [96];
                    m_attributes := [{| a_name := Some "rtcp-fb";
                                        a_value := Some "96 nack pli" |}] |}] |}.


(** ** Reading [janus_nosip_sdp_manipulate] *)

(** The session with the fields [janus_nosip_sdp_manipulate] may write
    blanked: what [janus_nosip_srtp_set_local] installs (local policies,
    outbound contexts, local profile and crypto), the crypto tags and the
    negotiated codecs. *)
Definition outside_sdp_manipulate (m : janus_nosip_media) : janus_nosip_media :=
  m <| audio_local_policy := fresh_policy |> <| video_local_policy := fresh_policy |>
    <| audio_srtp_out := None |> <| video_srtp_out := None |>
    <| audio_srtp_local_profile := None |> <| video_srtp_local_profile := None |>
    <| audio_srtp_local_crypto := None |> <| video_srtp_local_crypto := None |>
    <| audio_srtp_tag := 0 |> <| video_srtp_tag := 0 |>
    <| audio_pt := 0 |> <| opusred_pt := 0 |> <| audio_pt_name := None |>
    <| video_pt := 0 |> <| video_pt_name := None |>.

(** The same for [janus_nosip_srtp_set_local] alone. *)
Definition outside_srtp_local (m : janus_nosip_media) : janus_nosip_media :=
  m <| audio_local_policy := fresh_policy |> <| video_local_policy := fresh_policy |>
    <| audio_srtp_out := None |> <| video_srtp_out := None |>
    <| audio_srtp_local_profile := None |> <| video_srtp_local_profile := None |>
    <| audio_srtp_local_crypto := None |> <| video_srtp_local_crypto := None |>.

(** How a media section is rewritten for a session [m]: the protocol follows
    [require_srtp], the address is the advertised or the local one, the port
    of an audio or video section is the local RTP port of that medium; with
    [has_srtp_local], one crypto attribute is appended to an audio or video
    section.  Everything else is kept. *)
Definition rewritten (g : Globals) (m : janus_nosip_media) (ml ml' : janus_sdp_mline) : Prop :=
  m_index ml' = m_index ml /\ m_type ml' = m_type ml /\
  m_direction ml' = m_direction ml /\ m_ptypes ml' = m_ptypes ml /\
  m_proto ml' = Some (if require_srtp m then "RTP/SAVP" else "RTP/AVP") /\
  m_c_addr ml' = match sdp_ip g with Some ip => Some ip | None => local_ip g end /\
  m_port ml' = match m_type ml with
               | JANUS_SDP_AUDIO => local_audio_rtp_port m
               | JANUS_SDP_VIDEO => local_video_rtp_port m
               | _ => m_port ml
               end /\
  if has_srtp_local m && (is_audio ml || is_video ml)
  then exists value,
         m_attributes ml' = m_attributes ml ++ [{| a_name := Some "crypto";
                                                   a_value := Some value |}]
  else m_attributes ml' = m_attributes ml.


(** The crypto tag of a medium, and the value of the crypto attribute
    [janus_nosip_sdp_manipulate] writes from the session:
    ["<tag> <profile> inline:<crypto>"]. *)
Definition srtp_tag_of (video : bool) (m : janus_nosip_media) : Z :=
  if video then video_srtp_tag m else audio_srtp_tag m.

Definition crypto_value (video : bool) (m : janus_nosip_media) : string :=
  (format_int (srtp_tag_of video m) ++ " " ++
   format_str (srtp_local_profile_of video m) ++ " inline:" ++
   format_str (srtp_local_crypto_of video m))%string.


(** The session holds a local profile and a local crypto for both media, so
    that [janus_nosip_sdp_manipulate] has no reason to call
    [janus_nosip_srtp_set_local]. *)
Definition local_crypto_stored (m : janus_nosip_media) : bool :=
  negb (is_null (audio_srtp_local_profile m) || is_null (audio_srtp_local_crypto m)) &&
  negb (is_null (video_srtp_local_profile m) || is_null (video_srtp_local_crypto m)).

(** The tag a crypto attribute is written with: the stored one, or 1 when
    none was stored. *)
Definition advertised_tag (video : bool) (m : janus_nosip_media) : Z :=
  if srtp_tag_of video m =? 0 then 1 else srtp_tag_of video m.

(** The crypto attribute of a session whose local crypto is stored. *)
Definition advertised_crypto (video : bool) (m : janus_nosip_media) : janus_sdp_attribute :=
  {| a_name := Some "crypto";
     a_value := Some (format_int (advertised_tag video m) ++ " " ++
                      format_str (srtp_local_profile_of video m) ++ " inline:" ++
                      format_str (srtp_local_crypto_of video m))%string |}.

(** Two states of a session that advertise the same local crypto. *)
Definition same_local_crypto (m m' : janus_nosip_media) : Prop :=
  has_srtp_local m' = has_srtp_local m /\
  forall video,
    srtp_local_profile_of video m' = srtp_local_profile_of video m /\
    srtp_local_crypto_of video m' = srtp_local_crypto_of video m /\
    srtp_out_of video m' = srtp_out_of video m /\
    advertised_tag video m' = advertised_tag video m.

(** A session with SRTP towards the peer whose local crypto is stored, and an
    offer with an audio and a video section to rewrite for it. *)
Definition stored_crypto_media : janus_nosip_media :=
  fresh_media <| has_srtp_local := true |> <| require_srtp := true |>
    <| local_audio_rtp_port := 10000 |> <| local_video_rtp_port := 10002 |>
    <| audio_srtp_local_profile := Some "AES_CM_128_HMAC_SHA1_80" |>
    <| audio_srtp_local_crypto := Some "QUFBQQ" |>
    <| video_srtp_local_profile := Some "AES_CM_128_HMAC_SHA1_80" |>
    <| video_srtp_local_crypto := Some "QkJCQg" |>
    <| video_srtp_tag := 3 |>.

Definition local_offer : janus_sdp :=
  {| c_addr := Some "192.0.2.1";
     m_lines := [audio_mline 9 "UDP/TLS/RTP/SAVPF" []; video_mline 9 "UDP/TLS/RTP/SAVPF" []] |}.

(** Two states of a session with the same negotiated codecs. *)
Definition same_codecs (m m' : janus_nosip_media) : Prop :=
  audio_pt m' = audio_pt m /\ opusred_pt m' = opusred_pt m /\
  audio_pt_name m' = audio_pt_name m /\
  video_pt m' = video_pt m /\ video_pt_name m' = video_pt_name m.


(** ** Descriptors of a session *)

(** An end of the session's pipe: the code takes it to be open when it is
    positive. *)
Definition pipe_end (fd : Z) : list Z := if 0 <? fd then [fd] else [].

(** The descriptors a session holds: its four sockets and its pipe. *)
Definition session_fds (m : janus_nosip_media) : list Z :=
  open_fd (audio_rtp_fd m) ++ open_fd (audio_rtcp_fd m) ++
  open_fd (video_rtp_fd m) ++ open_fd (video_rtcp_fd m) ++
  pipe_end (fst (pipefd m)) ++ pipe_end (snd (pipefd m)).

(** The descriptors a trace creates: sockets and pipe ends. *)
Definition created_fds (tr : list syscall) : list Z :=
  flat_map (fun e => match e with
                     | Socket _ fd => open_fd fd
                     | Pipe (Some (rd, wr)) => [rd; wr]
                     | _ => []
                     end) tr.

(** Every pipe of the trace has two positive ends. *)
Definition pipes_positive (tr : list syscall) : Prop :=
  forall rd wr, In (Pipe (Some (rd, wr))) tr -> 0 < rd /\ 0 < wr.

(** The two sockets and the two local ports of a medium. *)
Definition rtcp_fd_of (video : bool) (m : janus_nosip_media) : Z :=
  if video then video_rtcp_fd m else audio_rtcp_fd m.

Definition local_rtp_port_of (video : bool) (m : janus_nosip_media) : Z :=
  if video then local_video_rtp_port m else local_audio_rtp_port m.

Definition local_rtcp_port_of (video : bool) (m : janus_nosip_media) : Z :=
  if video then local_video_rtcp_port m else local_audio_rtcp_port m.

(** A medium has nothing left to allocate on an update. *)
Definition ports_in_place (video : bool) (m : janus_nosip_media) : bool :=
  negb (has_medium video m) ||
  (negb (local_rtp_port_of video m =? 0) && negb (local_rtcp_port_of video m =? 0)).

(** A session that negotiates audio only and holds a stale socket. *)
Definition stale_audio_media : janus_nosip_media :=
  fresh_media <| has_audio := true |> <| audio_rtp_fd := 5 |>.


(** ** Media teardown and outbound RTCP *)

(** The packet [janus_nosip_incoming_rtcp] is given (plugin.h), with the
    three fields the function reads: [video], [buffer] and [length]. *)
Record janus_plugin_rtcp : Type := {
  rtcp_pkt_video : bool;
  rtcp_pkt_buffer : list Z;     (* bytes *)
  rtcp_pkt_length : Z           (* uint16_t *)
}.

Section Teardown.
Context {World : Type} {K : Kernel World} {L : Libs World}.

(** [janus_nosip_media_reset], without the two RTP switching contexts, which
    only the relay thread uses. *)
Definition janus_nosip_media_reset (m : janus_nosip_media) : janus_nosip_media :=
  m <| remote_audio_ip := None |>
    <| remote_video_ip := None |>
    <| updated := false |>
    <| ready := false |>
    <| require_srtp := false |>
    <| has_audio := false |>
    <| audio_pt := -1 |>
    <| opusred_pt := -1 |>
    <| audio_pt_name := None |>   (* Immutable string, no need to free *)
    <| audio_send := true |>
    <| has_video := false |>
    <| video_pt := -1 |>
    <| video_pt_name := None |>   (* Immutable string, no need to free *)
    <| video_send := true |>
    <| video_pli_supported := false |>
    <| video_orientation_extension_id := -1 |>
    <| audio_level_extension_id := -1 |>.

(** [janus_nosip_media_cleanup]: the media it leaves, the world and the
    system calls it made. *)
Definition janus_nosip_media_cleanup (m : janus_nosip_media) (w : World)
  : janus_nosip_media * World * list syscall :=
  let '(w, t1) := close_if_open (audio_rtp_fd m) w in
  let '(w, t2) := close_if_open (audio_rtcp_fd m) w in
  let m := m <| audio_rtp_fd := -1 |> <| audio_rtcp_fd := -1 |>
             <| local_audio_rtp_port := 0 |> <| local_audio_rtcp_port := 0 |>
             <| remote_audio_rtp_port := 0 |> <| remote_audio_rtcp_port := 0 |>
             <| audio_ssrc := 0 |> <| audio_ssrc_peer := 0 |> in
  let '(w, t3) := close_if_open (video_rtp_fd m) w in
  let '(w, t4) := close_if_open (video_rtcp_fd m) w in
  let m := m <| video_rtp_fd := -1 |> <| video_rtcp_fd := -1 |>
             <| local_video_rtp_port := 0 |> <| local_video_rtcp_port := 0 |>
             <| remote_video_rtp_port := 0 |> <| remote_video_rtcp_port := 0 |>
             <| video_ssrc := 0 |> <| video_ssrc_peer := 0 |>
             <| simulcast_ssrc := 0 |> in
  let '(p0, w, t5) := close_pipe_end (fst (pipefd m)) w in
  let '(p1, w, t6) := close_pipe_end (snd (pipefd m)) w in
  let m := m <| pipefd := (p0, p1) |> in
  (* Clean up SRTP stuff, if needed *)
  let m := janus_nosip_srtp_cleanup m in
  (* Media fields not cleaned up elsewhere *)
  let m := janus_nosip_media_reset m in
  (m, w, t1 ++ t2 ++ t3 ++ t4 ++ t5 ++ t6).

(** [janus_nosip_hangup_media_internal], for the session that
    [janus_nosip_lookup_session] finds for the handle, if any: the session
    afterwards, the world and the system calls made. *)
Definition janus_nosip_hangup_media_internal (g : Globals)
    (session : option janus_nosip_session) (w : World)
  : option janus_nosip_session * World * list syscall :=
  if negb (stopping g =? 0) || (initialized g =? 0) then (session, w, [])
  else
    match session with
    | None => (None, w, [])
    | Some s =>
        if negb (destroyed s =? 0) then (Some s, w, [])
        else if negb (hangingup s =? 0) then
          (* [g_atomic_int_compare_and_exchange(&session->hangingup, 0, 1)] failed *)
          (Some s, w, [])
        else
          let s := s <| hangingup := 1 |> in
          let s := s <| media := media s <| simulcast_ssrc := 0 |> |> in
          (* Notify the thread that it's time to go *)
          let '(w, t1) :=
            if 0 <? snd (pipefd (media s)) then
              let '(res, w) := sys_write (snd (pipefd (media s))) w in
              (w, [Write (snd (pipefd (media s))) res])
            else (w, []) in
          (* Do cleanup if media thread has not been created *)
          let '(s, w, t2) :=
            if negb (ready (media s)) && negb (relayer_thread s) then
              let '(m, w, t) := janus_nosip_media_cleanup (media s) w in
              (s <| media := m |>, w, t)
            else (s, w, []) in
          (* Get rid of the recorders, if available *)
          let '(s, w) := janus_nosip_recorder_close s true true true true w in
          (Some (s <| hangingup := 0 |>), w, t1 ++ t2)
    end.

(** [janus_nosip_incoming_rtcp]: the world it leaves and the datagrams
    sent.  The session is read only. *)
Definition janus_nosip_incoming_rtcp (g : Globals) (handle : option janus_plugin_session)
    (packet : janus_plugin_rtcp) (w : World) : World * list sent_packet :=
  match handle with
  | None => (w, [])
  | Some h =>
      if negb (stopped h =? 0) || negb (stopping g =? 0) || (initialized g =? 0) then (w, [])
      else if gateway g then
        match plugin_handle h with
        | None => (w, [])
        | Some session =>
            if negb (destroyed session =? 0) then (w, [])
            else
              let video := rtcp_pkt_video packet in
              let buf := rtcp_pkt_buffer packet in
              let len := rtcp_pkt_length packet in
              let m := media session in
              (* Forward to our NoSIP peer *)
              if (video && has_video m && negb (video_rtcp_fd m =? -1)) ||
                 (negb video && has_audio m && negb (audio_rtcp_fd m =? -1)) then
                (* Fix SSRCs as the Janus core does *)
                let buf :=
                  janus_rtcp_fix_ssrc (firstn (Z.to_nat len) buf) video
                    (if video then video_ssrc m else audio_ssrc m)
                    (if video then video_ssrc_peer m else audio_ssrc_peer m) in
                let fd := if video then video_rtcp_fd m else audio_rtcp_fd m in
                (* Is SRTP involved? *)
                if has_srtp_local m then
                  let '(res, sbuf, w) :=
                    srtp_protect_rtcp (if video then video_srtp_out m else audio_srtp_out m)
                      buf w in
                  if negb (res =? srtp_err_status_ok) then (w, [])
                  else
                    (* Forward the message to the peer *)
                    let '(_, w) := send fd sbuf w in
                    (w, [{| to_fd := fd; payload := sbuf |}])
                else
                  (* Forward the message to the peer *)
                  let '(_, w) := send fd buf w in
                  (w, [{| to_fd := fd; payload := buf |}])
              else (w, [])
        end
      else (w, [])
  end.

End Teardown.

(** The recorders a call of [janus_nosip_recorder_close] closes, in the
    order it closes them. *)
Definition selected_recorders (s : janus_nosip_session)
    (stop_audio stop_audio_peer stop_video stop_video_peer : bool) : list janus_recorder :=
  (if stop_audio then match arc s with Some rc => [rc] | None => [] end else []) ++
  (if stop_audio_peer then match arc_peer s with Some rc => [rc] | None => [] end else []) ++
  (if stop_video then match vrc s with Some rc => [rc] | None => [] end else []) ++
  (if stop_video_peer then match vrc_peer s with Some rc => [rc] | None => [] end else []).

(** The local and the peer SSRC of a medium, for RTCP. *)
Definition peer_ssrc_of (video : bool) (m : janus_nosip_media) : Z :=
  if video then video_ssrc_peer m else audio_ssrc_peer m.

(** When the plugin forwards at all: initialised, not stopping, attached to
    the core, and the handle neither stopped nor without a live session. *)
Definition forwarding (g : Globals) (h : janus_plugin_session) (s : janus_nosip_session)
  : Prop :=
  stopped h = 0 /\ stopping g = 0 /\ initialized g <> 0 /\ gateway g = true /\
  plugin_handle h = Some s /\ destroyed s = 0.

(** The session with its two local SSRCs blanked. *)
Definition outside_local_ssrc (m : janus_nosip_media) : janus_nosip_media :=
  m <| audio_ssrc := 0 |> <| video_ssrc := 0 |>.

(** The media of a new session, with the crypto suites of [m]'s four SRTP
    policies and with the ends of [m]'s pipe that are not positive. *)
Definition cleaned_media (m : janus_nosip_media) : janus_nosip_media :=
  fresh_media
    <| audio_remote_policy := audio_remote_policy m <| key := None |> |>
    <| audio_local_policy := audio_local_policy m <| key := None |> |>
    <| video_remote_policy := video_remote_policy m <| key := None |> |>
    <| video_local_policy := video_local_policy m <| key := None |> |>
    <| pipefd := (if 0 <? fst (pipefd m) then -1 else fst (pipefd m),
                  if 0 <? snd (pipefd m) then -1 else snd (pipefd m)) |>.

(** A session that records the user's audio and video, with two sockets and
    a pipe, before its media thread was started. *)
Definition recording_session : janus_nosip_session :=
  janus_nosip_create_session 1
    <| media := fresh_media <| has_audio := true |> <| audio_rtp_fd := 7 |>
                  <| audio_rtcp_fd := 8 |> <| pipefd := (9, 10) |>
                  <| simulcast_ssrc := 4660 |> |>
    <| arc := Some {| codec := Some "opus"; filename := "a"; opusred_pt_rec := -1 |} |>
    <| vrc := Some {| codec := Some "vp8"; filename := "v"; opusred_pt_rec := -1 |} |>.


(** ** Reading what the handler asks of the core *)

(** An upcall that is not a response. *)
Definition quiet (u : upcall) : bool :=
  match u with
  | push_event _ _ => false
  | _ => true
  end.

(** The handler state [st'] comes from [st] by upcalls that are no
    responses, with the port range left as it was and fit for another
    call of the allocator. *)
Definition served (World : Type) (st st' : handler_state World) : Prop :=
  (exists extra, hs_upcalls st' = hs_upcalls st ++ extra /\ forallb quiet extra = true) /\
  range_ok (hs_globals st') /\
  rtp_range_min (hs_globals st') = rtp_range_min (hs_globals st) /\
  rtp_range_max (hs_globals st') = rtp_range_max (hs_globals st).
Arguments served {World} _ _.

(** A [generate] request whose JSEP tells of simulcast, with the SSRCs in an
    array. *)
Definition simulcast_message : janus_nosip_message :=
  {| transaction := "t";
     message := Some (json_object [("request", json_string "generate")]);
     jsep := Some (json_object
                     [("type", json_string "offer"); ("sdp", json_string audio_video_text);
                      ("simulcast",
                       json_array [json_object
                                     [("ssrcs", json_array [json_integer 1111;
                                                            json_integer 2222])]])]) |}.


(** ** Reading the checks of the shared branch *)

(** Whether a [generate] ([generate] true) or [process] request passes the
    checks the handler makes on reading it, before it writes to the session:
    the validation of its elements, a description with a type of [offer] or
    [answer], no data channel and no end-to-end encryption, and an [srtp]
    element, if there is one, that says [sdes_optional] or
    [sdes_mandatory]. *)
Definition request_accepted (generate : bool) (msg : janus_nosip_message) (is_ready : bool)
  : bool :=
  match read_sdp_request generate msg is_ready, read_srtp_request (message msg) with
  | inr _, inr _ => true
  | _, _ => false
  end.

(** Whether the description that comes with the request parses. *)
Definition description_parses {World : Type} {L : Libs World}
    (generate : bool) (msg : janus_nosip_message) (is_ready : bool) : bool :=
  match read_sdp_request generate msg is_ready with
  | inr rq => match janus_sdp_parse (msg_sdp rq) with inl _ => true | inr _ => false end
  | inl _ => false
  end.

(** Whether the [srtp] element of a request makes SDES mandatory. *)
Definition srtp_mandatory (msg : janus_nosip_message) : bool :=
  match json_string_value (json_object_get (message msg) "srtp") with
  | Some text =>
      negb (strcasecmp text "sdes_optional" =? 0) && (strcasecmp text "sdes_mandatory" =? 0)
  | None => false
  end.


(** ** The send flags after a description *)

(** The send flag of a medium after the media sections [lines], read in
    order: every section of the kind writes the flag, false for port 0 or a
    direction of sendonly or inactive, true otherwise; a section of another
    kind leaves it. *)
Definition send_after (kind : janus_sdp_mline -> bool) (lines : list janus_sdp_mline)
    (send : bool) : bool :=
  fold_left (fun send ml =>
               if kind ml
               then negb (m_port ml =? 0) && negb (direction_blocks_sending (m_direction ml))
               else send)
            lines send.


(** * Properties *)

(** Linear arithmetic with [mod] and [/] by constants. *)
Ltac mlia := Z.to_euclidean_division_equations; lia.

Section AllocatorFacts.
Context {World : Type} {K : Kernel World}.

Lemma janus_nosip_bind_socket_res fd port (w : World) :
  fst (janus_nosip_bind_socket fd port w) = 0 \/ fst (janus_nosip_bind_socket fd port w) = -1.
Proof.
  unfold janus_nosip_bind_socket. destruct (sys_bind fd port w) as [res w'].
  destruct (res <? 0); simpl; auto.
Qed.

(** What one pass through the loop body does to the cursor. *)
Lemma port_pair_iteration_inv video g start c (w : World) e w' tr p :
  0 <= rtp_range_min g -> rtp_range_min g <= rtp_range_max g -> rtp_range_max g <= 65535 ->
  rtp_range_min g <= start -> (start - rtp_range_min g) mod 2 = 0 ->
  (start = rtp_range_min g \/ start < rtp_range_max g) ->
  cursor_inv g start c ->
  port_pair_iteration video g start c w = (e, w', tr, p) ->
  match e with
  | Continue c' =>
      p = Some (rtp_port_next c) /\ ahead start c (rtp_port_next c) /\
      cursor_inv g start c' /\
      0 <= iterations_left g start c' < iterations_left g start c /\
      (forall t, ahead start c' t -> ahead start c t /\ t <> rtp_port_next c)
  | Break FullRangeScanned c' =>
      p = None /\ rtp_port_wrap c' = true /\ rtp_port_next c' = start
  | Break SocketError c' =>
      p = None /\ (rtp_fd c' = -1 \/ rtcp_fd c' = -1)
  | Return0 fds ports slider =>
      p = Some (rtp_port_next c) /\ ahead start c (rtp_port_next c) /\
      ports = (rtp_port_next c, rtp_port_next c + 1) /\
      rtp_range_min g <= slider /\ (slider - rtp_range_min g) mod 2 = 0 /\
      (slider = rtp_range_min g \/ slider < rtp_range_max g)
  end.
Proof.
  intros Hmin Hmm Hmax Hls Hpar Hstart (Hlo & Hp & Hin & Hw).
  unfold port_pair_iteration.
  destruct (rtp_port_wrap c && (start <=? rtp_port_next c)) eqn:Hfull.
  { intros H; inversion H; subst; clear H.
    apply andb_true_iff in Hfull as [Hwr Hge]. rewrite Hwr in Hw.
    apply Z.leb_le in Hge. repeat split; auto; lia. }
  destruct (open_rtp_socket video g (rtp_fd c) w) as [[fd1 w1] tr1].
  destruct (open_rtcp_socket g (rtcp_fd c) w1) as [[fd2 w2] tr2].
  destruct ((fd1 =? -1) || (fd2 =? -1)) eqn:Hsock.
  { intros H; inversion H; subst; clear H. simpl. split; auto.
    apply orb_true_iff in Hsock as [H|H]; apply Z.eqb_eq in H; auto. }
  assert (Hcur : ahead start c (rtp_port_next c)).
  { unfold ahead. apply andb_false_iff in Hfull.
    destruct (rtp_port_wrap c); [| lia].
    destruct Hfull as [?|Hge]; [discriminate | apply Z.leb_gt in Hge; lia]. }
  assert (Hstep :
    forall next wrap,
      (if uint32 (rtp_port_next c + 2) <? rtp_range_max g
       then (uint16 (rtp_port_next c + 2), rtp_port_wrap c)
       else (rtp_range_min g, true)) = (next, wrap) ->
      let c' := {| rtp_port_next := next; rtp_port_wrap := wrap; rtp_fd := fd1; rtcp_fd := fd2 |} in
      (rtp_range_min g <= next /\ (next - rtp_range_min g) mod 2 = 0 /\
       (next = rtp_range_min g \/ next < rtp_range_max g) /\
       (if wrap then next <= start else start <= next)) /\
      0 <= (if wrap then start - next
            else (rtp_range_max g - next) + (start - rtp_range_min g) + 3)
        < iterations_left g start c /\
      (forall t, (if wrap then next <= t < start else next <= t \/ t < start) ->
                 ahead start c t /\ t <> rtp_port_next c)).
  { intros next wrap. unfold uint32, uint16, iterations_left, ahead.
    apply andb_false_iff in Hfull.
    destruct (rtp_port_wrap c) eqn:Hwr.
    - assert (Hlt : rtp_port_next c < start)
        by (destruct Hfull as [?|Hge]; [discriminate | apply Z.leb_gt in Hge; lia]).
      assert (Hnext : rtp_port_next c + 2 <= start) by mlia.
      assert (Hbelow : start < rtp_range_max g) by lia.
      rewrite Z.mod_small by lia.
      destruct (rtp_port_next c + 2 <? rtp_range_max g) eqn:Hadv;
        [| apply Z.ltb_ge in Hadv; lia].
      rewrite Z.mod_small by lia.
      intros E; inversion E; subst; clear E. simpl.
      repeat split; intros; try lia; mlia.
    - rewrite Z.mod_small by lia.
      destruct (rtp_port_next c + 2 <? rtp_range_max g) eqn:Hadv.
      + apply Z.ltb_lt in Hadv. rewrite Z.mod_small by lia.
        intros E; inversion E; subst; clear E. simpl.
        repeat split; intros; try lia; mlia.
      + apply Z.ltb_ge in Hadv.
        intros E; inversion E; subst; clear E. simpl.
        repeat split; intros; try lia; mlia. }
  destruct (if uint32 (rtp_port_next c + 2) <? rtp_range_max g
            then (uint16 (rtp_port_next c + 2), rtp_port_wrap c)
            else (rtp_range_min g, true)) as [next wrap] eqn:Hadv.
  specialize (Hstep next wrap eq_refl). cbv zeta in Hstep.
  destruct Hstep as (Hinv' & Hdec & Hahead).
  destruct (janus_nosip_bind_socket fd1 (rtp_port_next c) w2) as [res w3].
  destruct (negb (res =? 0)).
  { intros H; inversion H; subst; clear H.
    unfold cursor_inv, iterations_left, ahead; simpl. auto. }
  destruct (janus_nosip_bind_socket fd2 (rtp_port_next c + 1) w3) as [res' w4].
  destruct (negb (res' =? 0)).
  { intros H; inversion H; subst; clear H.
    unfold cursor_inv, iterations_left, ahead; simpl. auto. }
  intros H; inversion H; subst; clear H.
  destruct Hinv' as (? & ? & ? & ?). auto 10.
Qed.

Lemma range_ok_set_slider g slider :
  range_ok g ->
  rtp_range_min g <= slider -> (slider - rtp_range_min g) mod 2 = 0 ->
  (slider = rtp_range_min g \/ slider < rtp_range_max g) ->
  range_ok (g <| rtp_range_slider := slider |>).
Proof.
  unfold range_ok. destruct g; simpl. intuition.
Qed.

(** The loop, from any cursor that satisfies its invariant: it ends within
    [iterations_left] passes, tries every port at most once and only ports
    that are still ahead, and leaves by one of its three exits. *)
Lemma allocate_loop_spec video g start :
  range_ok g ->
  rtp_range_min g <= start -> (start - rtp_range_min g) mod 2 = 0 ->
  (start = rtp_range_min g \/ start < rtp_range_max g) ->
  forall fuel c (w : World),
    cursor_inv g start c ->
    iterations_left g start c < Z.of_nat fuel ->
    exists a w',
      allocate_loop fuel video g start c w = Some (a, w') /\
      NoDup (tried a) /\
      (forall t, In t (tried a) -> ahead start c t /\ (t - rtp_range_min g) mod 2 = 0) /\
      match left_at a with
      | None =>
          ret a = 0 /\ range_ok (globals a) /\
          exists p, ports a = Some (p, p + 1) /\ In p (tried a)
      | Some (FullRangeScanned, c') =>
          ret a = -1 /\ globals a = g /\ ports a = None /\
          rtp_port_wrap c' = true /\ rtp_port_next c' = start
      | Some (SocketError, c') =>
          ret a = -1 /\ globals a = g /\ ports a = None /\
          (rtp_fd c' = -1 \/ rtcp_fd c' = -1)
      end.
Proof.
  intros Hg Hls Hpar Hstart.
  assert (Hg' := Hg). destruct Hg' as (Hmin & Hmm & Hmax & _).
  induction fuel as [|fuel IH]; intros c w Hinv Hfuel.
  { exfalso. assert (Hc := Hinv). destruct Hc as (? & ? & ? & Hw).
    unfold iterations_left in Hfuel. destruct (rtp_port_wrap c); simpl in Hfuel; lia. }
  simpl.
  destruct (port_pair_iteration video g start c w) as [[[e w1] tr] p] eqn:Hit.
  pose proof (port_pair_iteration_inv _ _ _ _ _ _ _ _ _ Hmin Hmm Hmax Hls Hpar Hstart Hinv Hit)
    as Hstep.
  assert (Hparc : (rtp_port_next c - rtp_range_min g) mod 2 = 0) by apply Hinv.
  destruct e as [c' | why c' | fds0 ports0 slider].
  - destruct Hstep as (-> & Hcur & Hinv' & Hdec & Hahead).
    destruct (IH c' w1 Hinv') as (a & w' & -> & Hnd & Htried & Hstop); [lia |].
    exists (add_iteration tr (Some (rtp_port_next c)) a), w'.
    split; [reflexivity |]. simpl. split; [| split].
    + constructor; [| assumption].
      intros Hin. apply Htried in Hin as [Hin _]. apply Hahead in Hin. tauto.
    + intros t [<- | Hin]; [auto |].
      apply Htried in Hin as [Hin ?]. apply Hahead in Hin. tauto.
    + destruct (left_at a) as [[[|] c'']|]; [tauto | tauto |].
      destruct Hstop as (? & ? & q & ? & ?). eauto 10.
  - unfold allocation_failed.
    destruct (negb (rtp_fd c' =? -1)), (negb (rtcp_fd c' =? -1));
      (eexists; eexists; split; [reflexivity |]);
      destruct why; simpl; destruct Hstep as (-> & Hstep);
      (split; [constructor |]); (split; [intros t [] |]); tauto.
  - destruct Hstep as (-> & Hcur & -> & Hs1 & Hs2 & Hs3).
    eexists; eexists; split; [reflexivity |]. simpl.
    split; [constructor; [intros [] | constructor] |].
    split; [intros t [<- | []]; auto |].
    split; [reflexivity |].
    split; [apply range_ok_set_slider; assumption |].
    eauto.
Qed.

Lemma allocate_loop_more_fuel video g start fuel fuel' c (w : World) r :
  (fuel <= fuel')%nat ->
  allocate_loop fuel video g start c w = Some r ->
  allocate_loop fuel' video g start c w = Some r.
Proof.
  revert fuel' c w r. induction fuel as [|fuel IH]; intros fuel' c w r Hle; [discriminate |].
  destruct fuel' as [|fuel']; [lia |]. simpl.
  destruct (port_pair_iteration video g start c w) as [[[[c' | why c' | f0 p0 sl] w1] tr] p];
    auto.
  destruct (allocate_loop fuel video g start c' w1) as [[a w2]|] eqn:Hrec; [| discriminate].
  rewrite (IH fuel' c' w1 (a, w2)) by (auto; lia). auto.
Qed.


(** The cursor the allocator writes back keeps [range_ok], so the
    hypothesis of [allocate_port_pair_scan] carries over to the next call; a
    failed call leaves the globals as they were. *)
Lemma allocate_port_pair_range_ok video g (w : World) fuel a w' :
  range_ok g ->
  janus_nosip_allocate_port_pair fuel video g w = Some (a, w') ->
  range_ok (globals a).
Proof.
  intros Hg Hrun.
  assert (Hg' := Hg). destruct Hg' as (Hmin & Hmm & Hmax & Hls & Hpar & Hstart).
  destruct (allocate_loop_spec video g (rtp_range_slider g) Hg Hls Hpar Hstart
              (Nat.max fuel (enough_fuel g)) (fresh_cursor g) w)
    as (a0 & w0 & Hrun0 & _ & _ & Hstop).
  { unfold cursor_inv, fresh_cursor; simpl. repeat split; auto; lia. }
  { unfold iterations_left, enough_fuel, fresh_cursor; simpl. lia. }
  unfold janus_nosip_allocate_port_pair in Hrun.
  apply (allocate_loop_more_fuel _ _ _ _ (Nat.max fuel (enough_fuel g))) in Hrun; [| lia].
  unfold fresh_cursor in Hrun0. rewrite Hrun0 in Hrun. inversion Hrun; subst.
  destruct (left_at a) as [[[|] c]|]; intuition congruence.
Qed.

Lemma opened_fds_app tr1 tr2 : opened_fds (tr1 ++ tr2) = opened_fds tr1 ++ opened_fds tr2.
Proof. apply flat_map_app. Qed.

(** What opening a socket does to a descriptor variable. *)
Lemma open_rtp_socket_fds video g fd (w : World) :
  open_fd fd ++ opened_fds (snd (open_rtp_socket video g fd w))
    = open_fd (fst (fst (open_rtp_socket video g fd w))).
Proof.
  unfold open_rtp_socket, open_fd.
  destruct (fd =? -1) eqn:Hfd; [| simpl; rewrite Hfd; reflexivity].
  destruct (sys_socket (use_ipv6_address_family g) w) as [fd' w1].
  destruct (use_ipv6_address_family g && negb (fd' =? -1));
    [destruct (sys_setsockopt fd' (IPV6_V6ONLY 0) w1) as [r1 w2] |];
    (destruct (negb (fd' =? -1) && negb video && (0 <? dscp_audio_rtp g));
     [ match goal with |- context [sys_setsockopt ?a ?b ?c] =>
         destruct (sys_setsockopt a b c) end
     | destruct (negb (fd' =? -1) && video && (0 <? dscp_video_rtp g));
       [ match goal with |- context [sys_setsockopt ?a ?b ?c] =>
           destruct (sys_setsockopt a b c) end
       | ] ]);
    simpl; rewrite ?opened_fds_app; simpl; destruct (fd' =? -1); reflexivity.
Qed.

Lemma open_rtcp_socket_fds g fd (w : World) :
  open_fd fd ++ opened_fds (snd (open_rtcp_socket g fd w))
    = open_fd (fst (fst (open_rtcp_socket g fd w))).
Proof.
  unfold open_rtcp_socket, open_fd.
  destruct (fd =? -1) eqn:Hfd; [| simpl; rewrite Hfd; reflexivity].
  destruct (sys_socket (use_ipv6_address_family g) w) as [fd' w1].
  destruct (use_ipv6_address_family g && negb (fd' =? -1));
    [destruct (sys_setsockopt fd' (IPV6_V6ONLY 0) w1) as [r1 w2] |];
    simpl; destruct (fd' =? -1); reflexivity.
Qed.

(** The sockets an iteration opens: no [bind], no [close]. *)
Lemma open_rtp_socket_calls video g fd (w : World) :
  bind_calls (snd (open_rtp_socket video g fd w)) = [] /\
  closed_fds (snd (open_rtp_socket video g fd w)) = [].
Proof.
  unfold open_rtp_socket.
  destruct (fd =? -1); [| auto].
  destruct (sys_socket (use_ipv6_address_family g) w) as [fd' w1].
  destruct (use_ipv6_address_family g && negb (fd' =? -1));
    [destruct (sys_setsockopt fd' (IPV6_V6ONLY 0) w1) as [r1 w2] |];
    (destruct (negb (fd' =? -1) && negb video && (0 <? dscp_audio_rtp g));
     [ match goal with |- context [sys_setsockopt ?a ?b ?c] =>
         destruct (sys_setsockopt a b c) end; simpl; auto
     | destruct (negb (fd' =? -1) && video && (0 <? dscp_video_rtp g));
       [ match goal with |- context [sys_setsockopt ?a ?b ?c] =>
           destruct (sys_setsockopt a b c) end; simpl; auto
       | simpl; auto ] ]).
Qed.

Lemma open_rtcp_socket_calls g fd (w : World) :
  bind_calls (snd (open_rtcp_socket g fd w)) = [] /\
  closed_fds (snd (open_rtcp_socket g fd w)) = [].
Proof.
  unfold open_rtcp_socket.
  destruct (fd =? -1); [| auto].
  destruct (sys_socket (use_ipv6_address_family g) w) as [fd' w1].
  destruct (use_ipv6_address_family g && negb (fd' =? -1));
    [destruct (sys_setsockopt fd' (IPV6_V6ONLY 0) w1) as [r1 w2] |]; simpl; auto.
Qed.


Lemma closed_fds_app tr1 tr2 : closed_fds (tr1 ++ tr2) = closed_fds tr1 ++ closed_fds tr2.
Proof. apply flat_map_app. Qed.






End AllocatorFacts.



(** The range minimum that [janus_nosip_init] leaves is even, except for a
    configured range of one odd port, where the second swap undoes the
    rounding. *)
Lemma janus_nosip_init_port_range_ok g :
  0 <= rtp_range_min g <= 65535 -> 0 <= rtp_range_max g <= 65535 ->
  range_ok (janus_nosip_init_port_range g).
Proof.
  intros Hmin Hmax. unfold janus_nosip_init_port_range, range_ok, uint16.
  destruct g as [mn mx sl v6 ip da dv lip sip ne ini stp gw]; simpl in *.
  repeat match goal with
         | |- context [if ?b then _ else _] => destruct b eqn:?; simpl in *
         end;
    repeat match goal with
           | H : (_ <? _) = true |- _ => apply Z.ltb_lt in H
           | H : (_ <? _) = false |- _ => apply Z.ltb_ge in H
           | H : (_ =? _) = true |- _ => apply Z.eqb_eq in H
           | H : (_ =? _) = false |- _ => apply Z.eqb_neq in H
           | H : negb _ = true |- _ => apply negb_true_iff in H
           | H : negb _ = false |- _ => apply negb_false_iff in H
           end;
    repeat split; try mlia.
Qed.

Lemma janus_nosip_init_port_range_even g :
  0 <= rtp_range_min g <= 65535 -> 0 <= rtp_range_max g <= 65535 ->
  ~ (rtp_range_min g = rtp_range_max g /\ Z.odd (rtp_range_min g) = true) ->
  Z.even (rtp_range_min (janus_nosip_init_port_range g)) = true.
Proof.
  intros Hmin Hmax Hne. unfold janus_nosip_init_port_range, uint16.
  rewrite <- Z.negb_even, negb_true_iff in Hne.
  destruct g as [mn mx sl v6 ip da dv lip sip ne ini stp gw]; simpl in *.
  repeat match goal with
         | |- context [if ?b then _ else _] => destruct b eqn:?; simpl in *
         end;
    repeat match goal with
           | H : (_ <? _) = true |- _ => apply Z.ltb_lt in H
           | H : (_ <? _) = false |- _ => apply Z.ltb_ge in H
           | H : (_ =? _) = true |- _ => apply Z.eqb_eq in H
           | H : (_ =? _) = false |- _ => apply Z.eqb_neq in H
           | H : negb _ = true |- _ => apply negb_true_iff in H
           | H : negb _ = false |- _ => apply negb_false_iff in H
           end;
    rewrite ?Zeven_mod, ?Z.eqb_eq in *;
    try mlia.
  all: exfalso; apply Hne; split; [mlia |]; apply not_true_is_false;
    rewrite Zeven_mod, Z.eqb_eq; mlia.
Qed.

(** A configured range ["5-5"]: the minimum ends up odd, and so does the RTP
    port of the pair the allocator returns. *)
Example odd_single_port_range :
  let g := janus_nosip_init_port_range
             (default_globals <| rtp_range_min := 5 |> <| rtp_range_max := 5 |>) in
  rtp_range_min g = 5 /\ rtp_range_max g = 6 /\
  exists a w',
    janus_nosip_allocate_port_pair 2 false g (free_world [] 5) = Some (a, w') /\
    ret a = 0 /\ ports a = Some (5, 6).
Proof.
  split; [reflexivity |]. split; [reflexivity |].
  eexists; eexists. split; [vm_compute; reflexivity |]. auto.
Qed.




(** ** SRTP policies *)

Section SrtpFacts.
Context {World : Type} {L : Libs World}.

Lemma set_srtp_policies_table p pol :
  profile_supported p = true ->
  profile_policies p (set_srtp_policies p pol).
Proof.
  destruct p; simpl; intros H; try discriminate; try rewrite H; simpl; auto.
Qed.

Lemma profile_policies_set_ssrc_key p pol t k :
  profile_policies p pol ->
  profile_policies p (pol <| ssrc_type := t |> <| key := k |>).
Proof. destruct p, pol; simpl; auto. Qed.

Lemma profile_policies_variants p pol :
  profile_policies p pol ->
  (p = JANUS_SRTP_AES128_CM_SHA1_32 ->
   rtp pol = aes_cm_128_hmac_sha1_32 /\ rtcp pol = aes_cm_128_hmac_sha1_80) /\
  (p <> JANUS_SRTP_AES128_CM_SHA1_32 -> rtp pol = rtcp pol).
Proof.
  destruct p; simpl; intros H; split; intros E; try discriminate; try tauto;
    destruct H; congruence.
Qed.

(** A context [janus_nosip_srtp_set_local] installs is created from a
    policy that follows the table. *)
Lemma janus_nosip_srtp_set_local_policy m video (w : World) m' w' :
  janus_nosip_srtp_set_local m video w = (0, m', w') ->
  srtp_profile m' = srtp_profile m /\
  exists pol, srtp_out_of video m' = Some pol /\ profile_policies (srtp_profile m) pol.
Proof.
  unfold janus_nosip_srtp_set_local, srtp_out_of.
  assert (Hsup : forall x,
    match srtp_profile m with
    | JANUS_SRTP_NONE => None
    | JANUS_SRTP_AES128_CM_SHA1_32 => Some (SRTP_MASTER_LENGTH, "AES_CM_128_HMAC_SHA1_32")
    | JANUS_SRTP_AES128_CM_SHA1_80 => Some (SRTP_MASTER_LENGTH, "AES_CM_128_HMAC_SHA1_80")
    | JANUS_SRTP_AEAD_AES_128_GCM =>
        if HAVE_SRTP_AESGCM then Some (SRTP_AESGCM128_MASTER_LENGTH, "AEAD_AES_128_GCM")
        else None
    | JANUS_SRTP_AEAD_AES_256_GCM =>
        if HAVE_SRTP_AESGCM then Some (SRTP_AESGCM256_MASTER_LENGTH, "AEAD_AES_256_GCM")
        else None
    end = Some x -> profile_supported (srtp_profile m) = true).
  { intros x. destruct (srtp_profile m); simpl; try discriminate; auto;
      destruct HAVE_SRTP_AESGCM; auto; discriminate. }
  destruct (match srtp_profile m with JANUS_SRTP_NONE => _ | _ => _ end) as [[len name]|];
    [| intros H; inversion H].
  specialize (Hsup _ eq_refl).
  destruct (srtp_crypto_get_random len w) as [bytes w1].
  destruct video; simpl;
    match goal with |- context [srtp_create ?p ?w] => destruct (srtp_create p w) as [res w2] end;
    (destruct (res =? srtp_err_status_ok); simpl; intros H; inversion H; subst; clear H);
    simpl; (split; [reflexivity |]); eexists; (split; [reflexivity |]);
    apply profile_policies_set_ssrc_key, set_srtp_policies_table, Hsup.
Qed.

(** Likewise for [janus_nosip_srtp_set_remote], with the profile the crypto
    line names. *)
Lemma janus_nosip_srtp_set_remote_policy m video profile crypto (w : World) m' w' :
  janus_nosip_srtp_set_remote m video profile crypto w = (0, m', w') ->
  exists pol, srtp_in_of video m' = Some pol /\ profile_policies (srtp_profile m') pol.
Proof.
  unfold janus_nosip_srtp_set_remote, srtp_in_of.
  destruct profile as [profile|]; [| intros H; inversion H].
  destruct crypto as [crypto|]; [| intros H; inversion H].
  set (chosen := if strcasecmp profile "AES_CM_128_HMAC_SHA1_32" =? 0 then _ else _).
  assert (Hsup : forall p len, chosen = Some (p, len) -> profile_supported p = true).
  { subst chosen. intros p len.
    destruct (strcasecmp profile "AES_CM_128_HMAC_SHA1_32" =? 0);
      [intros H; inversion H; reflexivity |].
    destruct (strcasecmp profile "AES_CM_128_HMAC_SHA1_80" =? 0);
      [intros H; inversion H; reflexivity |].
    destruct HAVE_SRTP_AESGCM eqn:Hgcm; simpl.
    - destruct (strcasecmp profile "AEAD_AES_128_GCM" =? 0);
        [intros H; inversion H; simpl; assumption |].
      destruct (strcasecmp profile "AEAD_AES_256_GCM" =? 0);
        [intros H; inversion H; simpl; assumption | discriminate].
    - discriminate. }
  destruct chosen as [[p len]|]; [| intros H; inversion H].
  specialize (Hsup _ _ eq_refl).
  destruct (Z.of_nat (List.length (g_base64_decode crypto)) <? len);
    [intros H; inversion H |].
  destruct video; simpl;
    match goal with |- context [srtp_create ?p ?w] => destruct (srtp_create p w) as [res w2] end;
    (destruct (res =? srtp_err_status_ok); simpl; intros H; inversion H; subst; clear H);
    simpl; eexists; (split; [reflexivity |]);
    apply profile_policies_set_ssrc_key, set_srtp_policies_table, Hsup.
Qed.

(** C7: a context installed for the local or for the remote side is created
    from the policies of the profile table; with AES_CM_128_HMAC_SHA1_32 the
    RTP policy is the 32-bit one and the RTCP policy the 80-bit one, with
    every other profile the two policies are the same. *)
Theorem srtp_context_policies m video profile crypto (w : World) m' w' :
  (janus_nosip_srtp_set_local m video w = (0, m', w') ->
   exists pol, srtp_out_of video m' = Some pol /\
     profile_policies (srtp_profile m') pol /\
     (srtp_profile m' = JANUS_SRTP_AES128_CM_SHA1_32 ->
      rtp pol = aes_cm_128_hmac_sha1_32 /\ rtcp pol = aes_cm_128_hmac_sha1_80) /\
     (srtp_profile m' <> JANUS_SRTP_AES128_CM_SHA1_32 -> rtp pol = rtcp pol)) /\
  (janus_nosip_srtp_set_remote m video profile crypto w = (0, m', w') ->
   exists pol, srtp_in_of video m' = Some pol /\
     profile_policies (srtp_profile m') pol /\
     (srtp_profile m' = JANUS_SRTP_AES128_CM_SHA1_32 ->
      rtp pol = aes_cm_128_hmac_sha1_32 /\ rtcp pol = aes_cm_128_hmac_sha1_80) /\
     (srtp_profile m' <> JANUS_SRTP_AES128_CM_SHA1_32 -> rtp pol = rtcp pol)).
Proof.
  split; intros H.
  - apply janus_nosip_srtp_set_local_policy in H as (Hp & pol & Hout & Htab).
    rewrite Hp. exists pol. split; [assumption |]. split; [assumption |].
    apply profile_policies_variants, Htab.
  - apply janus_nosip_srtp_set_remote_policy in H as (pol & Hin & Htab).
    exists pol. split; [assumption |]. split; [assumption |].
    apply profile_policies_variants, Htab.
Qed.

End SrtpFacts.

(** [srtp_context_policies] at a session that negotiates
    AES_CM_128_HMAC_SHA1_32, for the local audio context and for the remote
    one. *)
Lemma srtp_context_policies_witness :
  let m := fresh_media <| srtp_profile := JANUS_SRTP_AES128_CM_SHA1_32 |> in
  let w := free_world [] 5 in
  let local := janus_nosip_srtp_set_local (L := sim_libs []) m false w in
  let remote := janus_nosip_srtp_set_remote (L := sim_libs []) fresh_media false
                  (Some "AES_CM_128_HMAC_SHA1_32")
                  (Some "AAAAAAAAAAAAAAAAAAAAAAAAAAAAAAAAAAAAAAAA") w in
  (exists pol, srtp_out_of false (snd (fst local)) = Some pol /\
     rtp pol = aes_cm_128_hmac_sha1_32 /\ rtcp pol = aes_cm_128_hmac_sha1_80) /\
  (exists pol, srtp_in_of false (snd (fst remote)) = Some pol /\
     rtp pol = aes_cm_128_hmac_sha1_32 /\ rtcp pol = aes_cm_128_hmac_sha1_80).
Proof.
  intros m w local remote. split.
  - destruct (proj1 (srtp_context_policies (L := sim_libs []) m false None None w
                       (snd (fst local)) (snd local)) eq_refl)
      as (pol & Hout & _ & H32 & _).
    exists pol. split; [exact Hout | exact (H32 eq_refl)].
  - destruct (proj2 (srtp_context_policies (L := sim_libs []) fresh_media false
                       (Some "AES_CM_128_HMAC_SHA1_32")
                       (Some "AAAAAAAAAAAAAAAAAAAAAAAAAAAAAAAAAAAAAAAA") w
                       (snd (fst remote)) (snd remote)) eq_refl)
      as (pol & Hin & _ & H32 & _).
    exists pol. split; [exact Hin | exact (H32 eq_refl)].
Defined.

(** ** Outbound RTP *)

Section OutboundFacts.
Context {World : Type} {L : Libs World}.

(** C10: a packet that gets past the entry checks, the direction flag and
    the simulcast filter while the local SSRC of its medium is still 0 leaves
    the SSRC of its header stored in the session, whether or not it is then
    forwarded; it is not forwarded when the medium is not negotiated or its
    RTP socket is absent. *)
Theorem incoming_rtp_learns_ssrc g h session packet (w : World) :
  stopped h = 0 -> stopping g = 0 -> initialized g <> 0 -> gateway g = true ->
  plugin_handle h = Some session -> destroyed session = 0 ->
  send_allowed (pkt_video packet) (media session) = true ->
  (pkt_video packet = true ->
   simulcast_ssrc (media session) = 0 \/
   ntohl_ssrc (pkt_buffer packet) = simulcast_ssrc (media session)) ->
  local_ssrc_of (pkt_video packet) (media session) = 0 ->
  exists session' w' sent,
    janus_nosip_incoming_rtp g (Some h) packet w = (Some session', w', sent) /\
    local_ssrc_of (pkt_video packet) (media session') = ntohl_ssrc (pkt_buffer packet) /\
    (has_medium (pkt_video packet) (media session) = false \/
     rtp_fd_of (pkt_video packet) (media session) = -1 ->
     sent = []).
Proof.
  intros Hstopped Hstopping Hinit Hgw Hsession Hdestroyed Hsend Hsim Hssrc.
  unfold janus_nosip_incoming_rtp.
  rewrite Hstopped, Hstopping, Hgw, Hsession, Hdestroyed.
  apply Z.eqb_neq in Hinit. rewrite Hinit. simpl.
  unfold send_allowed, local_ssrc_of, has_medium, rtp_fd_of in *.
  destruct (pkt_video packet) eqn:Hvideo; simpl.
  - rewrite Hsend, Hssrc. simpl.
    assert (Hdrop : negb (simulcast_ssrc (media session) =? 0) &&
                    negb (ntohl_ssrc (pkt_buffer packet) =? simulcast_ssrc (media session))
                    = false).
    { destruct (Hsim eq_refl) as [E | E]; rewrite E.
      - reflexivity.
      - rewrite Z.eqb_refl. apply andb_false_r. }
    rewrite Hdrop. simpl.
    destruct (has_video (media session)) eqn:Hhas; simpl.
    + destruct (video_rtp_fd (media session) =? -1) eqn:Hfd; simpl.
      * do 3 eexists. split; [reflexivity |]. simpl. auto.
      * apply Z.eqb_neq in Hfd.
        destruct (has_srtp_local (media session)).
        -- match goal with |- context [srtp_protect ?c ?b ?x] =>
             destruct (srtp_protect c b x) as [[res sbuf] w1] end.
           destruct (res =? srtp_err_status_ok); simpl.
           ++ match goal with |- context [send ?f ?b ?x] =>
                destruct (send f b x) as [r w2] end.
              do 3 eexists. split; [reflexivity |]. simpl.
              split; [reflexivity |]. intros [? | ?]; [discriminate | contradiction].
           ++ do 3 eexists. split; [reflexivity |]. simpl. auto.
        -- match goal with |- context [send ?f ?b ?x] =>
             destruct (send f b x) as [r w2] end.
           do 3 eexists. split; [reflexivity |]. simpl.
           split; [reflexivity |]. intros [? | ?]; [discriminate | contradiction].
    + do 3 eexists. split; [reflexivity |]. simpl. auto.
  - rewrite Hsend, Hssrc. simpl.
    destruct (has_audio (media session)) eqn:Hhas; simpl.
    + destruct (audio_rtp_fd (media session) =? -1) eqn:Hfd; simpl.
      * do 3 eexists. split; [reflexivity |]. simpl. auto.
      * apply Z.eqb_neq in Hfd.
        destruct (has_srtp_local (media session)).
        -- match goal with |- context [srtp_protect ?c ?b ?x] =>
             destruct (srtp_protect c b x) as [[res sbuf] w1] end.
           destruct (res =? srtp_err_status_ok); simpl.
           ++ match goal with |- context [send ?f ?b ?x] =>
                destruct (send f b x) as [r w2] end.
              do 3 eexists. split; [reflexivity |]. simpl.
              split; [reflexivity |]. intros [? | ?]; [discriminate | contradiction].
           ++ do 3 eexists. split; [reflexivity |]. simpl. auto.
        -- match goal with |- context [send ?f ?b ?x] =>
             destruct (send f b x) as [r w2] end.
           do 3 eexists. split; [reflexivity |]. simpl.
           split; [reflexivity |]. intros [? | ?]; [discriminate | contradiction].
    + do 3 eexists. split; [reflexivity |]. simpl. auto.
Qed.

End OutboundFacts.

(** [incoming_rtp_learns_ssrc] for the first audio packet of a session
    that has no audio negotiated and no socket: the SSRC [0x01020304] is
    stored and nothing is sent. *)
Lemma incoming_rtp_learns_ssrc_witness :
  exists session' w' sent,
    janus_nosip_incoming_rtp (L := sim_libs []) default_globals
      (Some {| stopped := 0; plugin_handle := Some (janus_nosip_create_session 1) |})
      (sample_rtp false) (free_world [] 5) = (Some session', w', sent) /\
    local_ssrc_of false (media session') = 16909060 /\
    (has_medium false (media (janus_nosip_create_session 1)) = false \/
     rtp_fd_of false (media (janus_nosip_create_session 1)) = -1 ->
     sent = []).
Proof.
  apply (incoming_rtp_learns_ssrc (L := sim_libs []) default_globals
           {| stopped := 0; plugin_handle := Some (janus_nosip_create_session 1) |}
           (janus_nosip_create_session 1) (sample_rtp false) (free_world [] 5));
    try reflexivity.
  - simpl. lia.
  - simpl. discriminate.
Defined.

(** ** Processing a remote description *)

Section SdpFacts.
Context {World : Type} {K : Kernel World} {L : Libs World}.

Lemma same_endpoints_refl m : same_endpoints m m.
Proof. unfold same_endpoints; tauto. Qed.

Lemma same_endpoints_trans m1 m2 m3 :
  same_endpoints m1 m2 -> same_endpoints m2 m3 -> same_endpoints m1 m3.
Proof. unfold same_endpoints; intuition congruence. Qed.

Lemma janus_nosip_srtp_set_remote_endpoints m video profile crypto (w : World) :
  same_endpoints m (snd (fst (janus_nosip_srtp_set_remote m video profile crypto w))).
Proof.
  unfold janus_nosip_srtp_set_remote.
  destruct profile as [profile|]; [| apply same_endpoints_refl].
  destruct crypto as [crypto|]; [| apply same_endpoints_refl].
  destruct (if strcasecmp profile "AES_CM_128_HMAC_SHA1_32" =? 0 then _ else _)
    as [[p len]|]; [| apply same_endpoints_refl].
  destruct (Z.of_nat (List.length (g_base64_decode crypto)) <? len);
    [unfold same_endpoints; simpl; tauto |].
  destruct video;
    match goal with |- context [srtp_create ?p ?x] => destruct (srtp_create p x) as [res w2] end;
    destruct (negb (res =? srtp_err_status_ok)); unfold same_endpoints; simpl; tauto.
Qed.

Lemma process_attribute_endpoints answer ml m (w : World) a :
  same_endpoints m (fst (process_attribute answer ml (m, w) a)).
Proof.
  unfold process_attribute.
  destruct (a_name a) as [n|]; [| apply same_endpoints_refl].
  destruct (strcasecmp n "crypto" =? 0).
  - destruct (is_audio ml || is_video ml); [| apply same_endpoints_refl].
    destruct ((is_audio ml && not_null (audio_srtp_in m)) ||
              (is_video ml && not_null (video_srtp_in m))); [apply same_endpoints_refl |].
    destruct (match a_value a with Some v => sscanf_crypto v | None => None end)
      as [[[tag profile] crypto]|]; [| apply same_endpoints_refl].
    destruct (answer && _); [apply same_endpoints_refl |].
    pose proof (janus_nosip_srtp_set_remote_endpoints m (is_video ml)
                  (Some profile) (Some crypto) w) as Hrem.
    destruct (janus_nosip_srtp_set_remote m (is_video ml) (Some profile) (Some crypto) w)
      as [[res m1] w1]. simpl in Hrem.
    destruct (res <? 0); [exact Hrem |].
    eapply same_endpoints_trans; [exact Hrem |].
    destruct (negb (is_video ml)); unfold same_endpoints; simpl; tauto.
  - destruct (is_video ml && (strcasecmp n "rtcp-fb" =? 0) && not_null (a_value a));
      [| apply same_endpoints_refl].
    destruct (a_value a) as [v|]; [| apply same_endpoints_refl].
    destruct (not_null (strstr v " pli")); [| apply same_endpoints_refl].
    unfold same_endpoints; simpl; tauto.
Qed.

Lemma process_attributes_endpoints answer ml attrs m (w : World) :
  same_endpoints m (fst (fold_left (process_attribute answer ml) attrs (m, w))).
Proof.
  revert m w. induction attrs as [|a attrs IH]; intros m w; cbn [fold_left].
  - apply same_endpoints_refl.
  - pose proof (process_attribute_endpoints answer ml m w a) as Ha.
    destruct (process_attribute answer ml (m, w) a) as [m1 w1].
    eapply same_endpoints_trans; [exact Ha | apply IH].
Qed.

Lemma negotiated_codec_endpoints sdp opusred ml m :
  same_endpoints m (negotiated_codec sdp opusred ml m).
Proof.
  unfold negotiated_codec.
  destruct (-1 <? match m_ptypes ml with [] => -1 | pt :: _ => pt end);
    [| apply same_endpoints_refl].
  destruct (is_audio ml).
  - destruct (_ =? opusred); unfold same_endpoints; simpl; tauto.
  - unfold same_endpoints; simpl; tauto.
Qed.

Lemma process_mline_port_endpoints ml m changed :
  let m' := fst (process_mline_port ml m changed) in
  has_audio m' = has_audio m || (is_audio ml && negb (m_port ml =? 0)) /\
  has_video m' = has_video m || (negb (is_audio ml) && negb (m_port ml =? 0)) /\
  (if is_audio ml && negb (m_port ml =? 0)
   then remote_audio_rtp_port m' = m_port ml /\ remote_audio_rtcp_port m' = m_port ml + 1
   else remote_audio_rtp_port m' = remote_audio_rtp_port m /\
        remote_audio_rtcp_port m' = remote_audio_rtcp_port m) /\
  (if negb (is_audio ml) && negb (m_port ml =? 0)
   then remote_video_rtp_port m' = m_port ml /\ remote_video_rtcp_port m' = m_port ml + 1
   else remote_video_rtp_port m' = remote_video_rtp_port m /\
        remote_video_rtcp_port m' = remote_video_rtcp_port m) /\
  require_srtp m' = require_srtp m /\ ready m' = ready m.
Proof.
  unfold process_mline_port.
  destruct (is_audio ml), (m_port ml =? 0); simpl;
    rewrite ?orb_false_r, ?orb_true_r; tauto.
Qed.

Lemma process_mline_c_addr_endpoints update ml m changed :
  let m' := fst (process_mline_c_addr update ml m changed) in
  has_audio m' = has_audio m /\ has_video m' = has_video m /\
  remote_audio_rtp_port m' = remote_audio_rtp_port m /\
  remote_audio_rtcp_port m' = remote_audio_rtcp_port m /\
  remote_video_rtp_port m' = remote_video_rtp_port m /\
  remote_video_rtcp_port m' = remote_video_rtcp_port m /\
  require_srtp m' = require_srtp m /\ ready m' = ready m.
Proof.
  unfold process_mline_c_addr.
  destruct (m_c_addr ml); [destruct (is_audio ml) |]; simpl; tauto.
Qed.

Lemma is_audio_video_exclusive ml :
  is_audio ml || is_video ml = true -> is_video ml = negb (is_audio ml).
Proof. unfold is_audio, is_video. destruct (m_type ml); simpl; auto. Qed.

(** What one media section does to the flags and the remote ports. *)
Lemma process_mline_endpoints sdp answer update opusred m changed (w : World) ml m' changed' w' :
  process_mline sdp answer update opusred (m, changed, w) ml = (m', changed', w') ->
  has_audio m' = has_audio m || (is_audio ml && negb (m_port ml =? 0)) /\
  has_video m' = has_video m || (is_video ml && negb (m_port ml =? 0)) /\
  (if is_audio ml && negb (m_port ml =? 0)
   then remote_audio_rtp_port m' = m_port ml /\ remote_audio_rtcp_port m' = m_port ml + 1
   else remote_audio_rtp_port m' = remote_audio_rtp_port m /\
        remote_audio_rtcp_port m' = remote_audio_rtcp_port m) /\
  (if is_video ml && negb (m_port ml =? 0)
   then remote_video_rtp_port m' = m_port ml /\ remote_video_rtcp_port m' = m_port ml + 1
   else remote_video_rtp_port m' = remote_video_rtp_port m /\
        remote_video_rtcp_port m' = remote_video_rtcp_port m) /\
  ready m' = ready m.
Proof.
  unfold process_mline.
  set (m0 := m <| require_srtp := _ |>).
  assert (H0 : has_audio m0 = has_audio m /\ has_video m0 = has_video m /\
               remote_audio_rtp_port m0 = remote_audio_rtp_port m /\
               remote_audio_rtcp_port m0 = remote_audio_rtcp_port m /\
               remote_video_rtp_port m0 = remote_video_rtp_port m /\
               remote_video_rtcp_port m0 = remote_video_rtcp_port m /\
               ready m0 = ready m)
    by (subst m0; simpl; tauto).
  destruct H0 as (<- & <- & <- & <- & <- & <- & <-). clearbody m0.
  destruct (is_audio ml || is_video ml) eqn:Hav.
  - rewrite (is_audio_video_exclusive ml Hav).
    pose proof (process_mline_port_endpoints ml m0 changed) as Hp.
    destruct (process_mline_port ml m0 changed) as [m1 ch1]. simpl in Hp.
    pose proof (process_mline_c_addr_endpoints update ml m1 ch1) as Hc.
    destruct (process_mline_c_addr update ml m1 ch1) as [m2 ch2]. simpl in Hc.
    pose proof (process_attributes_endpoints answer ml (m_attributes ml) m2 w) as Ha.
    destruct (fold_left (process_attribute answer ml) (m_attributes ml) (m2, w)) as [m3 w3].
    simpl in Ha.
    pose proof (negotiated_codec_endpoints sdp opusred ml m3) as Hn.
    intros E. injection E as Em Ech Ew.
    unfold same_endpoints in *.
    destruct Hp as (Hp1 & Hp2 & Hp3 & Hp4 & Hp5 & Hp6).
    assert (Hfin : has_audio m' = has_audio m1 /\ has_video m' = has_video m1 /\
                   remote_audio_rtp_port m' = remote_audio_rtp_port m1 /\
                   remote_audio_rtcp_port m' = remote_audio_rtcp_port m1 /\
                   remote_video_rtp_port m' = remote_video_rtp_port m1 /\
                   remote_video_rtcp_port m' = remote_video_rtcp_port m1 /\
                   ready m' = ready m1)
      by (rewrite <- Em; destruct answer; intuition congruence).
    destruct Hfin as (-> & -> & -> & -> & -> & -> & ->).
    repeat split; try assumption.
  - apply orb_false_iff in Hav as [-> ->]. simpl.
    intros E. inversion E; subst; clear E. rewrite !orb_false_r. tauto.
Qed.

Lemma process_mlines_endpoints sdp answer update opusred lines :
  forall m changed (w : World) m' changed' w',
    fold_left (process_mline sdp answer update opusred) lines (m, changed, w)
      = (m', changed', w') ->
    has_audio m' =
      has_audio m || existsb (fun ml => is_audio ml && negb (m_port ml =? 0)) lines /\
    has_video m' =
      has_video m || existsb (fun ml => is_video ml && negb (m_port ml =? 0)) lines /\
    ready m' = ready m /\
    (Forall (fun ml => 0 <= m_port ml <= 65535) lines ->
     (if existsb (fun ml => is_audio ml && negb (m_port ml =? 0)) lines
      then remote_audio_pair m'
      else remote_audio_rtp_port m' = remote_audio_rtp_port m /\
           remote_audio_rtcp_port m' = remote_audio_rtcp_port m) /\
     (if existsb (fun ml => is_video ml && negb (m_port ml =? 0)) lines
      then remote_video_pair m'
      else remote_video_rtp_port m' = remote_video_rtp_port m /\
           remote_video_rtcp_port m' = remote_video_rtcp_port m)).
Proof.
  induction lines as [|ml lines IH]; intros m changed w m' changed' w'; cbn [fold_left existsb].
  - intros E. inversion E; subst. rewrite !orb_false_r. tauto.
  - destruct (process_mline sdp answer update opusred (m, changed, w) ml)
      as [[m1 ch1] w1] eqn:Hml.
    apply process_mline_endpoints in Hml as (Ha & Hv & Hap & Hvp & Hr).
    intros E. apply IH in E as (Ha' & Hv' & Hr' & Hports).
    rewrite Ha', Hv', Hr', Ha, Hv, Hr, !orb_assoc.
    split; [reflexivity |]. split; [reflexivity |]. split; [reflexivity |].
    intros Hok. inversion Hok as [|? ? Hml Hlines]; subst.
    destruct (Hports Hlines) as [Hpa Hpv]. unfold remote_audio_pair, remote_video_pair in *.
    split.
    + destruct (existsb (fun ml => is_audio ml && negb (m_port ml =? 0)) lines).
      * rewrite orb_true_r. assumption.
      * rewrite orb_false_r.
        destruct (is_audio ml && negb (m_port ml =? 0)) eqn:Hnz.
        -- apply andb_true_iff in Hnz as [_ Hnz].
           apply negb_true_iff, Z.eqb_neq in Hnz. lia.
        -- intuition congruence.
    + destruct (existsb (fun ml => is_video ml && negb (m_port ml =? 0)) lines).
      * rewrite orb_true_r. assumption.
      * rewrite orb_false_r.
        destruct (is_video ml && negb (m_port ml =? 0)) eqn:Hnz.
        -- apply andb_true_iff in Hnz as [_ Hnz].
           apply negb_true_iff, Z.eqb_neq in Hnz. lia.
        -- intuition congruence.
Qed.

(** [janus_nosip_sdp_process] as a whole. *)
Lemma janus_nosip_sdp_process_endpoints m sdp answer update changed (w : World) m' changed' w' tr :
  janus_nosip_sdp_process m sdp answer update changed w = (m', changed', w', tr) ->
  has_audio m' = has_audio m || offers_audio sdp /\
  has_video m' = has_video m || offers_video sdp /\
  ready m' = ready m /\
  (sdp_ports_ok sdp ->
   (offers_audio sdp = true -> remote_audio_pair m') /\
   (offers_video sdp = true -> remote_video_pair m')).
Proof.
  unfold janus_nosip_sdp_process, offers_audio, offers_video, sdp_ports_ok.
  set (mc := match c_addr sdp with Some _ => _ | None => _ end).
  assert (Hc : has_audio (fst mc) = has_audio m /\ has_video (fst mc) = has_video m /\
               ready (fst mc) = ready m)
    by (subst mc; destruct (c_addr sdp); simpl; tauto).
  destruct mc as [m0 ch0]. simpl in Hc. destruct Hc as (<- & <- & <-).
  destruct (fold_left _ (m_lines sdp) (m0, ch0, w)) as [[m1 ch1] w1] eqn:Hfold.
  apply process_mlines_endpoints in Hfold as (Ha & Hv & Hr & Hports).
  intros E.
  assert (Hfin :
    has_audio m' = has_audio m1 /\ has_video m' = has_video m1 /\ ready m' = ready m1 /\
    remote_audio_rtp_port m' = remote_audio_rtp_port m1 /\
    remote_audio_rtcp_port m' = remote_audio_rtcp_port m1 /\
    remote_video_rtp_port m' = remote_video_rtp_port m1 /\
    remote_video_rtcp_port m' = remote_video_rtcp_port m1).
  { destruct (update && ch1); [| inversion E; subst; tauto].
    cbv zeta in E. destruct (0 <? snd (pipefd (m1 <| updated := true |>))).
    - destruct (sys_write _ w1). inversion E; subst. simpl. tauto.
    - inversion E; subst. simpl. tauto. }
  destruct Hfin as (-> & -> & -> & Hp1 & Hp2 & Hp3 & Hp4).
  split; [assumption |]. split; [assumption |]. split; [assumption |].
  intros Hok. destruct (Hports Hok) as [Hpa Hpv].
  unfold remote_audio_pair, remote_video_pair in *. rewrite Hp1, Hp2, Hp3, Hp4.
  split; intros Ex; rewrite Ex in *; assumption.
Qed.

Lemma offers_audio_In sdp ml :
  In ml (m_lines sdp) -> is_audio ml = true -> m_port ml <> 0 -> offers_audio sdp = true.
Proof.
  intros Hin Ha Hp. apply existsb_exists. exists ml. split; [assumption |].
  rewrite Ha. simpl. apply negb_true_iff, Z.eqb_neq. assumption.
Qed.

Lemma offers_video_In sdp ml :
  In ml (m_lines sdp) -> is_video ml = true -> m_port ml <> 0 -> offers_video sdp = true.
Proof.
  intros Hin Ha Hp. apply existsb_exists. exists ml. split; [assumption |].
  rewrite Ha. simpl. apply negb_true_iff, Z.eqb_neq. assumption.
Qed.

End SdpFacts.

(** ** The request handler *)

Lemma tolower_code c d :
  Ascii.eqb (tolower c) d = false -> char_code (tolower c) - char_code d <> 0.
Proof.
  intros Hne Heq. unfold char_code in Heq.
  assert (nat_of_ascii (tolower c) = nat_of_ascii d) by lia.
  assert (tolower c = d)
    by (rewrite <- (ascii_nat_embedding (tolower c)), <- (ascii_nat_embedding d); congruence).
  subst d. rewrite Ascii.eqb_refl in Hne. discriminate.
Qed.

(** Two names that differ in their first letter are not both matched by
    [strcasecmp]. *)
Lemma strcasecmp_first_letter text c a d b :
  Ascii.eqb c d = false -> tolower c = c -> tolower d = d ->
  strcasecmp text (String c a) = 0 -> (strcasecmp text (String d b) =? 0) = false.
Proof.
  intros Hcd Hc Hd. destruct text as [|x text]; simpl.
  - rewrite Hc, Hd. intros H. apply Z.eqb_neq. intros H'.
    unfold char_code in *. 
    assert (nat_of_ascii c = nat_of_ascii d) by lia.
    assert (c = d)
      by (rewrite <- (ascii_nat_embedding c), <- (ascii_nat_embedding d); congruence).
    subst d. rewrite Ascii.eqb_refl in Hcd. discriminate.
  - rewrite Hc, Hd.
    destruct (Ascii.eqb (tolower x) c) eqn:Hx.
    + apply Ascii.eqb_eq in Hx. rewrite Hx, Hcd. intros _.
      apply Z.eqb_neq. unfold char_code. intros H'.
      assert (nat_of_ascii c = nat_of_ascii d) by lia.
      assert (c = d)
        by (rewrite <- (ascii_nat_embedding c), <- (ascii_nat_embedding d); congruence).
      subst d. rewrite Ascii.eqb_refl in Hcd. discriminate.
    + intros H. exfalso. revert H. apply tolower_code. assumption.
Qed.

Lemma JANUS_VALIDATE_JSON_OBJECT_result obj params missing invalid :
  let r := JANUS_VALIDATE_JSON_OBJECT obj params missing invalid in
  r = (0, "") \/
  (exists n, r = (missing, ("Missing mandatory element (" ++ n ++ ")")%string)) \/
  (exists n, r = (invalid, ("Invalid element type (" ++ n ++ ")")%string)).
Proof.
  induction params as [|p params IH]; simpl; [auto |].
  destruct (json_object_get obj (name p)) as [val|].
  - destruct (janus_json_is_valid val (jtype p)); simpl; eauto.
  - destruct (required p); simpl; eauto.
Qed.

Lemma validation_error_reported obj params code cause :
  JANUS_VALIDATE_JSON_OBJECT obj params
    JANUS_NOSIP_ERROR_MISSING_ELEMENT JANUS_NOSIP_ERROR_INVALID_ELEMENT = (code, cause) ->
  negb (code =? 0) = true ->
  reported_before_any_change code cause = true.
Proof.
  intros Hv Hcode.
  destruct (JANUS_VALIDATE_JSON_OBJECT_result obj params
              JANUS_NOSIP_ERROR_MISSING_ELEMENT JANUS_NOSIP_ERROR_INVALID_ELEMENT)
    as [H | [[n H] | [n H]]]; cbv zeta in H; rewrite Hv in H; inversion H; subst.
  - discriminate.
  - reflexivity.
  - reflexivity.
Qed.

Lemma last_response (upcalls : list upcall) o :
  last (upcalls ++ [response o]) close_pc = response o.
Proof. apply last_last. Qed.

Lemma error_code_of_response o :
  error_code_of (match response o with push_event e _ => Some e | _ => None end) =
  match o with Fail code _ => Some code | Done _ _ => None end.
Proof. destruct o as [[r|] j | code cause]; reflexivity. Qed.

Lemma error_cause_of_response o :
  error_cause_of (match response o with push_event e _ => Some e | _ => None end) =
  match o with Fail _ cause => Some cause | Done _ _ => None end.
Proof. destruct o as [[r|] j | code cause]; reflexivity. Qed.

Section HandlerFacts.
Context {World : Type} {K : Kernel World} {L : Libs World}.

Lemma read_sdp_request_failure generate msg is_ready o :
  read_sdp_request generate msg is_ready = inl o ->
  exists code cause, o = Fail code cause /\ reported_before_any_change code cause = true /\
    (code = JANUS_NOSIP_ERROR_MISSING_ELEMENT \/ code = JANUS_NOSIP_ERROR_INVALID_ELEMENT \/
     code = JANUS_NOSIP_ERROR_MISSING_SDP).
Proof.
  unfold read_sdp_request.
  destruct (JANUS_VALIDATE_JSON_OBJECT _ _ _ _) as [code cause] eqn:Hv.
  destruct (negb (code =? 0)) eqn:Hcode.
  { intros H; inversion H; subst. exists code, cause. split; [reflexivity |].
    split; [eapply validation_error_reported; eassumption |].
    apply negb_true_iff, Z.eqb_neq in Hcode.
    destruct (JANUS_VALIDATE_JSON_OBJECT_result (message msg)
                (if generate then generate_parameters else process_parameters)
                JANUS_NOSIP_ERROR_MISSING_ELEMENT JANUS_NOSIP_ERROR_INVALID_ELEMENT)
      as [E | [[n E] | [n E]]]; cbv zeta in E; rewrite Hv in E; inversion E; subst; auto.
    contradiction. }
  destruct (json_string_value (json_object_get _ "sdp")) as [text|];
    [| intros H; inversion H; subst; do 2 eexists; repeat split; auto].
  destruct (json_string_value (json_object_get _ "type")) as [type|];
    [| intros H; inversion H; subst; do 2 eexists; repeat split; auto].
  destruct (negb (strcasecmp type "offer" =? 0) && negb (strcasecmp type "answer" =? 0));
    [intros H; inversion H; subst; do 2 eexists; repeat split; auto |].
  destruct (not_null (strstr text "m=application"));
    [intros H; inversion H; subst; do 2 eexists; repeat split; auto |].
  destruct (json_is_true (json_object_get (jsep msg) "e2ee"));
    [intros H; inversion H; subst; do 2 eexists; repeat split; auto |].
  discriminate.
Qed.

(** What a request that passes [read_sdp_request] says about itself. *)
Lemma read_sdp_request_success generate msg is_ready rq :
  read_sdp_request generate msg is_ready = inr rq ->
  json_string_value
    (json_object_get (if generate then jsep msg else message msg) "sdp") = Some (msg_sdp rq) /\
  json_string_value
    (json_object_get (if generate then jsep msg else message msg) "type")
    = Some (msg_sdp_type rq) /\
  offer rq = (strcasecmp (msg_sdp_type rq) "offer" =? 0).
Proof.
  unfold read_sdp_request.
  destruct (JANUS_VALIDATE_JSON_OBJECT _ _ _ _) as [code cause] eqn:Hv.
  destruct (negb (code =? 0)); [discriminate |].
  destruct (json_string_value (json_object_get _ "sdp")) as [text|]; [| discriminate].
  destruct (json_string_value (json_object_get _ "type")) as [type|]; [| discriminate].
  destruct (negb (strcasecmp type "offer" =? 0) && negb (strcasecmp type "answer" =? 0));
    [discriminate |].
  destruct (not_null (strstr text "m=application")); [discriminate |].
  destruct (json_is_true (json_object_get (jsep msg) "e2ee")); [discriminate |].
  intros H; inversion H; subst; simpl. auto.
Qed.

Lemma read_srtp_request_failure root o :
  read_srtp_request root = inl o ->
  exists cause, o = Fail JANUS_NOSIP_ERROR_INVALID_ELEMENT cause /\
    reported_before_any_change JANUS_NOSIP_ERROR_INVALID_ELEMENT cause = true.
Proof.
  unfold read_srtp_request.
  destruct (json_object_get root "srtp") as [srtp|]; [| discriminate].
  destruct (json_string_value (Some srtp)) as [text|];
    [| intros H; inversion H; subst; eexists; split; reflexivity].
  destruct (strcasecmp text "sdes_optional" =? 0); [discriminate |].
  destruct (strcasecmp text "sdes_mandatory" =? 0); [discriminate |].
  intros H; inversion H; subst; eexists; split; reflexivity.
Qed.

Lemma read_srtp_request_success msg do_srtp require :
  read_srtp_request (message msg) = inr (do_srtp, require) ->
  do_srtp = srtp_selected msg /\
  (json_object_get (message msg) "srtp" = None -> do_srtp = false /\ require = false).
Proof.
  unfold read_srtp_request, srtp_selected.
  destruct (json_object_get (message msg) "srtp") as [srtp|];
    [| intros H; inversion H; auto].
  destruct (json_string_value (Some srtp)) as [text|]; [| discriminate].
  destruct (strcasecmp text "sdes_optional" =? 0);
    [intros H; inversion H; split; [reflexivity | discriminate] |].
  destruct (strcasecmp text "sdes_mandatory" =? 0);
    [intros H; inversion H; split; [reflexivity | discriminate] |].
  discriminate.
Qed.

(** [apply_srtp_request], when it refuses: TOO_STRICT for an answer to
    [generate] with SRTP required and no remote crypto, or the unsupported
    profile. *)
Lemma apply_srtp_request_refused generate rq do_srtp require root m o m' :
  apply_srtp_request generate rq do_srtp require root m = inl (o, m') ->
  generate = true /\
  ((exists cause, o = Fail JANUS_NOSIP_ERROR_TOO_STRICT cause) /\
   offer rq = false /\ require = true /\
   require_srtp m' = true /\ has_srtp_remote m' = false /\
   has_srtp_remote m = false /\ has_srtp_local m' = has_srtp_local m
   \/
   o = Fail JANUS_NOSIP_ERROR_INVALID_ELEMENT "Invalid element (unsupported SRTP profile)" /\
   (negb (offer rq) && require_srtp m' && negb (has_srtp_remote m') = false) /\
   (offer rq = false ->
    has_srtp_local m' = do_srtp || has_srtp_remote m /\
    has_srtp_remote m' = has_srtp_remote m)).
Proof.
  unfold apply_srtp_request.
  destruct generate; [| discriminate]. intros Happ. split; [reflexivity |]. revert Happ.
  set (m0 := if offer rq && negb (sdp_update rq) then janus_nosip_srtp_cleanup m else m).
  destruct (negb (offer rq) && require_srtp (m0 <| require_srtp := require |>) &&
            negb (has_srtp_remote (m0 <| require_srtp := require |>))) eqn:Hstrict.
  - intros H; inversion H; subst; clear H. left.
    apply andb_true_iff in Hstrict as [Hstrict Hrem].
    apply andb_true_iff in Hstrict as [Hoff Hreq].
    apply negb_true_iff in Hoff, Hrem.
    assert (Hm0 : m0 = m) by (subst m0; rewrite Hoff; reflexivity).
    rewrite Hm0 in *. simpl in *. eauto 10.
  - match goal with |- context [if ?d then _ else _] => destruct d eqn:Hdo end;
      [| discriminate].
    destruct (requested_srtp_profile _); [discriminate |].
    intros H; inversion H; subst; clear H. right. split; [reflexivity |].
    simpl in *. split; [exact Hstrict |].
    intros Hoff. subst m0. rewrite Hoff in *. simpl in *. auto.
Qed.

(** [apply_srtp_request], when it lets the request through. *)
Lemma apply_srtp_request_passed generate rq do_srtp require root m m' :
  apply_srtp_request generate rq do_srtp require root m = inr m' ->
  require_srtp m' = require /\
  (offer rq = false -> has_srtp_remote m' = has_srtp_remote m) /\
  (generate = true -> offer rq = false ->
   (require = false \/ has_srtp_remote m = true) /\
   has_srtp_local m' = do_srtp || has_srtp_remote m).
Proof.
  unfold apply_srtp_request.
  set (m0 := if offer rq && negb (sdp_update rq) then janus_nosip_srtp_cleanup m else m).
  assert (Hm0 : offer rq = false -> m0 = m) by (intros E; subst m0; rewrite E; reflexivity).
  destruct generate.
  - destruct (negb (offer rq) && require_srtp (m0 <| require_srtp := require |>) &&
              negb (has_srtp_remote (m0 <| require_srtp := require |>))) eqn:Hstrict;
      [discriminate |].
    assert (Hflags : forall m1,
      (m1 = m0 <| require_srtp := require |>
              <| has_srtp_local :=
                   (if negb (offer rq)
                    then do_srtp || has_srtp_remote (m0 <| require_srtp := require |>)
                    else do_srtp) |> \/
       exists p, m1 = m0 <| require_srtp := require |>
                         <| has_srtp_local :=
                              (if negb (offer rq)
                               then do_srtp || has_srtp_remote (m0 <| require_srtp := require |>)
                               else do_srtp) |>
                         <| srtp_profile := p |>) ->
      require_srtp m1 = require /\
      (offer rq = false -> has_srtp_remote m1 = has_srtp_remote m) /\
      (true = true -> offer rq = false ->
       (require = false \/ has_srtp_remote m = true) /\
       has_srtp_local m1 = do_srtp || has_srtp_remote m)).
    { intros m1 Hm1.
      assert (Hr : require_srtp m1 = require /\ has_srtp_remote m1 = has_srtp_remote m0 /\
                   has_srtp_local m1 =
                     (if negb (offer rq) then do_srtp || has_srtp_remote m0 else do_srtp))
        by (destruct Hm1 as [-> | [p ->]]; simpl; auto).
      destruct Hr as (Hr1 & Hr2 & Hr3).
      split; [assumption |]. split.
      - intros Hoff. rewrite Hr2, (Hm0 Hoff). reflexivity.
      - intros _ Hoff. rewrite Hr3, Hoff, (Hm0 Hoff). simpl. split; [| reflexivity].
        rewrite Hoff, (Hm0 Hoff) in Hstrict. simpl in Hstrict.
        destruct require; [right | left; reflexivity].
        destruct (has_srtp_remote m); [reflexivity | discriminate]. }
    match goal with |- context [if ?d then _ else _] => destruct d end.
    + destruct (requested_srtp_profile _) as [p|]; [| discriminate].
      intros H; inversion H; subst; clear H. apply Hflags. right. eexists. reflexivity.
    + intros H; inversion H; subst; clear H. apply Hflags. left. reflexivity.
  - intros H; inversion H; subst; clear H. simpl.
    split; [reflexivity |]. split; [| discriminate].
    intros Hoff. rewrite (Hm0 Hoff). reflexivity.
Qed.

Lemma same_srtp_flags_refl m : same_srtp_flags m m.
Proof. unfold same_srtp_flags; tauto. Qed.

Lemma same_srtp_flags_trans m1 m2 m3 :
  same_srtp_flags m1 m2 -> same_srtp_flags m2 m3 -> same_srtp_flags m1 m3.
Proof. unfold same_srtp_flags; intuition congruence. Qed.

Lemma janus_nosip_srtp_set_local_flags m video (w : World) :
  same_srtp_flags m (snd (fst (janus_nosip_srtp_set_local m video w))).
Proof.
  unfold janus_nosip_srtp_set_local.
  destruct (match srtp_profile m with JANUS_SRTP_NONE => _ | _ => _ end) as [[len name]|];
    [| apply same_srtp_flags_refl].
  destruct (srtp_crypto_get_random len w) as [bytes w1].
  destruct video;
    match goal with |- context [srtp_create ?p ?x] => destruct (srtp_create p x) as [res w2] end;
    destruct (negb (res =? srtp_err_status_ok)); unfold same_srtp_flags; simpl; tauto.
Qed.

Lemma negotiated_codec_flags sdp opusred ml m :
  same_srtp_flags m (negotiated_codec sdp opusred ml m).
Proof.
  unfold negotiated_codec.
  destruct (-1 <? match m_ptypes ml with [] => -1 | pt :: _ => pt end);
    [| apply same_srtp_flags_refl].
  destruct (is_audio ml).
  - destruct (_ =? opusred); unfold same_srtp_flags; simpl; tauto.
  - unfold same_srtp_flags; simpl; tauto.
Qed.

Lemma manipulate_mline_flags g ml m (w : World) :
  same_srtp_flags m (snd (fst (manipulate_mline g ml m w))).
Proof.
  unfold manipulate_mline.
  destruct (m_type ml); try apply same_srtp_flags_refl.
  - destruct (has_srtp_local m); [| apply same_srtp_flags_refl].
    destruct (is_null (audio_srtp_local_profile m) || is_null (audio_srtp_local_crypto m)).
    + pose proof (janus_nosip_srtp_set_local_flags m false w) as Hl.
      destruct (janus_nosip_srtp_set_local m false w) as [[r m1] w1]. simpl in Hl.
      destruct (audio_srtp_tag m1 =? 0); simpl; [| exact Hl].
      eapply same_srtp_flags_trans; [exact Hl |]. unfold same_srtp_flags; simpl; tauto.
    + destruct (audio_srtp_tag m =? 0); simpl; [| apply same_srtp_flags_refl].
      unfold same_srtp_flags; simpl; tauto.
  - destruct (has_srtp_local m); [| apply same_srtp_flags_refl].
    destruct (is_null (video_srtp_local_profile m) || is_null (video_srtp_local_crypto m)).
    + pose proof (janus_nosip_srtp_set_local_flags m true w) as Hl.
      destruct (janus_nosip_srtp_set_local m true w) as [[r m1] w1]. simpl in Hl.
      destruct (video_srtp_tag m1 =? 0); simpl; [| exact Hl].
      eapply same_srtp_flags_trans; [exact Hl |]. unfold same_srtp_flags; simpl; tauto.
    + destruct (video_srtp_tag m =? 0); simpl; [| apply same_srtp_flags_refl].
      unfold same_srtp_flags; simpl; tauto.
Qed.

Lemma manipulate_mlines_flags g answer opusred c todo :
  forall done m (w : World),
    same_srtp_flags m (snd (fst (manipulate_mlines g answer opusred c done todo m w))).
Proof.
  induction todo as [|ml todo IH]; intros done m w; cbn [manipulate_mlines].
  - apply same_srtp_flags_refl.
  - pose proof (manipulate_mline_flags g ml m w) as Hm.
    destruct (manipulate_mline g ml m w) as [[ml1 m1] w1]. simpl in Hm.
    eapply same_srtp_flags_trans; [| apply IH].
    destruct (answer && (is_audio ml1 || is_video ml1)); [| exact Hm].
    eapply same_srtp_flags_trans; [exact Hm | apply negotiated_codec_flags].
Qed.

Lemma janus_nosip_sdp_manipulate_flags g m sdp answer (w : World) rendered sdp' m' w' :
  janus_nosip_sdp_manipulate g m sdp answer w = (rendered, sdp', m', w') ->
  same_srtp_flags m m'.
Proof.
  unfold janus_nosip_sdp_manipulate.
  match goal with |- context [manipulate_mlines ?a ?b ?c ?d ?e ?f ?x ?y] =>
    pose proof (manipulate_mlines_flags a b c d f e x y) as Hm;
    destruct (manipulate_mlines a b c d e f x y) as [[lines m1] w1] end.
  simpl in Hm. intros H; inversion H; subst. exact Hm.
Qed.

Lemma reset_local_ports_flags m (w : World) :
  same_srtp_flags m (fst (fst (reset_local_ports m w))).
Proof.
  unfold reset_local_ports.
  destruct (close_if_open (audio_rtp_fd m) w) as [w1 t1].
  destruct (close_if_open (audio_rtcp_fd m) w1) as [w2 t2].
  destruct (close_if_open (video_rtp_fd m) w2) as [w3 t3].
  destruct (close_if_open (video_rtcp_fd m) w3) as [w4 t4].
  destruct (close_pipe_end (fst (pipefd m)) w4) as [[p0 w5] t5].
  destruct (close_pipe_end (snd (pipefd m)) w5) as [[p1 w6] t6].
  unfold same_srtp_flags; simpl; tauto.
Qed.

Lemma allocate_audio_ports_flags fuel g m (w : World) :
  match allocate_audio_ports fuel g m w with
  | Some (lp, _) => same_srtp_flags m (lp_media lp)
  | None => True
  end.
Proof.
  unfold allocate_audio_ports.
  destruct (has_audio m && _); [| apply same_srtp_flags_refl].
  destruct (close_if_open (audio_rtp_fd m) w) as [wa ta].
  destruct (close_if_open (audio_rtcp_fd m) wa) as [wb tb].
  destruct (janus_nosip_allocate_port_pair fuel false g wb) as [[a wc]|]; [| exact I].
  destruct (ret a =? 0), (fds a) as [[fd0 fd1]|], (ports a) as [[p0 p1]|];
    cbn [lp_media]; unfold same_srtp_flags; simpl; tauto.
Qed.

Lemma allocate_video_ports_flags fuel g m (w : World) :
  match allocate_video_ports fuel g m w with
  | Some (lp, _) => same_srtp_flags m (lp_media lp)
  | None => True
  end.
Proof.
  unfold allocate_video_ports.
  destruct (has_video m && _); [| apply same_srtp_flags_refl].
  destruct (close_if_open (video_rtp_fd m) w) as [wa ta].
  destruct (close_if_open (video_rtcp_fd m) wa) as [wb tb].
  destruct (janus_nosip_allocate_port_pair fuel true g wb) as [[a wc]|]; [| exact I].
  destruct (ret a =? 0), (fds a) as [[fd0 fd1]|], (ports a) as [[p0 p1]|];
    cbn [lp_media]; unfold same_srtp_flags; simpl; tauto.
Qed.

Lemma wake_pipe_flags update m (w : World) :
  same_srtp_flags m (fst (fst (wake_pipe update m w))).
Proof.
  unfold wake_pipe. destruct (negb update).
  - destruct (sys_pipe w) as [[fds0|] w1]; unfold same_srtp_flags; simpl; tauto.
  - cbv zeta. destruct (0 <? snd (pipefd (m <| updated := true |>))).
    + destruct (sys_write _ w) as [res w1]. unfold same_srtp_flags; simpl; tauto.
    + unfold same_srtp_flags; simpl; tauto.
Qed.

Lemma janus_nosip_allocate_local_ports_flags fuel g m update (w : World) :
  match janus_nosip_allocate_local_ports fuel g m update w with
  | Some (lp, _) => same_srtp_flags m (lp_media lp)
  | None => True
  end.
Proof.
  unfold janus_nosip_allocate_local_ports.
  assert (Hreset : same_srtp_flags m
            (fst (fst (if negb update then reset_local_ports m w else (m, w, []))))).
  { destruct (negb update); [apply reset_local_ports_flags | apply same_srtp_flags_refl]. }
  destruct (if negb update then reset_local_ports m w else (m, w, [])) as [[m0 w0] tr0].
  cbn [fst] in Hreset.
  pose proof (allocate_audio_ports_flags fuel g m0 w0) as Haudio.
  destruct (allocate_audio_ports fuel g m0 w0) as [[audio w1]|]; [| exact I].
  destruct (lp_ret audio <? 0).
  { cbn [lp_media]. eapply same_srtp_flags_trans; eassumption. }
  pose proof (allocate_video_ports_flags fuel (lp_globals audio) (lp_media audio) w1) as Hvideo.
  destruct (allocate_video_ports fuel (lp_globals audio) (lp_media audio) w1)
    as [[video w2]|]; [| exact I].
  destruct (lp_ret video <? 0).
  { cbn [lp_media]. eapply same_srtp_flags_trans; [eassumption |].
    eapply same_srtp_flags_trans; eassumption. }
  pose proof (wake_pipe_flags update (lp_media video) w2) as Hwake.
  destruct (wake_pipe update (lp_media video) w2) as [[m3 w3] tr3]. cbn [fst] in Hwake.
  cbn [lp_media].
  eapply same_srtp_flags_trans; [eassumption |].
  eapply same_srtp_flags_trans; [eassumption |].
  eapply same_srtp_flags_trans; eassumption.
Qed.

Lemma start_media_ready upd off s (w : World) :
  exists b, media (fst (start_media upd off s w)) = media s <| ready := b |>.
Proof.
  unfold start_media.
  destruct (negb upd && negb off).
  - destruct (g_thread_try_new w) as [[|] w1]; eexists; simpl; reflexivity.
  - exists (ready (media s)). simpl. destruct s as [? ? m ? ? ? ? ? ? ? ?]. simpl.
    destruct m; reflexivity.
Qed.

Lemma set_ready_flags m b : same_srtp_flags m (m <| ready := b |>).
Proof. unfold same_srtp_flags; simpl; tauto. Qed.

(** The [generate] half neither reads nor writes the three SRTP flags, and
    it ends with the [generated] event or with IO_ERROR. *)
Lemma handle_generate_flags fuel msg text parsed off upd (st : handler_state World) :
  match handle_generate fuel msg text parsed off upd st with
  | Some (o, st') =>
      same_srtp_flags (media (hs_session st)) (media (hs_session st')) /\
      match o with
      | Done _ _ => True
      | Fail code _ => code = JANUS_NOSIP_ERROR_IO_ERROR
      end
  | None => True
  end.
Proof.
  unfold handle_generate.
  set (m0 := media (hs_session st)).
  set (m1 := if not_null (strstr text "m=audio") && is_null (strstr text "m=audio 0")
             then m0 <| has_audio := true |> else m0).
  set (m2 := if not_null (strstr text "m=video") && is_null (strstr text "m=video 0")
             then m1 <| has_video := true |> else m1).
  assert (H02 : same_srtp_flags m0 m2).
  { subst m2 m1.
    destruct (not_null (strstr text "m=audio") && is_null (strstr text "m=audio 0")),
             (not_null (strstr text "m=video") && is_null (strstr text "m=video 0"));
      unfold same_srtp_flags; simpl; tauto. }
  clearbody m2. clear m1.
  pose proof (janus_nosip_allocate_local_ports_flags fuel (hs_globals st) m2 upd (hs_world st))
    as Hlp.
  destruct (janus_nosip_allocate_local_ports fuel (hs_globals st) m2 upd (hs_world st))
    as [[lp w1]|]; [| exact I].
  assert (H0lp : same_srtp_flags m0 (lp_media lp)) by (eapply same_srtp_flags_trans; eassumption).
  destruct (lp_ret lp <? 0); [simpl; auto |].
  destruct (janus_nosip_sdp_manipulate (lp_globals lp) (lp_media lp) parsed false w1)
    as [[[rendered sdp1] m3] w2] eqn:Hman.
  apply janus_nosip_sdp_manipulate_flags in Hman.
  assert (H03 : same_srtp_flags m0 m3) by (eapply same_srtp_flags_trans; eassumption).
  destruct rendered as [rendered|]; [| simpl; auto].
  set (s1 := hs_session st <| media := m3 |> <| sdp := Some sdp1 |> <| hangingup := 0 |>).
  set (s2 := if not_null (json_object_get (jsep msg) "simulcast") &&
                (0 <? json_array_size (json_object_get (jsep msg) "simulcast"))
             then _ else s1).
  assert (H3s : same_srtp_flags m3 (media s2)).
  { subst s2 s1. destruct (not_null _ && _); unfold same_srtp_flags; simpl; tauto. }
  clearbody s2.
  destruct (start_media_ready upd off s2 w2) as [b Hst].
  destruct (start_media upd off s2 w2) as [s3 w3]. simpl in Hst |- *.
  split; [| exact I]. rewrite Hst.
  eapply same_srtp_flags_trans; [exact H03 |].
  eapply same_srtp_flags_trans; [exact H3s | apply set_ready_flags].
Qed.

(** The [process] half: the session's media is what
    [janus_nosip_sdp_process] leaves, but for [ready]; the three checks come in
    the order no medium, no address, SRTP required. *)
Lemma handle_process_outcome type text parsed off upd (st : handler_state World) :
  let m1 := fst (fst (fst (janus_nosip_sdp_process (media (hs_session st)) parsed
                             (negb off) upd false (hs_world st)))) in
  (exists b, media (hs_session (snd (handle_process type text parsed off upd st)))
             = m1 <| ready := b |>) /\
  match fst (handle_process type text parsed off upd st) with
  | Fail code _ =>
      code = JANUS_NOSIP_ERROR_INVALID_SDP /\
      (has_audio m1 || has_video m1 = false \/
       is_null (remote_audio_ip m1) && is_null (remote_video_ip m1) = true)
      \/
      code = JANUS_NOSIP_ERROR_TOO_STRICT /\
      has_audio m1 || has_video m1 = true /\
      is_null (remote_audio_ip m1) && is_null (remote_video_ip m1) = false /\
      require_srtp m1 = true /\ has_srtp_remote m1 = false
  | Done _ _ => require_srtp m1 && negb (has_srtp_remote m1) = false
  end.
Proof.
  unfold handle_process.
  destruct (janus_nosip_sdp_process (media (hs_session st)) parsed (negb off) upd false
              (hs_world st)) as [[[m1 ch] w1] tr].
  cbn [fst snd].
  assert (Heta : m1 = m1 <| ready := ready m1 |>) by (destruct m1; reflexivity).
  destruct (negb (has_audio m1) && negb (has_video m1)) eqn:Hmedia.
  { cbn [fst snd]. split; [exists (ready m1); simpl; exact Heta |].
    left. split; [reflexivity |]. left.
    destruct (has_audio m1), (has_video m1); simpl in *; congruence. }
  destruct (is_null (remote_audio_ip m1) && is_null (remote_video_ip m1)) eqn:Hip.
  { cbn [fst snd]. split; [exists (ready m1); simpl; exact Heta |].
    left. split; [reflexivity |]. right. reflexivity. }
  destruct (require_srtp m1 && negb (has_srtp_remote m1)) eqn:Hstrict.
  { cbn [fst snd]. split; [exists (ready m1); simpl; exact Heta |].
    right. split; [reflexivity |].
    apply andb_true_iff in Hstrict as [Hreq Hrem]. apply negb_true_iff in Hrem.
    split; [destruct (has_audio m1), (has_video m1); simpl in *; congruence |].
    auto. }
  set (s1 := hs_session st <| media := m1 |> <| sdp := Some parsed |>).
  assert (Hs1 : media s1 = m1) by reflexivity.
  clearbody s1.
  destruct (start_media_ready upd off s1 w1) as [b Hst].
  destruct (start_media upd off s1 w1) as [s3 w3]. cbn [fst snd] in Hst |- *.
  split; [| reflexivity]. simpl. exists b. rewrite Hst, Hs1. reflexivity.
Qed.

(** The cases of the branch shared by [generate] and [process], in the
    order of the source: the request is rejected on reading, its [srtp]
    element is rejected, the SRTP requirement or profile is refused, the
    description is parsed or not. *)
Ltac shared_branch_cases :=
  unfold handle_generate_or_process;
  destruct (read_sdp_request _ _ _) as [o1 | rq] eqn:Hread;
  [ apply read_sdp_request_failure in Hread as (code1 & cause1 & -> & Hrep1 & Hcode1)
  | destruct (read_srtp_request _) as [o2 | [do_srtp require]] eqn:Hsrtp;
    [ apply read_srtp_request_failure in Hsrtp as (cause2 & -> & Hrep2)
    | destruct (apply_srtp_request _ _ _ _ _ _) as [[o3 m3] | m_a] eqn:Happly;
      [ apply apply_srtp_request_refused in Happly as (Hgen & Hrefused)
      | destruct (janus_sdp_parse _) as [parsed | sdperror] eqn:Hparse ] ] ].

(** The same cases, with the equations of the four steps kept as they
    are. *)
Ltac shared_branch_steps :=
  unfold handle_generate_or_process;
  destruct (read_sdp_request _ _ _) as [o1 | rq] eqn:Hread;
  [ | destruct (read_srtp_request _) as [o2 | [do_srtp require]] eqn:Hsrtp;
      [ | destruct (apply_srtp_request _ _ _ _ _ _) as [[o3 m3] | m_a] eqn:Happly;
          [ | destruct (janus_sdp_parse _) as [parsed | sdperror] eqn:Hparse ] ] ].

Lemma prefix_append p t : String.prefix p (p ++ t) = true.
Proof.
  induction p as [|c p IH]; simpl; [destruct t; reflexivity |].
  destruct (ascii_dec c c); [exact IH | congruence].
Qed.

(** A [generate] or [process] request answered with an error that is
    reported before any change has left the handler state as it was. *)
Lemma shared_branch_untouched fuel msg text (st : handler_state World) :
  match handle_generate_or_process fuel msg text st with
  | Some (Fail code cause, st') => reported_before_any_change code cause = true -> st' = st
  | _ => True
  end.
Proof.
  shared_branch_cases.
  - auto.
  - auto.
  - destruct Hrefused as [([cause ->] & _) | (-> & _)]; discriminate.
  - destruct (strcasecmp text "generate" =? 0).
    + pose proof (handle_generate_flags fuel msg (msg_sdp rq) parsed (offer rq) (sdp_update rq)
                    (with_media st
                       (m_a <| video_orientation_extension_id :=
                                 janus_rtp_header_extension_get_id (msg_sdp rq)
                                   JANUS_RTP_EXTMAP_VIDEO_ORIENTATION |>
                            <| audio_level_extension_id :=
                                 janus_rtp_header_extension_get_id (msg_sdp rq)
                                   JANUS_RTP_EXTMAP_AUDIO_LEVEL |>))) as Hgenerate.
      destruct (handle_generate _ _ _ _ _ _ _) as [[[r j | code cause] st']|]; auto.
      destruct Hgenerate as [_ ->]. discriminate.
    + pose proof (handle_process_outcome (msg_sdp_type rq) (msg_sdp rq) parsed (offer rq)
                    (sdp_update rq)
                    (with_media st
                       (m_a <| video_orientation_extension_id :=
                                 janus_rtp_header_extension_get_id (msg_sdp rq)
                                   JANUS_RTP_EXTMAP_VIDEO_ORIENTATION |>
                            <| audio_level_extension_id :=
                                 janus_rtp_header_extension_get_id (msg_sdp rq)
                                   JANUS_RTP_EXTMAP_AUDIO_LEVEL |>))) as [_ Hprocess].
      destruct (handle_process _ _ _ _ _ _) as [[r j | code cause] st']; auto.
      cbn [fst] in Hprocess. destruct Hprocess as [[-> _] | [-> _]]; discriminate.
  - unfold reported_before_any_change. rewrite prefix_append. discriminate.
Qed.

Lemma answer_is_not_offer msg is_ready rq :
  read_sdp_request true msg is_ready = inr rq ->
  jsep_type_is "answer" msg = true ->
  offer rq = false.
Proof.
  intros Hread Hanswer.
  apply read_sdp_request_success in Hread as (_ & Htype & ->).
  unfold jsep_type_is in Hanswer. rewrite Htype in Hanswer.
  apply Z.eqb_eq in Hanswer.
  eapply strcasecmp_first_letter; [| | | exact Hanswer]; reflexivity.
Qed.

Lemma set_extension_ids_flags m a b :
  same_srtp_flags m
    (m <| video_orientation_extension_id := a |> <| audio_level_extension_id := b |>).
Proof. unfold same_srtp_flags; simpl; tauto. Qed.

Lemma request_is_process_not_generate msg :
  request_is "process" msg = true -> request_is "generate" msg = false.
Proof.
  unfold request_is.
  destruct (json_string_value (json_object_get (message msg) "request")) as [text|];
    [| discriminate].
  intros H. apply Z.eqb_eq in H.
  eapply strcasecmp_first_letter; [| | | exact H]; reflexivity.
Qed.

Lemma read_srtp_request_required msg do_srtp require :
  read_srtp_request (message msg) = inr (do_srtp, require) ->
  require = srtp_mandatory msg.
Proof.
  unfold read_srtp_request, srtp_mandatory.
  destruct (json_object_get (message msg) "srtp") as [srtp|];
    [| intros H; inversion H; reflexivity].
  destruct (json_string_value (Some srtp)) as [text|]; [| discriminate].
  destruct (strcasecmp text "sdes_optional" =? 0);
    [intros H; inversion H; reflexivity |].
  destruct (strcasecmp text "sdes_mandatory" =? 0);
    [intros H; inversion H; reflexivity |].
  discriminate.
Qed.

(** An answer to [generate] that requires SRTP on a session without remote
    crypto is refused with TOO_STRICT, with [require_srtp] set. *)
Lemma apply_srtp_request_too_strict rq do_srtp root m :
  offer rq = false -> has_srtp_remote m = false ->
  apply_srtp_request true rq do_srtp true root m
  = inl (Fail JANUS_NOSIP_ERROR_TOO_STRICT
           "Can't generate answer: SDES-SRTP required, but caller didn't offer it",
         m <| require_srtp := true |>).
Proof.
  intros Hoff Hrem. unfold apply_srtp_request. rewrite Hoff. simpl. rewrite Hrem. reflexivity.
Qed.

(** C1 on the shared branch: where the request leaves the session with SRTP
    required and no remote crypto, it has been answered with an error, and
    the checks that come first decide which. *)
Lemma shared_branch_srtp_required_why fuel msg text (st : handler_state World) :
  match handle_generate_or_process fuel msg text st with
  | Some (o, st') =>
      ((strcasecmp text "generate" =? 0) = true -> jsep_type_is "answer" msg = true) ->
      require_srtp (media (hs_session st')) = true ->
      has_srtp_remote (media (hs_session st')) = false ->
      exists code cause,
        o = Fail code cause /\
        if request_accepted (strcasecmp text "generate" =? 0) msg
             (ready (media (hs_session st)))
        then
          if strcasecmp text "generate" =? 0 then code = JANUS_NOSIP_ERROR_TOO_STRICT
          else if description_parses (strcasecmp text "generate" =? 0) msg
                    (ready (media (hs_session st)))
          then
            if negb (has_audio (media (hs_session st')) || has_video (media (hs_session st'))) ||
               (is_null (remote_audio_ip (media (hs_session st'))) &&
                is_null (remote_video_ip (media (hs_session st'))))
            then code = JANUS_NOSIP_ERROR_INVALID_SDP
            else code = JANUS_NOSIP_ERROR_TOO_STRICT
          else code = JANUS_NOSIP_ERROR_MISSING_SDP
        else
          (code = JANUS_NOSIP_ERROR_MISSING_ELEMENT \/
           code = JANUS_NOSIP_ERROR_INVALID_ELEMENT \/
           code = JANUS_NOSIP_ERROR_MISSING_SDP) /\
          st' = st
  | None => True
  end.
Proof.
  unfold request_accepted, description_parses.
  shared_branch_cases.
  - intros _ _ _. exists code1, cause1. auto.
  - intros _ _ _. exists JANUS_NOSIP_ERROR_INVALID_ELEMENT, cause2. auto.
  - intros Hanswer Hreq Hrem. rewrite Hgen in *.
    pose proof (answer_is_not_offer _ _ _ Hread (Hanswer eq_refl)) as Hoff.
    destruct Hrefused as [([cause ->] & _) | (-> & Hstrict & _)].
    + eauto.
    + exfalso. simpl in Hreq, Hrem. rewrite Hoff, Hreq, Hrem in Hstrict. discriminate.
  - destruct (strcasecmp text "generate" =? 0) eqn:Hgenerate.
    + pose proof (handle_generate_flags fuel msg (msg_sdp rq) parsed (offer rq) (sdp_update rq)
                    (with_media st
                       (m_a <| video_orientation_extension_id :=
                                 janus_rtp_header_extension_get_id (msg_sdp rq)
                                   JANUS_RTP_EXTMAP_VIDEO_ORIENTATION |>
                            <| audio_level_extension_id :=
                                 janus_rtp_header_extension_get_id (msg_sdp rq)
                                   JANUS_RTP_EXTMAP_AUDIO_LEVEL |>))) as Hflags.
      destruct (handle_generate _ _ _ _ _ _ _) as [[o st']|]; [| exact I].
      destruct Hflags as [(Hreq & _ & Hrem) _]. simpl in Hreq, Hrem.
      intros Hanswer Hreq' Hrem'. exfalso.
      pose proof (answer_is_not_offer _ _ _ Hread (Hanswer eq_refl)) as Hoff.
      apply apply_srtp_request_passed in Happly as (Hr & Hremote & Hgen).
      destruct (Hgen eq_refl Hoff) as [[Hno | Hyes] _].
      * congruence.
      * specialize (Hremote Hoff). congruence.
    + pose proof (handle_process_outcome (msg_sdp_type rq) (msg_sdp rq) parsed (offer rq)
                    (sdp_update rq)
                    (with_media st
                       (m_a <| video_orientation_extension_id :=
                                 janus_rtp_header_extension_get_id (msg_sdp rq)
                                   JANUS_RTP_EXTMAP_VIDEO_ORIENTATION |>
                            <| audio_level_extension_id :=
                                 janus_rtp_header_extension_get_id (msg_sdp rq)
                                   JANUS_RTP_EXTMAP_AUDIO_LEVEL |>))) as Hout.
      cbv zeta in Hout.
      match type of Hout with
      | context [janus_nosip_sdp_process ?a ?b ?c ?d ?e ?f] =>
          destruct (janus_nosip_sdp_process a b c d e f) as [[[m1 ch] w1] tr] eqn:Hproc
      end.
      cbn [fst] in Hout. destruct Hout as [[b Hmedia] Hprocess].
      destruct (handle_process _ _ _ _ _ _) as [o st']. cbn [fst snd] in Hmedia, Hprocess.
      intros _ Hreq Hrem. rewrite Hmedia in *. simpl in Hreq, Hrem |- *.
      destruct o as [r j | code cause].
      * rewrite Hreq, Hrem in Hprocess. discriminate.
      * exists code, cause. split; [reflexivity |].
        destruct Hprocess as [[-> [Hwhy | Hwhy]] | (-> & Hm & Hip & _)].
        -- rewrite Hwhy. reflexivity.
        -- rewrite Hwhy, orb_true_r. reflexivity.
        -- rewrite Hm, Hip. reflexivity.
  - destruct (strcasecmp text "generate" =? 0) eqn:Hgenerate.
    + intros Hanswer Hreq Hrem. exfalso. simpl in Hreq, Hrem.
      pose proof (answer_is_not_offer _ _ _ Hread (Hanswer eq_refl)) as Hoff.
      apply apply_srtp_request_passed in Happly as (Hr & Hremote & Hgen).
      destruct (Hgen eq_refl Hoff) as [[Hno | Hyes] _].
      * congruence.
      * specialize (Hremote Hoff). congruence.
    + intros _ _ _. eauto.
Qed.

(** C8 on the shared branch: a [generate] request with an answer that gets
    past the check of the SRTP requirement sets [has_srtp_local]. *)
Lemma shared_branch_srtp_local fuel msg text (st : handler_state World) :
  match handle_generate_or_process fuel msg text st with
  | Some (o, st') =>
      (strcasecmp text "generate" =? 0) = true -> jsep_type_is "answer" msg = true ->
      match o with
      | Fail code cause =>
          negb (code =? JANUS_NOSIP_ERROR_TOO_STRICT) &&
          negb (reported_before_any_change code cause) = true
      | Done _ _ => True
      end ->
      has_srtp_local (media (hs_session st')) =
        srtp_selected msg || has_srtp_remote (media (hs_session st)) /\
      has_srtp_remote (media (hs_session st')) = has_srtp_remote (media (hs_session st))
  | None => True
  end.
Proof.
  shared_branch_cases.
  - intros _ _ Hpast. rewrite Hrep1, andb_false_r in Hpast. discriminate.
  - intros _ _ Hpast. rewrite Hrep2, andb_false_r in Hpast. discriminate.
  - intros Hgenerate Hanswer Hpast. rewrite Hgenerate in *.
    pose proof (answer_is_not_offer _ _ _ Hread Hanswer) as Hoff.
    apply read_srtp_request_success in Hsrtp as [-> _].
    destruct Hrefused as [([cause ->] & _) | (-> & _ & Hlocal)]; [discriminate |].
    simpl. exact (Hlocal Hoff).
  - destruct (strcasecmp text "generate" =? 0) eqn:Hgenerate;
      [| destruct (handle_process _ _ _ _ _ _) as [o st']; discriminate].
    pose proof (handle_generate_flags fuel msg (msg_sdp rq) parsed (offer rq) (sdp_update rq)
                  (with_media st
                     (m_a <| video_orientation_extension_id :=
                               janus_rtp_header_extension_get_id (msg_sdp rq)
                                 JANUS_RTP_EXTMAP_VIDEO_ORIENTATION |>
                          <| audio_level_extension_id :=
                               janus_rtp_header_extension_get_id (msg_sdp rq)
                                 JANUS_RTP_EXTMAP_AUDIO_LEVEL |>))) as Hflags.
    destruct (handle_generate _ _ _ _ _ _ _) as [[o st']|]; [| exact I].
    destruct Hflags as [(_ & Hloc & Hrem) _]. simpl in Hloc, Hrem.
    intros _ Hanswer _.
    pose proof (answer_is_not_offer _ _ _ Hread Hanswer) as Hoff.
    apply read_srtp_request_success in Hsrtp as [-> _].
    apply apply_srtp_request_passed in Happly as (_ & Hremote & Hgen).
    destruct (Hgen eq_refl Hoff) as [_ Hlocal]. specialize (Hremote Hoff).
    rewrite Hloc, Hrem. auto.
  - intros Hgenerate Hanswer _. rewrite Hgenerate in *.
    pose proof (answer_is_not_offer _ _ _ Hread Hanswer) as Hoff.
    apply read_srtp_request_success in Hsrtp as [-> _].
    apply apply_srtp_request_passed in Happly as (_ & Hremote & Hgen).
    destruct (Hgen eq_refl Hoff) as [_ Hlocal]. specialize (Hremote Hoff).
    simpl. auto.
Qed.

(** C8 on the shared branch, for a request that does not get past the check
    of the SRTP requirement: [has_srtp_local] is as it was; and TOO_STRICT is
    the answer exactly when the request is accepted, makes SDES mandatory and
    the session has no remote crypto. *)
Lemma shared_branch_srtp_refused fuel msg text (st : handler_state World) :
  match handle_generate_or_process fuel msg text st with
  | Some (o, st') =>
      (strcasecmp text "generate" =? 0) = true -> jsep_type_is "answer" msg = true ->
      has_srtp_remote (media (hs_session st')) = has_srtp_remote (media (hs_session st)) /\
      (match o with
       | Fail code cause =>
           negb (code =? JANUS_NOSIP_ERROR_TOO_STRICT) &&
           negb (reported_before_any_change code cause) = false
       | Done _ _ => False
       end ->
       has_srtp_local (media (hs_session st')) = has_srtp_local (media (hs_session st))) /\
      (match o with
       | Fail code _ => code = JANUS_NOSIP_ERROR_TOO_STRICT
       | Done _ _ => False
       end <->
       request_accepted true msg (ready (media (hs_session st))) = true /\
       srtp_mandatory msg = true /\
       has_srtp_remote (media (hs_session st)) = false)
  | None => True
  end.
Proof.
  unfold request_accepted.
  shared_branch_steps.
  - apply read_sdp_request_failure in Hread as Hfail.
    destruct Hfail as (code1 & cause1 & -> & Hrep1 & Hcode1).
    intros Hgenerate _. rewrite Hgenerate in Hread. rewrite Hread.
    split; [reflexivity |]. split; [reflexivity |].
    split; [intros ->; destruct Hcode1 as [H | [H | H]]; discriminate H |].
    intros [H _]. discriminate.
  - apply read_srtp_request_failure in Hsrtp as Hfail.
    destruct Hfail as (cause2 & -> & Hrep2).
    intros Hgenerate _. rewrite Hgenerate in Hread. rewrite Hread.
    split; [reflexivity |]. split; [reflexivity |].
    split; [discriminate |]. intros [H _]. discriminate.
  - intros Hgenerate Hanswer. rewrite Hgenerate in *. rewrite Hread.
    pose proof (answer_is_not_offer _ _ _ Hread Hanswer) as Hoff.
    pose proof (read_srtp_request_required _ _ _ Hsrtp) as Hrequire.
    pose proof Happly as Hrefused.
    apply apply_srtp_request_refused in Hrefused as (_ & Hrefused).
    destruct Hrefused as [([cause ->] & _ & Hreq & _ & Hrem' & Hrem & Hloc)
                         | (-> & _ & Hflags)]; simpl.
    + split; [congruence |]. split; [intros _; exact Hloc |].
      split; [intros _ | reflexivity]. rewrite <- Hrequire. auto.
    + destruct (Hflags Hoff) as [_ Hrem].
      split; [exact Hrem |]. split; [discriminate |].
      split; [discriminate |].
      intros (_ & Hmand & Hnone). exfalso.
      rewrite Hrequire, Hmand in Happly.
      rewrite (apply_srtp_request_too_strict rq do_srtp (message msg) _ Hoff Hnone) in Happly.
      discriminate.
  - destruct (strcasecmp text "generate" =? 0) eqn:Hgenerate;
      [| destruct (handle_process _ _ _ _ _ _) as [o st']; discriminate].
    pose proof (handle_generate_flags fuel msg (msg_sdp rq) parsed (offer rq) (sdp_update rq)
                  (with_media st
                     (m_a <| video_orientation_extension_id :=
                               janus_rtp_header_extension_get_id (msg_sdp rq)
                                 JANUS_RTP_EXTMAP_VIDEO_ORIENTATION |>
                          <| audio_level_extension_id :=
                               janus_rtp_header_extension_get_id (msg_sdp rq)
                                 JANUS_RTP_EXTMAP_AUDIO_LEVEL |>))) as Hflags.
    destruct (handle_generate _ _ _ _ _ _ _) as [[o st']|]; [| exact I].
    destruct Hflags as [(_ & _ & Hrem) Hio]. simpl in Hrem.
    intros _ Hanswer. rewrite Hread.
    pose proof (answer_is_not_offer _ _ _ Hread Hanswer) as Hoff.
    pose proof (read_srtp_request_required _ _ _ Hsrtp) as Hrequire.
    assert (Hnot : ~ (true = true /\ srtp_mandatory msg = true /\
                      has_srtp_remote (media (hs_session st)) = false)).
    { intros (_ & Hmand & Hnone).
      rewrite Hrequire, Hmand in Happly.
      rewrite (apply_srtp_request_too_strict rq do_srtp (message msg) _ Hoff Hnone) in Happly.
      discriminate. }
    apply apply_srtp_request_passed in Happly as (_ & Hremote & _).
    specialize (Hremote Hoff).
    split; [congruence |].
    destruct o as [r j | code cause].
    + split; [intros [] |]. split; [intros [] | intros H; destruct (Hnot H)].
    + subst code. split; [discriminate |].
      split; [discriminate | intros H; destruct (Hnot H)].
  - intros Hgenerate Hanswer. rewrite Hgenerate in *. rewrite Hread.
    pose proof (answer_is_not_offer _ _ _ Hread Hanswer) as Hoff.
    pose proof (read_srtp_request_required _ _ _ Hsrtp) as Hrequire.
    assert (Hnot : ~ (true = true /\ srtp_mandatory msg = true /\
                      has_srtp_remote (media (hs_session st)) = false)).
    { intros (_ & Hmand & Hnone).
      rewrite Hrequire, Hmand in Happly.
      rewrite (apply_srtp_request_too_strict rq do_srtp (message msg) _ Hoff Hnone) in Happly.
      discriminate. }
    apply apply_srtp_request_passed in Happly as (_ & Hremote & _).
    specialize (Hremote Hoff).
    split; [simpl; exact Hremote |].
    split; [unfold reported_before_any_change; rewrite prefix_append; discriminate |].
    split; [discriminate | intros H; destruct (Hnot H)].
Qed.

(** C6 on the shared branch: after a [process] request that succeeds, the
    remote ports of every medium the description offers are a pair. *)
Lemma shared_branch_remote_ports fuel msg text (st : handler_state World) :
  match handle_generate_or_process fuel msg text st with
  | Some (Done _ _, st') =>
      (strcasecmp text "generate" =? 0) = false ->
      forall sdp_text parsed,
        json_string_value (json_object_get (message msg) "sdp") = Some sdp_text ->
        janus_sdp_parse sdp_text = inl parsed ->
        sdp_ports_ok parsed ->
        (offers_audio parsed = true -> remote_audio_pair (media (hs_session st'))) /\
        (offers_video parsed = true -> remote_video_pair (media (hs_session st')))
  | _ => True
  end.
Proof.
  shared_branch_cases; try exact I.
  - destruct Hrefused as [([cause ->] & _) | (-> & _)]; exact I.
  - destruct (strcasecmp text "generate" =? 0) eqn:Hgenerate.
    + destruct (handle_generate _ _ _ _ _ _ _) as [[[r j | code cause] st']|]; try exact I.
      discriminate.
    + apply read_sdp_request_success in Hread as (Hsdp & _ & _).
      pose proof (handle_process_outcome (msg_sdp_type rq) (msg_sdp rq) parsed (offer rq)
                    (sdp_update rq)
                    (with_media st
                       (m_a <| video_orientation_extension_id :=
                                 janus_rtp_header_extension_get_id (msg_sdp rq)
                                   JANUS_RTP_EXTMAP_VIDEO_ORIENTATION |>
                            <| audio_level_extension_id :=
                                 janus_rtp_header_extension_get_id (msg_sdp rq)
                                   JANUS_RTP_EXTMAP_AUDIO_LEVEL |>))) as Hout.
      cbv zeta in Hout.
      match type of Hout with
      | context [janus_nosip_sdp_process ?a ?b ?c ?d ?e ?f] =>
          destruct (janus_nosip_sdp_process a b c d e f) as [[[m1 ch] w1] tr] eqn:Hproc
      end.
      cbn [fst] in Hout. destruct Hout as [[b Hmedia] _].
      destruct (handle_process _ _ _ _ _ _) as [[r j | code cause] st']; [| exact I].
      cbn [fst snd] in Hmedia.
      intros _ sdp_text parsed' Htext Hparse' Hok.
      rewrite Hsdp in Htext. injection Htext as <-.
      rewrite Hparse in Hparse'. injection Hparse' as <-.
      apply janus_nosip_sdp_process_endpoints in Hproc as (_ & _ & _ & Hports).
      rewrite Hmedia.
      destruct (Hports Hok) as [Ha Hv].
      unfold remote_audio_pair, remote_video_pair in *. simpl. auto.
Qed.

Lemma handle_recording_untouched msg (st : handler_state World) :
  match handle_recording msg st with
  | (Fail _ _, st') => st' = st
  | _ => True
  end.
Proof.
  unfold handle_recording.
  destruct (JANUS_VALIDATE_JSON_OBJECT _ _ _ _) as [code cause].
  destruct (negb (code =? 0)); [reflexivity |].
  destruct (json_string_value (json_object_get (message msg) "action")) as [action|];
    [| reflexivity].
  destruct (negb (strcasecmp action "start" =? 0) && negb (strcasecmp action "stop" =? 0));
    [reflexivity |].
  destruct (negb (json_is_true (json_object_get (message msg) "audio")) &&
            negb (json_is_true (json_object_get (message msg) "video")) &&
            negb (json_is_true (json_object_get (message msg) "peer_audio")) &&
            negb (json_is_true (json_object_get (message msg) "peer_video")));
    [reflexivity |].
  destruct (if strcasecmp action "start" =? 0 then _ else _) as [[s1 w1] up]. exact I.
Qed.

Lemma handle_keyframe_untouched msg (st : handler_state World) :
  match handle_keyframe msg st with
  | (Fail _ _, st') => st' = st
  | _ => True
  end.
Proof.
  unfold handle_keyframe.
  destruct (JANUS_VALIDATE_JSON_OBJECT _ _ _ _) as [code cause].
  destruct (negb (code =? 0)); [reflexivity | exact I].
Qed.

(** A request answered with an error that is reported before any change has
    left the handler state as it was. *)
Lemma handle_request_untouched fuel msg (st : handler_state World) :
  match handle_request fuel msg st with
  | Some (Fail code cause, st') => reported_before_any_change code cause = true -> st' = st
  | _ => True
  end.
Proof.
  unfold handle_request.
  destruct (message msg) as [root|] eqn:Hroot; [| auto].
  destruct (negb (json_is_object (Some root))); [auto |].
  destruct (JANUS_VALIDATE_JSON_OBJECT _ _ _ _) as [code cause].
  destruct (negb (code =? 0)); [auto |].
  destruct (json_string_value (json_object_get (Some root) "request")) as [text|]; [| auto].
  destruct ((strcasecmp text "generate" =? 0) || (strcasecmp text "process" =? 0)).
  { apply shared_branch_untouched. }
  destruct (strcasecmp text "hangup" =? 0); [exact I |].
  destruct (strcasecmp text "recording" =? 0).
  { pose proof (handle_recording_untouched msg st) as H.
    destruct (handle_recording msg st) as [[r j | c e] st']; auto. }
  destruct (strcasecmp text "keyframe" =? 0).
  { pose proof (handle_keyframe_untouched msg st) as H.
    destruct (handle_keyframe msg st) as [[r j | c e] st']; auto. }
  auto.
Qed.

(** A message whose [request] element is a string naming [generate] or
    [process] reaches the shared branch. *)
Lemma handle_request_shared fuel msg (st : handler_state World) name :
  request_is name msg = true ->
  name = "generate" \/ name = "process" ->
  exists text,
    handle_request fuel msg st = handle_generate_or_process fuel msg text st /\
    (strcasecmp text "generate" =? 0) = String.eqb name "generate".
Proof.
  unfold request_is, handle_request. intros Hreq Hname.
  destruct (message msg) as [root|]; [| discriminate].
  destruct root as [| | | z | t | items | members]; try discriminate.
  simpl in Hreq |- *.
  destruct (assoc_get "request" members) as [v|]; [| discriminate].
  destruct v as [| | | z | text | items | members']; try discriminate.
  simpl in Hreq |- *. apply Z.eqb_eq in Hreq.
  exists text. destruct Hname as [-> | ->].
  - rewrite Hreq. simpl. auto.
  - assert (Hgen : (strcasecmp text "generate" =? 0) = false)
      by (eapply strcasecmp_first_letter; [| | | exact Hreq]; reflexivity).
    rewrite Hgen, Hreq. simpl. auto.
Qed.

(** The response of a turn of the handler is the one its outcome calls
    for. *)
Lemma janus_nosip_handler_response fuel msg s g (w : World) st :
  janus_nosip_handler fuel msg s g w = Some st ->
  exists o st0,
    handle_request fuel msg (Build_handler_state s g w [] []) = Some (o, st0) /\
    hs_session st = hs_session st0 /\ hs_globals st = hs_globals st0 /\
    hs_world st = hs_world st0 /\
    error_code_of (pushed st) = match o with Fail code _ => Some code | Done _ _ => None end /\
    error_cause_of (pushed st) = match o with Fail _ cause => Some cause | Done _ _ => None end.
Proof.
  unfold janus_nosip_handler.
  destruct (handle_request fuel msg (Build_handler_state s g w [] [])) as [[o st0]|];
    [| discriminate].
  intros H. injection H as <-. exists o, st0. split; [reflexivity |].
  unfold pushed. cbn [hs_session hs_globals hs_world hs_upcalls].
  rewrite last_response, error_code_of_response, error_cause_of_response. auto.
Qed.

(** C1 (as amended): a [process] request, or a [generate] request whose
    description is an answer, that leaves the session with SRTP required and
    no remote crypto installed is answered with an error, never with success.
    Which error, the checks that come first decide.  A request that does not
    pass the checks made on reading it is answered with 443, 444 or 446 and
    leaves the session as it was.  A request that passes them is answered
    with 450 TOO_STRICT if it is a [generate]; if it is a [process], with 446
    when the description does not parse, with 447 INVALID_SDP when the
    session ends up with neither audio nor video or without a remote address,
    and with 450 TOO_STRICT otherwise. *)
Theorem srtp_required_without_remote_crypto fuel msg s g (w : World) st :
  janus_nosip_handler fuel msg s g w = Some st ->
  request_is "process" msg = true \/
  (request_is "generate" msg = true /\ jsep_type_is "answer" msg = true) ->
  require_srtp (media (hs_session st)) = true ->
  has_srtp_remote (media (hs_session st)) = false ->
  exists code,
    error_code_of (pushed st) = Some code /\
    if request_accepted (request_is "generate" msg) msg (ready (media s)) then
      if request_is "generate" msg then code = JANUS_NOSIP_ERROR_TOO_STRICT
      else if description_parses (request_is "generate" msg) msg (ready (media s)) then
        if negb (has_audio (media (hs_session st)) || has_video (media (hs_session st))) ||
           (is_null (remote_audio_ip (media (hs_session st))) &&
            is_null (remote_video_ip (media (hs_session st))))
        then code = JANUS_NOSIP_ERROR_INVALID_SDP
        else code = JANUS_NOSIP_ERROR_TOO_STRICT
      else code = JANUS_NOSIP_ERROR_MISSING_SDP
    else
      (code = JANUS_NOSIP_ERROR_MISSING_ELEMENT \/
       code = JANUS_NOSIP_ERROR_INVALID_ELEMENT \/
       code = JANUS_NOSIP_ERROR_MISSING_SDP) /\
      hs_session st = s.
Proof.
  intros Hrun Hkind Hreq Hrem.
  apply janus_nosip_handler_response in Hrun
    as (o & st0 & Hhandle & Hs & _ & _ & Hcode & _).
  rewrite Hs in *. rewrite Hcode. clear Hcode Hs.
  assert (Hshared : exists text,
            handle_generate_or_process fuel msg text (Build_handler_state s g w [] [])
              = Some (o, st0) /\
            (strcasecmp text "generate" =? 0) = request_is "generate" msg /\
            ((strcasecmp text "generate" =? 0) = true -> jsep_type_is "answer" msg = true)).
  { destruct Hkind as [Hp | [Hg Ha]].
    - destruct (handle_request_shared fuel msg (Build_handler_state s g w [] []) "process" Hp)
        as (text & Heq & Hflag); [auto |].
      exists text. rewrite <- Heq. split; [assumption |].
      rewrite (request_is_process_not_generate msg Hp), Hflag.
      split; [reflexivity | discriminate].
    - destruct (handle_request_shared fuel msg (Build_handler_state s g w [] []) "generate" Hg)
        as (text & Heq & Hflag); [auto |].
      exists text. rewrite <- Heq, Hg, Hflag. auto. }
  destruct Hshared as (text & Hshared & Hflag & Hanswer).
  pose proof (shared_branch_srtp_required_why fuel msg text (Build_handler_state s g w [] []))
    as Hcases.
  rewrite Hshared, Hflag in Hcases. cbn [hs_session] in Hcases.
  rewrite Hflag in Hanswer.
  destruct (Hcases Hanswer Hreq Hrem) as (code & cause & -> & Hwhy).
  exists code. split; [reflexivity |].
  destruct (request_accepted _ _ _); [exact Hwhy |].
  destruct Hwhy as [Hwhy ->]. auto.
Qed.

(** C2 (as amended): a request answered with a validation error leaves the
    session, the globals and the world as they were, except for the two
    validation errors found after the [srtp] option has been applied, the
    unsupported SRTP profile and the description that does not parse.
    TOO_STRICT, INVALID_SDP and IO_ERROR are not among these errors. *)
Theorem validation_error_leaves_session fuel msg s g (w : World) st code cause :
  janus_nosip_handler fuel msg s g w = Some st ->
  error_code_of (pushed st) = Some code ->
  error_cause_of (pushed st) = Some cause ->
  reported_before_any_change code cause = true ->
  hs_session st = s /\ hs_globals st = g /\ hs_world st = w.
Proof.
  intros Hrun Hcode Hcause Hrep.
  apply janus_nosip_handler_response in Hrun
    as (o & st0 & Hhandle & -> & -> & -> & Hcode' & Hcause').
  pose proof (handle_request_untouched fuel msg (Build_handler_state s g w [] [])) as Hun.
  rewrite Hhandle in Hun.
  destruct o as [r j | code' cause']; [congruence |].
  assert (code' = code) by congruence. assert (cause' = cause) by congruence. subst.
  rewrite (Hun Hrep). auto.
Qed.

(** C6: after a [process] request that is answered with success, for every
    audio or video section of the description with a non-zero port the
    remote RTP port of that medium is positive and its remote RTCP port is
    the RTP port plus one, whatever the attributes of the section. *)
Theorem process_sets_remote_port_pairs fuel msg s g (w : World) st sdp_text parsed :
  janus_nosip_handler fuel msg s g w = Some st ->
  request_is "process" msg = true ->
  json_string_value (json_object_get (message msg) "sdp") = Some sdp_text ->
  janus_sdp_parse sdp_text = inl parsed ->
  sdp_ports_ok parsed ->
  error_code_of (pushed st) = None ->
  forall ml, In ml (m_lines parsed) -> m_port ml <> 0 ->
    (is_audio ml = true -> remote_audio_pair (media (hs_session st))) /\
    (is_video ml = true -> remote_video_pair (media (hs_session st))).
Proof.
  intros Hrun Hp Htext Hparse Hok Hsuccess ml Hin Hport.
  apply janus_nosip_handler_response in Hrun
    as (o & st0 & Hhandle & -> & _ & _ & Hcode & _).
  destruct (handle_request_shared fuel msg (Build_handler_state s g w [] []) "process" Hp)
    as (text & Heq & Hflag); [auto |].
  rewrite Heq in Hhandle.
  pose proof (shared_branch_remote_ports fuel msg text (Build_handler_state s g w [] []))
    as Hports.
  rewrite Hhandle in Hports.
  destruct o as [r j | code cause]; [| congruence].
  destruct (Hports Hflag sdp_text parsed Htext Hparse Hok) as [Ha Hv].
  split; intros Hkind.
  - apply Ha. eapply offers_audio_In; eassumption.
  - apply Hv. eapply offers_video_In; eassumption.
Qed.

(** C8 (as amended): a [generate] request whose description is an answer
    leaves [has_srtp_remote] as it was.  If it gets past the check of the
    SRTP requirement (it is answered with success, or with an error reported
    after that check), it leaves [has_srtp_local] true exactly when its
    [srtp] element selects SDES or [has_srtp_remote] was true; when it has no
    [srtp] element, [has_srtp_local] ends up equal to [has_srtp_remote].  If
    it is rejected before that point, by a validation error reported before
    any change or by 450 TOO_STRICT, it leaves [has_srtp_local] as it was.
    And 450 TOO_STRICT is the answer exactly when the request passes the
    checks made on reading it, its [srtp] element makes SDES mandatory and
    [has_srtp_remote] is false. *)
Theorem generate_answer_sets_srtp_local fuel msg s g (w : World) st :
  janus_nosip_handler fuel msg s g w = Some st ->
  request_is "generate" msg = true ->
  jsep_type_is "answer" msg = true ->
  has_srtp_remote (media (hs_session st)) = has_srtp_remote (media s) /\
  (past_srtp_check (pushed st) = true ->
   has_srtp_local (media (hs_session st)) = srtp_selected msg || has_srtp_remote (media s) /\
   (json_object_get (message msg) "srtp" = None ->
    has_srtp_local (media (hs_session st)) = has_srtp_remote (media (hs_session st)))) /\
  (past_srtp_check (pushed st) = false ->
   has_srtp_local (media (hs_session st)) = has_srtp_local (media s)) /\
  (error_code_of (pushed st) = Some JANUS_NOSIP_ERROR_TOO_STRICT <->
   request_accepted true msg (ready (media s)) = true /\
   srtp_mandatory msg = true /\
   has_srtp_remote (media s) = false).
Proof.
  intros Hrun Hg Hanswer.
  apply janus_nosip_handler_response in Hrun
    as (o & st0 & Hhandle & -> & _ & _ & Hcode & Hcause).
  unfold past_srtp_check. rewrite Hcode, Hcause.
  destruct (handle_request_shared fuel msg (Build_handler_state s g w [] []) "generate" Hg)
    as (text & Heq & Hflag); [auto |].
  rewrite Heq in Hhandle.
  pose proof (shared_branch_srtp_local fuel msg text (Build_handler_state s g w [] []))
    as Hlocal.
  pose proof (shared_branch_srtp_refused fuel msg text (Build_handler_state s g w [] []))
    as Hrefused.
  rewrite Hhandle in Hlocal, Hrefused.
  destruct (Hrefused Hflag Hanswer) as (Hrem & Hkept & Hstrict).
  cbn [hs_session] in Hrem, Hkept, Hstrict, Hlocal.
  split; [exact Hrem |]. split; [| split].
  - intros Hpast.
    assert (Hpast' : match o with
                     | Fail code cause =>
                         negb (code =? JANUS_NOSIP_ERROR_TOO_STRICT) &&
                         negb (reported_before_any_change code cause) = true
                     | Done _ _ => True
                     end)
      by (destruct o; [exact I | exact Hpast]).
    destruct (Hlocal Hflag Hanswer Hpast') as [Hloc _].
    split; [assumption |].
    intros Hnone. rewrite Hloc, Hrem. unfold srtp_selected. rewrite Hnone. reflexivity.
  - intros Hpast. apply Hkept. destruct o; [discriminate | exact Hpast].
  - rewrite <- Hstrict. destruct o as [r j | code cause].
    + split; [discriminate | intros []].
    + split; [intros H; injection H as ->; reflexivity | intros ->; reflexivity].
Qed.

End HandlerFacts.

(** ** The handler on sample requests *)

(** [srtp_required_without_remote_crypto] on a remote offer over RTP/SAVP
    that carries no crypto line: the request passes the checks, the
    description parses, audio is negotiated and the remote address is known;
    the description makes SRTP required, no remote crypto is installed, and
    the request is answered with 450. *)
Lemma srtp_required_without_remote_crypto_witness :
  exists st,
    janus_nosip_handler (K := sim_kernel) (L := sim_libs sample_descriptions) 100
      (process_message "offer" secure_audio_text None)
      (janus_nosip_create_session 1) default_globals (free_world [] 9) = Some st /\
    error_code_of (pushed st) = Some JANUS_NOSIP_ERROR_TOO_STRICT /\
    exists code,
      error_code_of (pushed st) = Some code /\
      if request_accepted (request_is "generate" (process_message "offer" secure_audio_text None))
           (process_message "offer" secure_audio_text None) (ready (media (janus_nosip_create_session 1)))
      then
        if request_is "generate" (process_message "offer" secure_audio_text None)
        then code = JANUS_NOSIP_ERROR_TOO_STRICT
        else if description_parses (L := sim_libs sample_descriptions)
                  (request_is "generate" (process_message "offer" secure_audio_text None))
                  (process_message "offer" secure_audio_text None) (ready (media (janus_nosip_create_session 1)))
        then
          if negb (has_audio (media (hs_session st)) || has_video (media (hs_session st))) ||
             (is_null (remote_audio_ip (media (hs_session st))) &&
              is_null (remote_video_ip (media (hs_session st))))
          then code = JANUS_NOSIP_ERROR_INVALID_SDP
          else code = JANUS_NOSIP_ERROR_TOO_STRICT
        else code = JANUS_NOSIP_ERROR_MISSING_SDP
      else
        (code = JANUS_NOSIP_ERROR_MISSING_ELEMENT \/
         code = JANUS_NOSIP_ERROR_INVALID_ELEMENT \/
         code = JANUS_NOSIP_ERROR_MISSING_SDP) /\
        hs_session st = (janus_nosip_create_session 1).
Proof.
  eexists. split; [vm_compute; reflexivity |]. split; [reflexivity |].
  apply (srtp_required_without_remote_crypto (K := sim_kernel)
           (L := sim_libs sample_descriptions) 100
           (process_message "offer" secure_audio_text None)
           (janus_nosip_create_session 1) default_globals (free_world [] 9)).
  - vm_compute; reflexivity.
  - left. reflexivity.
  - reflexivity.
  - reflexivity.
Defined.

(** C1, as stated, fails: a [process] request with [srtp] set to
    [sdes_mandatory] and a description without media sections ends with SRTP
    required and no remote crypto, and is answered with 447 INVALID_SDP, not
    with 450. *)
Lemma invalid_sdp_reported_before_too_strict :
  exists st,
    janus_nosip_handler (K := sim_kernel) (L := sim_libs sample_descriptions) 100
      (process_message "offer" no_media_text (Some "sdes_mandatory"))
      (janus_nosip_create_session 1) default_globals (free_world [] 9) = Some st /\
    request_is "process" (process_message "offer" no_media_text (Some "sdes_mandatory")) = true /\
    require_srtp (media (hs_session st)) = true /\
    has_srtp_remote (media (hs_session st)) = false /\
    error_code_of (pushed st) = Some JANUS_NOSIP_ERROR_INVALID_SDP /\
    error_code_of (pushed st) <> Some JANUS_NOSIP_ERROR_TOO_STRICT.
Proof.
  eexists. split; [vm_compute; reflexivity |].
  repeat split; try reflexivity. discriminate.
Qed.

(** [validation_error_leaves_session] on a [process] request whose [srtp]
    element is neither [sdes_optional] nor [sdes_mandatory]: it is answered
    with 444 and nothing has changed. *)
Lemma validation_error_leaves_session_witness :
  exists st,
    janus_nosip_handler (K := sim_kernel) (L := sim_libs sample_descriptions) 100
      (process_message "offer" plain_audio_text (Some "bogus"))
      (janus_nosip_create_session 1) default_globals (free_world [] 9) = Some st /\
    error_code_of (pushed st) = Some JANUS_NOSIP_ERROR_INVALID_ELEMENT /\
    (hs_session st = janus_nosip_create_session 1 /\
     hs_globals st = default_globals /\
     hs_world st = free_world [] 9).
Proof.
  eexists. split; [vm_compute; reflexivity |]. split; [reflexivity |].
  apply (validation_error_leaves_session (K := sim_kernel)
           (L := sim_libs sample_descriptions) 100
           (process_message "offer" plain_audio_text (Some "bogus"))
           (janus_nosip_create_session 1) default_globals (free_world [] 9) _
           JANUS_NOSIP_ERROR_INVALID_ELEMENT
           "Invalid element (srtp can only be sdes_optional or sdes_mandatory)").
  - vm_compute; reflexivity.
  - reflexivity.
  - reflexivity.
  - reflexivity.
Defined.

(** C2, as stated, fails: a [process] request for a remote offer over
    RTP/SAVP without a crypto line is answered with 450 TOO_STRICT, and the
    session has changed: SRTP is now required, audio is negotiated, and the
    remote address and ports of the offer are stored. *)
Lemma too_strict_after_session_changed :
  exists st,
    janus_nosip_handler (K := sim_kernel) (L := sim_libs sample_descriptions) 100
      (process_message "offer" secure_audio_text None)
      (janus_nosip_create_session 1) default_globals (free_world [] 9) = Some st /\
    error_code_of (pushed st) = Some JANUS_NOSIP_ERROR_TOO_STRICT /\
    require_srtp (media (janus_nosip_create_session 1)) = false /\
    require_srtp (media (hs_session st)) = true /\
    has_audio (media (janus_nosip_create_session 1)) = false /\
    has_audio (media (hs_session st)) = true /\
    remote_audio_ip (media (janus_nosip_create_session 1)) = None /\
    remote_audio_ip (media (hs_session st)) = Some "198.51.100.7" /\
    remote_audio_rtp_port (media (janus_nosip_create_session 1)) = 0 /\
    remote_audio_rtp_port (media (hs_session st)) = 20000 /\
    hs_session st <> janus_nosip_create_session 1.
Proof.
  eexists. split; [vm_compute; reflexivity |].
  repeat split; try reflexivity.
  intros H. apply (f_equal (fun s => require_srtp (media s))) in H. discriminate.
Qed.

(** C5, as stated, fails: after an offer with audio and video has been
    generated, processing the answer that rejects video (port 0) succeeds
    and leaves [has_video] true. *)
Lemma rejected_video_stays_negotiated :
  exists st1 st2,
    janus_nosip_handler (K := sim_kernel) (L := sim_libs sample_descriptions) 100
      (generate_message "offer" audio_video_text None)
      (janus_nosip_create_session 1) default_globals (free_world [] 9) = Some st1 /\
    janus_nosip_handler (K := sim_kernel) (L := sim_libs sample_descriptions) 100
      (process_message "answer" rejected_video_text None)
      (hs_session st1) (hs_globals st1) (hs_world st1) = Some st2 /\
    janus_sdp_parse (Libs := sim_libs sample_descriptions) rejected_video_text
      = inl answer_audio_only /\
    result_event_of (pushed st2) = Some "processed" /\
    has_video (media (hs_session st2)) = true /\
    ~ has_flags_mirror_ports (media (hs_session st2)) answer_audio_only.
Proof.
  eexists. eexists. split; [vm_compute; reflexivity |].
  split; [vm_compute; reflexivity |].
  split; [reflexivity |]. split; [reflexivity |]. split; [reflexivity |].
  intros H.
  destruct (H (video_mline 0 "RTP/AVP" [])) as [_ Hv]; [simpl; auto |].
  specialize (Hv eq_refl). discriminate.
Qed.

(** [process_sets_remote_port_pairs] on a remote answer whose audio section
    has port 20000 and an [a=rtcp:30000] attribute: the remote RTCP port
    stored is 20001. *)
Lemma process_sets_remote_port_pairs_witness :
  exists st,
    janus_nosip_handler (K := sim_kernel) (L := sim_libs sample_descriptions) 100
      (process_message "answer" rejected_video_text None)
      (janus_nosip_create_session 1) default_globals (free_world [] 9) = Some st /\
    remote_audio_rtp_port (media (hs_session st)) = 20000 /\
    remote_audio_rtcp_port (media (hs_session st)) = 20001 /\
    forall ml, In ml (m_lines answer_audio_only) -> m_port ml <> 0 ->
      (is_audio ml = true -> remote_audio_pair (media (hs_session st))) /\
      (is_video ml = true -> remote_video_pair (media (hs_session st))).
Proof.
  eexists. split; [vm_compute; reflexivity |].
  split; [reflexivity |]. split; [reflexivity |].
  apply (process_sets_remote_port_pairs (K := sim_kernel)
           (L := sim_libs sample_descriptions) 100
           (process_message "answer" rejected_video_text None)
           (janus_nosip_create_session 1) default_globals (free_world [] 9) _
           rejected_video_text answer_audio_only).
  - vm_compute; reflexivity.
  - reflexivity.
  - reflexivity.
  - reflexivity.
  - unfold sdp_ports_ok, answer_audio_only. cbn [m_lines].
    repeat (apply Forall_cons || apply Forall_nil); simpl; lia.
  - reflexivity.
Defined.

(** [generate_answer_sets_srtp_local] on two answers generated on a fresh
    session.  With [srtp] set to [sdes_optional] the request succeeds and
    [has_srtp_local] becomes true.  With [srtp] set to [sdes_mandatory] it is
    answered with 450 and [has_srtp_local] stays false. *)
Lemma generate_answer_sets_srtp_local_witness :
  (exists st,
     janus_nosip_handler (K := sim_kernel) (L := sim_libs sample_descriptions) 100
       (generate_message "answer" webrtc_audio_text (Some "sdes_optional"))
       (janus_nosip_create_session 1) default_globals (free_world [] 9) = Some st /\
     result_event_of (pushed st) = Some "generated" /\
     past_srtp_check (pushed st) = true /\
     has_srtp_local (media (hs_session st)) = true /\
     (has_srtp_remote (media (hs_session st)) = has_srtp_remote (media (janus_nosip_create_session 1)) /\
      (past_srtp_check (pushed st) = true ->
       has_srtp_local (media (hs_session st)) =
         srtp_selected (generate_message "answer" webrtc_audio_text (Some "sdes_optional")) || has_srtp_remote (media (janus_nosip_create_session 1)) /\
       (json_object_get (message (generate_message "answer" webrtc_audio_text (Some "sdes_optional"))) "srtp" = None ->
        has_srtp_local (media (hs_session st)) = has_srtp_remote (media (hs_session st)))) /\
      (past_srtp_check (pushed st) = false ->
       has_srtp_local (media (hs_session st)) = has_srtp_local (media (janus_nosip_create_session 1))) /\
      (error_code_of (pushed st) = Some JANUS_NOSIP_ERROR_TOO_STRICT <->
       request_accepted true (generate_message "answer" webrtc_audio_text (Some "sdes_optional")) (ready (media (janus_nosip_create_session 1))) = true /\
       srtp_mandatory (generate_message "answer" webrtc_audio_text (Some "sdes_optional")) = true /\
       has_srtp_remote (media (janus_nosip_create_session 1)) = false))) /\
  (exists st,
     janus_nosip_handler (K := sim_kernel) (L := sim_libs sample_descriptions) 100
       (generate_message "answer" webrtc_audio_text (Some "sdes_mandatory"))
       (janus_nosip_create_session 1) default_globals (free_world [] 9) = Some st /\
     error_code_of (pushed st) = Some JANUS_NOSIP_ERROR_TOO_STRICT /\
     past_srtp_check (pushed st) = false /\
     has_srtp_local (media (hs_session st)) = false /\
     (has_srtp_remote (media (hs_session st)) = has_srtp_remote (media (janus_nosip_create_session 1)) /\
      (past_srtp_check (pushed st) = true ->
       has_srtp_local (media (hs_session st)) =
         srtp_selected (generate_message "answer" webrtc_audio_text (Some "sdes_mandatory")) || has_srtp_remote (media (janus_nosip_create_session 1)) /\
       (json_object_get (message (generate_message "answer" webrtc_audio_text (Some "sdes_mandatory"))) "srtp" = None ->
        has_srtp_local (media (hs_session st)) = has_srtp_remote (media (hs_session st)))) /\
      (past_srtp_check (pushed st) = false ->
       has_srtp_local (media (hs_session st)) = has_srtp_local (media (janus_nosip_create_session 1))) /\
      (error_code_of (pushed st) = Some JANUS_NOSIP_ERROR_TOO_STRICT <->
       request_accepted true (generate_message "answer" webrtc_audio_text (Some "sdes_mandatory")) (ready (media (janus_nosip_create_session 1))) = true /\
       srtp_mandatory (generate_message "answer" webrtc_audio_text (Some "sdes_mandatory")) = true /\
       has_srtp_remote (media (janus_nosip_create_session 1)) = false))).
Proof.
  split.
  - eexists. split; [vm_compute; reflexivity |].
    split; [reflexivity |]. split; [reflexivity |]. split; [reflexivity |].
    apply (generate_answer_sets_srtp_local (K := sim_kernel)
             (L := sim_libs sample_descriptions) 100
             (generate_message "answer" webrtc_audio_text (Some "sdes_optional"))
             (janus_nosip_create_session 1) default_globals (free_world [] 9)).
    + vm_compute; reflexivity.
    + reflexivity.
    + reflexivity.
  - eexists. split; [vm_compute; reflexivity |].
    split; [reflexivity |]. split; [reflexivity |]. split; [reflexivity |].
    apply (generate_answer_sets_srtp_local (K := sim_kernel)
             (L := sim_libs sample_descriptions) 100
             (generate_message "answer" webrtc_audio_text (Some "sdes_mandatory"))
             (janus_nosip_create_session 1) default_globals (free_world [] 9)).
    + vm_compute; reflexivity.
    + reflexivity.
    + reflexivity.
Defined.

(** C8, as stated, fails: a [generate] request for an answer with [srtp]
    set to [sdes_mandatory], on a session whose remote offer installed no
    crypto, is answered with 450 before [has_srtp_local] is assigned: SDES
    was selected and [has_srtp_local] is still false. *)
Lemma rejected_answer_leaves_srtp_local :
  exists st,
    janus_nosip_handler (K := sim_kernel) (L := sim_libs sample_descriptions) 100
      (generate_message "answer" webrtc_audio_text (Some "sdes_mandatory"))
      (janus_nosip_create_session 1) default_globals (free_world [] 9) = Some st /\
    jsep_type_is "answer"
      (generate_message "answer" webrtc_audio_text (Some "sdes_mandatory")) = true /\
    srtp_selected (generate_message "answer" webrtc_audio_text (Some "sdes_mandatory")) = true /\
    error_code_of (pushed st) = Some JANUS_NOSIP_ERROR_TOO_STRICT /\
    has_srtp_local (media (hs_session st)) = false.
Proof.
  eexists. split; [vm_compute; reflexivity |].
  repeat split; reflexivity.
Qed.

(** C9: a [recording] request with action [start] for the user's audio, in
    a world where the recorder cannot be created, is answered with the
    [recordingupdated] event and no error code; no recorder is installed. *)
Theorem recorder_open_failure_reports_success :
  exists st,
    janus_nosip_handler (K := sim_kernel) (L := sim_libs sample_descriptions) 100
      recording_message (janus_nosip_create_session 1) default_globals (free_world [] 0)
      = Some st /\
    fst (open_recorder (L := sim_libs sample_descriptions) (janus_nosip_create_session 1)
           None (audio_pt_name (media (janus_nosip_create_session 1)))
           "-user-audio" "-own-audio" (free_world [] 0)) = None /\
    arc (hs_session st) = None /\
    result_event_of (pushed st) = Some "recordingupdated" /\
    error_code_of (pushed st) = None /\
    error_code_of (pushed st) <> Some JANUS_NOSIP_ERROR_RECORDING_ERROR.
Proof.
  eexists. split; [vm_compute; reflexivity |].
  repeat split; try reflexivity. discriminate.
Qed.

(** ** The allocator: descriptors, scan order and cursor *)

Section AllocatorScan.
Context {World : Type} {K : Kernel World}.



(** The descriptors of one pass through the loop body: those it held or
    created are those it closed and those it still holds, or returns. *)
Lemma port_pair_iteration_fds video g start c (w : World) e w' tr p :
  port_pair_iteration video g start c w = (e, w', tr, p) ->
  Permutation (live_fds c ++ opened_fds tr)
    (closed_fds tr ++
     match e with
     | Continue c' => live_fds c'
     | Break _ c' => live_fds c'
     | Return0 (fd0, fd1) _ _ => [fd0; fd1]
     end) /\
  match e with
  | Return0 (fd0, fd1) (p0, p1) slider =>
      fd0 <> -1 /\ fd1 <> -1 /\ p = Some p0 /\ p0 = rtp_port_next c /\ p1 = p0 + 1 /\
      In (Bind fd0 p0 0) tr /\ In (Bind fd1 p1 0) tr /\
      slider = (if uint32 (p0 + 2) <? rtp_range_max g then uint16 (p0 + 2)
                else rtp_range_min g)
  | Continue _ => p = Some (rtp_port_next c) /\ bind_failed_at tr (rtp_port_next c)
  | Break _ _ => p = None
  end.
Proof.
  unfold port_pair_iteration, live_fds.
  destruct (rtp_port_wrap c && (start <=? rtp_port_next c)).
  { intros H; inversion H; subst; clear H. simpl. rewrite app_nil_r. split; auto. }
  pose proof (open_rtp_socket_fds video g (rtp_fd c) w) as Ho1.
  pose proof (open_rtp_socket_calls video g (rtp_fd c) w) as [_ Hc1].
  destruct (open_rtp_socket video g (rtp_fd c) w) as [[fd1 w1] tr1].
  pose proof (open_rtcp_socket_fds g (rtcp_fd c) w1) as Ho2.
  pose proof (open_rtcp_socket_calls g (rtcp_fd c) w1) as [_ Hc2].
  destruct (open_rtcp_socket g (rtcp_fd c) w1) as [[fd2 w2] tr2].
  simpl in Ho1, Ho2, Hc1, Hc2.
  assert (Hopen : Permutation ((open_fd (rtp_fd c) ++ open_fd (rtcp_fd c)) ++
                               opened_fds tr1 ++ opened_fds tr2)
                              (open_fd fd1 ++ open_fd fd2)).
  { rewrite <- Ho1, <- Ho2. rewrite <- !app_assoc. apply Permutation_app_head.
    rewrite !app_assoc. apply Permutation_app_tail. apply Permutation_app_comm. }
  destruct ((fd1 =? -1) || (fd2 =? -1)) eqn:Hsock.
  { intros H; inversion H; subst; clear H. simpl.
    rewrite opened_fds_app, closed_fds_app, Hc1, Hc2. simpl. split; auto. }
  apply orb_false_iff in Hsock as [Hfd1 Hfd2].
  destruct (if uint32 (rtp_port_next c + 2) <? rtp_range_max g
            then (uint16 (rtp_port_next c + 2), rtp_port_wrap c)
            else (rtp_range_min g, true)) as [next wrap] eqn:Hadv.
  assert (Hnext : next = if uint32 (rtp_port_next c + 2) <? rtp_range_max g
                         then uint16 (rtp_port_next c + 2) else rtp_range_min g)
    by (destruct (uint32 (rtp_port_next c + 2) <? rtp_range_max g);
        inversion Hadv; reflexivity).
  clear Hadv.
  pose proof (janus_nosip_bind_socket_res fd1 (rtp_port_next c) w2) as Hres.
  destruct (janus_nosip_bind_socket fd1 (rtp_port_next c) w2) as [res w3].
  simpl in Hres.
  destruct (res =? 0) eqn:Hr; simpl.
  - apply Z.eqb_eq in Hr. subst res.
    pose proof (janus_nosip_bind_socket_res fd2 (rtp_port_next c + 1) w3) as Hres'.
    destruct (janus_nosip_bind_socket fd2 (rtp_port_next c + 1) w3) as [res' w4].
    simpl in Hres'.
    destruct (res' =? 0) eqn:Hr'; simpl.
    + apply Z.eqb_eq in Hr'. subst res'.
      intros H; inversion H; subst; clear H.
      rewrite !opened_fds_app, !closed_fds_app, Hc1, Hc2. simpl. rewrite app_nil_r.
      unfold open_fd in Hopen. rewrite Hfd1, Hfd2 in Hopen. simpl in Hopen.
      apply Z.eqb_neq in Hfd1, Hfd2.
      split; [exact Hopen |].
      repeat split; auto; rewrite !in_app_iff; simpl; auto.
    + apply Z.eqb_neq in Hr'.
      intros H; inversion H; subst; clear H.
      rewrite !opened_fds_app, !closed_fds_app, Hc1, Hc2. simpl. rewrite app_nil_r.
      unfold open_fd in Hopen |- *. rewrite Hfd1, Hfd2 in Hopen. simpl in Hopen.
      rewrite Hfd2. simpl. split; [exact Hopen |]. split; [reflexivity |].
      exists fd2, res'. split; [assumption |]. right.
      rewrite !in_app_iff; simpl; auto.
  - apply Z.eqb_neq in Hr.
    intros H; inversion H; subst; clear H.
    rewrite !opened_fds_app, !closed_fds_app, Hc1, Hc2. simpl. rewrite app_nil_r.
    split; [exact Hopen |]. split; [reflexivity |].
    exists fd1, res. split; [assumption |]. left.
    rewrite !in_app_iff; simpl; auto.
Qed.

Lemma allocation_failed_fds g why c (w : World) :
  opened_fds (calls (fst (allocation_failed g why c w))) = [] /\
  closed_fds (calls (fst (allocation_failed g why c w))) = live_fds c /\
  returned_fds (fst (allocation_failed g why c w)) = [].
Proof.
  unfold allocation_failed, live_fds, open_fd.
  destruct (rtp_fd c =? -1), (rtcp_fd c =? -1); simpl; auto.
Qed.

Lemma allocate_loop_fds video g start fuel :
  forall c (w : World) a w',
    allocate_loop fuel video g start c w = Some (a, w') ->
    Permutation (live_fds c ++ opened_fds (calls a)) (closed_fds (calls a) ++ returned_fds a).
Proof.
  induction fuel as [|fuel IH]; intros c w a w' Hrun; [discriminate |].
  simpl in Hrun.
  destruct (port_pair_iteration video g start c w) as [[[e w1] tr] p] eqn:Hit.
  apply port_pair_iteration_fds in Hit as [Hperm _].
  destruct e as [c' | why c' | [fd0 fd1] ports0 slider].
  - destruct (allocate_loop fuel video g start c' w1) as [[a1 w2]|] eqn:Hrec; [| discriminate].
    inversion Hrun; subst; clear Hrun. apply IH in Hrec.
    unfold returned_fds in *. simpl.
    rewrite opened_fds_app, closed_fds_app, app_assoc, Hperm, <- !app_assoc.
    apply Permutation_app_head. exact Hrec.
  - pose proof (allocation_failed_fds g why c' w1) as (Ho & Hc & Hr).
    destruct (allocation_failed g why c' w1) as [a1 w2]. simpl in Ho, Hc, Hr.
    inversion Hrun; subst; clear Hrun.
    unfold returned_fds in *. simpl.
    rewrite opened_fds_app, closed_fds_app, Ho, Hc, Hr, !app_nil_r. exact Hperm.
  - inversion Hrun; subst; clear Hrun. unfold returned_fds. simpl.
    rewrite !app_nil_r. exact Hperm.
Qed.


Lemma bind_failed_at_app tr1 tr2 t :
  bind_failed_at tr2 t -> bind_failed_at (tr1 ++ tr2) t.
Proof.
  intros (fd & res & Hres & H). exists fd, res. split; [assumption |].
  rewrite !in_app_iff. tauto.
Qed.

Lemma bind_failed_at_app_l tr1 tr2 t :
  bind_failed_at tr1 t -> bind_failed_at (tr1 ++ tr2) t.
Proof.
  intros (fd & res & Hres & H). exists fd, res. split; [assumption |].
  rewrite !in_app_iff. tauto.
Qed.

(** How a call ends: with a pair, the sockets bound to it and every port
    tried before it refused; or with -1 and nothing written. *)
Lemma allocate_loop_result video g start fuel :
  forall c (w : World) a w',
    allocate_loop fuel video g start c w = Some (a, w') ->
    match left_at a with
    | None =>
        ret a = 0 /\
        exists fd0 fd1 p earlier,
          fds a = Some (fd0, fd1) /\ ports a = Some (p, p + 1) /\
          fd0 <> -1 /\ fd1 <> -1 /\
          In (Bind fd0 p 0) (calls a) /\ In (Bind fd1 (p + 1) 0) (calls a) /\
          tried a = earlier ++ [p] /\ Forall (bind_failed_at (calls a)) earlier /\
          globals a = g <| rtp_range_slider :=
                             if uint32 (p + 2) <? rtp_range_max g then uint16 (p + 2)
                             else rtp_range_min g |>
    | Some _ =>
        ret a = -1 /\ fds a = None /\ ports a = None /\ globals a = g /\
        Forall (bind_failed_at (calls a)) (tried a)
    end.
Proof.
  induction fuel as [|fuel IH]; intros c w a w' Hrun; [discriminate |].
  simpl in Hrun.
  destruct (port_pair_iteration video g start c w) as [[[e w1] tr] p] eqn:Hit.
  apply port_pair_iteration_fds in Hit as [_ Hit].
  destruct e as [c' | why c' | [fd0 fd1] [p0 p1] slider].
  - destruct (allocate_loop fuel video g start c' w1) as [[a1 w2]|] eqn:Hrec; [| discriminate].
    inversion Hrun; subst; clear Hrun. apply IH in Hrec.
    destruct Hit as [-> Hfail]. simpl.
    destruct (left_at a1) as [stop|].
    + destruct Hrec as (? & ? & ? & ? & Hall). repeat split; auto.
      constructor; [apply bind_failed_at_app_l; assumption |].
      eapply Forall_impl; [| exact Hall]. intros t. apply bind_failed_at_app.
    + destruct Hrec as (? & f0 & f1 & q & earlier & ? & ? & ? & ? & ? & ? & Ht & Hall & ?).
      split; [assumption |].
      exists f0, f1, q, (rtp_port_next c :: earlier).
      rewrite Ht, !in_app_iff. repeat split; auto.
      constructor; [apply bind_failed_at_app_l; assumption |].
      eapply Forall_impl; [| exact Hall]. intros t. apply bind_failed_at_app.
  - subst p. unfold allocation_failed in Hrun.
    destruct (negb (rtp_fd c' =? -1)), (negb (rtcp_fd c' =? -1));
      inversion Hrun; subst; clear Hrun; simpl; repeat split; auto.
  - destruct Hit as (? & ? & -> & -> & -> & ? & ? & ->).
    inversion Hrun; subst; clear Hrun. simpl. split; [reflexivity |].
    exists fd0, fd1, (rtp_port_next c), []. rewrite !app_nil_r. repeat split; auto.
Qed.

(** The converse of the step of the loop invariant: a candidate that was
    ahead before a pass is the port just tried or is still ahead. *)
Lemma port_pair_iteration_covers video g start c (w : World) e w' tr p :
  0 <= rtp_range_min g -> rtp_range_min g <= rtp_range_max g -> rtp_range_max g <= 65535 ->
  rtp_range_min g <= start -> (start - rtp_range_min g) mod 2 = 0 ->
  (start = rtp_range_min g \/ start < rtp_range_max g) ->
  cursor_inv g start c ->
  port_pair_iteration video g start c w = (e, w', tr, p) ->
  match e with
  | Continue c' =>
      forall t, candidate g t -> ahead start c t -> t = rtp_port_next c \/ ahead start c' t
  | Break FullRangeScanned _ => forall t, candidate g t -> ~ ahead start c t
  | _ => True
  end.
Proof.
  intros Hmin Hmm Hmax Hls Hpar Hstart (Hlo & Hp & Hin & Hw).
  unfold port_pair_iteration.
  destruct (rtp_port_wrap c && (start <=? rtp_port_next c)) eqn:Hfull.
  { intros H; inversion H; subst; clear H.
    apply andb_true_iff in Hfull as [Hwr Hge]. apply Z.leb_le in Hge.
    intros t _. unfold ahead. rewrite Hwr. lia. }
  destruct (open_rtp_socket video g (rtp_fd c) w) as [[fd1 w1] tr1].
  destruct (open_rtcp_socket g (rtcp_fd c) w1) as [[fd2 w2] tr2].
  destruct ((fd1 =? -1) || (fd2 =? -1)).
  { intros H; inversion H; subst; clear H. exact I. }
  assert (Hstep :
    forall next wrap,
      (if uint32 (rtp_port_next c + 2) <? rtp_range_max g
       then (uint16 (rtp_port_next c + 2), rtp_port_wrap c)
       else (rtp_range_min g, true)) = (next, wrap) ->
      forall t, candidate g t -> ahead start c t ->
        t = rtp_port_next c \/
        (if wrap then next <= t < start else next <= t \/ t < start)).
  { intros next wrap. unfold uint32, uint16, ahead, candidate.
    apply andb_false_iff in Hfull.
    destruct (rtp_port_wrap c) eqn:Hwr.
    - assert (Hlt : rtp_port_next c < start)
        by (destruct Hfull as [?|Hge]; [discriminate | apply Z.leb_gt in Hge; lia]).
      assert (Hnext : rtp_port_next c + 2 <= start) by mlia.
      assert (Hbelow : start < rtp_range_max g) by lia.
      rewrite Z.mod_small by lia.
      destruct (rtp_port_next c + 2 <? rtp_range_max g) eqn:Hadv;
        [| apply Z.ltb_ge in Hadv; lia].
      rewrite Z.mod_small by lia.
      intros E; inversion E; subst; clear E.
      intros t (Ht1 & Ht2 & Ht3) Ha. mlia.
    - rewrite Z.mod_small by lia.
      destruct (rtp_port_next c + 2 <? rtp_range_max g) eqn:Hadv.
      + apply Z.ltb_lt in Hadv. rewrite Z.mod_small by lia.
        intros E; inversion E; subst; clear E.
        intros t (Ht1 & Ht2 & Ht3) Ha. mlia.
      + apply Z.ltb_ge in Hadv.
        intros E; inversion E; subst; clear E.
        intros t (Ht1 & Ht2 & Ht3) Ha. mlia. }
  destruct (if uint32 (rtp_port_next c + 2) <? rtp_range_max g
            then (uint16 (rtp_port_next c + 2), rtp_port_wrap c)
            else (rtp_range_min g, true)) as [next wrap] eqn:Hadv.
  specialize (Hstep next wrap eq_refl).
  destruct (janus_nosip_bind_socket fd1 (rtp_port_next c) w2) as [res w3].
  destruct (negb (res =? 0)).
  { intros H; inversion H; subst; clear H. unfold ahead at 2. simpl. exact Hstep. }
  destruct (janus_nosip_bind_socket fd2 (rtp_port_next c + 1) w3) as [res' w4].
  destruct (negb (res' =? 0)).
  { intros H; inversion H; subst; clear H. unfold ahead at 2. simpl. exact Hstep. }
  intros H; inversion H; subst; clear H. exact I.
Qed.

(** The scan stays on the candidates of the range, and it reports "full
    range scanned" only after it has tried every candidate that was ahead. *)
Lemma allocate_loop_covers video g start :
  range_ok g ->
  rtp_range_min g <= start -> (start - rtp_range_min g) mod 2 = 0 ->
  (start = rtp_range_min g \/ start < rtp_range_max g) ->
  forall fuel c (w : World) a w',
    cursor_inv g start c ->
    allocate_loop fuel video g start c w = Some (a, w') ->
    Forall (candidate g) (tried a) /\
    (forall c', left_at a = Some (FullRangeScanned, c') ->
       forall t, candidate g t -> ahead start c t -> In t (tried a)).
Proof.
  intros Hg Hls Hpar Hstart.
  assert (Hg' := Hg). destruct Hg' as (Hmin & Hmm & Hmax & _).
  induction fuel as [|fuel IH]; intros c w a w' Hinv Hrun; [discriminate |].
  simpl in Hrun.
  destruct (port_pair_iteration video g start c w) as [[[e w1] tr] p] eqn:Hit.
  pose proof (port_pair_iteration_inv _ _ _ _ _ _ _ _ _ Hmin Hmm Hmax Hls Hpar Hstart Hinv Hit)
    as Hstep.
  pose proof (port_pair_iteration_covers _ _ _ _ _ _ _ _ _ Hmin Hmm Hmax Hls Hpar Hstart
                Hinv Hit) as Hcov.
  assert (Hcand : candidate g (rtp_port_next c))
    by (destruct Hinv as (? & ? & ? & _); unfold candidate; auto).
  destruct e as [c' | why c' | fds0 ports0 slider].
  - destruct Hstep as (-> & _ & Hinv' & _ & _).
    destruct (allocate_loop fuel video g start c' w1) as [[a1 w2]|] eqn:Hrec; [| discriminate].
    inversion Hrun; subst; clear Hrun.
    destruct (IH _ _ _ _ Hinv' Hrec) as [Hall Hfull]. simpl.
    split; [constructor; assumption |].
    intros c'' Hleft t Ht Ha.
    destruct (Hcov t Ht Ha) as [-> | Ha']; [auto |]. right. eauto.
  - unfold allocation_failed in Hrun.
    destruct (negb (rtp_fd c' =? -1)), (negb (rtcp_fd c' =? -1));
      inversion Hrun; subst; clear Hrun; simpl;
      (destruct why; destruct Hstep as (-> & _);
       (split; [constructor |]); intros c'' Hleft t Ht Ha;
       [exfalso; exact (Hcov t Ht Ha) | discriminate]).
  - destruct Hstep as (-> & _).
    inversion Hrun; subst; clear Hrun. simpl.
    split; [constructor; [assumption | constructor] |]. discriminate.
Qed.

(** X1: every descriptor a call of the allocator creates is closed by the
    call or returned to the caller, and a call that fails returns none: it
    leaks no socket. *)
Theorem allocate_port_pair_descriptors fuel video g (w : World) a w' :
  janus_nosip_allocate_port_pair fuel video g w = Some (a, w') ->
  Permutation (opened_fds (calls a)) (closed_fds (calls a) ++ returned_fds a) /\
  (ret a <> 0 -> returned_fds a = [] /\ Permutation (opened_fds (calls a)) (closed_fds (calls a))).
Proof.
  unfold janus_nosip_allocate_port_pair. intros Hrun.
  pose proof (allocate_loop_fds _ _ _ _ _ _ _ _ Hrun) as Hperm.
  pose proof (allocate_loop_result _ _ _ _ _ _ _ _ Hrun) as Hres.
  unfold live_fds, open_fd in Hperm. simpl in Hperm.
  split; [exact Hperm |].
  intros Hret. destruct (left_at a).
  - destruct Hres as (_ & Hfds & _). unfold returned_fds in *. rewrite Hfds in *.
    rewrite app_nil_r in Hperm. auto.
  - destruct Hres as [Hzero _]. contradiction.
Qed.

(** X2: a call that succeeds returns two descriptors, neither of them -1,
    bound to an RTP port and the port after it; the RTP port is the last one
    the call tried, and for every port tried before it a [bind] had failed.
    Only the cursor is written, to the pair after the one returned. *)
Theorem allocate_port_pair_first_fit fuel video g (w : World) a w' :
  janus_nosip_allocate_port_pair fuel video g w = Some (a, w') ->
  ret a = 0 ->
  exists fd0 fd1 p earlier,
    fds a = Some (fd0, fd1) /\ ports a = Some (p, p + 1) /\
    fd0 <> -1 /\ fd1 <> -1 /\
    In (Bind fd0 p 0) (calls a) /\ In (Bind fd1 (p + 1) 0) (calls a) /\
    tried a = earlier ++ [p] /\ Forall (bind_failed_at (calls a)) earlier /\
    globals a = g <| rtp_range_slider :=
                       if uint32 (p + 2) <? rtp_range_max g then uint16 (p + 2)
                       else rtp_range_min g |>.
Proof.
  unfold janus_nosip_allocate_port_pair. intros Hrun Hret.
  pose proof (allocate_loop_result _ _ _ _ _ _ _ _ Hrun) as Hres.
  destruct (left_at a); [| tauto].
  destruct Hres as (Hneg & _). lia.
Qed.

(** X3: a call that fails returns -1, writes neither descriptors nor ports,
    and leaves the globals, the cursor included, as they were; every port it
    tried was refused by [bind]. *)
Theorem allocate_port_pair_failure fuel video g (w : World) a w' :
  janus_nosip_allocate_port_pair fuel video g w = Some (a, w') ->
  ret a <> 0 ->
  ret a = -1 /\ fds a = None /\ ports a = None /\ globals a = g /\
  Forall (bind_failed_at (calls a)) (tried a).
Proof.
  unfold janus_nosip_allocate_port_pair. intros Hrun Hret.
  pose proof (allocate_loop_result _ _ _ _ _ _ _ _ Hrun) as Hres.
  destruct (left_at a); [assumption |].
  destruct Hres as [Hzero _]. contradiction.
Qed.

(** X4: on a range as [janus_nosip_init] leaves it, the ports a call tries
    are candidates of the range; and a call that reports the range exhausted
    has tried every candidate, and [bind] refused each of them. *)
Theorem allocate_port_pair_exhaustive fuel video g (w : World) a w' :
  range_ok g ->
  janus_nosip_allocate_port_pair fuel video g w = Some (a, w') ->
  Forall (candidate g) (tried a) /\
  (forall c, left_at a = Some (FullRangeScanned, c) ->
     forall t, candidate g t -> In t (tried a) /\ bind_failed_at (calls a) t).
Proof.
  intros Hg Hrun.
  assert (Hg' := Hg). destruct Hg' as (Hmin & Hmm & Hmax & Hls & Hpar & Hstart).
  unfold janus_nosip_allocate_port_pair in Hrun.
  assert (Hinv : cursor_inv g (rtp_range_slider g) (fresh_cursor g))
    by (unfold cursor_inv, fresh_cursor; simpl; repeat split; auto; lia).
  destruct (allocate_loop_covers video g (rtp_range_slider g) Hg Hls Hpar Hstart
              _ _ _ _ _ Hinv Hrun) as [Hall Hfull].
  split; [exact Hall |].
  intros c Hleft t Ht.
  assert (Hin : In t (tried a)).
  { apply (Hfull c Hleft t Ht). unfold ahead. simpl. lia. }
  split; [exact Hin |].
  pose proof (allocate_loop_result _ _ _ _ _ _ _ _ Hrun) as Hres.
  rewrite Hleft in Hres. destruct Hres as (_ & _ & _ & _ & Hfail).
  rewrite Forall_forall in Hfail. auto.
Qed.

End AllocatorScan.

(** [allocate_port_pair_descriptors] where the first pair cannot be bound:
    descriptors 7 to 10 are created, 7 is closed, 9 and 8 are returned. *)
Lemma allocate_port_pair_descriptors_witness :
  exists a w',
    janus_nosip_allocate_port_pair 5 false default_globals (free_world [10001] 5)
      = Some (a, w') /\
    opened_fds (calls a) = [7; 8; 9] /\ closed_fds (calls a) = [7] /\
    returned_fds a = [9; 8] /\
    (Permutation (opened_fds (calls a)) (closed_fds (calls a) ++ returned_fds a) /\
     (ret a <> 0 ->
      returned_fds a = [] /\ Permutation (opened_fds (calls a)) (closed_fds (calls a)))).
Proof.
  eexists. eexists. split; [vm_compute; reflexivity |].
  split; [reflexivity |]. split; [reflexivity |]. split; [reflexivity |].
  eapply (allocate_port_pair_descriptors 5 false default_globals (free_world [10001] 5)).
  vm_compute; reflexivity.
Defined.

(** [allocate_port_pair_first_fit] where port 10001 is taken: the pair
    returned is 10002 and 10003, after 10000 was tried. *)
Lemma allocate_port_pair_first_fit_witness :
  exists a w',
    janus_nosip_allocate_port_pair 5 false default_globals (free_world [10001] 5)
      = Some (a, w') /\
    tried a = [10000; 10002] /\
    exists fd0 fd1 p earlier,
      fds a = Some (fd0, fd1) /\ ports a = Some (p, p + 1) /\
      fd0 <> -1 /\ fd1 <> -1 /\
      In (Bind fd0 p 0) (calls a) /\ In (Bind fd1 (p + 1) 0) (calls a) /\
      tried a = earlier ++ [p] /\ Forall (bind_failed_at (calls a)) earlier /\
      globals a = default_globals <| rtp_range_slider :=
                         if uint32 (p + 2) <? rtp_range_max default_globals then uint16 (p + 2)
                         else rtp_range_min default_globals |>.
Proof.
  eexists. eexists. split; [vm_compute; reflexivity |]. split; [reflexivity |].
  eapply (allocate_port_pair_first_fit 5 false default_globals (free_world [10001] 5)).
  - vm_compute; reflexivity.
  - reflexivity.
Defined.

(** [allocate_port_pair_failure] on a range of two pairs whose RTP ports are
    both taken. *)
Lemma allocate_port_pair_failure_witness :
  exists a w',
    janus_nosip_allocate_port_pair 5 false narrow_globals (free_world [10; 12] 5)
      = Some (a, w') /\
    tried a = [10; 12] /\
    (ret a = -1 /\ fds a = None /\ ports a = None /\ globals a = narrow_globals /\
     Forall (bind_failed_at (calls a)) (tried a)).
Proof.
  eexists. eexists. split; [vm_compute; reflexivity |]. split; [reflexivity |].
  eapply (allocate_port_pair_failure 5 false narrow_globals (free_world [10; 12] 5)).
  - vm_compute; reflexivity.
  - simpl. lia.
Defined.

(** [allocate_port_pair_exhaustive] on the same range: the candidates are
    10 and 12, and both were tried. *)
Lemma allocate_port_pair_exhaustive_witness :
  range_ok narrow_globals /\
  exists a w',
    janus_nosip_allocate_port_pair 5 false narrow_globals (free_world [10; 12] 5)
      = Some (a, w') /\
    (exists c, left_at a = Some (FullRangeScanned, c)) /\
    (Forall (candidate narrow_globals) (tried a) /\
     (forall c, left_at a = Some (FullRangeScanned, c) ->
        forall t, candidate narrow_globals t ->
          In t (tried a) /\ bind_failed_at (calls a) t)).
Proof.
  assert (H : range_ok narrow_globals)
    by (unfold range_ok, narrow_globals; cbn; repeat split; try lia; try reflexivity;
        left; reflexivity).
  split; [exact H |].
  eexists. eexists. split; [vm_compute; reflexivity |].
  split; [eexists; reflexivity |].
  eapply (allocate_port_pair_exhaustive 5 false narrow_globals (free_world [10; 12] 5) _ _ H).
  vm_compute; reflexivity.
Defined.

(** ** The port range [janus_nosip_init] configures *)

Ltac range_cases :=
  repeat match goal with
         | |- context [if ?b then _ else _] => destruct b eqn:?; simpl in *
         end;
  repeat match goal with
         | H : (_ <? _) = true |- _ => apply Z.ltb_lt in H
         | H : (_ <? _) = false |- _ => apply Z.ltb_ge in H
         | H : (_ =? _) = true |- _ => apply Z.eqb_eq in H
         | H : (_ =? _) = false |- _ => apply Z.eqb_neq in H
         | H : negb _ = true |- _ => apply negb_true_iff in H
         | H : negb _ = false |- _ => apply negb_false_iff in H
         end.

(** X5: whatever two 16-bit numbers the configuration gives, in either order,
    [janus_nosip_init] leaves a range the allocator can scan, with the cursor
    at its minimum.  Two different numbers give the range from the smaller,
    rounded up to an even port, to the larger.  A single even port stays a
    range of one port; 0 gives the whole range; a single odd port [p] gives
    the range from [p] to [p + 1], with an odd minimum, except 65535, which
    wraps to the whole range. *)
Theorem janus_nosip_init_port_range_normalises g :
  0 <= rtp_range_min g <= 65535 -> 0 <= rtp_range_max g <= 65535 ->
  let lo := Z.min (rtp_range_min g) (rtp_range_max g) in
  let hi := Z.max (rtp_range_min g) (rtp_range_max g) in
  let g' := janus_nosip_init_port_range g in
  range_ok g' /\ rtp_range_slider g' = rtp_range_min g' /\
  (lo < hi -> rtp_range_min g' = lo + lo mod 2 /\ rtp_range_max g' = hi) /\
  (lo = hi -> lo mod 2 = 0 -> lo <> 0 -> rtp_range_min g' = lo /\ rtp_range_max g' = lo) /\
  (lo = hi -> lo mod 2 = 1 -> lo < 65535 ->
   rtp_range_min g' = lo /\ rtp_range_max g' = lo + 1) /\
  (lo = hi -> lo = 0 \/ lo = 65535 -> rtp_range_min g' = 0 /\ rtp_range_max g' = 65535).
Proof.
  intros Hmin Hmax lo hi g'. subst lo hi g'.
  split; [apply janus_nosip_init_port_range_ok; assumption |].
  unfold janus_nosip_init_port_range, uint16.
  destruct g as [mn mx sl v6 ip da dv lip sip ne ini stp gw]; simpl in *.
  range_cases; repeat split; intros; try mlia.
Qed.

(** [janus_nosip_init_port_range_normalises] on the range ["20001-10000"]. *)
Lemma janus_nosip_init_port_range_normalises_witness :
  let g := default_globals <| rtp_range_min := 20001 |> <| rtp_range_max := 10000 |> in
  rtp_range_min (janus_nosip_init_port_range g) = 10000 /\
  rtp_range_max (janus_nosip_init_port_range g) = 20001 /\
  let lo := Z.min (rtp_range_min g) (rtp_range_max g) in
  let hi := Z.max (rtp_range_min g) (rtp_range_max g) in
  let g' := janus_nosip_init_port_range g in
  range_ok g' /\ rtp_range_slider g' = rtp_range_min g' /\
  (lo < hi -> rtp_range_min g' = lo + lo mod 2 /\ rtp_range_max g' = hi) /\
  (lo = hi -> lo mod 2 = 0 -> lo <> 0 -> rtp_range_min g' = lo /\ rtp_range_max g' = lo) /\
  (lo = hi -> lo mod 2 = 1 -> lo < 65535 ->
   rtp_range_min g' = lo /\ rtp_range_max g' = lo + 1) /\
  (lo = hi -> lo = 0 \/ lo = 65535 -> rtp_range_min g' = 0 /\ rtp_range_max g' = 65535).
Proof.
  intros g. split; [reflexivity |]. split; [reflexivity |].
  apply (janus_nosip_init_port_range_normalises g); simpl; lia.
Defined.

(** ** SRTP: outcomes of the two installers *)

Section SrtpOutcomes.
Context {World : Type} {L : Libs World}.

(** The ways [janus_nosip_srtp_set_remote] ends. *)
Lemma janus_nosip_srtp_set_remote_cases m video profile crypto (w : World) :
  let res := fst (fst (janus_nosip_srtp_set_remote m video profile crypto w)) in
  let m' := snd (fst (janus_nosip_srtp_set_remote m video profile crypto w)) in
  (res = 0 \/ res = -1 \/ res = -2 \/ res = -3) /\
  (res = -1 <-> profile = None \/ crypto = None) /\
  (res = -1 -> m' = m) /\
  (res <> 0 -> srtp_in_of video m' = srtp_in_of video m) /\
  srtp_in_of (negb video) m' = srtp_in_of (negb video) m /\
  (res = -3 ->
   exists c, crypto = Some c /\
             Z.of_nat (List.length (g_base64_decode c)) < master_length_of (srtp_profile m') /\
             remote_policy_of video m' = remote_policy_of video m) /\
  (res = 0 ->
   exists c pol, crypto = Some c /\
                 srtp_in_of video m' = Some pol /\ remote_policy_of video m' = pol /\
                 key pol = Some (g_base64_decode c) /\ ssrc_type pol = ssrc_any_inbound /\
                 master_length_of (srtp_profile m') <= Z.of_nat (List.length (g_base64_decode c))).
Proof.
  unfold janus_nosip_srtp_set_remote.
  destruct profile as [profile|]; [| simpl; intuition (try discriminate; try lia)].
  destruct crypto as [crypto|]; [| simpl; intuition (try discriminate; try lia)].
  set (chosen := if strcasecmp profile "AES_CM_128_HMAC_SHA1_32" =? 0 then _ else _).
  assert (Hchosen : match chosen with
                    | Some (prof, len) => len = master_length_of prof
                    | None => True
                    end).
  { subst chosen.
    repeat match goal with
           | |- context [if ?b then _ else _] => destruct b
           end; simpl; auto. }
  clearbody chosen.
  destruct chosen as [[prof len]|]; [| simpl; intuition (try discriminate; try lia)].
  subst len.
  destruct (Z.of_nat (List.length (g_base64_decode crypto)) <? master_length_of prof) eqn:Hlen.
  { apply Z.ltb_lt in Hlen. simpl.
    repeat split; intros; try discriminate; try lia; auto;
      try (destruct H as [H | H]; discriminate).
    exists crypto. repeat split; auto; destruct video; reflexivity. }
  apply Z.ltb_ge in Hlen.
  match goal with |- context [srtp_create ?pol w] => destruct (srtp_create pol w) as [res w1] end.
  destruct (negb (res =? srtp_err_status_ok)).
  - simpl. repeat split; intros; try discriminate; try lia; auto;
      try (destruct H as [H | H]; discriminate);
      destruct video; reflexivity.
  - simpl. repeat split; intros; try discriminate; try lia; auto;
      try (destruct H as [H | H]; discriminate);
      try (destruct video; reflexivity).
    exists crypto. destruct video; eexists; (split; [reflexivity |]); simpl; repeat split; auto.
Qed.

(** X6: [janus_nosip_srtp_set_remote] returns 0, -1, -2 or -3.  It
    returns -1 exactly when the profile or the crypto string is NULL, and
    then changes nothing.  A call that fails never installs or replaces the
    inbound context of the medium, and no call touches the inbound context of
    the other medium.  It returns -3 when the decoded key is shorter than the
    master length of the profile, which it has stored in the session by then.
    A call that returns 0 installs an inbound context whose key is the
    decoded crypto string, at least as long as the master length. *)
Theorem janus_nosip_srtp_set_remote_outcomes m video profile crypto (w : World) :
  let res := fst (fst (janus_nosip_srtp_set_remote m video profile crypto w)) in
  let m' := snd (fst (janus_nosip_srtp_set_remote m video profile crypto w)) in
  (res = 0 \/ res = -1 \/ res = -2 \/ res = -3) /\
  (res = -1 <-> profile = None \/ crypto = None) /\
  (res = -1 -> m' = m) /\
  (res <> 0 -> srtp_in_of video m' = srtp_in_of video m) /\
  srtp_in_of (negb video) m' = srtp_in_of (negb video) m /\
  (res = -3 ->
   exists c, crypto = Some c /\
             Z.of_nat (List.length (g_base64_decode c)) < master_length_of (srtp_profile m') /\
             remote_policy_of video m' = remote_policy_of video m) /\
  (res = 0 ->
   exists c pol, crypto = Some c /\
                 srtp_in_of video m' = Some pol /\ remote_policy_of video m' = pol /\
                 key pol = Some (g_base64_decode c) /\ ssrc_type pol = ssrc_any_inbound /\
                 master_length_of (srtp_profile m') <= Z.of_nat (List.length (g_base64_decode c))).
Proof. exact (janus_nosip_srtp_set_remote_cases m video profile crypto w). Qed.

(** The ways [janus_nosip_srtp_set_local] ends. *)
Lemma janus_nosip_srtp_set_local_cases m video (w : World) :
  let res := fst (fst (janus_nosip_srtp_set_local m video w)) in
  let m' := snd (fst (janus_nosip_srtp_set_local m video w)) in
  (res = 0 \/ res = -2) /\
  (profile_supported (srtp_profile m) = false ->
   res = -2 /\ m' = m /\ snd (janus_nosip_srtp_set_local m video w) = w) /\
  (res <> 0 ->
   srtp_out_of video m' = srtp_out_of video m /\
   srtp_local_crypto_of video m' = srtp_local_crypto_of video m) /\
  srtp_out_of (negb video) m' = srtp_out_of (negb video) m /\
  srtp_profile m' = srtp_profile m /\
  (res = 0 ->
   exists pol k name,
     k = fst (srtp_crypto_get_random (master_length_of (srtp_profile m)) w) /\
     srtp_out_of video m' = Some pol /\ local_policy_of video m' = pol /\
     key pol = Some k /\ ssrc_type pol = ssrc_any_inbound /\
     srtp_local_crypto_of video m' = Some (g_base64_encode k) /\
     srtp_local_profile_of video m' = Some name).
Proof.
  unfold janus_nosip_srtp_set_local, profile_supported.
  set (lengths := match srtp_profile m with JANUS_SRTP_NONE => None | _ => _ end).
  assert (Hlengths : match lengths with
                     | Some (len, _) =>
                         len = master_length_of (srtp_profile m) /\
                         profile_supported (srtp_profile m) = true
                     | None => profile_supported (srtp_profile m) = false
                     end).
  { subst lengths. unfold profile_supported.
    destruct (srtp_profile m); simpl; auto; destruct HAVE_SRTP_AESGCM; simpl; auto. }
  unfold profile_supported in Hlengths. clearbody lengths.
  destruct lengths as [[len name]|].
  2:{ simpl. repeat split; intros; try discriminate; try lia; auto. }
  destruct Hlengths as [-> Hsup]. rewrite Hsup.
  destruct (srtp_crypto_get_random (master_length_of (srtp_profile m)) w) as [k w1] eqn:Hk.
  assert (Hprof : srtp_profile (if video then m <| video_srtp_local_profile := Some name |>
                                else m <| audio_srtp_local_profile := Some name |>)
                  = srtp_profile m) by (destruct video; reflexivity).
  rewrite Hprof.
  match goal with |- context [srtp_create ?pol w1] => destruct (srtp_create pol w1) as [res w2] end.
  destruct (negb (res =? srtp_err_status_ok)).
  - simpl. repeat split; intros; try discriminate; try lia; auto;
      destruct video; reflexivity.
  - simpl. repeat split; intros; try discriminate; try lia; auto;
      try (destruct video; reflexivity).
    destruct video; eexists; exists k, name; (split; [reflexivity |]);
      simpl; repeat split; auto.
Qed.

(** X7: [janus_nosip_srtp_set_local] returns 0 or -2.  On a
    profile that is not supported it returns -2 and changes nothing.  A call
    that fails never installs or replaces the outbound context and stores no
    crypto string; no call touches the other medium's outbound context or the
    session's profile.  A call that returns 0 installs an outbound context
    keyed with the random bytes it drew, as many as the master length of the
    profile asks for, and stores their Base64 encoding as the local crypto
    string, with the profile's name. *)
Theorem janus_nosip_srtp_set_local_outcomes m video (w : World) :
  let res := fst (fst (janus_nosip_srtp_set_local m video w)) in
  let m' := snd (fst (janus_nosip_srtp_set_local m video w)) in
  (res = 0 \/ res = -2) /\
  (profile_supported (srtp_profile m) = false ->
   res = -2 /\ m' = m /\ snd (janus_nosip_srtp_set_local m video w) = w) /\
  (res <> 0 ->
   srtp_out_of video m' = srtp_out_of video m /\
   srtp_local_crypto_of video m' = srtp_local_crypto_of video m) /\
  srtp_out_of (negb video) m' = srtp_out_of (negb video) m /\
  srtp_profile m' = srtp_profile m /\
  (res = 0 ->
   exists pol k name,
     k = fst (srtp_crypto_get_random (master_length_of (srtp_profile m)) w) /\
     srtp_out_of video m' = Some pol /\ local_policy_of video m' = pol /\
     key pol = Some k /\ ssrc_type pol = ssrc_any_inbound /\
     srtp_local_crypto_of video m' = Some (g_base64_encode k) /\
     srtp_local_profile_of video m' = Some name).
Proof. exact (janus_nosip_srtp_set_local_cases m video w). Qed.

(** What a successful [janus_nosip_srtp_set_local] leaves. *)
Lemma janus_nosip_srtp_set_local_success m video (w : World) :
  fst (fst (janus_nosip_srtp_set_local m video w)) = 0 ->
  let m' := snd (fst (janus_nosip_srtp_set_local m video w)) in
  let k := fst (srtp_crypto_get_random (master_length_of (srtp_profile m)) w) in
  let pol := set_srtp_policies (srtp_profile m) (local_policy_of video m)
               <| ssrc_type := ssrc_any_inbound |> <| key := Some k |> in
  profile_supported (srtp_profile m) = true /\
  srtp_local_profile_of video m' = srtp_profile_name (srtp_profile m) /\
  srtp_local_crypto_of video m' = Some (g_base64_encode k) /\
  srtp_out_of video m' = Some pol /\ local_policy_of video m' = pol.
Proof.
  unfold janus_nosip_srtp_set_local, profile_supported.
  set (lengths := match srtp_profile m with JANUS_SRTP_NONE => None | _ => _ end).
  assert (Hlengths : match lengths with
                     | Some (len, name) =>
                         len = master_length_of (srtp_profile m) /\
                         Some name = srtp_profile_name (srtp_profile m) /\
                         profile_supported (srtp_profile m) = true
                     | None => True
                     end).
  { subst lengths. unfold profile_supported.
    destruct (srtp_profile m); simpl; auto; destruct HAVE_SRTP_AESGCM; simpl; auto. }
  unfold profile_supported in Hlengths. clearbody lengths.
  destruct lengths as [[len name]|]; [| simpl; discriminate].
  destruct Hlengths as (-> & Hname & Hsup). rewrite Hsup, <- Hname.
  destruct (srtp_crypto_get_random (master_length_of (srtp_profile m)) w) as [k w1] eqn:Hk.
  assert (Hprof : srtp_profile (if video then m <| video_srtp_local_profile := Some name |>
                                else m <| audio_srtp_local_profile := Some name |>)
                  = srtp_profile m) by (destruct video; reflexivity).
  rewrite Hprof.
  match goal with |- context [srtp_create ?pol w1] => destruct (srtp_create pol w1) as [res w2] end.
  destruct (negb (res =? srtp_err_status_ok)); [simpl; discriminate |].
  intros _. simpl. destruct video; simpl; auto.
Qed.

(** The name of a supported profile is a name [janus_nosip_srtp_set_remote]
    reads as that profile. *)
Lemma janus_nosip_srtp_set_remote_named m video p name crypto (w : World) :
  profile_supported p = true ->
  srtp_profile_name p = Some name ->
  master_length_of p <= Z.of_nat (List.length (g_base64_decode crypto)) ->
  fst (srtp_create (set_srtp_policies p (remote_policy_of video m)
                      <| ssrc_type := ssrc_any_inbound |>
                      <| key := Some (g_base64_decode crypto) |>) w) = srtp_err_status_ok ->
  let r := janus_nosip_srtp_set_remote m video (Some name) (Some crypto) w in
  fst (fst r) = 0 /\ srtp_profile (snd (fst r)) = p /\
  srtp_in_of video (snd (fst r))
    = Some (set_srtp_policies p (remote_policy_of video m)
              <| ssrc_type := ssrc_any_inbound |>
              <| key := Some (g_base64_decode crypto) |>).
Proof.
  intros Hsup Hname Hlen Hcreate r. subst r. unfold janus_nosip_srtp_set_remote.
  assert (Hchain :
    (if strcasecmp name "AES_CM_128_HMAC_SHA1_32" =? 0
     then Some (JANUS_SRTP_AES128_CM_SHA1_32, SRTP_MASTER_LENGTH)
     else if strcasecmp name "AES_CM_128_HMAC_SHA1_80" =? 0
     then Some (JANUS_SRTP_AES128_CM_SHA1_80, SRTP_MASTER_LENGTH)
     else if HAVE_SRTP_AESGCM && (strcasecmp name "AEAD_AES_128_GCM" =? 0)
     then Some (JANUS_SRTP_AEAD_AES_128_GCM, SRTP_AESGCM128_MASTER_LENGTH)
     else if HAVE_SRTP_AESGCM && (strcasecmp name "AEAD_AES_256_GCM" =? 0)
     then Some (JANUS_SRTP_AEAD_AES_256_GCM, SRTP_AESGCM256_MASTER_LENGTH)
     else None) = Some (p, master_length_of p)).
  { destruct p; simpl in Hsup, Hname; try discriminate;
      injection Hname as <-; try rewrite Hsup; reflexivity. }
  rewrite Hchain.
  apply Z.ltb_ge in Hlen. rewrite Hlen.
  assert (Hpol : (if video then video_remote_policy (m <| srtp_profile := p |>)
                  else audio_remote_policy (m <| srtp_profile := p |>))
                 = remote_policy_of video m) by (destruct video; reflexivity).
  rewrite Hpol.
  assert (Hp : srtp_profile (m <| srtp_profile := p |>) = p) by reflexivity.
  rewrite Hp.
  destruct (srtp_create _ w) as [res w1]. simpl in Hcreate. subst res. simpl.
  destruct video; simpl; auto.
Qed.

(** X8: the crypto the plugin offers is crypto the plugin
    accepts.  When [janus_nosip_srtp_set_local] has succeeded on one session,
    the random source has filled the key and Base64 decoding inverts the
    encoding of that key, then [janus_nosip_srtp_set_remote], given the local
    profile name and crypto string on any session whose SRTP context can be
    created, returns 0, selects the same profile, and installs an inbound
    context with the same key and the same RTP and RTCP policies as the
    outbound context of the first session. *)
Theorem srtp_local_crypto_accepted ma video (w : World) mb video' wb :
  let ma' := snd (fst (janus_nosip_srtp_set_local ma video w)) in
  let k := fst (srtp_crypto_get_random (master_length_of (srtp_profile ma)) w) in
  let rb := janus_nosip_srtp_set_remote mb video'
              (srtp_local_profile_of video ma') (srtp_local_crypto_of video ma') wb in
  fst (fst (janus_nosip_srtp_set_local ma video w)) = 0 ->
  Z.of_nat (List.length k) = master_length_of (srtp_profile ma) ->
  g_base64_decode (g_base64_encode k) = k ->
  (forall pol, fst (srtp_create pol wb) = srtp_err_status_ok) ->
  fst (fst rb) = 0 /\ srtp_profile (snd (fst rb)) = srtp_profile ma /\
  exists pout pin,
    srtp_out_of video ma' = Some pout /\ srtp_in_of video' (snd (fst rb)) = Some pin /\
    key pin = key pout /\ rtp pin = rtp pout /\ rtcp pin = rtcp pout.
Proof.
  intros ma' k rb Hok Hlen Hb64 Hcreate. subst ma' rb.
  destruct (janus_nosip_srtp_set_local_success ma video w Hok)
    as (Hsup & Hname & Hcrypto & Hout & _).
  fold k in Hcrypto, Hout. rewrite Hname, Hcrypto.
  destruct (srtp_profile_name (srtp_profile ma)) as [name|] eqn:Hn;
    [| destruct (srtp_profile ma); simpl in Hsup, Hn; discriminate].
  destruct (janus_nosip_srtp_set_remote_named mb video' (srtp_profile ma) name
              (g_base64_encode k) wb Hsup Hn) as (Hres & Hprof & Hin).
  { rewrite Hb64. lia. }
  { apply Hcreate. }
  split; [exact Hres |]. split; [exact Hprof |].
  eexists. eexists. split; [exact Hout |]. split; [exact Hin |].
  rewrite Hb64. simpl.
  destruct (srtp_profile ma); simpl in Hsup |- *; try discriminate;
    try rewrite Hsup; simpl; auto.
Qed.

End SrtpOutcomes.

(** [srtp_local_crypto_accepted] from the audio of a session that offers
    SHA1_32 to the video of a fresh session. *)
Lemma srtp_local_crypto_accepted_witness :
  let ma' := snd (fst (janus_nosip_srtp_set_local (L := sim_libs []) sha1_32_media false
                         (free_world [] 5))) in
  let rb := janus_nosip_srtp_set_remote (L := sim_libs []) fresh_media true
              (srtp_local_profile_of false ma') (srtp_local_crypto_of false ma')
              (free_world [] 5) in
  srtp_local_profile_of false ma' = Some "AES_CM_128_HMAC_SHA1_32" /\
  (fst (fst rb) = 0 /\ srtp_profile (snd (fst rb)) = srtp_profile sha1_32_media /\
   exists pout pin,
     srtp_out_of false ma' = Some pout /\ srtp_in_of true (snd (fst rb)) = Some pin /\
     key pin = key pout /\ rtp pin = rtp pout /\ rtcp pin = rtcp pout).
Proof.
  intros ma' rb. split; [reflexivity |].
  apply (srtp_local_crypto_accepted (L := sim_libs []) sha1_32_media false (free_world [] 5)
           fresh_media true (free_world [] 5)).
  - reflexivity.
  - reflexivity.
  - reflexivity.
  - intros pol. reflexivity.
Defined.

(** ** Processing a remote description: what it writes and what it keeps *)

Section SdpEffects.
Context {World : Type} {K : Kernel World} {L : Libs World}.

Lemma srtp_in_grows_refl m : srtp_in_grows m m.
Proof. unfold srtp_in_grows; tauto. Qed.

Lemma srtp_in_grows_trans m1 m2 m3 :
  srtp_in_grows m1 m2 -> srtp_in_grows m2 m3 -> srtp_in_grows m1 m3.
Proof. unfold srtp_in_grows. intros (? & ? & ? & ?) (? & ? & ? & ?). repeat split; auto. Qed.

(** Sessions that agree on the three fields agree on [srtp_in_grows]. *)
Lemma srtp_in_grows_same m m' :
  audio_srtp_in m' = audio_srtp_in m -> video_srtp_in m' = video_srtp_in m ->
  has_srtp_remote m' = has_srtp_remote m -> srtp_in_grows m m'.
Proof.
  unfold srtp_in_grows, inbound_srtp_backed. intros -> -> ->. tauto.
Qed.

Lemma janus_nosip_srtp_set_remote_outside m video profile crypto (w : World) :
  let m' := snd (fst (janus_nosip_srtp_set_remote m video profile crypto w)) in
  outside_attributes m' = outside_attributes m /\
  audio_srtp_tag m' = audio_srtp_tag m /\ video_srtp_tag m' = video_srtp_tag m /\
  has_srtp_remote m' = has_srtp_remote m /\
  video_pli_supported m' = video_pli_supported m.
Proof.
  unfold janus_nosip_srtp_set_remote.
  destruct profile as [profile|]; [| simpl; auto].
  destruct crypto as [crypto|]; [| simpl; auto].
  destruct (if strcasecmp profile "AES_CM_128_HMAC_SHA1_32" =? 0 then _ else _)
    as [[p len]|]; [| simpl; auto].
  destruct (Z.of_nat (List.length (g_base64_decode crypto)) <? len); [simpl; auto |].
  destruct video;
    match goal with |- context [srtp_create ?p ?x] => destruct (srtp_create p x) as [res w2] end;
    destruct (negb (res =? srtp_err_status_ok)); simpl; auto.
Qed.

(** One attribute: a crypto line may install the remote SRTP state of its
    medium, an [rtcp-fb] line of a video section may set
    [video_pli_supported]; nothing else is written. *)
Lemma process_attribute_effect answer ml m (w : World) a :
  let m' := fst (process_attribute answer ml (m, w) a) in
  outside_attributes m' = outside_attributes m /\
  video_pli_supported m' = video_pli_supported m || (is_video ml && mentions_pli a) /\
  srtp_in_grows m m'.
Proof.
  unfold process_attribute, mentions_pli.
  destruct (a_name a) as [n|]; [| simpl; rewrite andb_false_r, orb_false_r;
                                   auto using srtp_in_grows_refl].
  destruct (strcasecmp n "crypto" =? 0) eqn:Hcrypto.
  - assert (Hfb : (strcasecmp n "rtcp-fb" =? 0) = false).
    { apply Z.eqb_eq in Hcrypto.
      eapply strcasecmp_first_letter; [| | | exact Hcrypto]; reflexivity. }
    assert (Hpli : is_video ml && match a_value a with
                                  | Some v => (strcasecmp n "rtcp-fb" =? 0) &&
                                              not_null (strstr v " pli")
                                  | None => false
                                  end = false)
      by (rewrite Hfb; destruct (a_value a); simpl; apply andb_false_r).
    rewrite Hpli, orb_false_r.
    destruct (is_audio ml || is_video ml) eqn:Hav; [| simpl; auto using srtp_in_grows_refl].
    destruct ((is_audio ml && not_null (audio_srtp_in m)) ||
              (is_video ml && not_null (video_srtp_in m))) eqn:Hset;
      [simpl; auto using srtp_in_grows_refl |].
    destruct (match a_value a with Some v => sscanf_crypto v | None => None end)
      as [[[tag profile] crypto]|]; [| simpl; auto using srtp_in_grows_refl].
    destruct (answer && _); [simpl; auto using srtp_in_grows_refl |].
    pose proof (janus_nosip_srtp_set_remote_outside m (is_video ml)
                  (Some profile) (Some crypto) w) as (Hout & Ht1 & Ht2 & Hr & Hp).
    pose proof (janus_nosip_srtp_set_remote_cases m (is_video ml)
                  (Some profile) (Some crypto) w) as (Hres & _ & _ & Hfail & Hother & _ & Hok).
    destruct (janus_nosip_srtp_set_remote m (is_video ml) (Some profile) (Some crypto) w)
      as [[res m1] w1]. simpl in Hout, Ht1, Ht2, Hr, Hp, Hres, Hfail, Hother, Hok.
    assert (Hexcl := is_audio_video_exclusive ml Hav).
    apply orb_false_iff in Hset as [Hsa Hsv].
    destruct (res <? 0) eqn:Hneg; simpl.
    + apply Z.ltb_lt in Hneg.
      split; [assumption |]. split; [assumption |].
      assert (Hsame : srtp_in_of (is_video ml) m1 = srtp_in_of (is_video ml) m)
        by (apply Hfail; lia).
      apply srtp_in_grows_same; [| | assumption];
        destruct (is_video ml); simpl in *; congruence.
    + apply Z.ltb_ge in Hneg.
      assert (Hzero : res = 0) by lia.
      destruct (Hok Hzero) as (c & pol & _ & Hin & _).
      split; [destruct (negb (is_video ml)); simpl; exact Hout |].
      split; [destruct (negb (is_video ml)); simpl; exact Hp |].
      unfold srtp_in_grows, inbound_srtp_backed.
      destruct (is_video ml) eqn:Hv; simpl in *.
      * assert (Ha : is_audio ml = false) by (destruct (is_audio ml); simpl in *; congruence).
        destruct (video_srtp_in m) as [old|] eqn:Hold; [discriminate |].
        repeat split; intros; try congruence; try discriminate.
        -- right. congruence.
      * assert (Ha : is_audio ml = true) by (destruct (is_audio ml); simpl in *; congruence).
        rewrite Ha in Hsa. simpl in Hsa.
        destruct (audio_srtp_in m) as [old|] eqn:Hold; [discriminate |].
        repeat split; intros; try congruence; try discriminate.
        -- left. congruence.
  - destruct (a_value a) as [v|]; simpl;
      [| rewrite !andb_false_r, orb_false_r; auto using srtp_in_grows_refl].
    destruct (is_video ml); simpl; [| rewrite orb_false_r; auto using srtp_in_grows_refl].
    destruct (strcasecmp n "rtcp-fb" =? 0); simpl;
      [| rewrite orb_false_r; auto using srtp_in_grows_refl].
    destruct (not_null (strstr v " pli")); simpl.
    + rewrite orb_true_r. split; [reflexivity |]. split; [reflexivity |].
      apply srtp_in_grows_same; reflexivity.
    + rewrite orb_false_r. auto using srtp_in_grows_refl.
Qed.

Lemma process_attributes_effect answer ml attrs :
  forall m (w : World),
    let m' := fst (fold_left (process_attribute answer ml) attrs (m, w)) in
    outside_attributes m' = outside_attributes m /\
    video_pli_supported m' =
      video_pli_supported m || (is_video ml && existsb mentions_pli attrs) /\
    srtp_in_grows m m'.
Proof.
  induction attrs as [|a attrs IH]; intros m w; cbn [fold_left existsb].
  - rewrite andb_false_r, orb_false_r. auto using srtp_in_grows_refl.
  - pose proof (process_attribute_effect answer ml m w a) as (Ho & Hp & Hg).
    destruct (process_attribute answer ml (m, w) a) as [m1 w1]. simpl in Ho, Hp, Hg.
    destruct (IH m1 w1) as (Ho' & Hp' & Hg'). cbv zeta.
    split; [congruence |].
    split; [rewrite Hp', Hp; destruct (is_video ml); simpl;
            rewrite ?orb_false_r, ?orb_assoc; reflexivity |].
    eapply srtp_in_grows_trans; eassumption.
Qed.

Lemma negotiated_codec_outside sdp opusred ml m :
  outside_codecs (negotiated_codec sdp opusred ml m) = outside_codecs m.
Proof.
  unfold negotiated_codec.
  destruct (-1 <? match m_ptypes ml with [] => -1 | pt :: _ => pt end); [| reflexivity].
  destruct (is_audio ml); [destruct (_ =? opusred) |]; reflexivity.
Qed.

Lemma process_mline_port_outside ml m changed :
  outside_ports (fst (process_mline_port ml m changed)) = outside_ports m.
Proof.
  unfold process_mline_port.
  destruct (is_audio ml), (negb (m_port ml =? 0)); reflexivity.
Qed.

Lemma process_mline_c_addr_effect update ml m changed :
  let m' := fst (process_mline_c_addr update ml m changed) in
  outside_remote_ips m' = outside_remote_ips m /\
  remote_audio_ip m' = (if is_audio ml
                        then match m_c_addr ml with
                             | Some addr => Some addr
                             | None => remote_audio_ip m
                             end
                        else remote_audio_ip m) /\
  remote_video_ip m' = (if negb (is_audio ml)
                        then match m_c_addr ml with
                             | Some addr => Some addr
                             | None => remote_video_ip m
                             end
                        else remote_video_ip m).
Proof.
  unfold process_mline_c_addr.
  destruct (m_c_addr ml), (is_audio ml); simpl; auto.
Qed.

Lemma outside_sdp_process_attributes m :
  outside_sdp_process (outside_attributes m) = outside_sdp_process m.
Proof. reflexivity. Qed.

Lemma outside_sdp_process_codecs m :
  outside_sdp_process (outside_codecs m) = outside_sdp_process m.
Proof. reflexivity. Qed.

Lemma outside_sdp_process_ports m :
  outside_sdp_process (outside_ports m) = outside_sdp_process m.
Proof. reflexivity. Qed.

Lemma outside_sdp_process_remote_ips m :
  outside_sdp_process (outside_remote_ips m) = outside_sdp_process m.
Proof. reflexivity. Qed.

(** From an equation between two blanked sessions to the same equation with
    more fields blanked. *)
Ltac widen H lemma :=
  apply (f_equal outside_sdp_process) in H; rewrite !lemma in H.

(** What one media section writes. *)
Lemma process_mline_effect sdp answer update opusred m changed (w : World) ml m' changed' w' :
  process_mline sdp answer update opusred (m, changed, w) ml = (m', changed', w') ->
  outside_sdp_process m' = outside_sdp_process m /\
  require_srtp m' = require_srtp m || names_savp ml /\
  video_pli_supported m' =
    video_pli_supported m || (is_video ml && existsb mentions_pli (m_attributes ml)) /\
  remote_audio_ip m' = (if is_audio ml
                        then match m_c_addr ml with
                             | Some addr => Some addr
                             | None => remote_audio_ip m
                             end
                        else remote_audio_ip m) /\
  remote_video_ip m' = (if is_video ml
                        then match m_c_addr ml with
                             | Some addr => Some addr
                             | None => remote_video_ip m
                             end
                        else remote_video_ip m) /\
  srtp_in_grows m m' /\ updated m' = updated m /\
  (answer = false ->
   audio_pt m' = audio_pt m /\ opusred_pt m' = opusred_pt m /\
   audio_pt_name m' = audio_pt_name m /\
   video_pt m' = video_pt m /\ video_pt_name m' = video_pt_name m).
Proof.
  unfold process_mline. fold (names_savp ml).
  set (m0 := m <| require_srtp := require_srtp m || names_savp ml |>).
  destruct (is_audio ml || is_video ml) eqn:Hav.
  - rewrite (is_audio_video_exclusive ml Hav).
    pose proof (process_mline_port_outside ml m0 changed) as Hp.
    destruct (process_mline_port ml m0 changed) as [m1 ch1]. simpl in Hp.
    pose proof (process_mline_c_addr_effect update ml m1 ch1) as (Hc & Hca & Hcv).
    destruct (process_mline_c_addr update ml m1 ch1) as [m2 ch2]. simpl in Hc, Hca, Hcv.
    pose proof (process_attributes_effect answer ml (m_attributes ml) m2 w) as (Ha & Hpli & Hg).
    destruct (fold_left (process_attribute answer ml) (m_attributes ml) (m2, w)) as [m3 w3].
    simpl in Ha, Hpli, Hg.
    rewrite (is_audio_video_exclusive ml Hav) in Hpli.
    pose proof (negotiated_codec_outside sdp opusred ml m3) as Hn.
    intros E. injection E as Em Ech Ew.
    assert (Hm4 : outside_codecs m' = outside_codecs m3)
      by (rewrite <- Em; destruct answer; [exact Hn | reflexivity]).
    assert (Hanswer : answer = false ->
                      audio_pt m' = audio_pt m /\ opusred_pt m' = opusred_pt m /\
                      audio_pt_name m' = audio_pt_name m /\
                      video_pt m' = video_pt m /\ video_pt_name m' = video_pt_name m).
    { intros ->. subst m'.
      pose proof (f_equal audio_pt Ha) as C1. pose proof (f_equal audio_pt Hc) as C2.
      pose proof (f_equal audio_pt Hp) as C3.
      pose proof (f_equal opusred_pt Ha) as D1. pose proof (f_equal opusred_pt Hc) as D2.
      pose proof (f_equal opusred_pt Hp) as D3.
      pose proof (f_equal audio_pt_name Ha) as E1. pose proof (f_equal audio_pt_name Hc) as E2.
      pose proof (f_equal audio_pt_name Hp) as E3.
      pose proof (f_equal video_pt Ha) as F1. pose proof (f_equal video_pt Hc) as F2.
      pose proof (f_equal video_pt Hp) as F3.
      pose proof (f_equal video_pt_name Ha) as G1. pose proof (f_equal video_pt_name Hc) as G2.
      pose proof (f_equal video_pt_name Hp) as G3.
      simpl in C1, C2, C3, D1, D2, D3, E1, E2, E3, F1, F2, F3, G1, G2, G3.
      repeat split; congruence. }
    clear Hn Em.
    pose proof (f_equal require_srtp Hm4) as R4. pose proof (f_equal require_srtp Ha) as R3.
    pose proof (f_equal require_srtp Hc) as R2. pose proof (f_equal require_srtp Hp) as R1.
    pose proof (f_equal video_pli_supported Hm4) as P4.
    pose proof (f_equal video_pli_supported Hc) as P2.
    pose proof (f_equal video_pli_supported Hp) as P1.
    pose proof (f_equal remote_audio_ip Hm4) as A4. pose proof (f_equal remote_audio_ip Ha) as A3.
    pose proof (f_equal remote_audio_ip Hp) as A1.
    pose proof (f_equal remote_video_ip Hm4) as V4. pose proof (f_equal remote_video_ip Ha) as V3.
    pose proof (f_equal remote_video_ip Hp) as V1.
    pose proof (f_equal updated Hm4) as U4. pose proof (f_equal updated Ha) as U3.
    pose proof (f_equal updated Hc) as U2. pose proof (f_equal updated Hp) as U1.
    pose proof (f_equal audio_srtp_in Hm4) as I4. pose proof (f_equal audio_srtp_in Hc) as I2.
    pose proof (f_equal audio_srtp_in Hp) as I1.
    pose proof (f_equal video_srtp_in Hm4) as J4. pose proof (f_equal video_srtp_in Hc) as J2.
    pose proof (f_equal video_srtp_in Hp) as J1.
    pose proof (f_equal has_srtp_remote Hm4) as S4. pose proof (f_equal has_srtp_remote Hc) as S2.
    pose proof (f_equal has_srtp_remote Hp) as S1.
    simpl in R4, R3, R2, R1, P4, P2, P1, A4, A3, A1, V4, V3, V1, U4, U3, U2, U1,
             I4, I2, I1, J4, J2, J1, S4, S2, S1.
    widen Hm4 outside_sdp_process_codecs. widen Ha outside_sdp_process_attributes.
    widen Hc outside_sdp_process_remote_ips. widen Hp outside_sdp_process_ports.
    split; [rewrite Hm4, Ha, Hc, Hp; reflexivity |].
    split; [congruence |].
    split; [congruence |].
    split; [rewrite A4, A3, Hca, A1; reflexivity |].
    split; [rewrite V4, V3, Hcv, V1; reflexivity |].
    split.
    { assert (G1 : srtp_in_grows m m2) by (apply srtp_in_grows_same; congruence).
      assert (G2 : srtp_in_grows m3 m') by (apply srtp_in_grows_same; congruence).
      exact (srtp_in_grows_trans _ _ _ G1 (srtp_in_grows_trans _ _ _ Hg G2)). }
    split; [congruence |]. exact Hanswer.
  - apply orb_false_iff in Hav as [-> ->]. simpl.
    intros E. inversion E; subst; clear E. subst m0. simpl.
    rewrite orb_false_r.
    repeat split; auto.
Qed.

Lemma process_mlines_effect sdp answer update opusred lines :
  forall m changed (w : World) m' changed' w',
    fold_left (process_mline sdp answer update opusred) lines (m, changed, w)
      = (m', changed', w') ->
    outside_sdp_process m' = outside_sdp_process m /\
    require_srtp m' = require_srtp m || existsb names_savp lines /\
    video_pli_supported m' =
      video_pli_supported m ||
      existsb (fun ml => is_video ml && existsb mentions_pli (m_attributes ml)) lines /\
    remote_audio_ip m' =
      fold_left (fun ip ml => if is_audio ml
                              then match m_c_addr ml with
                                   | Some addr => Some addr
                                   | None => ip
                                   end
                              else ip) lines (remote_audio_ip m) /\
    remote_video_ip m' =
      fold_left (fun ip ml => if is_video ml
                              then match m_c_addr ml with
                                   | Some addr => Some addr
                                   | None => ip
                                   end
                              else ip) lines (remote_video_ip m) /\
    srtp_in_grows m m' /\ updated m' = updated m /\
    (answer = false ->
     audio_pt m' = audio_pt m /\ opusred_pt m' = opusred_pt m /\
     audio_pt_name m' = audio_pt_name m /\
     video_pt m' = video_pt m /\ video_pt_name m' = video_pt_name m).
Proof.
  induction lines as [|ml lines IH]; intros m changed w m' changed' w'; cbn [fold_left existsb].
  - intros E. inversion E; subst. rewrite !orb_false_r.
    repeat split; auto.
  - destruct (process_mline sdp answer update opusred (m, changed, w) ml)
      as [[m1 ch1] w1] eqn:Hml.
    apply process_mline_effect in Hml as (Ho & Hr & Hp & Ha & Hv & Hg & Hu & Hc).
    intros E. apply IH in E as (Ho' & Hr' & Hp' & Ha' & Hv' & Hg' & Hu' & Hc').
    rewrite Ho', Hr', Hp', Ha', Hv', Hu', Ho, Hr, Hp, Ha, Hv, Hu, !orb_assoc.
    split; [reflexivity |]. split; [reflexivity |]. split; [reflexivity |].
    split; [reflexivity |]. split; [reflexivity |].
    split; [eapply srtp_in_grows_trans; eassumption |].
    split; [reflexivity |].
    intros Hanswer.
    destruct (Hc Hanswer) as (? & ? & ? & ? & ?), (Hc' Hanswer) as (? & ? & ? & ? & ?).
    repeat split; congruence.
Qed.

(** [janus_nosip_sdp_process] as a whole: what it writes, in terms of the
    description, and the wake-up of the relay thread. *)
Lemma janus_nosip_sdp_process_effect m sdp answer update changed (w : World) :
  let r := janus_nosip_sdp_process m sdp answer update changed w in
  let m' := fst (fst (fst r)) in
  let changed' := snd (fst (fst r)) in
  let tr := snd r in
  outside_sdp_process m' = outside_sdp_process m /\
  require_srtp m' = require_srtp m || existsb names_savp (m_lines sdp) /\
  video_pli_supported m' =
    video_pli_supported m ||
    existsb (fun ml => is_video ml && existsb mentions_pli (m_attributes ml)) (m_lines sdp) /\
  remote_audio_ip m' = remote_ip_after is_audio sdp (remote_audio_ip m) /\
  remote_video_ip m' = remote_ip_after is_video sdp (remote_video_ip m) /\
  srtp_in_grows m m' /\
  (answer = false ->
   audio_pt m' = audio_pt m /\ opusred_pt m' = opusred_pt m /\
   audio_pt_name m' = audio_pt_name m /\
   video_pt m' = video_pt m /\ video_pt_name m' = video_pt_name m) /\
  updated m' = updated m || (update && changed') /\
  match tr with
  | [] => update && changed' && (0 <? snd (pipefd m)) = false
  | [Write fd _] => fd = snd (pipefd m) /\ update && changed' && (0 <? snd (pipefd m)) = true
  | _ => False
  end.
Proof.
  unfold janus_nosip_sdp_process, remote_ip_after.
  set (mc := match c_addr sdp with Some _ => _ | None => _ end).
  assert (Hc : outside_remote_ips (fst mc) = outside_remote_ips m /\
               remote_audio_ip (fst mc)
                 = match c_addr sdp with Some addr => Some addr | None => remote_audio_ip m end /\
               remote_video_ip (fst mc)
                 = match c_addr sdp with Some addr => Some addr | None => remote_video_ip m end)
    by (subst mc; destruct (c_addr sdp); simpl; auto).
  destruct mc as [m0 ch0]. simpl in Hc. destruct Hc as (Hc & Hca & Hcv).
  destruct (fold_left _ (m_lines sdp) (m0, ch0, w)) as [[m1 ch1] w1] eqn:Hfold.
  apply process_mlines_effect in Hfold as (Ho & Hr & Hp & Ha & Hv & Hg & Hu & Hcod).
  pose proof (f_equal require_srtp Hc) as R0. pose proof (f_equal video_pli_supported Hc) as P0.
  pose proof (f_equal updated Hc) as U0.
  pose proof (f_equal audio_srtp_in Hc) as I0. pose proof (f_equal video_srtp_in Hc) as J0.
  pose proof (f_equal has_srtp_remote Hc) as S0.
  pose proof (f_equal audio_pt Hc) as C1. pose proof (f_equal opusred_pt Hc) as C2.
  pose proof (f_equal audio_pt_name Hc) as C3. pose proof (f_equal video_pt Hc) as C4.
  pose proof (f_equal video_pt_name Hc) as C5.
  simpl in R0, P0, U0, I0, J0, S0, C1, C2, C3, C4, C5.
  widen Hc outside_sdp_process_remote_ips.
  assert (Hpipe : pipefd m1 = pipefd m).
  { pose proof (f_equal pipefd Ho) as E1. pose proof (f_equal pipefd Hc) as E2.
    simpl in E1, E2. congruence. }
  assert (G0 : srtp_in_grows m m0) by (apply srtp_in_grows_same; congruence).
  assert (Hcommon :
    outside_sdp_process m1 = outside_sdp_process m /\
    require_srtp m1 = require_srtp m || existsb names_savp (m_lines sdp) /\
    video_pli_supported m1 =
      video_pli_supported m ||
      existsb (fun ml => is_video ml && existsb mentions_pli (m_attributes ml)) (m_lines sdp) /\
    remote_audio_ip m1 =
      fold_left (fun ip ml => if is_audio ml
                              then match m_c_addr ml with
                                   | Some addr => Some addr
                                   | None => ip
                                   end
                              else ip) (m_lines sdp)
        match c_addr sdp with Some addr => Some addr | None => remote_audio_ip m end /\
    remote_video_ip m1 =
      fold_left (fun ip ml => if is_video ml
                              then match m_c_addr ml with
                                   | Some addr => Some addr
                                   | None => ip
                                   end
                              else ip) (m_lines sdp)
        match c_addr sdp with Some addr => Some addr | None => remote_video_ip m end /\
    srtp_in_grows m m1 /\
    (answer = false ->
     audio_pt m1 = audio_pt m /\ opusred_pt m1 = opusred_pt m /\
     audio_pt_name m1 = audio_pt_name m /\
     video_pt m1 = video_pt m /\ video_pt_name m1 = video_pt_name m)).
  { split; [congruence |]. split; [congruence |]. split; [congruence |].
    split; [congruence |]. split; [congruence |].
    split; [eapply srtp_in_grows_trans; eassumption |].
    intros Hanswer. destruct (Hcod Hanswer) as (? & ? & ? & ? & ?). repeat split; congruence. }
  destruct Hcommon as (K1 & K2 & K3 & K4 & K5 & K6 & K7).
  assert (K6' : srtp_in_grows m (m1 <| updated := true |>))
    by (apply srtp_in_grows_trans with m1; [assumption | apply srtp_in_grows_same; reflexivity]).
  destruct (update && ch1) eqn:Hwake; cbv zeta.
  - assert (Hpipe' : snd (pipefd (m1 <| updated := true |>)) = snd (pipefd m))
      by (simpl; rewrite Hpipe; reflexivity).
    rewrite Hpipe'.
    destruct (0 <? snd (pipefd m)) eqn:Hfd.
    + destruct (sys_write (snd (pipefd m)) w1) as [res w2]. simpl.
      rewrite Hwake, orb_true_r.
      split; [exact K1 |]. split; [exact K2 |]. split; [exact K3 |]. split; [exact K4 |].
      split; [exact K5 |]. split; [exact K6' |]. split; [exact K7 |]. auto.
    + simpl. rewrite Hwake, orb_true_r.
      split; [exact K1 |]. split; [exact K2 |]. split; [exact K3 |]. split; [exact K4 |].
      split; [exact K5 |]. split; [exact K6' |]. split; [exact K7 |]. auto.
  - simpl. rewrite Hwake, orb_false_r.
    split; [exact K1 |]. split; [exact K2 |]. split; [exact K3 |]. split; [exact K4 |].
    split; [exact K5 |]. split; [exact K6 |]. split; [exact K7 |].
    split; [congruence | reflexivity].
Qed.

(** X9: after a description has been processed, [require_srtp]
    is set exactly when it was set before or some media section names the
    protocol [RTP/SAVP], in any case.  Processing never clears it, and a
    section of any type counts, also one that is neither audio nor video. *)
Theorem sdp_process_require_srtp m sdp answer update changed (w : World) :
  require_srtp (fst (fst (fst (janus_nosip_sdp_process m sdp answer update changed w))))
    = require_srtp m || existsb names_savp (m_lines sdp).
Proof. apply (janus_nosip_sdp_process_effect m sdp answer update changed w). Qed.

(** X10: after a description has been processed,
    [video_pli_supported] is set exactly when it was set before or some video
    section has an [rtcp-fb] attribute whose value contains [ pli].  It is
    never cleared, and an audio section does not set it. *)
Theorem sdp_process_pli_supported m sdp answer update changed (w : World) :
  video_pli_supported (fst (fst (fst (janus_nosip_sdp_process m sdp answer update changed w))))
    = video_pli_supported m ||
      existsb (fun ml => is_video ml && existsb mentions_pli (m_attributes ml)) (m_lines sdp).
Proof. apply (janus_nosip_sdp_process_effect m sdp answer update changed w). Qed.

(** X11: the remote address of a medium after a description has
    been processed is the address of the last section of its kind that has
    one; if no such section has one it is the address of the description,
    which is stored for both media, whether or not they are negotiated; if
    the description has none either, the address stored before is kept. *)
Theorem sdp_process_remote_ips m sdp answer update changed (w : World) :
  let m' := fst (fst (fst (janus_nosip_sdp_process m sdp answer update changed w))) in
  remote_audio_ip m' = remote_ip_after is_audio sdp (remote_audio_ip m) /\
  remote_video_ip m' = remote_ip_after is_video sdp (remote_video_ip m).
Proof.
  pose proof (janus_nosip_sdp_process_effect m sdp answer update changed w)
    as (_ & _ & _ & Ha & Hv & _).
  split; assumption.
Qed.

(** X12: processing a description only adds to the remote SRTP
    state.  An inbound context that is installed is kept: a later crypto line
    for that medium is ignored.  [has_srtp_remote] is never cleared.  And if
    [has_srtp_remote] was backed by an inbound context before, it is
    afterwards: it is set only together with a context. *)
Theorem sdp_process_srtp_in_grows m sdp answer update changed (w : World) :
  srtp_in_grows m (fst (fst (fst (janus_nosip_sdp_process m sdp answer update changed w)))).
Proof. apply (janus_nosip_sdp_process_effect m sdp answer update changed w). Qed.

(** X13: processing a description writes none of the session's
    local state: the sockets, the local ports, the SSRCs, the pipe, [ready],
    [has_srtp_local], the outbound contexts and local policies, the local
    crypto, the simulcast SSRC and the extension ids are as before.  When
    the description is an offer, the negotiated codecs are as before too. *)
Theorem sdp_process_untouched m sdp answer update changed (w : World) :
  let m' := fst (fst (fst (janus_nosip_sdp_process m sdp answer update changed w))) in
  outside_sdp_process m' = outside_sdp_process m /\
  (answer = false ->
   audio_pt m' = audio_pt m /\ opusred_pt m' = opusred_pt m /\
   audio_pt_name m' = audio_pt_name m /\
   video_pt m' = video_pt m /\ video_pt_name m' = video_pt_name m).
Proof.
  pose proof (janus_nosip_sdp_process_effect m sdp answer update changed w)
    as (Ho & _ & _ & _ & _ & _ & Hc & _).
  split; assumption.
Qed.

(** X14: the relay thread is woken only for an update that
    changed something.  [updated] is set exactly when it was set before or
    the call is an update whose [changed] flag ends up set; the only system
    call made is then one [write] on the write end of the session's pipe, and
    only if that descriptor is positive.  Processing that is not an update
    makes no system call. *)
Theorem sdp_process_wakes_on_change m sdp answer update changed (w : World) :
  let r := janus_nosip_sdp_process m sdp answer update changed w in
  let changed' := snd (fst (fst r)) in
  updated (fst (fst (fst r))) = updated m || (update && changed') /\
  match snd r with
  | [] => update && changed' && (0 <? snd (pipefd m)) = false
  | [Write fd _] => fd = snd (pipefd m) /\ update && changed' && (0 <? snd (pipefd m)) = true
  | _ => False
  end.
Proof.
  pose proof (janus_nosip_sdp_process_effect m sdp answer update changed w)
    as (_ & _ & _ & _ & _ & _ & _ & Hu & Htr).
  split; assumption.
Qed.

(** *** The send flags *)

Lemma process_mline_port_send ml m changed :
  let m' := fst (process_mline_port ml m changed) in
  audio_send m' =
    (if is_audio ml
     then negb (m_port ml =? 0) && negb (direction_blocks_sending (m_direction ml))
     else audio_send m) /\
  video_send m' =
    (if negb (is_audio ml)
     then negb (m_port ml =? 0) && negb (direction_blocks_sending (m_direction ml))
     else video_send m).
Proof.
  unfold process_mline_port.
  destruct (is_audio ml), (m_port ml =? 0); simpl; auto.
Qed.

(** What one media section does to the send flags. *)
Lemma process_mline_send sdp answer update opusred m changed (w : World) ml :
  let m' := fst (fst (process_mline sdp answer update opusred (m, changed, w) ml)) in
  audio_send m' =
    (if is_audio ml
     then negb (m_port ml =? 0) && negb (direction_blocks_sending (m_direction ml))
     else audio_send m) /\
  video_send m' =
    (if is_video ml
     then negb (m_port ml =? 0) && negb (direction_blocks_sending (m_direction ml))
     else video_send m).
Proof.
  unfold process_mline. fold (names_savp ml).
  set (m0 := m <| require_srtp := require_srtp m || names_savp ml |>).
  assert (H0 : audio_send m0 = audio_send m /\ video_send m0 = video_send m)
    by (subst m0; simpl; auto).
  destruct H0 as [<- <-]. clearbody m0.
  destruct (is_audio ml || is_video ml) eqn:Hav.
  - rewrite (is_audio_video_exclusive ml Hav).
    pose proof (process_mline_port_send ml m0 changed) as [Hp1 Hp2].
    destruct (process_mline_port ml m0 changed) as [m1 ch1]. simpl in Hp1, Hp2.
    pose proof (process_mline_c_addr_effect update ml m1 ch1) as (Hc & _ & _).
    destruct (process_mline_c_addr update ml m1 ch1) as [m2 ch2]. simpl in Hc.
    pose proof (process_attributes_effect answer ml (m_attributes ml) m2 w) as (Ha & _ & _).
    destruct (fold_left (process_attribute answer ml) (m_attributes ml) (m2, w)) as [m3 w3].
    simpl in Ha.
    pose proof (negotiated_codec_outside sdp opusred ml m3) as Hn.
    cbn [fst].
    assert (Hfin : forall m4, outside_codecs m4 = outside_codecs m3 ->
                     audio_send m4 = audio_send m1 /\ video_send m4 = video_send m1).
    { intros m4 H4.
      pose proof (f_equal audio_send H4) as A4. pose proof (f_equal video_send H4) as V4.
      pose proof (f_equal audio_send Ha) as A3. pose proof (f_equal video_send Ha) as V3.
      pose proof (f_equal audio_send Hc) as A2. pose proof (f_equal video_send Hc) as V2.
      simpl in A4, V4, A3, V3, A2, V2. split; congruence. }
    destruct (Hfin (if answer then negotiated_codec sdp opusred ml m3 else m3)) as [-> ->];
      [destruct answer; [exact Hn | reflexivity] |].
    auto.
  - apply orb_false_iff in Hav as [-> ->]. simpl. auto.
Qed.

Lemma process_mlines_send sdp answer update opusred lines :
  forall m changed (w : World),
    let m' := fst (fst (fold_left (process_mline sdp answer update opusred) lines
                          (m, changed, w))) in
    audio_send m' = send_after is_audio lines (audio_send m) /\
    video_send m' = send_after is_video lines (video_send m).
Proof.
  unfold send_after.
  induction lines as [|ml lines IH]; intros m changed w; cbn [fold_left].
  - simpl. auto.
  - pose proof (process_mline_send sdp answer update opusred m changed w ml) as [Ha Hv].
    destruct (process_mline sdp answer update opusred (m, changed, w) ml) as [[m1 ch1] w1].
    cbn [fst] in Ha, Hv. rewrite <- Ha, <- Hv. apply IH.
Qed.


(** C5 (as amended): processing a description never clears [has_audio] or
    [has_video]: each flag is true afterwards exactly when it was true
    before or some section of that kind has a non-zero port.  The send flag
    of a medium is the one its last section leaves.  Section by section: an
    audio (video) section sets [has_audio] ([has_video]) when its port is not
    zero and leaves it as it finds it when the port is zero; it sets the send
    flag of its medium when the port is not zero and the direction is neither
    sendonly nor inactive, and clears it otherwise, so for port 0; it leaves
    the two flags of the other medium alone. *)
Theorem sdp_process_has_media m sdp answer update changed (w : World) :
  let m' := fst (fst (fst (janus_nosip_sdp_process m sdp answer update changed w))) in
  (has_audio m' = has_audio m || offers_audio sdp /\
   has_video m' = has_video m || offers_video sdp) /\
  (audio_send m' = send_after is_audio (m_lines sdp) (audio_send m) /\
   video_send m' = send_after is_video (m_lines sdp) (video_send m)) /\
  forall opusred ml m0 changed0 (w0 : World),
    let m1 := fst (fst (process_mline sdp answer update opusred (m0, changed0, w0) ml)) in
    (is_audio ml = true ->
     has_audio m1 = has_audio m0 || negb (m_port ml =? 0) /\
     audio_send m1 =
       negb (m_port ml =? 0) && negb (direction_blocks_sending (m_direction ml)) /\
     (m_port ml = 0 -> has_audio m1 = has_audio m0 /\ audio_send m1 = false) /\
     has_video m1 = has_video m0 /\ video_send m1 = video_send m0) /\
    (is_video ml = true ->
     has_video m1 = has_video m0 || negb (m_port ml =? 0) /\
     video_send m1 =
       negb (m_port ml =? 0) && negb (direction_blocks_sending (m_direction ml)) /\
     (m_port ml = 0 -> has_video m1 = has_video m0 /\ video_send m1 = false) /\
     has_audio m1 = has_audio m0 /\ audio_send m1 = audio_send m0).
Proof.
  cbv zeta. split; [| split].
  - destruct (janus_nosip_sdp_process m sdp answer update changed w)
      as [[[m' changed'] w'] tr] eqn:E.
    apply janus_nosip_sdp_process_endpoints in E. simpl. tauto.
  - unfold janus_nosip_sdp_process.
    set (mc := match c_addr sdp with Some _ => _ | None => _ end).
    assert (Hc : audio_send (fst mc) = audio_send m /\ video_send (fst mc) = video_send m)
      by (subst mc; destruct (c_addr sdp); simpl; auto).
    destruct mc as [m0 ch0]. simpl in Hc. destruct Hc as [<- <-].
    pose proof (process_mlines_send sdp answer update
                  (if answer then janus_sdp_get_opusred_pt sdp (-1) else -1)
                  (m_lines sdp) m0 ch0 w) as Hs.
    destruct (fold_left _ (m_lines sdp) (m0, ch0, w)) as [[m1 ch1] w1].
    cbn [fst] in Hs. destruct Hs as [<- <-].
    destruct (update && ch1); [| simpl; auto].
    cbv zeta. destruct (0 <? snd (pipefd (m1 <| updated := true |>))).
    + destruct (sys_write _ w1). simpl. auto.
    + simpl. auto.
  - intros opusred ml m0 changed0 w0.
    pose proof (process_mline_send sdp answer update opusred m0 changed0 w0 ml) as [Hsa Hsv].
    destruct (process_mline sdp answer update opusred (m0, changed0, w0) ml)
      as [[m1 ch1] w1] eqn:E.
    apply process_mline_endpoints in E as (Ha & Hv & _). cbn [fst] in Hsa, Hsv |- *.
    split; intros Hkind.
    + assert (Hnv : is_video ml = false)
        by (rewrite (is_audio_video_exclusive ml), Hkind; [reflexivity |];
            rewrite Hkind; reflexivity).
      rewrite Hkind, Hnv in *. simpl in Ha, Hv. rewrite orb_false_r in Hv.
      split; [assumption |]. split; [assumption |].
      split; [| auto].
      intros Hport. rewrite Ha, Hsa, Hport. simpl. rewrite orb_false_r. auto.
    + assert (Hna : is_audio ml = false).
      { pose proof (is_audio_video_exclusive ml) as Hx. rewrite Hkind, orb_true_r in Hx.
        specialize (Hx eq_refl). destruct (is_audio ml); [discriminate | reflexivity]. }
      rewrite Hkind, Hna in *. simpl in Ha, Hv. rewrite orb_false_r in Ha.
      split; [assumption |]. split; [assumption |].
      split; [| auto].
      intros Hport. rewrite Hv, Hsv, Hport. simpl. rewrite orb_false_r. auto.
Qed.

End SdpEffects.

(** An offer whose data-channel section names [rtp/savp] makes SRTP
    required, although the section is skipped. *)
Example application_section_requires_srtp :
  let m' := fst (fst (fst (janus_nosip_sdp_process (K := sim_kernel) (L := sim_libs [])
                             fresh_media offer_with_application false false false
                             (free_world [] 5)))) in
  require_srtp m' = true /\ has_video m' = false /\ remote_video_rtp_port m' = 0.
Proof. vm_compute. auto. Qed.

(** An answer whose video section has an address of its own and asks for
    PLI. *)
Example video_section_address_and_pli :
  let m' := fst (fst (fst (janus_nosip_sdp_process (K := sim_kernel) (L := sim_libs [])
                             fresh_media answer_with_video true false false
                             (free_world [] 5)))) in
  remote_audio_ip m' = Some "198.51.100.7" /\ remote_video_ip m' = Some "198.51.100.9" /\
  video_pli_supported m' = true.
Proof. vm_compute. auto. Qed.

(** ** Rewriting a description for the peer *)

Section ManipulateEffects.
Context {World : Type} {K : Kernel World} {L : Libs World}.

(** [janus_nosip_srtp_set_local] writes the local SRTP state of its medium
    only. *)
Lemma janus_nosip_srtp_set_local_outside m video (w : World) :
  let m' := snd (fst (janus_nosip_srtp_set_local m video w)) in
  outside_srtp_local m' = outside_srtp_local m /\
  srtp_local_profile_of (negb video) m' = srtp_local_profile_of (negb video) m /\
  srtp_local_crypto_of (negb video) m' = srtp_local_crypto_of (negb video) m /\
  local_policy_of (negb video) m' = local_policy_of (negb video) m.
Proof.
  unfold janus_nosip_srtp_set_local.
  destruct (match srtp_profile m with JANUS_SRTP_NONE => None | _ => _ end)
    as [[len name]|]; [| simpl; auto].
  destruct (srtp_crypto_get_random len w) as [k w1].
  destruct video;
    match goal with |- context [srtp_create ?p ?x] => destruct (srtp_create p x) as [res w2] end;
    destruct (negb (res =? srtp_err_status_ok)); simpl; auto.
Qed.

Lemma outside_sdp_manipulate_srtp_local m :
  outside_sdp_manipulate (outside_srtp_local m) = outside_sdp_manipulate m.
Proof. destruct m; vm_compute; reflexivity. Qed.

Lemma outside_sdp_manipulate_codecs m :
  outside_sdp_manipulate (outside_codecs m) = outside_sdp_manipulate m.
Proof. destruct m; vm_compute; reflexivity. Qed.

Lemma outside_sdp_manipulate_audio_tag m v :
  outside_sdp_manipulate (m <| audio_srtp_tag := v |>) = outside_sdp_manipulate m.
Proof. destruct m; vm_compute; reflexivity. Qed.

Lemma outside_sdp_manipulate_video_tag m v :
  outside_sdp_manipulate (m <| video_srtp_tag := v |>) = outside_sdp_manipulate m.
Proof. destruct m; vm_compute; reflexivity. Qed.

Lemma janus_nosip_srtp_set_local_manipulate m video (w : World) :
  outside_sdp_manipulate (snd (fst (janus_nosip_srtp_set_local m video w)))
  = outside_sdp_manipulate m.
Proof.
  destruct (janus_nosip_srtp_set_local_outside m video w) as [H _].
  apply (f_equal outside_sdp_manipulate) in H.
  rewrite !outside_sdp_manipulate_srtp_local in H. exact H.
Qed.

Lemma negotiated_codec_manipulate sdp opusred ml m :
  outside_sdp_manipulate (negotiated_codec sdp opusred ml m) = outside_sdp_manipulate m.
Proof.
  pose proof (negotiated_codec_outside sdp opusred ml m) as H.
  apply (f_equal outside_sdp_manipulate) in H.
  rewrite !outside_sdp_manipulate_codecs in H. exact H.
Qed.

(** The fields the rewriting of a section reads are outside of what
    [janus_nosip_sdp_manipulate] writes. *)
Lemma outside_sdp_manipulate_reads m m' :
  outside_sdp_manipulate m' = outside_sdp_manipulate m ->
  require_srtp m' = require_srtp m /\ has_srtp_local m' = has_srtp_local m /\
  local_audio_rtp_port m' = local_audio_rtp_port m /\
  local_video_rtp_port m' = local_video_rtp_port m.
Proof.
  intros H.
  pose proof (f_equal require_srtp H) as E1.
  pose proof (f_equal has_srtp_local H) as E2.
  pose proof (f_equal local_audio_rtp_port H) as E3.
  pose proof (f_equal local_video_rtp_port H) as E4.
  simpl in E1, E2, E3, E4. auto.
Qed.

(** What the loop body does with one section, before the codec block. *)
Lemma manipulate_mline_effect g ml m (w : World) ml' m' w' :
  manipulate_mline g ml m w = (ml', m', w') ->
  rewritten g m ml ml' /\
  outside_sdp_manipulate m' = outside_sdp_manipulate m /\
  (has_srtp_local m && (is_audio ml || is_video ml) = false -> m' = m /\ w' = w).
Proof.
  unfold manipulate_mline, rewritten, is_audio, is_video.
  destruct (m_type ml) eqn:Hty; cbn [mtype_eqb orb andb].
  - (* audio *)
    destruct (has_srtp_local m) eqn:Hl; cbn [andb].
    + assert (Hmw : exists m1 w1,
        (if is_null (audio_srtp_local_profile m) || is_null (audio_srtp_local_crypto m)
         then let '(_, m, w) := janus_nosip_srtp_set_local m false w in (m, w)
         else (m, w)) = (m1, w1) /\ outside_sdp_manipulate m1 = outside_sdp_manipulate m).
      { destruct (is_null _ || is_null _).
        - pose proof (janus_nosip_srtp_set_local_manipulate m false w) as Hs.
          destruct (janus_nosip_srtp_set_local m false w) as [[r m1] w1]. eauto.
        - eauto. }
      destruct Hmw as (m1 & w1 & -> & Ho).
      destruct (outside_sdp_manipulate_reads _ _ Ho) as (R1 & R2 & R3 & R4).
      destruct (audio_srtp_tag m1 =? 0); intros E; injection E as <- <- <-; cbn;
        rewrite ?outside_sdp_manipulate_audio_tag;
        (repeat split; eauto; try discriminate).
    + intros E; injection E as <- <- <-; cbn. repeat split; auto.
  - (* video *)
    destruct (has_srtp_local m) eqn:Hl; cbn [andb].
    + assert (Hmw : exists m1 w1,
        (if is_null (video_srtp_local_profile m) || is_null (video_srtp_local_crypto m)
         then let '(_, m, w) := janus_nosip_srtp_set_local m true w in (m, w)
         else (m, w)) = (m1, w1) /\ outside_sdp_manipulate m1 = outside_sdp_manipulate m).
      { destruct (is_null _ || is_null _).
        - pose proof (janus_nosip_srtp_set_local_manipulate m true w) as Hs.
          destruct (janus_nosip_srtp_set_local m true w) as [[r m1] w1]. eauto.
        - eauto. }
      destruct Hmw as (m1 & w1 & -> & Ho).
      destruct (outside_sdp_manipulate_reads _ _ Ho) as (R1 & R2 & R3 & R4).
      destruct (video_srtp_tag m1 =? 0); intros E; injection E as <- <- <-; cbn;
        rewrite ?outside_sdp_manipulate_video_tag;
        (repeat split; eauto; try discriminate).
    + intros E; injection E as <- <- <-; cbn. repeat split; auto.
  - intros E; injection E as <- <- <-; cbn. rewrite andb_false_r. repeat split; auto.
  - intros E; injection E as <- <- <-; cbn. rewrite andb_false_r. repeat split; auto.
Qed.


Lemma codecs_determine m m' :
  outside_codecs m' = outside_codecs m -> same_codecs m m' -> m' = m.
Proof.
  destruct m, m'; unfold same_codecs; cbn.
  intros H (E1 & E2 & E3 & E4 & E5). subst.
  injection H; intros; subst; reflexivity.
Qed.

(** The loop body leaves the negotiated codecs alone. *)
Lemma manipulate_mline_codecs g ml m (w : World) :
  same_codecs m (snd (fst (manipulate_mline g ml m w))).
Proof.
  unfold manipulate_mline, same_codecs.
  destruct (m_type ml); try (cbn; tauto).
  - destruct (has_srtp_local m); [| cbn; tauto].
    destruct (is_null _ || is_null _).
    + destruct (janus_nosip_srtp_set_local_outside m false w) as [H _].
      destruct (janus_nosip_srtp_set_local m false w) as [[r m1] w1]. cbn in H.
      pose proof (f_equal audio_pt H) as E1. pose proof (f_equal opusred_pt H) as E2.
      pose proof (f_equal audio_pt_name H) as E3. pose proof (f_equal video_pt H) as E4.
      pose proof (f_equal video_pt_name H) as E5. cbn in E1, E2, E3, E4, E5.
      destruct (audio_srtp_tag m1 =? 0); cbn; auto.
    + destruct (audio_srtp_tag m =? 0); cbn; tauto.
  - destruct (has_srtp_local m); [| cbn; tauto].
    destruct (is_null _ || is_null _).
    + destruct (janus_nosip_srtp_set_local_outside m true w) as [H _].
      destruct (janus_nosip_srtp_set_local m true w) as [[r m1] w1]. cbn in H.
      pose proof (f_equal audio_pt H) as E1. pose proof (f_equal opusred_pt H) as E2.
      pose proof (f_equal audio_pt_name H) as E3. pose proof (f_equal video_pt H) as E4.
      pose proof (f_equal video_pt_name H) as E5. cbn in E1, E2, E3, E4, E5.
      destruct (video_srtp_tag m1 =? 0); cbn; auto.
    + destruct (video_srtp_tag m =? 0); cbn; tauto.
Qed.

(** The loop: every section is rewritten from the session as it was on
    entry. *)
Lemma manipulate_mlines_effect g answer opusred c todo :
  forall done m (w : World) lines m' w',
    manipulate_mlines g answer opusred c done todo m w = (lines, m', w') ->
    exists fresh,
      lines = done ++ fresh /\ Forall2 (rewritten g m) todo fresh /\
      outside_sdp_manipulate m' = outside_sdp_manipulate m /\
      (answer = false -> same_codecs m m') /\
      (has_srtp_local m = false -> w' = w /\ outside_codecs m' = outside_codecs m).
Proof.
  induction todo as [|ml todo IH]; intros done m w lines m' w'; cbn [manipulate_mlines].
  - intros E; injection E as <- <- <-. exists []. rewrite app_nil_r.
    unfold same_codecs. repeat split; auto.
  - pose proof (manipulate_mline_codecs g ml m w) as Hc.
    destruct (manipulate_mline g ml m w) as [[ml1 m1] w1] eqn:E1. cbn in Hc.
    destruct (manipulate_mline_effect _ _ _ _ _ _ _ E1) as (Hr & Ho & Hn).
    intros E. apply IH in E. destruct E as (fresh & -> & Hf & Ho' & Hoff & Hno).
    assert (Hom : outside_sdp_manipulate
                    (if answer && (is_audio ml1 || is_video ml1)
                     then negotiated_codec {| c_addr := c; m_lines := done ++ ml1 :: todo |}
                            opusred ml1 m1
                     else m1) = outside_sdp_manipulate m).
    { destruct (answer && _); [rewrite negotiated_codec_manipulate |]; exact Ho. }
    destruct (outside_sdp_manipulate_reads _ _ Hom) as (R1 & R2 & R3 & R4).
    exists (ml1 :: fresh). rewrite <- app_assoc. split; [reflexivity |].
    split.
    { constructor; [exact Hr |].
      eapply Forall2_impl; [| exact Hf]. intros a b. unfold rewritten.
      rewrite R1, R2, R3, R4. tauto. }
    split; [rewrite Ho'; exact Hom |].
    split.
    { intros ->. specialize (Hoff eq_refl). cbn [andb] in Hoff.
      unfold same_codecs in *. intuition congruence. }
    intros Hl. rewrite R2 in Hno. destruct (Hno Hl) as [-> Hk].
    rewrite Hl in Hn. destruct (Hn eq_refl) as [-> ->].
    split; [reflexivity |]. rewrite Hk.
    destruct (answer && _); [apply negotiated_codec_outside | reflexivity].
Qed.

Lemma janus_nosip_sdp_manipulate_effect g m sdp answer (w : World) :
  let r := janus_nosip_sdp_manipulate g m sdp answer w in
  let sdp' := snd (fst (fst r)) in
  let m' := snd (fst r) in
  fst (fst (fst r)) = janus_sdp_write sdp' /\
  c_addr sdp' = match c_addr sdp with Some _ => sdp_ip g | None => None end /\
  Forall2 (rewritten g m) (m_lines sdp) (m_lines sdp') /\
  outside_sdp_manipulate m' = outside_sdp_manipulate m /\
  (answer = false -> same_codecs m m') /\
  (has_srtp_local m = false -> snd r = w /\ outside_codecs m' = outside_codecs m).
Proof.
  unfold janus_nosip_sdp_manipulate.
  match goal with |- context [manipulate_mlines ?a ?b ?c ?d ?e ?f ?x ?y] =>
    destruct (manipulate_mlines a b c d e f x y) as [[lines m1] w1] eqn:E end.
  apply manipulate_mlines_effect in E. destruct E as (fresh & -> & Hf & Ho & Hoff & Hno).
  cbn. split; [reflexivity |]. split; [reflexivity |]. split; [exact Hf |].
  split; [exact Ho |]. split; [exact Hoff | exact Hno].
Qed.

(** X15: [janus_nosip_sdp_manipulate] returns the rendering of the
    description it has rewritten in place.  A session-level address is replaced
    by the advertised one only when there was one; every section keeps its
    index, type, direction and payload types, gets the protocol that
    [require_srtp] asks for and the advertised (else the local) address, an
    audio or video section gets the session's local RTP port, and with
    [has_srtp_local] one crypto attribute after those it had. *)
Theorem sdp_manipulate_rewrites g m sdp answer (w : World) :
  let r := janus_nosip_sdp_manipulate g m sdp answer w in
  let sdp' := snd (fst (fst r)) in
  fst (fst (fst r)) = janus_sdp_write sdp' /\
  c_addr sdp' = match c_addr sdp with Some _ => sdp_ip g | None => None end /\
  Forall2 (rewritten g m) (m_lines sdp) (m_lines sdp').
Proof.
  intros r sdp'. destruct (janus_nosip_sdp_manipulate_effect g m sdp answer w)
    as (H1 & H2 & H3 & _). auto.
Qed.

(** X16: of the session, [janus_nosip_sdp_manipulate] writes nothing
    but the local SRTP state, the crypto tags and the negotiated codecs.
    Rewriting an offer keeps the codecs; without [has_srtp_local] no library
    call that changes the world is made and only the codecs can change. *)
Theorem sdp_manipulate_session g m sdp answer (w : World) :
  let r := janus_nosip_sdp_manipulate g m sdp answer w in
  let m' := snd (fst r) in
  outside_sdp_manipulate m' = outside_sdp_manipulate m /\
  (answer = false -> same_codecs m m') /\
  (has_srtp_local m = false -> snd r = w /\ outside_codecs m' = outside_codecs m) /\
  (answer = false -> has_srtp_local m = false -> m' = m).
Proof.
  intros r m'. destruct (janus_nosip_sdp_manipulate_effect g m sdp answer w)
    as (_ & _ & _ & H4 & H5 & H6).
  split; [exact H4 |]. split; [exact H5 |]. split; [exact H6 |].
  intros Ha Hl. destruct (H6 Hl) as [_ Hk]. specialize (H5 Ha).
  unfold same_codecs in H5. fold r in Hk. fold m' in Hk, H5.
  apply codecs_determine; assumption.
Qed.


Lemma same_local_crypto_refl m : same_local_crypto m m.
Proof. unfold same_local_crypto. auto. Qed.

Lemma same_local_crypto_trans m1 m2 m3 :
  same_local_crypto m1 m2 -> same_local_crypto m2 m3 -> same_local_crypto m1 m3.
Proof.
  unfold same_local_crypto. intros [H1 F1] [H2 F2]. split; [congruence |].
  intros v. destruct (F1 v) as (? & ? & ? & ?), (F2 v) as (? & ? & ? & ?).
  repeat split; congruence.
Qed.

Lemma negotiated_codec_local_crypto sdp opusred ml m :
  same_local_crypto m (negotiated_codec sdp opusred ml m).
Proof.
  pose proof (negotiated_codec_outside sdp opusred ml m) as H.
  unfold same_local_crypto, advertised_tag.
  split; [exact (f_equal has_srtp_local H) |].
  intros [|];
    [ pose proof (f_equal video_srtp_local_profile H) as E1;
      pose proof (f_equal video_srtp_local_crypto H) as E2;
      pose proof (f_equal video_srtp_out H) as E3;
      pose proof (f_equal video_srtp_tag H) as E4
    | pose proof (f_equal audio_srtp_local_profile H) as E1;
      pose proof (f_equal audio_srtp_local_crypto H) as E2;
      pose proof (f_equal audio_srtp_out H) as E3;
      pose proof (f_equal audio_srtp_tag H) as E4 ];
    cbn in E1, E2, E3, E4; cbn; rewrite E4; auto.
Qed.

Lemma local_crypto_stored_same m m' :
  same_local_crypto m m' -> local_crypto_stored m' = local_crypto_stored m.
Proof.
  intros [_ F]. unfold local_crypto_stored.
  destruct (F true) as (P1 & C1 & _), (F false) as (P2 & C2 & _).
  cbn in P1, C1, P2, C2. rewrite P1, C1, P2, C2. reflexivity.
Qed.

(** With the local crypto stored, a section is rewritten without a call to
    [janus_nosip_srtp_set_local]. *)
Lemma manipulate_mline_stored g ml m (w : World) ml' m' w' :
  local_crypto_stored m = true ->
  manipulate_mline g ml m w = (ml', m', w') ->
  same_local_crypto m m' /\ w' = w /\
  (has_srtp_local m = true -> is_audio ml || is_video ml = true ->
   m_attributes ml' = m_attributes ml ++ [advertised_crypto (is_video ml) m]).
Proof.
  unfold local_crypto_stored, manipulate_mline, is_audio, is_video, advertised_crypto.
  intros Hs. apply andb_true_iff in Hs. destruct Hs as [Ha Hv].
  apply negb_true_iff in Ha, Hv. rewrite Ha, Hv.
  destruct (m_type ml); cbn [mtype_eqb orb].
  - destruct (has_srtp_local m).
    + unfold advertised_tag; cbn [srtp_tag_of srtp_local_profile_of srtp_local_crypto_of].
      destruct (audio_srtp_tag m =? 0) eqn:Ht; intros E; injection E as <- <- <-;
        (split; [| split; [reflexivity | intros _ _; reflexivity]]);
        [| apply same_local_crypto_refl].
      unfold same_local_crypto, advertised_tag. split; [reflexivity |].
      intros [|]; cbn; rewrite ?Ht; auto.
    + intros E; injection E as <- <- <-.
      split; [apply same_local_crypto_refl |]. split; [reflexivity | discriminate].
  - destruct (has_srtp_local m).
    + unfold advertised_tag; cbn [srtp_tag_of srtp_local_profile_of srtp_local_crypto_of].
      destruct (video_srtp_tag m =? 0) eqn:Ht; intros E; injection E as <- <- <-;
        (split; [| split; [reflexivity | intros _ _; reflexivity]]);
        [| apply same_local_crypto_refl].
      unfold same_local_crypto, advertised_tag. split; [reflexivity |].
      intros [|]; cbn; rewrite ?Ht; auto.
    + intros E; injection E as <- <- <-.
      split; [apply same_local_crypto_refl |]. split; [reflexivity | discriminate].
  - intros E; injection E as <- <- <-.
    split; [apply same_local_crypto_refl |]. split; [reflexivity | discriminate].
  - intros E; injection E as <- <- <-.
    split; [apply same_local_crypto_refl |]. split; [reflexivity | discriminate].
Qed.

Lemma advertised_crypto_same m m' video :
  same_local_crypto m m' -> advertised_crypto video m' = advertised_crypto video m.
Proof.
  intros [_ F]. destruct (F video) as (P & C & _ & T).
  unfold advertised_crypto. rewrite P, C, T. reflexivity.
Qed.

Lemma manipulate_mlines_stored g answer opusred c todo :
  forall done m (w : World) lines m' w',
    local_crypto_stored m = true -> has_srtp_local m = true ->
    manipulate_mlines g answer opusred c done todo m w = (lines, m', w') ->
    exists fresh,
      lines = done ++ fresh /\ w' = w /\ same_local_crypto m m' /\
      Forall2 (fun ml ml' =>
                 is_audio ml || is_video ml = true ->
                 m_attributes ml' = m_attributes ml ++ [advertised_crypto (is_video ml) m])
              todo fresh.
Proof.
  induction todo as [|ml todo IH]; intros done m w lines m' w' Hs Hl; cbn [manipulate_mlines].
  - intros E; injection E as <- <- <-. exists []. rewrite app_nil_r.
    split; [reflexivity |]. split; [reflexivity |].
    split; [apply same_local_crypto_refl | constructor].
  - destruct (manipulate_mline g ml m w) as [[ml1 m1] w1] eqn:E1.
    destruct (manipulate_mline_stored _ _ _ _ _ _ _ Hs E1) as (Hsame & -> & Hattr).
    set (m2 := if answer && (is_audio ml1 || is_video ml1)
               then negotiated_codec {| c_addr := c; m_lines := done ++ ml1 :: todo |}
                      opusred ml1 m1
               else m1).
    assert (Hsame2 : same_local_crypto m m2).
    { unfold m2. destruct (answer && _); [| exact Hsame].
      eapply same_local_crypto_trans; [exact Hsame | apply negotiated_codec_local_crypto]. }
    intros E. apply IH in E.
    + destruct E as (fresh & -> & -> & Hsame3 & Hf).
      exists (ml1 :: fresh). rewrite <- app_assoc. split; [reflexivity |].
      split; [reflexivity |].
      split; [eapply same_local_crypto_trans; eassumption |].
      constructor; [exact (Hattr Hl) |].
      eapply Forall2_impl; [| exact Hf]. cbn beta. intros a b Hab Hty.
      rewrite (Hab Hty), (advertised_crypto_same _ _ _ Hsame2). reflexivity.
    + rewrite (local_crypto_stored_same _ _ Hsame2). exact Hs.
    + destruct Hsame2 as [-> _]. exact Hl.
Qed.

(** X17: when the session already holds a local profile and crypto
    for both media, [janus_nosip_sdp_manipulate] generates no key: the world
    is not touched, the stored profile, crypto and outbound contexts are
    kept, and every audio or video section gets, after the attributes it
    had, the crypto attribute with the stored profile and crypto and with the
    stored tag, or tag 1 when none was stored. *)
Theorem sdp_manipulate_reuses_stored_crypto g m sdp answer (w : World) :
  has_srtp_local m = true -> local_crypto_stored m = true ->
  let r := janus_nosip_sdp_manipulate g m sdp answer w in
  snd r = w /\ same_local_crypto m (snd (fst r)) /\
  Forall2 (fun ml ml' =>
             is_audio ml || is_video ml = true ->
             m_attributes ml' = m_attributes ml ++ [advertised_crypto (is_video ml) m])
          (m_lines sdp) (m_lines (snd (fst (fst r)))).
Proof.
  intros Hl Hs. unfold janus_nosip_sdp_manipulate.
  match goal with |- context [manipulate_mlines ?a ?b ?c ?d ?e ?f ?x ?y] =>
    destruct (manipulate_mlines a b c d e f x y) as [[lines m1] w1] eqn:E end.
  apply manipulate_mlines_stored in E; [| exact Hs | exact Hl].
  destruct E as (fresh & -> & -> & Hsame & Hf). cbn.
  split; [reflexivity |]. split; [exact Hsame | exact Hf].
Qed.

End ManipulateEffects.

(** [sdp_manipulate_reuses_stored_crypto] on an offer with an audio and a
    video section, for a session that stored its crypto with tag 3 for
    video and no tag for audio. *)
Lemma sdp_manipulate_reuses_stored_crypto_witness :
  let r := janus_nosip_sdp_manipulate (L := sim_libs []) default_globals
             stored_crypto_media local_offer false (free_world [] 5) in
  (has_srtp_local stored_crypto_media = true /\
   local_crypto_stored stored_crypto_media = true) /\
  snd r = free_world [] 5 /\ same_local_crypto stored_crypto_media (snd (fst r)) /\
  Forall2 (fun ml ml' =>
             is_audio ml || is_video ml = true ->
             m_attributes ml' = m_attributes ml ++
                                  [advertised_crypto (is_video ml) stored_crypto_media])
          (m_lines local_offer) (m_lines (snd (fst (fst r)))).
Proof.
  split; [split; reflexivity |].
  apply (sdp_manipulate_reuses_stored_crypto (L := sim_libs [])
           default_globals stored_crypto_media local_offer false (free_world [] 5));
    reflexivity.
Defined.

(** The two crypto attributes of that offer. *)
Example stored_crypto_offer_attributes :
  map m_attributes
    (m_lines (snd (fst (fst (janus_nosip_sdp_manipulate (L := sim_libs [])
                               default_globals stored_crypto_media local_offer false
                               (free_world [] 5))))))
  = [[crypto_attribute "1 AES_CM_128_HMAC_SHA1_80 inline:QUFBQQ"];
     [crypto_attribute "3 AES_CM_128_HMAC_SHA1_80 inline:QkJCQg"]].
Proof. vm_compute. reflexivity. Qed.

(** ** Local ports of a session *)

Section LocalPorts.
Context {World : Type} {K : Kernel World} {L : Libs World}.

Lemma created_fds_app tr1 tr2 : created_fds (tr1 ++ tr2) = created_fds tr1 ++ created_fds tr2.
Proof. apply flat_map_app. Qed.

(** Two steps that each account for their descriptors do so together. *)
Lemma fds_compose (A B E C1 C2 D1 D2 : list Z) :
  Permutation (A ++ C1) (D1 ++ B) -> Permutation (B ++ C2) (D2 ++ E) ->
  Permutation (A ++ C1 ++ C2) ((D1 ++ D2) ++ E).
Proof.
  intros H1 H2. rewrite app_assoc, H1, <- !app_assoc.
  apply Permutation_app_head. exact H2.
Qed.

Lemma close_if_open_fds fd (w : World) :
  closed_fds (snd (close_if_open fd w)) = open_fd fd /\
  created_fds (snd (close_if_open fd w)) = [].
Proof.
  unfold close_if_open, open_fd. destruct (fd =? -1); simpl; auto.
Qed.

Lemma close_pipe_end_fds fd (w : World) :
  closed_fds (snd (close_pipe_end fd w)) = pipe_end fd /\
  created_fds (snd (close_pipe_end fd w)) = [] /\
  pipe_end (fst (fst (close_pipe_end fd w))) = [].
Proof.
  unfold close_pipe_end, pipe_end. destruct (0 <? fd) eqn:E; simpl; rewrite ?E; auto.
Qed.

(** "Reset status" closes every descriptor of the session and leaves it with
    none. *)
Lemma reset_local_ports_fds m (w : World) :
  let r := reset_local_ports m w in
  closed_fds (snd r) = session_fds m /\ created_fds (snd r) = [] /\
  session_fds (fst (fst r)) = [] /\
  has_audio (fst (fst r)) = has_audio m /\ has_video (fst (fst r)) = has_video m /\
  local_audio_rtp_port (fst (fst r)) = 0 /\ local_video_rtp_port (fst (fst r)) = 0 /\
  audio_rtp_fd (fst (fst r)) = -1 /\ audio_rtcp_fd (fst (fst r)) = -1 /\
  video_rtp_fd (fst (fst r)) = -1 /\ video_rtcp_fd (fst (fst r)) = -1 /\
  local_audio_rtcp_port (fst (fst r)) = 0 /\ local_video_rtcp_port (fst (fst r)) = 0 /\
  pipe_end (fst (pipefd (fst (fst r)))) = [] /\ pipe_end (snd (pipefd (fst (fst r)))) = [].
Proof.
  unfold reset_local_ports.
  pose proof (close_if_open_fds (audio_rtp_fd m) w) as H1.
  destruct (close_if_open (audio_rtp_fd m) w) as [w1 t1].
  pose proof (close_if_open_fds (audio_rtcp_fd m) w1) as H2.
  destruct (close_if_open (audio_rtcp_fd m) w1) as [w2 t2].
  pose proof (close_if_open_fds (video_rtp_fd m) w2) as H3.
  destruct (close_if_open (video_rtp_fd m) w2) as [w3 t3].
  pose proof (close_if_open_fds (video_rtcp_fd m) w3) as H4.
  destruct (close_if_open (video_rtcp_fd m) w3) as [w4 t4].
  pose proof (close_pipe_end_fds (fst (pipefd m)) w4) as H5.
  destruct (close_pipe_end (fst (pipefd m)) w4) as [[p0 w5] t5].
  pose proof (close_pipe_end_fds (snd (pipefd m)) w5) as H6.
  destruct (close_pipe_end (snd (pipefd m)) w5) as [[p1 w6] t6].
  cbn [fst snd] in *.
  destruct H1 as [C1 O1], H2 as [C2 O2], H3 as [C3 O3], H4 as [C4 O4],
           H5 as (C5 & O5 & P5), H6 as (C6 & O6 & P6).
  rewrite !closed_fds_app, !created_fds_app, C1, C2, C3, C4, C5, C6, O1, O2, O3, O4, O5, O6.
  unfold session_fds. cbn. rewrite P5, P6. repeat split; reflexivity.
Qed.


(** The allocator creates sockets only. *)
Lemma open_rtp_socket_created video g fd (w : World) :
  created_fds (snd (open_rtp_socket video g fd w))
  = opened_fds (snd (open_rtp_socket video g fd w)).
Proof.
  unfold open_rtp_socket.
  destruct (fd =? -1); [| reflexivity].
  destruct (sys_socket (use_ipv6_address_family g) w) as [fd' w1].
  destruct (use_ipv6_address_family g && negb (fd' =? -1)).
  - destruct (sys_setsockopt fd' (IPV6_V6ONLY 0) w1) as [r1 w2].
    destruct (negb (fd' =? -1) && negb video && (0 <? dscp_audio_rtp g));
      [destruct (sys_setsockopt _ _ w2); reflexivity |].
    destruct (negb (fd' =? -1) && video && (0 <? dscp_video_rtp g));
      [destruct (sys_setsockopt _ _ w2) |]; reflexivity.
  - destruct (negb (fd' =? -1) && negb video && (0 <? dscp_audio_rtp g));
      [destruct (sys_setsockopt _ _ w1); reflexivity |].
    destruct (negb (fd' =? -1) && video && (0 <? dscp_video_rtp g));
      [destruct (sys_setsockopt _ _ w1) |]; reflexivity.
Qed.

Lemma open_rtcp_socket_created g fd (w : World) :
  created_fds (snd (open_rtcp_socket g fd w)) = opened_fds (snd (open_rtcp_socket g fd w)).
Proof.
  unfold open_rtcp_socket.
  destruct (fd =? -1); [| reflexivity].
  destruct (sys_socket (use_ipv6_address_family g) w) as [fd' w1].
  destruct (use_ipv6_address_family g && negb (fd' =? -1));
    [destruct (sys_setsockopt _ _ w1) |]; reflexivity.
Qed.

Lemma port_pair_iteration_created video g start c (w : World) :
  created_fds (snd (fst (port_pair_iteration video g start c w)))
  = opened_fds (snd (fst (port_pair_iteration video g start c w))).
Proof.
  unfold port_pair_iteration.
  destruct (rtp_port_wrap c && (start <=? rtp_port_next c)); [reflexivity |].
  pose proof (open_rtp_socket_created video g (rtp_fd c) w) as H1.
  destruct (open_rtp_socket video g (rtp_fd c) w) as [[fd0 w1] tr1].
  pose proof (open_rtcp_socket_created g (rtcp_fd c) w1) as H2.
  destruct (open_rtcp_socket g (rtcp_fd c) w1) as [[fd1 w2] tr2].
  cbn [snd] in H1, H2.
  destruct ((fd0 =? -1) || (fd1 =? -1)).
  { cbn [fst snd]. rewrite created_fds_app, opened_fds_app. congruence. }
  destruct (uint32 (rtp_port_next c + 2) <? rtp_range_max g).
  - destruct (janus_nosip_bind_socket fd0 (rtp_port_next c) w2) as [r w3].
    destruct (negb (r =? 0));
      [cbn [fst snd]; rewrite !created_fds_app, !opened_fds_app, H1, H2; reflexivity |].
    destruct (janus_nosip_bind_socket fd1 (rtp_port_next c + 1) w3) as [r' w4].
    destruct (negb (r' =? 0)); cbn [fst snd];
      rewrite !created_fds_app, !opened_fds_app, H1, H2; reflexivity.
  - destruct (janus_nosip_bind_socket fd0 (rtp_port_next c) w2) as [r w3].
    destruct (negb (r =? 0));
      [cbn [fst snd]; rewrite !created_fds_app, !opened_fds_app, H1, H2; reflexivity |].
    destruct (janus_nosip_bind_socket fd1 (rtp_port_next c + 1) w3) as [r' w4].
    destruct (negb (r' =? 0)); cbn [fst snd];
      rewrite !created_fds_app, !opened_fds_app, H1, H2; reflexivity.
Qed.

Lemma allocate_loop_created video g start fuel :
  forall c (w : World) a w',
    allocate_loop fuel video g start c w = Some (a, w') ->
    created_fds (calls a) = opened_fds (calls a).
Proof.
  induction fuel as [|fuel IH]; intros c w a w' Hrun; [discriminate |].
  simpl in Hrun.
  pose proof (port_pair_iteration_created video g start c w) as Hit.
  destruct (port_pair_iteration video g start c w) as [[[e w1] tr] p].
  cbn [fst snd] in Hit.
  destruct e as [c1 | why c1 | f0 p0 sl].
  - destruct (allocate_loop fuel video g start c1 w1) as [[a1 w2]|] eqn:Hrec; [| discriminate].
    injection Hrun as <- <-. cbn [calls add_iteration].
    rewrite created_fds_app, opened_fds_app, Hit, (IH _ _ _ _ Hrec). reflexivity.
  - unfold allocation_failed in Hrun.
    destruct (negb (rtp_fd c1 =? -1)), (negb (rtcp_fd c1 =? -1));
      injection Hrun as <- <-; cbn [calls add_iteration];
      rewrite created_fds_app, opened_fds_app, Hit; reflexivity.
  - injection Hrun as <- <-. cbn [calls add_iteration].
    rewrite created_fds_app, opened_fds_app, Hit. reflexivity.
Qed.

(** What a call of the allocator means for its caller's descriptors. *)
Lemma janus_nosip_allocate_port_pair_fds fuel video g (w : World) a w' :
  janus_nosip_allocate_port_pair fuel video g w = Some (a, w') ->
  Permutation (created_fds (calls a)) (closed_fds (calls a) ++ returned_fds a) /\
  ((ret a =? 0) = true /\ (exists fd0 fd1 p, fds a = Some (fd0, fd1) /\ ports a = Some (p, p + 1) /\
                    fd0 <> -1 /\ fd1 <> -1 /\ In p (tried a)) \/
   (ret a =? 0) = false /\ fds a = None /\ globals a = g).
Proof.
  unfold janus_nosip_allocate_port_pair. intros Hrun.
  pose proof (allocate_loop_fds _ _ _ _ _ _ _ _ Hrun) as Hperm.
  pose proof (allocate_loop_result _ _ _ _ _ _ _ _ Hrun) as Hres.
  rewrite (allocate_loop_created _ _ _ _ _ _ _ _ Hrun).
  unfold live_fds, open_fd in Hperm. simpl in Hperm.
  split; [exact Hperm |].
  destruct (left_at a).
  - right. destruct Hres as (-> & ? & ? & ? & _). auto.
  - left. destruct Hres as (-> & fd0 & fd1 & p & earlier & ? & ? & ? & ? & _ & _ & Ht & _).
    split; [reflexivity |]. exists fd0, fd1, p. rewrite Ht.
    repeat split; auto. apply in_or_app. right. left. reflexivity.
Qed.


Lemma some_pair_inv {A B : Type} (a c : A) (b d : B) :
  Some (a, b) = Some (c, d) -> c = a /\ d = b.
Proof. intros H. injection H; auto. Qed.

Lemma open_fd_open fd : fd <> -1 -> open_fd fd = [fd].
Proof. unfold open_fd. intros H. apply Z.eqb_neq in H. rewrite H. reflexivity. Qed.

(** Replacing the sockets [old] of a session by those an allocator call
    returns. *)
Lemma fds_medium (pre old post C D R : list Z) :
  Permutation C (D ++ R) ->
  Permutation ((pre ++ old ++ post) ++ C) ((old ++ D) ++ (pre ++ R ++ post)).
Proof.
  intros H. apply (Permutation_count_occ Z.eq_dec). intros x.
  pose proof (proj1 (Permutation_count_occ Z.eq_dec _ _) H x) as Hx.
  repeat rewrite count_occ_app in *. lia.
Qed.

(** The audio block: the descriptors are accounted for, and nothing of the
    video side or of the pipe is written. *)
Lemma allocate_audio_ports_effect fuel g m (w : World) lp w' :
  allocate_audio_ports fuel g m w = Some (lp, w') ->
  let m' := lp_media lp in
  Permutation (session_fds m ++ created_fds (lp_calls lp))
              (closed_fds (lp_calls lp) ++ session_fds m') /\
  pipefd m' = pipefd m /\ updated m' = updated m /\
  has_audio m' = has_audio m /\ has_video m' = has_video m /\
  video_rtp_fd m' = video_rtp_fd m /\ video_rtcp_fd m' = video_rtcp_fd m /\
  local_video_rtp_port m' = local_video_rtp_port m /\
  local_video_rtcp_port m' = local_video_rtcp_port m.
Proof.
  unfold allocate_audio_ports.
  destruct (has_audio m && _).
  2:{ intros E; injection E as <- <-. cbn. rewrite app_nil_r.
      repeat split; auto. }
  pose proof (close_if_open_fds (audio_rtp_fd m) w) as H1.
  destruct (close_if_open (audio_rtp_fd m) w) as [w1 t1] eqn:E1.
  pose proof (close_if_open_fds (audio_rtcp_fd m) w1) as H2.
  destruct (close_if_open (audio_rtcp_fd m) w1) as [w2 t2] eqn:E2.
  cbn [snd] in H1, H2. destruct H1 as [C1 O1], H2 as [C2 O2].
  destruct (janus_nosip_allocate_port_pair fuel false g w2) as [[a w3]|] eqn:Ha; [| discriminate].
  destruct (janus_nosip_allocate_port_pair_fds _ _ _ _ _ _ Ha) as [Hperm Hcase].
  unfold returned_fds in Hperm.
  destruct Hcase as [(Hz & fd0 & fd1 & p & Hf & Hp & Hn0 & Hn1 & _) | (Hz & Hf & _)];
    rewrite Hz, ?Hf, ?Hp; rewrite Hf in Hperm;
    intros E; apply some_pair_inv in E; destruct E as [-> ->]; cbn [lp_media lp_calls];
    rewrite !created_fds_app, !closed_fds_app, C1, C2, O1, O2;
    unfold session_fds; simpl;
    rewrite ?(open_fd_open _ Hn0), ?(open_fd_open _ Hn1);
    (split; [| repeat split; reflexivity]);
    match goal with |- Permutation ((?a ++ ?b ++ ?rest) ++ _) _ =>
      pose proof (fds_medium [] (a ++ b) rest _ _ _ Hperm) as Hm end;
    cbn [app] in Hm; rewrite <- !app_assoc in Hm; rewrite <- !app_assoc; exact Hm.
Qed.


(** The video block, likewise. *)
Lemma allocate_video_ports_effect fuel g m (w : World) lp w' :
  allocate_video_ports fuel g m w = Some (lp, w') ->
  let m' := lp_media lp in
  Permutation (session_fds m ++ created_fds (lp_calls lp))
              (closed_fds (lp_calls lp) ++ session_fds m') /\
  pipefd m' = pipefd m /\ updated m' = updated m /\
  has_audio m' = has_audio m /\ has_video m' = has_video m /\
  audio_rtp_fd m' = audio_rtp_fd m /\ audio_rtcp_fd m' = audio_rtcp_fd m /\
  local_audio_rtp_port m' = local_audio_rtp_port m /\
  local_audio_rtcp_port m' = local_audio_rtcp_port m.
Proof.
  unfold allocate_video_ports.
  destruct (has_video m && _).
  2:{ intros E; injection E as <- <-. cbn. rewrite app_nil_r.
      repeat split; auto. }
  pose proof (close_if_open_fds (video_rtp_fd m) w) as H1.
  destruct (close_if_open (video_rtp_fd m) w) as [w1 t1] eqn:E1.
  pose proof (close_if_open_fds (video_rtcp_fd m) w1) as H2.
  destruct (close_if_open (video_rtcp_fd m) w1) as [w2 t2] eqn:E2.
  cbn [snd] in H1, H2. destruct H1 as [C1 O1], H2 as [C2 O2].
  destruct (janus_nosip_allocate_port_pair fuel true g w2) as [[a w3]|] eqn:Ha; [| discriminate].
  destruct (janus_nosip_allocate_port_pair_fds _ _ _ _ _ _ Ha) as [Hperm Hcase].
  unfold returned_fds in Hperm.
  destruct Hcase as [(Hz & fd0 & fd1 & p & Hf & Hp & Hn0 & Hn1 & _) | (Hz & Hf & _)];
    rewrite Hz, ?Hf, ?Hp; rewrite Hf in Hperm;
    intros E; apply some_pair_inv in E; destruct E as [-> ->]; cbn [lp_media lp_calls];
    rewrite !created_fds_app, !closed_fds_app, C1, C2, O1, O2;
    unfold session_fds; simpl;
    rewrite ?(open_fd_open _ Hn0), ?(open_fd_open _ Hn1);
    (split; [| repeat split; reflexivity]);
    match goal with |- Permutation ((?a1 ++ ?a2 ++ ?v1 ++ ?v2 ++ ?rest) ++ _) _ =>
      pose proof (fds_medium (a1 ++ a2) (v1 ++ v2) rest _ _ _ Hperm) as Hm end;
    cbn [app] in Hm; rewrite <- !app_assoc in Hm; rewrite <- !app_assoc; exact Hm.
Qed.

(** The pipe: created for a fresh allocation, written to on an update. *)
Lemma wake_pipe_effect update m (w : World) :
  let r := wake_pipe update m w in
  let m' := fst (fst r) in
  audio_rtp_fd m' = audio_rtp_fd m /\ audio_rtcp_fd m' = audio_rtcp_fd m /\
  video_rtp_fd m' = video_rtp_fd m /\ video_rtcp_fd m' = video_rtcp_fd m /\
  closed_fds (snd r) = [] /\
  (update = true ->
   m' = m <| updated := true |> /\ created_fds (snd r) = [] /\
   snd r = if 0 <? snd (pipefd m)
           then [Write (snd (pipefd m)) (fst (sys_write (snd (pipefd m)) w))] else []) /\
  (update = false ->
   exists res, snd r = [Pipe res] /\
     pipefd m' = match res with Some ends => ends | None => pipefd m end).
Proof.
  unfold wake_pipe. destruct update; cbn [negb].
  - simpl. destruct (0 <? snd (pipefd m)).
    + destruct (sys_write (snd (pipefd m)) w) as [res w1]. simpl.
      repeat split; auto; discriminate.
    + simpl. repeat split; auto; discriminate.
  - destruct (sys_pipe w) as [[ends|] w1]; simpl;
      (repeat split; auto; try discriminate); intros _; eexists; split; reflexivity.
Qed.


Lemma wake_pipe_fds update m (w : World) :
  (update = false -> pipe_end (fst (pipefd m)) = [] /\ pipe_end (snd (pipefd m)) = []) ->
  pipes_positive (snd (wake_pipe update m w)) ->
  Permutation (session_fds m ++ created_fds (snd (wake_pipe update m w)))
              (closed_fds (snd (wake_pipe update m w))
               ++ session_fds (fst (fst (wake_pipe update m w)))).
Proof.
  intros Hold Hpos.
  destruct (wake_pipe_effect update m w) as (F1 & F2 & F3 & F4 & Hc & Hup & Hfresh).
  rewrite Hc. cbn [app]. unfold session_fds at 2. rewrite F1, F2, F3, F4.
  destruct update.
  - destruct (Hup eq_refl) as (-> & -> & _). simpl. rewrite app_nil_r. reflexivity.
  - destruct (Hfresh eq_refl) as (res & Htr & Hpipe). rewrite Hpipe.
    rewrite Htr in Hpos |- *. destruct (Hold eq_refl) as [P0 P1].
    unfold session_fds. rewrite P0, P1.
    destruct res as [[rd wr]|]; cbn [created_fds flat_map app fst snd].
    + destruct (Hpos rd wr (or_introl eq_refl)) as [Hrd Hwr].
      unfold pipe_end. apply Z.ltb_lt in Hrd, Hwr. rewrite Hrd, Hwr.
      rewrite <- !app_assoc. reflexivity.
    + rewrite P0, P1, app_nil_r. reflexivity.
Qed.

Lemma pipes_positive_app tr1 tr2 :
  pipes_positive (tr1 ++ tr2) -> pipes_positive tr1 /\ pipes_positive tr2.
Proof.
  unfold pipes_positive. intros H. split; intros rd wr Hin; apply H, in_or_app; auto.
Qed.

(** X18: [janus_nosip_allocate_local_ports] loses no descriptor.  Whether it
    succeeds or fails, the descriptors the session held and those the call
    created are exactly those the call closed and those the session holds
    afterwards, provided [pipe] hands out positive descriptors. *)
Theorem allocate_local_ports_descriptors fuel g m update (w : World) lp w' :
  janus_nosip_allocate_local_ports fuel g m update w = Some (lp, w') ->
  pipes_positive (lp_calls lp) ->
  Permutation (session_fds m ++ created_fds (lp_calls lp))
              (closed_fds (lp_calls lp) ++ session_fds (lp_media lp)).
Proof.
  unfold janus_nosip_allocate_local_ports.
  destruct (if negb update then reset_local_ports m w else (m, w, [])) as [[m0 w0] tr0] eqn:E0.
  assert (P0 : Permutation (session_fds m ++ created_fds tr0) (closed_fds tr0 ++ session_fds m0) /\
               (update = false ->
                pipe_end (fst (pipefd m0)) = [] /\ pipe_end (snd (pipefd m0)) = [])).
  { destruct update; cbn [negb] in E0.
    - injection E0 as <- <- <-. cbn. rewrite app_nil_r. split; [reflexivity | discriminate].
    - pose proof (reset_local_ports_fds m w) as H. cbv zeta in H. rewrite E0 in H.
      cbn [fst snd] in H.
      destruct H as (Hc & Ho & Hs & _ & _ & _ & _ & _ & _ & _ & _ & _ & _ & Hp0 & Hp1).
      rewrite Hc, Ho, Hs. split; [reflexivity | auto]. }
  destruct P0 as [P0 Hold].
  destruct (allocate_audio_ports fuel g m0 w0) as [[audio w1]|] eqn:Ea; [| discriminate].
  destruct (allocate_audio_ports_effect _ _ _ _ _ _ Ea) as (P1 & Hpa & _).
  destruct (lp_ret audio <? 0).
  { intros E. apply some_pair_inv in E. destruct E as [-> ->]. cbn [lp_media lp_calls].
    intros _. rewrite created_fds_app, closed_fds_app.
    exact (fds_compose _ _ _ _ _ _ _ P0 P1). }
  destruct (allocate_video_ports fuel (lp_globals audio) (lp_media audio) w1)
    as [[video w2]|] eqn:Ev; [| discriminate].
  destruct (allocate_video_ports_effect _ _ _ _ _ _ Ev) as (P2 & Hpv & _).
  destruct (lp_ret video <? 0).
  { intros E. apply some_pair_inv in E. destruct E as [-> ->]. cbn [lp_media lp_calls].
    intros _. rewrite !created_fds_app, !closed_fds_app.
    pose proof (fds_compose _ _ _ _ _ _ _ P0 (fds_compose _ _ _ _ _ _ _ P1 P2)) as H.
    rewrite <- !app_assoc in H. rewrite <- !app_assoc. exact H. }
  pose proof (wake_pipe_fds update (lp_media video) w2) as P3.
  destruct (wake_pipe update (lp_media video) w2) as [[m3 w3] tr] eqn:Ew.
  cbn [fst snd] in P3.
  intros E. apply some_pair_inv in E. destruct E as [-> ->]. cbn [lp_media lp_calls].
  intros Hpos.
  apply pipes_positive_app in Hpos as [_ Hpos].
  apply pipes_positive_app in Hpos as [_ Hpos].
  apply pipes_positive_app in Hpos as [_ Hpos].
  assert (P3' := P3 ltac:(rewrite Hpv, Hpa; exact Hold) Hpos).
  rewrite !created_fds_app, !closed_fds_app.
  pose proof (fds_compose _ _ _ _ _ _ _ P0
                (fds_compose _ _ _ _ _ _ _ P1 (fds_compose _ _ _ _ _ _ _ P2 P3'))) as H.
  rewrite <- !app_assoc in H. rewrite <- !app_assoc. exact H.
Qed.


(** On a range that [janus_nosip_init] left, the allocator returns, its pair
    is a candidate of the range, and the range is as good for the next
    call. *)
Lemma janus_nosip_allocate_port_pair_total fuel video g (w : World) :
  range_ok g -> (enough_fuel g <= fuel)%nat ->
  exists a w',
    janus_nosip_allocate_port_pair fuel video g w = Some (a, w') /\
    range_ok (globals a) /\
    rtp_range_min (globals a) = rtp_range_min g /\
    rtp_range_max (globals a) = rtp_range_max g /\
    Forall (candidate g) (tried a).
Proof.
  intros Hg Hfuel.
  assert (Hg' := Hg). destruct Hg' as (Hmin & Hmm & Hmax & Hls & Hpar & Hstart).
  assert (Hinv : cursor_inv g (rtp_range_slider g) (fresh_cursor g))
    by (unfold cursor_inv, fresh_cursor; simpl; repeat split; auto; lia).
  destruct (allocate_loop_spec video g (rtp_range_slider g) Hg Hls Hpar Hstart
              (enough_fuel g) (fresh_cursor g) w Hinv)
    as (a & w' & Hrun & _).
  { unfold iterations_left, enough_fuel, fresh_cursor; simpl. lia. }
  apply (allocate_loop_more_fuel _ _ _ _ fuel) in Hrun; [| exact Hfuel].
  exists a, w'. split; [exact Hrun |].
  split; [exact (allocate_port_pair_range_ok video g w fuel a w' Hg Hrun) |].
  pose proof (allocate_loop_result _ _ _ _ _ _ _ _ Hrun) as Hres.
  destruct (allocate_loop_covers video g (rtp_range_slider g) Hg Hls Hpar Hstart
              _ _ _ _ _ Hinv Hrun) as [Hall _].
  destruct (left_at a).
  - destruct Hres as (_ & _ & _ & -> & _). auto.
  - destruct Hres as (_ & fd0 & fd1 & p & earlier & _ & _ & _ & _ & _ & _ & _ & _ & ->).
    simpl. auto.
Qed.

Lemma enough_fuel_same g g' :
  rtp_range_max g' = rtp_range_max g -> enough_fuel g' = enough_fuel g.
Proof. unfold enough_fuel. intros ->. reflexivity. Qed.

Lemma candidate_same g g' t :
  rtp_range_min g' = rtp_range_min g -> rtp_range_max g' = rtp_range_max g ->
  candidate g' t -> candidate g t.
Proof. unfold candidate. intros -> ->. auto. Qed.

(** The audio block returns; when it has to allocate and succeeds, the
    session holds two sockets and a candidate pair. *)
Lemma allocate_audio_ports_total fuel g m (w : World) :
  range_ok g -> (enough_fuel g <= fuel)%nat ->
  exists lp w',
    allocate_audio_ports fuel g m w = Some (lp, w') /\
    range_ok (lp_globals lp) /\
    rtp_range_min (lp_globals lp) = rtp_range_min g /\
    rtp_range_max (lp_globals lp) = rtp_range_max g /\
    (lp_ret lp = 0 \/ lp_ret lp = -1) /\
    (lp_ret lp = 0 ->
     has_audio m && ((local_audio_rtp_port m =? 0) || (local_audio_rtcp_port m =? 0)) = true ->
     audio_rtp_fd (lp_media lp) <> -1 /\ audio_rtcp_fd (lp_media lp) <> -1 /\
     candidate g (local_audio_rtp_port (lp_media lp)) /\
     local_audio_rtcp_port (lp_media lp) = local_audio_rtp_port (lp_media lp) + 1) /\
    (has_audio m && ((local_audio_rtp_port m =? 0) || (local_audio_rtcp_port m =? 0)) = false ->
     lp = {| lp_ret := 0; lp_media := m; lp_globals := g; lp_calls := [] |} /\ w' = w).
Proof.
  intros Hg Hfuel. unfold allocate_audio_ports.
  destruct (has_audio m && _).
  2:{ eexists. eexists. split; [reflexivity |]. cbn.
      split; [exact Hg |]. split; [reflexivity |]. split; [reflexivity |].
      split; [auto |]. split; [discriminate | auto]. }
  destruct (close_if_open (audio_rtp_fd m) w) as [w1 t1].
  destruct (close_if_open (audio_rtcp_fd m) w1) as [w2 t2].
  destruct (janus_nosip_allocate_port_pair_total fuel false g w2 Hg Hfuel)
    as (a & w3 & Ha & Hok & Hmin & Hmax & Hcand).
  rewrite Ha.
  destruct (janus_nosip_allocate_port_pair_fds _ _ _ _ _ _ Ha) as [_ Hcase].
  destruct Hcase as [(Hz & fd0 & fd1 & p & Hf & Hp & Hn0 & Hn1 & Hin) | (Hz & Hf & _)];
    rewrite Hz, ?Hf, ?Hp; eexists; eexists; (split; [reflexivity |]);
    cbn [lp_globals lp_ret lp_media];
    (split; [exact Hok |]); (split; [exact Hmin |]); (split; [exact Hmax |]).
  - split; [auto |]. split; [| discriminate]. intros _ _. simpl.
    rewrite Forall_forall in Hcand. auto.
  - split; [auto |]. split; [discriminate | discriminate].
Qed.


(** The video block, likewise. *)
Lemma allocate_video_ports_total fuel g m (w : World) :
  range_ok g -> (enough_fuel g <= fuel)%nat ->
  exists lp w',
    allocate_video_ports fuel g m w = Some (lp, w') /\
    range_ok (lp_globals lp) /\
    rtp_range_min (lp_globals lp) = rtp_range_min g /\
    rtp_range_max (lp_globals lp) = rtp_range_max g /\
    (lp_ret lp = 0 \/ lp_ret lp = -1) /\
    (lp_ret lp = 0 ->
     has_video m && ((local_video_rtp_port m =? 0) || (local_video_rtcp_port m =? 0)) = true ->
     video_rtp_fd (lp_media lp) <> -1 /\ video_rtcp_fd (lp_media lp) <> -1 /\
     candidate g (local_video_rtp_port (lp_media lp)) /\
     local_video_rtcp_port (lp_media lp) = local_video_rtp_port (lp_media lp) + 1) /\
    (has_video m && ((local_video_rtp_port m =? 0) || (local_video_rtcp_port m =? 0)) = false ->
     lp = {| lp_ret := 0; lp_media := m; lp_globals := g; lp_calls := [] |} /\ w' = w).
Proof.
  intros Hg Hfuel. unfold allocate_video_ports.
  destruct (has_video m && _).
  2:{ eexists. eexists. split; [reflexivity |]. cbn.
      split; [exact Hg |]. split; [reflexivity |]. split; [reflexivity |].
      split; [auto |]. split; [discriminate | auto]. }
  destruct (close_if_open (video_rtp_fd m) w) as [w1 t1].
  destruct (close_if_open (video_rtcp_fd m) w1) as [w2 t2].
  destruct (janus_nosip_allocate_port_pair_total fuel true g w2 Hg Hfuel)
    as (a & w3 & Ha & Hok & Hmin & Hmax & Hcand).
  rewrite Ha.
  destruct (janus_nosip_allocate_port_pair_fds _ _ _ _ _ _ Ha) as [_ Hcase].
  destruct Hcase as [(Hz & fd0 & fd1 & p & Hf & Hp & Hn0 & Hn1 & Hin) | (Hz & Hf & _)];
    rewrite Hz, ?Hf, ?Hp; eexists; eexists; (split; [reflexivity |]);
    cbn [lp_globals lp_ret lp_media];
    (split; [exact Hok |]); (split; [exact Hmin |]); (split; [exact Hmax |]).
  - split; [auto |]. split; [| discriminate]. intros _ _. simpl.
    rewrite Forall_forall in Hcand. auto.
  - split; [auto |]. split; [discriminate | discriminate].
Qed.

Lemma wake_pipe_ports update m (w : World) :
  let m' := fst (fst (wake_pipe update m w)) in
  local_audio_rtp_port m' = local_audio_rtp_port m /\
  local_audio_rtcp_port m' = local_audio_rtcp_port m /\
  local_video_rtp_port m' = local_video_rtp_port m /\
  local_video_rtcp_port m' = local_video_rtcp_port m.
Proof.
  unfold wake_pipe. destruct update; cbn [negb].
  - simpl. destruct (0 <? snd (pipefd m)); [destruct (sys_write _ w) |]; simpl; auto.
  - destruct (sys_pipe w) as [[ends|] w1]; simpl; auto.
Qed.

(** How [janus_nosip_allocate_local_ports] ends on a range that
    [janus_nosip_init] left. *)
Lemma janus_nosip_allocate_local_ports_total fuel g m update (w : World) :
  range_ok g -> (enough_fuel g <= fuel)%nat ->
  exists lp w',
    janus_nosip_allocate_local_ports fuel g m update w = Some (lp, w') /\
    range_ok (lp_globals lp) /\
    rtp_range_min (lp_globals lp) = rtp_range_min g /\
    rtp_range_max (lp_globals lp) = rtp_range_max g /\
    (lp_ret lp = 0 \/ lp_ret lp = -1) /\
    (update = false -> lp_ret lp = 0 ->
     forall video,
       let m' := lp_media lp in
       if has_medium video m
       then rtp_fd_of video m' <> -1 /\ rtcp_fd_of video m' <> -1 /\
            candidate g (local_rtp_port_of video m') /\
            local_rtcp_port_of video m' = local_rtp_port_of video m' + 1
       else rtp_fd_of video m' = -1 /\ rtcp_fd_of video m' = -1 /\
            local_rtp_port_of video m' = 0 /\ local_rtcp_port_of video m' = 0).
Proof.
  intros Hg Hfuel. unfold janus_nosip_allocate_local_ports.
  destruct (if negb update then reset_local_ports m w else (m, w, [])) as [[m0 w0] tr0] eqn:E0.
  assert (R0 : update = false ->
               has_audio m0 = has_audio m /\ has_video m0 = has_video m /\
               local_audio_rtp_port m0 = 0 /\ local_video_rtp_port m0 = 0 /\
               audio_rtp_fd m0 = -1 /\ audio_rtcp_fd m0 = -1 /\
               video_rtp_fd m0 = -1 /\ video_rtcp_fd m0 = -1 /\
               local_audio_rtcp_port m0 = 0 /\ local_video_rtcp_port m0 = 0).
  { intros ->. cbn [negb] in E0.
    pose proof (reset_local_ports_fds m w) as H. cbv zeta in H. rewrite E0 in H.
    cbn [fst snd] in H. tauto. }
  destruct (allocate_audio_ports_total fuel g m0 w0 Hg Hfuel)
    as (audio & w1 & Ea & Hoka & Hmina & Hmaxa & Hreta & Hsa & Hna).
  rewrite Ea.
  destruct (allocate_audio_ports_effect _ _ _ _ _ _ Ea)
    as (_ & _ & _ & Ha1 & Ha2 & Ha3 & Ha4 & Ha5 & Ha6).
  destruct (lp_ret audio <? 0) eqn:Hneg.
  { eexists. eexists. split; [reflexivity |]. cbn [lp_globals lp_ret lp_media].
    split; [exact Hoka |]. split; [exact Hmina |]. split; [exact Hmaxa |].
    split; [auto | discriminate]. }
  assert (Hza : lp_ret audio = 0) by (apply Z.ltb_ge in Hneg; lia).
  assert (Hfuel' : (enough_fuel (lp_globals audio) <= fuel)%nat)
    by (rewrite (enough_fuel_same _ _ Hmaxa); exact Hfuel).
  destruct (allocate_video_ports_total fuel (lp_globals audio) (lp_media audio) w1 Hoka Hfuel')
    as (video & w2 & Ev & Hokv & Hminv & Hmaxv & Hretv & Hsv & Hnv).
  rewrite Ev.
  destruct (allocate_video_ports_effect _ _ _ _ _ _ Ev)
    as (_ & _ & _ & Hv1 & Hv2 & Hv3 & Hv4 & Hv5 & Hv6).
  destruct (lp_ret video <? 0) eqn:Hnegv.
  { eexists. eexists. split; [reflexivity |]. cbn [lp_globals lp_ret lp_media].
    split; [exact Hokv |]. split; [congruence |]. split; [congruence |].
    split; [auto | discriminate]. }
  assert (Hzv : lp_ret video = 0) by (apply Z.ltb_ge in Hnegv; lia).
  destruct (wake_pipe_effect update (lp_media video) w2) as (F1 & F2 & F3 & F4 & _).
  destruct (wake_pipe_ports update (lp_media video) w2) as (G1 & G2 & G3 & G4).
  destruct (wake_pipe update (lp_media video) w2) as [[m3 w3] tr].
  cbn [fst snd] in F1, F2, F3, F4, G1, G2, G3, G4.
  eexists. eexists. split; [reflexivity |]. cbn [lp_globals lp_ret lp_media].
  split; [exact Hokv |]. split; [congruence |]. split; [congruence |].
  split; [auto |]. intros Hup _.
  destruct (R0 Hup) as (Q1 & Q2 & Q3 & Q4 & Q5 & Q6 & Q7 & Q8 & Q9 & Q10).
  intros [|]; cbn [has_medium rtp_fd_of rtcp_fd_of local_rtp_port_of local_rtcp_port_of].
  - (* video *)
    rewrite F3, F4, G3, G4.
    rewrite Ha2, Ha5, Ha6 in Hsv, Hnv. rewrite Q2, Q4 in Hsv, Hnv.
    cbn [Z.eqb orb] in Hsv, Hnv. rewrite andb_true_r in Hsv, Hnv.
    destruct (has_video m).
    + destruct (Hsv Hzv eq_refl) as (? & ? & Hc & ?).
      split; [assumption |]. split; [assumption |]. split; [| assumption].
      exact (candidate_same _ _ _ Hmina Hmaxa Hc).
    + destruct (Hnv eq_refl) as [-> _]. cbn [lp_media].
      rewrite Ha3, Ha4, Ha5, Ha6. auto.
  - (* audio *)
    rewrite F1, F2, G1, G2, Hv3, Hv4, Hv5, Hv6.
    rewrite Q1, Q3 in Hsa, Hna. cbn [Z.eqb orb] in Hsa, Hna. rewrite andb_true_r in Hsa, Hna.
    destruct (has_audio m).
    + destruct (Hsa Hza eq_refl) as (? & ? & Hc & ?). auto.
    + destruct (Hna eq_refl) as [-> _]. cbn [lp_media]. auto.
Qed.

(** X19: on a range that [janus_nosip_init] left,
    [janus_nosip_allocate_local_ports] returns, with 0 or -1, and leaves the
    range fit for the next call.  After a fresh allocation that succeeds, a
    medium being negotiated has two sockets, an RTP port that is a candidate
    of the range and the next port for RTCP; a medium that is not has no
    socket and no port. *)
Theorem allocate_local_ports_returns fuel g m update (w : World) :
  range_ok g -> (enough_fuel g <= fuel)%nat ->
  exists lp w',
    janus_nosip_allocate_local_ports fuel g m update w = Some (lp, w') /\
    range_ok (lp_globals lp) /\
    rtp_range_min (lp_globals lp) = rtp_range_min g /\
    rtp_range_max (lp_globals lp) = rtp_range_max g /\
    (lp_ret lp = 0 \/ lp_ret lp = -1) /\
    (update = false -> lp_ret lp = 0 ->
     forall video,
       let m' := lp_media lp in
       if has_medium video m
       then rtp_fd_of video m' <> -1 /\ rtcp_fd_of video m' <> -1 /\
            candidate g (local_rtp_port_of video m') /\
            local_rtcp_port_of video m' = local_rtp_port_of video m' + 1
       else rtp_fd_of video m' = -1 /\ rtcp_fd_of video m' = -1 /\
            local_rtp_port_of video m' = 0 /\ local_rtcp_port_of video m' = 0).
Proof. exact (janus_nosip_allocate_local_ports_total fuel g m update w). Qed.


(** X20: an update of a session whose media have their ports makes no
    allocation.  Whatever the fuel, the call returns 0 with the globals as
    they were; it creates, binds and closes nothing; the session changes in
    its [updated] flag only, and the pipe is written to exactly when its
    write end is positive. *)
Theorem allocate_local_ports_update_in_place fuel g m (w : World) :
  ports_in_place false m = true -> ports_in_place true m = true ->
  janus_nosip_allocate_local_ports fuel g m true w
  = Some ({| lp_ret := 0; lp_media := m <| updated := true |>; lp_globals := g;
             lp_calls := if 0 <? snd (pipefd m)
                         then [Write (snd (pipefd m)) (fst (sys_write (snd (pipefd m)) w))]
                         else [] |},
          if 0 <? snd (pipefd m) then snd (sys_write (snd (pipefd m)) w) else w).
Proof.
  unfold ports_in_place, has_medium, local_rtp_port_of, local_rtcp_port_of.
  intros Ha Hv.
  unfold janus_nosip_allocate_local_ports, allocate_audio_ports. cbn [negb].
  assert (Ha' : has_audio m && ((local_audio_rtp_port m =? 0) || (local_audio_rtcp_port m =? 0))
                = false)
    by (destruct (has_audio m), (local_audio_rtp_port m =? 0), (local_audio_rtcp_port m =? 0);
        auto; discriminate).
  assert (Hv' : has_video m && ((local_video_rtp_port m =? 0) || (local_video_rtcp_port m =? 0))
                = false)
    by (destruct (has_video m), (local_video_rtp_port m =? 0), (local_video_rtcp_port m =? 0);
        auto; discriminate).
  rewrite Ha'. cbn [lp_ret lp_media lp_globals lp_calls Z.ltb Z.compare].
  unfold allocate_video_ports. rewrite Hv'.
  cbn [lp_ret lp_media lp_globals lp_calls Z.ltb Z.compare app].
  unfold wake_pipe. cbn [negb]. simpl.
  destruct (0 <? snd (pipefd m)); [destruct (sys_write (snd (pipefd m)) w) |]; reflexivity.
Qed.

End LocalPorts.

(** [allocate_local_ports_descriptors] on a fresh allocation for a session
    that still holds descriptor 5: 5 is closed, sockets 7 and 8 and the pipe
    9, 10 are created and kept. *)
Lemma allocate_local_ports_descriptors_witness :
  exists lp w',
    janus_nosip_allocate_local_ports (K := sim_kernel) 5 default_globals stale_audio_media
      false (free_world [] 10) = Some (lp, w') /\
    pipes_positive (lp_calls lp) /\
    created_fds (lp_calls lp) = [7; 8; 9; 10] /\ closed_fds (lp_calls lp) = [5] /\
    session_fds (lp_media lp) = [7; 8; 9; 10] /\
    Permutation (session_fds stale_audio_media ++ created_fds (lp_calls lp))
                (closed_fds (lp_calls lp) ++ session_fds (lp_media lp)).
Proof.
  assert (Hpos : forall lp w',
            janus_nosip_allocate_local_ports (K := sim_kernel) 5 default_globals
              stale_audio_media false (free_world [] 10) = Some (lp, w') ->
            pipes_positive (lp_calls lp)).
  { intros lp w' H. vm_compute in H. injection H as <- <-.
    intros rd wr Hin. cbn in Hin.
    repeat (destruct Hin as [Hin | Hin]; [try discriminate; injection Hin as <- <-; lia |]).
    contradiction. }
  eexists. eexists. split; [vm_compute; reflexivity |].
  split; [eapply Hpos; vm_compute; reflexivity |].
  split; [reflexivity |]. split; [reflexivity |]. split; [reflexivity |].
  eapply (allocate_local_ports_descriptors (K := sim_kernel) 5 default_globals
            stale_audio_media false (free_world [] 10)).
  - vm_compute; reflexivity.
  - eapply Hpos; vm_compute; reflexivity.
Defined.

(** [allocate_local_ports_returns] on the default range. *)
Lemma allocate_local_ports_returns_witness :
  (range_ok default_globals /\
   (enough_fuel default_globals <= enough_fuel default_globals)%nat) /\
  exists lp w',
    janus_nosip_allocate_local_ports (K := sim_kernel) (enough_fuel default_globals)
      default_globals stale_audio_media false (free_world [] 10) = Some (lp, w') /\
    range_ok (lp_globals lp) /\
    rtp_range_min (lp_globals lp) = rtp_range_min default_globals /\
    rtp_range_max (lp_globals lp) = rtp_range_max default_globals /\
    (lp_ret lp = 0 \/ lp_ret lp = -1) /\
    (false = false -> lp_ret lp = 0 ->
     forall video,
       let m' := lp_media lp in
       if has_medium video stale_audio_media
       then rtp_fd_of video m' <> -1 /\ rtcp_fd_of video m' <> -1 /\
            candidate default_globals (local_rtp_port_of video m') /\
            local_rtcp_port_of video m' = local_rtp_port_of video m' + 1
       else rtp_fd_of video m' = -1 /\ rtcp_fd_of video m' = -1 /\
            local_rtp_port_of video m' = 0 /\ local_rtcp_port_of video m' = 0).
Proof.
  assert (H : range_ok default_globals)
    by (unfold range_ok, default_globals, DEFAULT_RTP_RANGE_MIN, DEFAULT_RTP_RANGE_MAX; cbn;
        repeat split; try lia; try reflexivity; left; reflexivity).
  split; [split; [exact H | apply Nat.le_refl] |].
  exact (allocate_local_ports_returns (K := sim_kernel) (enough_fuel default_globals)
           default_globals stale_audio_media false (free_world [] 10) H (Nat.le_refl _)).
Defined.

(** The session of that allocation afterwards: audio on ports 10000 and
    10001, no video. *)
Example fresh_allocation_ports :
  match janus_nosip_allocate_local_ports (K := sim_kernel) 5 default_globals stale_audio_media
          false (free_world [] 10) with
  | Some (lp, _) =>
      lp_ret lp = 0 /\
      (audio_rtp_fd (lp_media lp), audio_rtcp_fd (lp_media lp)) = (7, 8) /\
      (local_audio_rtp_port (lp_media lp), local_audio_rtcp_port (lp_media lp)) = (10000, 10001) /\
      (video_rtp_fd (lp_media lp), local_video_rtp_port (lp_media lp)) = (-1, 0) /\
      pipefd (lp_media lp) = (9, 10)
  | None => False
  end.
Proof. vm_compute. repeat split; reflexivity. Qed.

(** [allocate_local_ports_update_in_place] on an update of a session with
    audio on ports 10000 and 10001: one write to the pipe. *)
Lemma allocate_local_ports_update_in_place_witness :
  let m := fresh_media <| has_audio := true |> <| local_audio_rtp_port := 10000 |>
             <| local_audio_rtcp_port := 10001 |> <| pipefd := (9, 10) |> in
  (ports_in_place false m = true /\ ports_in_place true m = true) /\
  janus_nosip_allocate_local_ports (K := sim_kernel) 0 default_globals m true (free_world [] 10)
  = Some ({| lp_ret := 0; lp_media := m <| updated := true |>; lp_globals := default_globals;
             lp_calls := if 0 <? snd (pipefd m)
                         then [Write (snd (pipefd m))
                                 (fst (sys_write (snd (pipefd m)) (free_world [] 10)))]
                         else [] |},
          if 0 <? snd (pipefd m) then snd (sys_write (snd (pipefd m)) (free_world [] 10))
          else free_world [] 10).
Proof.
  intros m. split; [split; reflexivity |].
  apply (allocate_local_ports_update_in_place (K := sim_kernel) 0 default_globals m
           (free_world [] 10)); reflexivity.
Defined.

(** ** Tearing the media down *)

Section TeardownFacts.
Context {World : Type} {K : Kernel World} {L : Libs World}.

Lemma janus_nosip_media_cleanup_media m (w : World) :
  fst (fst (janus_nosip_media_cleanup m w))
  = cleaned_media m.
Proof.
  destruct m. unfold cleaned_media, janus_nosip_media_cleanup, close_if_open, close_pipe_end.
  simpl.
  repeat match goal with
         | |- context [if ?b then _ else _] =>
             lazymatch b with
             | context [if _ then _ else _] => fail
             | _ => destruct b
             end
         end; vm_compute; reflexivity.
Qed.


Lemma janus_nosip_media_cleanup_calls m (w : World) :
  snd (janus_nosip_media_cleanup m w) = map Close (session_fds m).
Proof.
  destruct m. unfold janus_nosip_media_cleanup, close_if_open, close_pipe_end,
    session_fds, open_fd, pipe_end. simpl.
  repeat match goal with
         | |- context [?x =? -1] => destruct (x =? -1)
         | |- context [0 <? ?x] => destruct (0 <? x)
         end; reflexivity.
Qed.

Lemma closed_fds_map_close fds : closed_fds (map Close fds) = fds.
Proof. induction fds as [|fd fds IH]; simpl; [| rewrite IH]; reflexivity. Qed.

Lemma created_fds_map_close fds : created_fds (map Close fds) = [].
Proof. induction fds as [|fd fds IH]; simpl; auto. Qed.

Lemma session_fds_cleaned m :
  session_fds (cleaned_media m) = [].
Proof.
  unfold cleaned_media, session_fds, pipe_end. simpl.
  destruct (0 <? fst (pipefd m)) eqn:E0, (0 <? snd (pipefd m)) eqn:E1;
    simpl; rewrite ?E0, ?E1; reflexivity.
Qed.

(** X21: [janus_nosip_media_cleanup] makes no system call but [close], once
    for each descriptor the session holds: the four sockets, then the two
    ends of the pipe.  Afterwards the session holds no descriptor, so that a
    second cleanup makes no system call at all. *)
Theorem media_cleanup_closes_descriptors m (w : World) :
  let r := janus_nosip_media_cleanup m w in
  snd r = map Close (session_fds m) /\
  closed_fds (snd r) = session_fds m /\ created_fds (snd r) = [] /\
  session_fds (fst (fst r)) = [] /\
  snd (janus_nosip_media_cleanup (fst (fst r)) (snd (fst r))) = [].
Proof.
  intros r. unfold r.
  rewrite !janus_nosip_media_cleanup_calls, closed_fds_map_close, created_fds_map_close.
  rewrite janus_nosip_media_cleanup_media, session_fds_cleaned. auto.
Qed.

(** X22: [janus_nosip_media_cleanup] leaves the media as
    [janus_nosip_create_session] makes them, whatever they were, but for two
    things: the four SRTP policies keep their crypto suites and lose their
    keys, and an end of the pipe that was not positive is left as it was. *)
Theorem media_cleanup_restores_fresh_media m (w : World) :
  fst (fst (janus_nosip_media_cleanup m w))
  = cleaned_media m.
Proof. exact (janus_nosip_media_cleanup_media m w). Qed.

Lemma janus_nosip_recorder_close_session s a ap v vp (w : World) :
  fst (janus_nosip_recorder_close s a ap v vp w)
  = s <| arc := if a then None else arc s |>
      <| arc_peer := if ap then None else arc_peer s |>
      <| vrc := if v then None else vrc s |>
      <| vrc_peer := if vp then None else vrc_peer s |>.
Proof.
  destruct s as [h sv m sd [x1|] [x2|] [x3|] [x4|] rt hu de];
    destruct a, ap, v, vp; reflexivity.
Qed.

Lemma janus_nosip_recorder_close_world s a ap v vp (w : World) :
  snd (janus_nosip_recorder_close s a ap v vp w)
  = fold_left (fun w rc => janus_recorder_close rc w) (selected_recorders s a ap v vp) w.
Proof.
  destruct s as [h sv m sd [x1|] [x2|] [x3|] [x4|] rt hu de];
    destruct a, ap, v, vp; reflexivity.
Qed.

(** X23: [janus_nosip_recorder_close] closes each recorder that is selected
    and open, once, in the order user audio, peer audio, user video, peer
    video, and clears its field; it writes nothing else of the session.
    Closing the same selection again closes nothing. *)
Theorem recorder_close_selected s a ap v vp (w : World) :
  let r := janus_nosip_recorder_close s a ap v vp w in
  fst r = s <| arc := if a then None else arc s |>
            <| arc_peer := if ap then None else arc_peer s |>
            <| vrc := if v then None else vrc s |>
            <| vrc_peer := if vp then None else vrc_peer s |> /\
  snd r = fold_left (fun w rc => janus_recorder_close rc w) (selected_recorders s a ap v vp) w /\
  selected_recorders (fst r) a ap v vp = [] /\
  janus_nosip_recorder_close (fst r) a ap v vp (snd r) = r.
Proof.
  intros r. unfold r.
  split; [apply janus_nosip_recorder_close_session |].
  split; [apply janus_nosip_recorder_close_world |].
  destruct s as [h sv m sd [x1|] [x2|] [x3|] [x4|] rt hu de];
    destruct a, ap, v, vp; split; reflexivity.
Qed.


Lemma cleaned_media_simulcast m v : cleaned_media (m <| simulcast_ssrc := v |>) = cleaned_media m.
Proof. destruct m; reflexivity. Qed.

Lemma session_fds_simulcast m v : session_fds (m <| simulcast_ssrc := v |>) = session_fds m.
Proof. destruct m; reflexivity. Qed.

(** X24: [janus_nosip_hangup_media_internal] does nothing at all while the
    plugin is stopping or not initialised, for a handle without a session,
    for a destroyed session, and for a session that is already hanging
    up. *)
Theorem hangup_media_guards g session (w : World) :
  negb (stopping g =? 0) || (initialized g =? 0) = true \/
  session = None \/
  (exists s, session = Some s /\ (destroyed s <> 0 \/ hangingup s <> 0)) ->
  janus_nosip_hangup_media_internal g session w = (session, w, []).
Proof.
  unfold janus_nosip_hangup_media_internal.
  intros [H | [-> | (s & -> & H)]].
  - rewrite H. reflexivity.
  - destruct (negb (stopping g =? 0) || (initialized g =? 0)); reflexivity.
  - destruct (negb (stopping g =? 0) || (initialized g =? 0)); [reflexivity |].
    destruct (destroyed s =? 0) eqn:Hd; [| reflexivity]. cbn [negb].
    destruct (hangingup s =? 0) eqn:Hh; [| reflexivity].
    apply Z.eqb_eq in Hd, Hh. destruct H; contradiction.
Qed.

Lemma janus_nosip_hangup_media_internal_run g s (w : World) :
  stopping g = 0 -> initialized g <> 0 -> destroyed s = 0 -> hangingup s = 0 ->
  let wake := 0 <? snd (pipefd (media s)) in
  let w1 := if wake then snd (sys_write (snd (pipefd (media s))) w) else w in
  let clean := negb (ready (media s)) && negb (relayer_thread s) in
  let m1 := media s <| simulcast_ssrc := 0 |> in
  let w2 := if clean then snd (fst (janus_nosip_media_cleanup m1 w1)) else w1 in
  janus_nosip_hangup_media_internal g (Some s) w
  = (Some (s <| media := if clean then cleaned_media (media s) else m1 |>
             <| arc := None |> <| arc_peer := None |> <| vrc := None |> <| vrc_peer := None |>),
     fold_left (fun w rc => janus_recorder_close rc w) (selected_recorders s true true true true)
       w2,
     (if wake then [Write (snd (pipefd (media s))) (fst (sys_write (snd (pipefd (media s))) w))]
      else []) ++
     (if clean then map Close (session_fds (media s)) else [])).
Proof.
  intros Hs Hi Hd Hh wake w1 clean m1 w2.
  unfold janus_nosip_hangup_media_internal.
  apply Z.eqb_neq in Hi. rewrite Hs, Hi, Hd, Hh. cbn [Z.eqb negb orb].
  subst wake w1 clean m1 w2.
  destruct s as [h sv m sd a1 a2 a3 a4 rt hu de].
  cbn [hangingup destroyed] in Hd, Hh. subst hu de.
  unfold set_hangingup, set_media, set_arc, set_arc_peer, set_vrc, set_vrc_peer, set.
  cbn [handle sdp_version media sdp arc arc_peer vrc vrc_peer relayer_thread hangingup
       destroyed].
  change (pipefd (set_simulcast_ssrc 0 m)) with (pipefd m).
  change (ready (set_simulcast_ssrc 0 m)) with (ready m).
  pose proof (fun w0 => janus_nosip_media_cleanup_media (m <| simulcast_ssrc := 0 |>) w0) as Hm.
  pose proof (fun w0 => janus_nosip_media_cleanup_calls (m <| simulcast_ssrc := 0 |>) w0) as Hc.
  setoid_rewrite cleaned_media_simulcast in Hm. setoid_rewrite session_fds_simulcast in Hc.
  unfold set in Hm, Hc.
  destruct (0 <? snd (pipefd m)).
  - destruct (sys_write (snd (pipefd m)) w) as [res w0]. cbn [fst snd].
    destruct (negb (ready m) && negb rt).
    + specialize (Hm w0). specialize (Hc w0).
      destruct (janus_nosip_media_cleanup (set_simulcast_ssrc 0 m) w0) as [[m0 w1] t].
      cbn [fst snd] in Hm, Hc |- *. subst m0 t.
      destruct a1, a2, a3, a4; reflexivity.
    + destruct a1, a2, a3, a4; reflexivity.
  - cbn [fst snd].
    destruct (negb (ready m) && negb rt).
    + specialize (Hm w). specialize (Hc w).
      destruct (janus_nosip_media_cleanup (set_simulcast_ssrc 0 m) w) as [[m0 w1] t].
      cbn [fst snd] in Hm, Hc |- *. subst m0 t.
      destruct a1, a2, a3, a4; reflexivity.
    + destruct a1, a2, a3, a4; reflexivity.
Qed.


Lemma session_without_recorders s mx :
  let s' := s <| media := mx |> <| arc := None |> <| arc_peer := None |>
              <| vrc := None |> <| vrc_peer := None |> in
  arc s' = None /\ arc_peer s' = None /\ vrc s' = None /\ vrc_peer s' = None /\
  media s' = mx /\ hangingup s' = hangingup s.
Proof. destruct s; cbn; auto 10. Qed.

(** X25: past its guards, [janus_nosip_hangup_media_internal] leaves the session
    with no recorder, no simulcast SSRC and [hangingup] back at 0.  While
    the media thread exists or the media are ready it leaves the cleanup to
    the thread: it closes nothing and changes nothing else of the media.
    Otherwise it cleans the media up itself: every descriptor of the session
    is closed and none is left.  In both cases the thread is woken first,
    through the pipe, exactly when the write end is positive. *)
Theorem hangup_media_effect g s (w : World) :
  stopping g = 0 -> initialized g <> 0 -> destroyed s = 0 -> hangingup s = 0 ->
  exists s' w' calls,
    janus_nosip_hangup_media_internal g (Some s) w = (Some s', w', calls) /\
    arc s' = None /\ arc_peer s' = None /\ vrc s' = None /\ vrc_peer s' = None /\
    hangingup s' = 0 /\ simulcast_ssrc (media s') = 0 /\
    (ready (media s) || relayer_thread s = true ->
     media s' = media s <| simulcast_ssrc := 0 |> /\
     closed_fds calls = [] /\ created_fds calls = []) /\
    (ready (media s) || relayer_thread s = false ->
     media s' = cleaned_media (media s) /\
     closed_fds calls = session_fds (media s) /\ created_fds calls = [] /\
     session_fds (media s') = []) /\
    (if 0 <? snd (pipefd (media s))
     then exists res rest, calls = Write (snd (pipefd (media s))) res :: rest /\
                           forall fd res', ~ In (Write fd res') rest
     else forall fd res, ~ In (Write fd res) calls).
Proof.
  intros Hs Hi Hd Hh.
  pose proof (janus_nosip_hangup_media_internal_run g s w Hs Hi Hd Hh) as Hrun.
  cbv zeta in Hrun.
  set (clean := negb (ready (media s)) && negb (relayer_thread s)) in *.
  set (mx := if clean then cleaned_media (media s) else media s <| simulcast_ssrc := 0 |>) in *.
  destruct (session_without_recorders s mx) as (P1 & P2 & P3 & P4 & P5 & P6).
  rewrite Hh in P6.
  set (s' := s <| media := mx |> <| arc := None |> <| arc_peer := None |>
               <| vrc := None |> <| vrc_peer := None |>) in *.
  clearbody s'.
  match type of Hrun with _ = (_, ?w', ?calls) => exists s', w', calls end.
  split; [exact Hrun |]. clear Hrun.
  assert (Hnw : forall fds fd res, ~ In (Write fd res) (map Close fds)).
  { intros fds fd res Hin. apply in_map_iff in Hin as (x & Hx & _). discriminate. }
  rewrite P5.
  split; [exact P1 |]. split; [exact P2 |]. split; [exact P3 |].
  split; [exact P4 |]. split; [exact P6 |].
  split; [unfold mx; destruct clean; [reflexivity | destruct (media s); reflexivity] |].
  split; [| split].
  - intros Hthread.
    assert (Hc : clean = false)
      by (unfold clean; destruct (ready (media s)), (relayer_thread s); auto; discriminate).
    unfold mx. rewrite Hc. split; [reflexivity |].
    destruct (0 <? snd (pipefd (media s))); split; reflexivity.
  - intros Hthread.
    assert (Hc : clean = true)
      by (unfold clean; destruct (ready (media s)), (relayer_thread s); auto; discriminate).
    unfold mx. rewrite Hc. split; [reflexivity |].
    rewrite closed_fds_app, created_fds_app, closed_fds_map_close, created_fds_map_close.
    split; [destruct (0 <? snd (pipefd (media s))); reflexivity |].
    split; [destruct (0 <? snd (pipefd (media s))); reflexivity |].
    apply session_fds_cleaned.
  - destruct (0 <? snd (pipefd (media s))).
    + do 2 eexists. split; [reflexivity |].
      intros fd res'. destruct clean; [apply Hnw | intros []].
    + cbn [app]. intros fd res.
      destruct clean; [apply Hnw | intros []].
Qed.

End TeardownFacts.

(** [hangup_media_guards] for a session that is already hanging up. *)
Lemma hangup_media_guards_witness :
  (negb (stopping default_globals =? 0) || (initialized default_globals =? 0) = true \/
   Some (recording_session <| hangingup := 1 |>) = None \/
   (exists s, Some (recording_session <| hangingup := 1 |>) = Some s /\
              (destroyed s <> 0 \/ hangingup s <> 0))) /\
  janus_nosip_hangup_media_internal (K := sim_kernel) (L := sim_libs []) default_globals
    (Some (recording_session <| hangingup := 1 |>)) (free_world [] 5)
  = (Some (recording_session <| hangingup := 1 |>), free_world [] 5, []).
Proof.
  assert (H : negb (stopping default_globals =? 0) || (initialized default_globals =? 0) = true \/
              Some (recording_session <| hangingup := 1 |>) = None \/
              (exists s, Some (recording_session <| hangingup := 1 |>) = Some s /\
                         (destroyed s <> 0 \/ hangingup s <> 0))).
  { right. right. eexists. split; [reflexivity |]. right. simpl. lia. }
  split; [exact H |].
  exact (hangup_media_guards (K := sim_kernel) (L := sim_libs []) default_globals
           (Some (recording_session <| hangingup := 1 |>)) (free_world [] 5) H).
Defined.

(** [hangup_media_effect] for a session without a media thread that records
    audio and video. *)
Lemma hangup_media_effect_witness :
  (stopping default_globals = 0 /\ initialized default_globals <> 0 /\
   destroyed recording_session = 0 /\ hangingup recording_session = 0) /\
  exists s' w' calls,
    janus_nosip_hangup_media_internal (K := sim_kernel) (L := sim_libs []) default_globals
      (Some recording_session) (free_world [] 5) = (Some s', w', calls) /\
    arc s' = None /\ arc_peer s' = None /\ vrc s' = None /\ vrc_peer s' = None /\
    hangingup s' = 0 /\ simulcast_ssrc (media s') = 0 /\
    (ready (media recording_session) || relayer_thread recording_session = true ->
     media s' = media recording_session <| simulcast_ssrc := 0 |> /\
     closed_fds calls = [] /\ created_fds calls = []) /\
    (ready (media recording_session) || relayer_thread recording_session = false ->
     media s' = cleaned_media (media recording_session) /\
     closed_fds calls = session_fds (media recording_session) /\ created_fds calls = [] /\
     session_fds (media s') = []) /\
    (if 0 <? snd (pipefd (media recording_session))
     then exists res rest, calls = Write (snd (pipefd (media recording_session))) res :: rest /\
                           forall fd res', ~ In (Write fd res') rest
     else forall fd res, ~ In (Write fd res) calls).
Proof.
  assert (Hi : initialized default_globals <> 0) by (simpl; lia).
  split; [repeat split; try reflexivity; exact Hi |].
  exact (hangup_media_effect (K := sim_kernel) (L := sim_libs []) default_globals
           recording_session (free_world [] 5) eq_refl Hi eq_refl eq_refl).
Defined.

(** What that hangup does: one write to the pipe, then the two sockets and
    the two ends of the pipe are closed. *)
Example hangup_without_thread :
  snd (janus_nosip_hangup_media_internal (K := sim_kernel) (L := sim_libs []) default_globals
         (Some recording_session) (free_world [] 5))
  = [Write 10 4; Close 7; Close 8; Close 9; Close 10].
Proof. vm_compute. reflexivity. Qed.

(** ** Forwarding to the peer *)

Section ForwardingFacts.
Context {World : Type} {L : Libs World}.

(** X26: [janus_nosip_incoming_rtcp] sends at most one datagram, and only
    while the plugin is forwarding for a live session whose medium is being
    negotiated and has an RTCP socket: the datagram goes to that socket.
    Without SRTP it carries the first [length] bytes of the packet as
    [janus_rtcp_fix_ssrc] leaves them for the medium's two SSRCs; with SRTP
    it carries what [srtp_protect_rtcp] made of them, and nothing is sent
    when that fails. *)
Theorem incoming_rtcp_forwards g handle packet (w : World) :
  let r := janus_nosip_incoming_rtcp g handle packet w in
  let video := rtcp_pkt_video packet in
  (List.length (snd r) <= 1)%nat /\
  forall p, In p (snd r) ->
    exists h s,
      handle = Some h /\ forwarding g h s /\
      has_medium video (media s) = true /\
      to_fd p = rtcp_fd_of video (media s) /\ to_fd p <> -1 /\
      let fixed := janus_rtcp_fix_ssrc
                     (firstn (Z.to_nat (rtcp_pkt_length packet)) (rtcp_pkt_buffer packet))
                     video (local_ssrc_of video (media s)) (peer_ssrc_of video (media s)) in
      if has_srtp_local (media s)
      then exists w1, srtp_protect_rtcp (srtp_out_of video (media s)) fixed w
                      = (srtp_err_status_ok, payload p, w1)
      else payload p = fixed.
Proof.
  unfold janus_nosip_incoming_rtcp, forwarding.
  destruct handle as [h|]; [| simpl; split; [lia | tauto]].
  destruct (stopped h =? 0) eqn:Hst; [| simpl; split; [lia | tauto]].
  destruct (stopping g =? 0) eqn:Hsg; [| simpl; split; [lia | tauto]].
  destruct (initialized g =? 0) eqn:Hin; [simpl; split; [lia | tauto] |].
  cbn [negb orb].
  destruct (gateway g) eqn:Hgw; [| simpl; split; [lia | tauto]].
  destruct (plugin_handle h) as [s|] eqn:Hs; [| simpl; split; [lia | tauto]].
  destruct (destroyed s =? 0) eqn:Hd; [| simpl; split; [lia | tauto]].
  cbn [negb].
  apply Z.eqb_eq in Hst, Hsg, Hd. apply Z.eqb_neq in Hin.
  assert (Hfw : stopped h = 0 /\ stopping g = 0 /\ initialized g <> 0 /\ true = true /\
                Some s = Some s /\ destroyed s = 0) by (repeat split; auto).
  unfold has_medium, rtcp_fd_of, local_ssrc_of, peer_ssrc_of, srtp_out_of.
  destruct (rtcp_pkt_video packet); cbn [negb andb orb].
  - rewrite orb_false_r.
    destruct (has_video (media s)) eqn:Hv; [| simpl; split; [lia | tauto]].
    destruct (video_rtcp_fd (media s) =? -1) eqn:Hfd; [simpl; split; [lia | tauto] |].
    apply Z.eqb_neq in Hfd. cbn [negb andb].
    destruct (has_srtp_local (media s)) eqn:Hsr.
    + destruct (srtp_protect_rtcp _ _ w) as [[res sbuf] w1] eqn:Hp.
      destruct (res =? srtp_err_status_ok) eqn:Hres; cbn [negb];
        [| simpl; split; [lia | tauto]].
      apply Z.eqb_eq in Hres. subst res.
      destruct (send _ sbuf w1) as [r w2]. simpl. split; [lia |].
      intros p [<- | []]. exists h, s. simpl. rewrite Hsr. repeat split; auto. eauto.
    + destruct (send _ _ w) as [r w2]. simpl. split; [lia |].
      intros p [<- | []]. exists h, s. simpl. rewrite Hsr. repeat split; auto.
  - destruct (has_audio (media s)) eqn:Hv; [| simpl; split; [lia | tauto]].
    destruct (audio_rtcp_fd (media s) =? -1) eqn:Hfd; [simpl; split; [lia | tauto] |].
    apply Z.eqb_neq in Hfd. cbn [negb andb].
    destruct (has_srtp_local (media s)) eqn:Hsr.
    + destruct (srtp_protect_rtcp _ _ w) as [[res sbuf] w1] eqn:Hp.
      destruct (res =? srtp_err_status_ok) eqn:Hres; cbn [negb];
        [| simpl; split; [lia | tauto]].
      apply Z.eqb_eq in Hres. subst res.
      destruct (send _ sbuf w1) as [r w2]. simpl. split; [lia |].
      intros p [<- | []]. exists h, s. simpl. rewrite Hsr. repeat split; auto. eauto.
    + destruct (send _ _ w) as [r w2]. simpl. split; [lia |].
      intros p [<- | []]. exists h, s. simpl. rewrite Hsr. repeat split; auto.
Qed.


Lemma set_media_same (s : janus_nosip_session) : s <| media := media s |> = s.
Proof. destruct s; reflexivity. Qed.

(** How [janus_nosip_incoming_rtp] ends for a live session while the plugin
    is forwarding. *)
Lemma janus_nosip_incoming_rtp_run g h s packet (w : World) :
  forwarding g h s ->
  let video := pkt_video packet in
  let buf := pkt_buffer packet in
  let m := media s in
  let r := janus_nosip_incoming_rtp g (Some h) packet w in
  if negb (send_allowed video m) ||
     (video && negb (simulcast_ssrc m =? 0) && negb (ntohl_ssrc buf =? simulcast_ssrc m))
  then r = (Some s, w, [])
  else
    exists m',
      fst (fst r) = Some (s <| media := m' |>) /\
      m' = (if local_ssrc_of video m =? 0
            then if video then m <| video_ssrc := ntohl_ssrc buf |>
                 else m <| audio_ssrc := ntohl_ssrc buf |>
            else m) /\
      if has_medium video m && negb (rtp_fd_of video m =? -1)
      then
        if has_srtp_local m
        then exists res sbuf w1,
               srtp_protect (srtp_out_of video m) (firstn (Z.to_nat (pkt_length packet)) buf)
                 (janus_recorder_save_frame (if video then vrc s else arc s)
                    (firstn (Z.to_nat (pkt_length packet)) buf) w) = (res, sbuf, w1) /\
               snd r = if res =? srtp_err_status_ok
                       then [{| to_fd := rtp_fd_of video m; payload := sbuf |}] else []
        else snd r = [{| to_fd := rtp_fd_of video m;
                         payload := firstn (Z.to_nat (pkt_length packet)) buf |}]
      else snd r = [] /\ snd (fst r) = w.
Proof.
  intros (Hst & Hsg & Hin & Hgw & Hs & Hd). cbv zeta.
  unfold janus_nosip_incoming_rtp.
  apply Z.eqb_neq in Hin. rewrite Hst, Hsg, Hin, Hgw, Hs, Hd. cbn [Z.eqb negb orb].
  unfold send_allowed, local_ssrc_of, has_medium, rtp_fd_of, srtp_out_of.
  destruct (pkt_video packet); cbn [negb andb orb].
  - rewrite !orb_false_r.
    destruct (video_send (media s)); cbn [negb orb]; [| reflexivity].
    destruct (negb (simulcast_ssrc (media s) =? 0) &&
              negb (ntohl_ssrc (pkt_buffer packet) =? simulcast_ssrc (media s)));
      [reflexivity |].
    eexists. split; [| split; [reflexivity |]];
      destruct (video_ssrc (media s) =? 0); simpl;
      destruct (has_video (media s)); simpl; try (rewrite ?set_media_same; auto; fail);
      destruct (video_rtp_fd (media s) =? -1); simpl;
        try (rewrite ?set_media_same; auto; fail);
      destruct (has_srtp_local (media s));
      repeat match goal with
             | |- context [srtp_protect ?c ?b ?x] =>
                 destruct (srtp_protect c b x) as [[res sbuf] w1] eqn:?
             | |- context [send ?f ?b ?x] => destruct (send f b x) as [r w2]
             | |- context [?res =? srtp_err_status_ok] =>
                 destruct (res =? srtp_err_status_ok) eqn:Hres
             end; simpl; rewrite ?set_media_same; auto;
      do 3 eexists; (split; [reflexivity |]); rewrite Hres; reflexivity.
  - destruct (audio_send (media s)); cbn [negb orb]; [| reflexivity].
    eexists. split; [| split; [reflexivity |]];
      destruct (audio_ssrc (media s) =? 0); simpl;
      destruct (has_audio (media s)); simpl; try (rewrite ?set_media_same; auto; fail);
      destruct (audio_rtp_fd (media s) =? -1); simpl;
        try (rewrite ?set_media_same; auto; fail);
      destruct (has_srtp_local (media s));
      repeat match goal with
             | |- context [srtp_protect ?c ?b ?x] =>
                 destruct (srtp_protect c b x) as [[res sbuf] w1] eqn:?
             | |- context [send ?f ?b ?x] => destruct (send f b x) as [r w2]
             | |- context [?res =? srtp_err_status_ok] =>
                 destruct (res =? srtp_err_status_ok) eqn:Hres
             end; simpl; rewrite ?set_media_same; auto;
      do 3 eexists; (split; [reflexivity |]); rewrite Hres; reflexivity.
Qed.


Lemma janus_nosip_incoming_rtp_idle g handle packet (w : World) :
  (forall h s, handle = Some h -> ~ forwarding g h s) ->
  snd (janus_nosip_incoming_rtp g handle packet w) = [].
Proof.
  unfold janus_nosip_incoming_rtp, forwarding. intros Hno.
  destruct handle as [h|]; [| reflexivity].
  destruct (stopped h =? 0) eqn:Hst; [| reflexivity].
  destruct (stopping g =? 0) eqn:Hsg; [| reflexivity].
  destruct (initialized g =? 0) eqn:Hin; [reflexivity |].
  cbn [negb orb].
  destruct (gateway g) eqn:Hgw; [| reflexivity].
  destruct (plugin_handle h) as [s|] eqn:Hs; [| reflexivity].
  destruct (destroyed s =? 0) eqn:Hd; [| reflexivity].
  apply Z.eqb_eq in Hst, Hsg, Hd. apply Z.eqb_neq in Hin.
  exfalso. apply (Hno h s eq_refl). auto 10.
Qed.

Lemma forwarding_dec g handle :
  (exists h s, handle = Some h /\ forwarding g h s) \/
  (forall h s, handle = Some h -> ~ forwarding g h s).
Proof.
  unfold forwarding.
  destruct handle as [h|]; [| right; intros ? ? H; discriminate].
  destruct (Z.eq_dec (stopped h) 0) as [Hst|Hst];
    [| right; intros ? ? H; injection H as <-; tauto].
  destruct (Z.eq_dec (stopping g) 0) as [Hsg|Hsg];
    [| right; intros ? ? H; injection H as <-; tauto].
  destruct (Z.eq_dec (initialized g) 0) as [Hin|Hin];
    [right; intros ? ? H; injection H as <-; tauto |].
  destruct (gateway g) eqn:Hgw;
    [| right; intros ? ? H; injection H as <-; intros (_ & _ & _ & ? & _); discriminate].
  destruct (plugin_handle h) as [s|] eqn:Hs;
    [| right; intros ? ? H; injection H as <-; rewrite Hs;
       intros (_ & _ & _ & _ & ? & _); discriminate].
  destruct (Z.eq_dec (destroyed s) 0) as [Hd|Hd].
  - left. exists h, s. rewrite Hs. auto 10.
  - right. intros ? s' H; injection H as <-. rewrite Hs.
    intros (_ & _ & _ & _ & E & ?). injection E as <-. contradiction.
Qed.

(** X27: [janus_nosip_incoming_rtp] sends at most one datagram, and only
    while the plugin is forwarding for a live session: the peer accepts the
    medium, a video packet of a simulcasting user is of the base substream,
    the medium is being negotiated and has an RTP socket, and the datagram
    goes to that socket.  Without SRTP it carries the first [length] bytes of
    the packet; with SRTP what [srtp_protect] made of them, and nothing is
    sent when that fails. *)
Theorem incoming_rtp_forwards g handle packet (w : World) :
  let r := janus_nosip_incoming_rtp g handle packet w in
  let video := pkt_video packet in
  let frame := firstn (Z.to_nat (pkt_length packet)) (pkt_buffer packet) in
  (List.length (snd r) <= 1)%nat /\
  forall p, In p (snd r) ->
    exists h s,
      handle = Some h /\ forwarding g h s /\
      send_allowed video (media s) = true /\
      (video = true ->
       simulcast_ssrc (media s) = 0 \/
       ntohl_ssrc (pkt_buffer packet) = simulcast_ssrc (media s)) /\
      has_medium video (media s) = true /\
      to_fd p = rtp_fd_of video (media s) /\ to_fd p <> -1 /\
      if has_srtp_local (media s)
      then exists w1,
             srtp_protect (srtp_out_of video (media s)) frame
               (janus_recorder_save_frame (if video then vrc s else arc s) frame w)
             = (srtp_err_status_ok, payload p, w1)
      else payload p = frame.
Proof.
  cbv zeta.
  destruct (forwarding_dec g handle) as [(h & s & -> & Hfw) | Hno].
  2:{ rewrite (janus_nosip_incoming_rtp_idle _ _ _ _ Hno). simpl. split; [lia | tauto]. }
  pose proof (janus_nosip_incoming_rtp_run g h s packet w Hfw) as Hrun. cbv zeta in Hrun.
  destruct (send_allowed (pkt_video packet) (media s)) eqn:Hsend; cbn [negb orb] in Hrun.
  2:{ rewrite Hrun. simpl. split; [lia | tauto]. }
  destruct (pkt_video packet && negb (simulcast_ssrc (media s) =? 0) &&
            negb (ntohl_ssrc (pkt_buffer packet) =? simulcast_ssrc (media s))) eqn:Hsim.
  { rewrite Hrun. simpl. split; [lia | tauto]. }
  assert (Hbase : pkt_video packet = true ->
                  simulcast_ssrc (media s) = 0 \/
                  ntohl_ssrc (pkt_buffer packet) = simulcast_ssrc (media s)).
  { intros Hv. rewrite Hv in Hsim. cbn [andb] in Hsim.
    apply andb_false_iff in Hsim as [H | H]; apply negb_false_iff, Z.eqb_eq in H; auto. }
  destruct Hrun as (m' & _ & _ & Hrun).
  destruct (has_medium (pkt_video packet) (media s)) eqn:Hm; cbn [andb] in Hrun.
  2:{ destruct Hrun as [-> _]. simpl. split; [lia | tauto]. }
  destruct (rtp_fd_of (pkt_video packet) (media s) =? -1) eqn:Hfd; cbn [negb] in Hrun.
  { destruct Hrun as [-> _]. simpl. split; [lia | tauto]. }
  apply Z.eqb_neq in Hfd.
  destruct (has_srtp_local (media s)) eqn:Hsr.
  - destruct Hrun as (res & sbuf & w1 & Hp & ->).
    destruct (res =? srtp_err_status_ok) eqn:Hres; simpl; [| split; [lia | tauto]].
    apply Z.eqb_eq in Hres. subst res. split; [lia |].
    intros p [<- | []]. exists h, s. rewrite Hsr. cbn [to_fd payload].
    split; [reflexivity |]. split; [exact Hfw |]. split; [exact Hsend |].
    split; [exact Hbase |]. split; [exact Hm |]. split; [reflexivity |].
    split; [exact Hfd |]. eauto.
  - rewrite Hrun. simpl. split; [lia |].
    intros p [<- | []]. exists h, s. rewrite Hsr. cbn [to_fd payload].
    split; [reflexivity |]. split; [exact Hfw |]. split; [exact Hsend |].
    split; [exact Hbase |]. split; [exact Hm |]. split; [reflexivity |].
    split; [exact Hfd | reflexivity].
Qed.

(** X28: of the session, [janus_nosip_incoming_rtp] writes the local SSRC
    of the packet's medium only, and only while that SSRC is 0: once learnt,
    it is never replaced.  A packet that is dropped, because the peer does
    not accept the medium or because it is not of the base simulcast
    substream, leaves the session and the world as they were, and no SSRC is
    learnt from it. *)
Theorem incoming_rtp_keeps_session g h s packet (w : World) :
  forwarding g h s ->
  let r := janus_nosip_incoming_rtp g (Some h) packet w in
  let video := pkt_video packet in
  exists s',
    fst (fst r) = Some s' /\
    s' = s <| media := media s' |> /\
    outside_local_ssrc (media s') = outside_local_ssrc (media s) /\
    local_ssrc_of (negb video) (media s') = local_ssrc_of (negb video) (media s) /\
    (local_ssrc_of video (media s) <> 0 -> s' = s) /\
    (local_ssrc_of video (media s') = local_ssrc_of video (media s) \/
     local_ssrc_of video (media s') = ntohl_ssrc (pkt_buffer packet)) /\
    (send_allowed video (media s) = false \/
     (video = true /\ simulcast_ssrc (media s) <> 0 /\
      ntohl_ssrc (pkt_buffer packet) <> simulcast_ssrc (media s)) ->
     r = (Some s, w, [])).
Proof.
  intros Hfw. cbv zeta.
  pose proof (janus_nosip_incoming_rtp_run g h s packet w Hfw) as Hrun. cbv zeta in Hrun.
  destruct (negb (send_allowed (pkt_video packet) (media s)) ||
            (pkt_video packet && negb (simulcast_ssrc (media s) =? 0) &&
             negb (ntohl_ssrc (pkt_buffer packet) =? simulcast_ssrc (media s)))) eqn:Hdrop.
  { rewrite Hrun. exists s. cbn [fst]. rewrite set_media_same. auto 10. }
  destruct Hrun as (m' & Hs' & Hm' & _).
  exists (s <| media := m' |>).
  assert (Hmedia : media (s <| media := m' |>) = m') by (destruct s; reflexivity).
  rewrite Hmedia.
  split; [exact Hs' |]. split; [reflexivity |].
  assert (Hkeep : outside_local_ssrc m' = outside_local_ssrc (media s) /\
                  local_ssrc_of (negb (pkt_video packet)) m'
                    = local_ssrc_of (negb (pkt_video packet)) (media s) /\
                  (local_ssrc_of (pkt_video packet) m' = local_ssrc_of (pkt_video packet) (media s) \/
                   local_ssrc_of (pkt_video packet) m' = ntohl_ssrc (pkt_buffer packet))).
  { rewrite Hm'. destruct (local_ssrc_of (pkt_video packet) (media s) =? 0); [| auto].
    destruct (pkt_video packet); (split; [destruct (media s); reflexivity |]); auto. }
  destruct Hkeep as (K1 & K2 & K3).
  split; [exact K1 |]. split; [exact K2 |].
  split.
  { intros Hnz. apply Z.eqb_neq in Hnz. rewrite Hnz in Hm'. rewrite Hm'.
    apply set_media_same. }
  split; [exact K3 |].
  intros [Hsend | (Hv & Hsim & Hne)]; exfalso.
  - rewrite Hsend in Hdrop. discriminate.
  - rewrite Hv in Hdrop. apply Z.eqb_neq in Hsim, Hne. rewrite Hsim, Hne in Hdrop.
    rewrite orb_true_r in Hdrop. discriminate.
Qed.

End ForwardingFacts.

(** [incoming_rtp_keeps_session] for a second audio packet: the SSRC learnt
    from the first stays. *)
Lemma incoming_rtp_keeps_session_witness :
  let s := janus_nosip_create_session 1
             <| media := fresh_media <| audio_ssrc := 7 |> |> in
  let h := {| stopped := 0; plugin_handle := Some s |} in
  forwarding default_globals h s /\
  exists s',
    fst (fst (janus_nosip_incoming_rtp (L := sim_libs []) default_globals (Some h)
                (sample_rtp false) (free_world [] 5))) = Some s' /\
    s' = s <| media := media s' |> /\
    outside_local_ssrc (media s') = outside_local_ssrc (media s) /\
    local_ssrc_of (negb (pkt_video (sample_rtp false))) (media s')
      = local_ssrc_of (negb (pkt_video (sample_rtp false))) (media s) /\
    (local_ssrc_of (pkt_video (sample_rtp false)) (media s) <> 0 -> s' = s) /\
    (local_ssrc_of (pkt_video (sample_rtp false)) (media s')
       = local_ssrc_of (pkt_video (sample_rtp false)) (media s) \/
     local_ssrc_of (pkt_video (sample_rtp false)) (media s')
       = ntohl_ssrc (pkt_buffer (sample_rtp false))) /\
    (send_allowed (pkt_video (sample_rtp false)) (media s) = false \/
     (pkt_video (sample_rtp false) = true /\ simulcast_ssrc (media s) <> 0 /\
      ntohl_ssrc (pkt_buffer (sample_rtp false)) <> simulcast_ssrc (media s)) ->
     janus_nosip_incoming_rtp (L := sim_libs []) default_globals (Some h)
       (sample_rtp false) (free_world [] 5) = (Some s, free_world [] 5, [])).
Proof.
  intros s h.
  assert (Hfw : forwarding default_globals h s).
  { unfold forwarding. repeat split; try reflexivity. simpl. lia. }
  split; [exact Hfw |].
  exact (incoming_rtp_keeps_session (L := sim_libs []) default_globals h s
           (sample_rtp false) (free_world [] 5) Hfw).
Defined.

(** ** Every request is answered *)

Section HandlerAnswers.
Context {World : Type} {K : Kernel World} {L : Libs World}.

Lemma served_refl (st : handler_state World) : range_ok (hs_globals st) -> served st st.
Proof.
  intros Hg. split; [exists []; rewrite app_nil_r; auto | auto].
Qed.

Lemma served_with_media (st : handler_state World) m :
  range_ok (hs_globals st) -> served st (with_media st m).
Proof.
  intros Hg. split; [exists []; cbn; rewrite app_nil_r; auto | cbn; auto].
Qed.

Lemma served_trans (st1 st2 st3 : handler_state World) :
  served st1 st2 -> served st2 st3 -> served st1 st3.
Proof.
  intros ((e1 & H1 & Q1) & _ & M1 & X1) ((e2 & H2 & Q2) & G2 & M2 & X2).
  split; [| split; [exact G2 | split; congruence]].
  exists (e1 ++ e2). rewrite H2, H1, app_assoc. split; [reflexivity |].
  rewrite forallb_app, Q1, Q2. reflexivity.
Qed.

Lemma handle_generate_served fuel msg text parsed off upd (st : handler_state World) :
  range_ok (hs_globals st) -> (enough_fuel (hs_globals st) <= fuel)%nat ->
  exists o st', handle_generate fuel msg text parsed off upd st = Some (o, st') /\ served st st'.
Proof.
  intros Hg Hfuel. unfold handle_generate.
  match goal with |- context [janus_nosip_allocate_local_ports fuel ?g ?m ?u ?w] =>
    destruct (janus_nosip_allocate_local_ports_total fuel g m u w Hg Hfuel)
      as (lp & w' & Hrun & Hok & Hmin & Hmax & _); rewrite Hrun end.
  destruct (lp_ret lp <? 0).
  { do 2 eexists. split; [reflexivity |].
    split; [exists []; cbn; rewrite app_nil_r; auto | cbn; auto]. }
  destruct (janus_nosip_sdp_manipulate (lp_globals lp) (lp_media lp) parsed false w')
    as [[[rendered sdp'] m'] w''].
  destruct rendered as [rendered|].
  2:{ do 2 eexists. split; [reflexivity |].
      split; [exists []; cbn; rewrite app_nil_r; auto | cbn; auto]. }
  match goal with |- context [start_media upd off ?s ?w] =>
    destruct (start_media upd off s w) as [s1 w1] end.
  do 2 eexists. split; [reflexivity |].
  split; [| cbn; auto].
  cbn [hs_upcalls].
  destruct (negb upd && notify_events (lp_globals lp) && events_is_enabled w'').
  - eexists. split; [reflexivity | reflexivity].
  - exists []. rewrite app_nil_r. auto.
Qed.


Lemma handle_process_served type text parsed off upd (st : handler_state World) :
  range_ok (hs_globals st) ->
  served st (snd (handle_process type text parsed off upd st)).
Proof.
  intros Hg. unfold handle_process.
  destruct (janus_nosip_sdp_process _ _ _ _ _ _) as [[[m changed] w] tr].
  destruct (negb (has_audio m) && negb (has_video m)).
  { split; [exists []; cbn; rewrite app_nil_r; auto | cbn; auto]. }
  destruct (is_null (remote_audio_ip m) && is_null (remote_video_ip m)).
  { split; [exists []; cbn; rewrite app_nil_r; auto | cbn; auto]. }
  destruct (require_srtp m && negb (has_srtp_remote m)).
  { split; [exists []; cbn; rewrite app_nil_r; auto | cbn; auto]. }
  match goal with |- context [start_media upd off ?s ?w] =>
    destruct (start_media upd off s w) as [s1 w1] end.
  split; [| cbn; auto].
  cbn [snd hs_upcalls].
  destruct (negb upd && notify_events (hs_globals st) && events_is_enabled w).
  - eexists. split; [reflexivity | reflexivity].
  - exists []. rewrite app_nil_r. auto.
Qed.

Lemma handle_generate_or_process_served fuel msg text (st : handler_state World) :
  range_ok (hs_globals st) -> (enough_fuel (hs_globals st) <= fuel)%nat ->
  exists o st', handle_generate_or_process fuel msg text st = Some (o, st') /\ served st st'.
Proof.
  intros Hg Hfuel. unfold handle_generate_or_process.
  destruct (read_sdp_request _ msg _) as [failure | rq].
  { do 2 eexists. split; [reflexivity | apply served_refl; exact Hg]. }
  destruct (read_srtp_request (message msg)) as [failure | [do_srtp require]].
  { do 2 eexists. split; [reflexivity | apply served_refl; exact Hg]. }
  destruct (apply_srtp_request _ rq do_srtp require (message msg) (media (hs_session st)))
    as [[failure m] | m].
  { do 2 eexists. split; [reflexivity | apply served_with_media; exact Hg]. }
  match goal with |- context [with_media st ?m'] =>
    pose proof (served_with_media st m' Hg) as Hw; set (st1 := with_media st m') in * end.
  assert (Hg1 : range_ok (hs_globals st1)) by exact Hg.
  assert (Hf1 : (enough_fuel (hs_globals st1) <= fuel)%nat) by exact Hfuel.
  destruct (janus_sdp_parse (msg_sdp rq)) as [parsed | sdperror].
  2:{ do 2 eexists. split; [reflexivity | exact Hw]. }
  destruct (strcasecmp text "generate" =? 0).
  - destruct (handle_generate_served fuel msg (msg_sdp rq) parsed (offer rq) (sdp_update rq)
                st1 Hg1 Hf1) as (o & st' & Hrun & Hs).
    exists o, st'. split; [exact Hrun | exact (served_trans _ _ _ Hw Hs)].
  - pose proof (handle_process_served (msg_sdp_type rq) (msg_sdp rq) parsed (offer rq)
                  (sdp_update rq) st1 Hg1) as Hs.
    destruct (handle_process _ _ _ _ _ st1) as [o st']. cbn [snd] in Hs.
    exists o, st'. split; [reflexivity | exact (served_trans _ _ _ Hw Hs)].
Qed.

Lemma recording_start_quiet s base a v pa pv (w : World) :
  forallb quiet (snd (recording_start s base a v pa pv w)) = true.
Proof.
  unfold recording_start.
  destruct (if pa then _ else _) as [s1 w1].
  destruct (if pv then _ else _) as [s2 w2].
  destruct (if a then _ else _) as [s3 w3].
  destruct v; [destruct (open_recorder _ _ _ _ _ _) |]; reflexivity.
Qed.

Lemma handle_recording_served msg (st : handler_state World) :
  range_ok (hs_globals st) -> served st (snd (handle_recording msg st)).
Proof.
  intros Hg. unfold handle_recording.
  destruct (JANUS_VALIDATE_JSON_OBJECT _ _ _ _) as [code cause].
  destruct (negb (code =? 0)); [apply served_refl; exact Hg |].
  destruct (json_string_value (json_object_get (message msg) "action")) as [action|];
    [| apply served_refl; exact Hg].
  destruct (negb (strcasecmp action "start" =? 0) && negb (strcasecmp action "stop" =? 0));
    [apply served_refl; exact Hg |].
  destruct (negb (json_is_true (json_object_get (message msg) "audio")) &&
            negb (json_is_true (json_object_get (message msg) "video")) &&
            negb (json_is_true (json_object_get (message msg) "peer_audio")) &&
            negb (json_is_true (json_object_get (message msg) "peer_video")));
    [apply served_refl; exact Hg |].
  destruct (strcasecmp action "start" =? 0).
  - match goal with |- context [recording_start ?s ?b ?a ?v ?pa ?pv ?w] =>
      pose proof (recording_start_quiet s b a v pa pv w) as Hq;
      destruct (recording_start s b a v pa pv w) as [[s1 w1] up] end.
    cbn [snd] in Hq |- *. split; [exists up; cbn; auto | cbn; auto].
  - destruct (janus_nosip_recorder_close _ _ _ _ _ _) as [s1 w1].
    cbn [snd]. split; [exists []; cbn; auto | cbn; auto].
Qed.

Lemma handle_keyframe_served msg (st : handler_state World) :
  range_ok (hs_globals st) -> served st (snd (handle_keyframe msg st)).
Proof.
  intros Hg. unfold handle_keyframe.
  destruct (JANUS_VALIDATE_JSON_OBJECT _ _ _ _) as [code cause].
  destruct (negb (code =? 0)); [apply served_refl; exact Hg |].
  cbn [snd]. split; [| cbn; auto].
  eexists. split; [reflexivity |].
  destruct (json_is_true (json_object_get (message msg) "user")); reflexivity.
Qed.

Lemma handle_request_served fuel msg (st : handler_state World) :
  range_ok (hs_globals st) -> (enough_fuel (hs_globals st) <= fuel)%nat ->
  exists o st', handle_request fuel msg st = Some (o, st') /\ served st st'.
Proof.
  intros Hg Hfuel. unfold handle_request.
  destruct (message msg) as [root|] eqn:Hroot;
    [| do 2 eexists; split; [reflexivity | apply served_refl; exact Hg]].
  destruct (negb (json_is_object (Some root)));
    [do 2 eexists; split; [reflexivity | apply served_refl; exact Hg] |].
  destruct (JANUS_VALIDATE_JSON_OBJECT _ _ _ _) as [code cause].
  destruct (negb (code =? 0));
    [do 2 eexists; split; [reflexivity | apply served_refl; exact Hg] |].
  destruct (json_string_value (json_object_get (Some root) "request")) as [text|];
    [| do 2 eexists; split; [reflexivity | apply served_refl; exact Hg]].
  destruct ((strcasecmp text "generate" =? 0) || (strcasecmp text "process" =? 0)).
  { apply handle_generate_or_process_served; assumption. }
  destruct (strcasecmp text "hangup" =? 0).
  { do 2 eexists. split; [reflexivity |].
    split; [exists [close_pc]; cbn; auto | cbn; auto]. }
  destruct (strcasecmp text "recording" =? 0).
  { pose proof (handle_recording_served msg st Hg) as Hs.
    destruct (handle_recording msg st) as [o st']. eauto. }
  destruct (strcasecmp text "keyframe" =? 0).
  { pose proof (handle_keyframe_served msg st Hg) as Hs.
    destruct (handle_keyframe msg st) as [o st']. eauto. }
  do 2 eexists. split; [reflexivity | apply served_refl; exact Hg].
Qed.

(** X29: on a port range that [janus_nosip_init] left, a turn of the handler
    returns whatever the message is, and it answers the message exactly once:
    the last thing it asks of the core is to push one event, the response,
    and nothing before that is a response.  The port range is left as it was
    and fit for the next request. *)
Theorem handler_answers_once fuel msg s g (w : World) :
  range_ok g -> (enough_fuel g <= fuel)%nat ->
  exists st,
    janus_nosip_handler fuel msg s g w = Some st /\
    (exists before event jsep,
       hs_upcalls st = before ++ [push_event event jsep] /\
       forallb quiet before = true) /\
    range_ok (hs_globals st) /\
    rtp_range_min (hs_globals st) = rtp_range_min g /\
    rtp_range_max (hs_globals st) = rtp_range_max g.
Proof.
  intros Hg Hfuel. unfold janus_nosip_handler.
  destruct (handle_request_served fuel msg (Build_handler_state s g w [] []) Hg Hfuel)
    as (o & st' & Hrun & (extra & Hup & Hq) & Hok & Hmin & Hmax).
  rewrite Hrun. eexists. split; [reflexivity |].
  cbn [hs_upcalls hs_globals] in *.
  split; [| auto].
  rewrite Hup. cbn [app].
  destruct o as [result localjsep | code cause]; do 3 eexists; split; reflexivity || exact Hq.
Qed.

End HandlerAnswers.

(** [handler_answers_once] for a [hangup] request on the default range. *)
Lemma handler_answers_once_witness :
  (range_ok default_globals /\
   (enough_fuel default_globals <= enough_fuel default_globals)%nat) /\
  exists st,
    janus_nosip_handler (K := sim_kernel) (L := sim_libs []) (enough_fuel default_globals)
      {| transaction := "t1";
         message := Some (json_object [("request", json_string "hangup")]);
         jsep := None |}
      (janus_nosip_create_session 1) default_globals (free_world [] 5) = Some st /\
    (exists before event jsep,
       hs_upcalls st = before ++ [push_event event jsep] /\
       forallb quiet before = true) /\
    range_ok (hs_globals st) /\
    rtp_range_min (hs_globals st) = rtp_range_min default_globals /\
    rtp_range_max (hs_globals st) = rtp_range_max default_globals.
Proof.
  assert (H : range_ok default_globals)
    by (unfold range_ok, default_globals, DEFAULT_RTP_RANGE_MIN, DEFAULT_RTP_RANGE_MAX; cbn;
        repeat split; try lia; try reflexivity; left; reflexivity).
  split; [split; [exact H | apply Nat.le_refl] |].
  exact (handler_answers_once (K := sim_kernel) (L := sim_libs []) (enough_fuel default_globals)
           _ (janus_nosip_create_session 1) default_globals (free_world [] 5)
           H (Nat.le_refl _)).
Defined.

(** ** Simulcast *)

Section SimulcastFacts.
Context {World : Type} {K : Kernel World} {L : Libs World}.

Lemma simulcast_offered (simulcast : option json_t) :
  0 < json_array_size simulcast ->
  not_null simulcast && (0 <? json_array_size simulcast) = true.
Proof.
  intros H. apply Z.ltb_lt in H as H'. rewrite H'.
  destruct simulcast as [j|]; [reflexivity | simpl in H; lia].
Qed.

Lemma handle_generate_simulcast fuel msg text parsed off upd (st : handler_state World) :
  match handle_generate fuel msg text parsed off upd st with
  | Some (Done _ _, st') =>
      0 < json_array_size (json_object_get (jsep msg) "simulcast") ->
      simulcast_ssrc (media (hs_session st'))
      = uint32 (json_integer_value
                  (json_object_get
                     (json_object_get
                        (json_array_get (json_object_get (jsep msg) "simulcast") 0) "ssrcs")
                     "ssrc-0"))
  | _ => True
  end.
Proof.
  unfold handle_generate.
  destruct (janus_nosip_allocate_local_ports _ _ _ _ _) as [[lp w']|]; [| exact I].
  destruct (lp_ret lp <? 0); [exact I |].
  destruct (janus_nosip_sdp_manipulate _ _ _ _ _) as [[[rendered sdp'] m'] w''].
  destruct rendered as [rendered|]; [| exact I].
  match goal with |- context [start_media upd off ?S ?W] =>
    destruct (start_media_ready upd off S W) as [b Hb];
    destruct (start_media upd off S W) as [s1 w1] end.
  cbn [fst] in Hb. intros Hsize. cbn [hs_session]. rewrite Hb.
  rewrite (simulcast_offered _ Hsize). reflexivity.
Qed.


Lemma shared_branch_simulcast fuel msg text (st : handler_state World) :
  match handle_generate_or_process fuel msg text st with
  | Some (Done _ _, st') =>
      (strcasecmp text "generate" =? 0) = true ->
      0 < json_array_size (json_object_get (jsep msg) "simulcast") ->
      simulcast_ssrc (media (hs_session st'))
      = uint32 (json_integer_value
                  (json_object_get
                     (json_object_get
                        (json_array_get (json_object_get (jsep msg) "simulcast") 0) "ssrcs")
                     "ssrc-0"))
  | _ => True
  end.
Proof.
  unfold handle_generate_or_process.
  destruct (read_sdp_request _ _ _) as [o1 | rq] eqn:Hread.
  { apply read_sdp_request_failure in Hread as (code1 & cause1 & -> & _). exact I. }
  destruct (read_srtp_request _) as [o2 | [do_srtp require]] eqn:Hsrtp.
  { apply read_srtp_request_failure in Hsrtp as (cause2 & -> & _). exact I. }
  destruct (apply_srtp_request _ _ _ _ _ _) as [[o3 m3] | m_a] eqn:Happly.
  { apply apply_srtp_request_refused in Happly as (_ & Hrefused).
    destruct Hrefused as [([cause ->] & _) | (-> & _)]; exact I. }
  destruct (janus_sdp_parse _) as [parsed | sdperror]; [| exact I].
  destruct (strcasecmp text "generate" =? 0).
  - match goal with |- context [handle_generate ?f ?m ?t ?p ?o ?u ?s] =>
      pose proof (handle_generate_simulcast f m t p o u s) as H;
      destruct (handle_generate f m t p o u s) as [[[r j | code cause] st']|] end; auto.
  - destruct (handle_process _ _ _ _ _ _) as [[r j | code cause] st']; [| exact I].
    discriminate.
Qed.

(** X30: a [generate] request that is answered with success and whose JSEP
    tells of simulcast leaves as the session's simulcast SSRC the integer
    that the first simulcast item has under ["ssrc-0"] in its [ssrcs]
    element, and 0 when there is no such integer.  What the first slot of an
    [ssrcs] array holds is never kept: with the SSRCs in an array the
    simulcast SSRC is 0. *)
Theorem generate_simulcast_ssrc fuel msg s g (w : World) st :
  janus_nosip_handler fuel msg s g w = Some st ->
  request_is "generate" msg = true ->
  error_code_of (pushed st) = None ->
  0 < json_array_size (json_object_get (jsep msg) "simulcast") ->
  let ssrcs := json_object_get
                 (json_array_get (json_object_get (jsep msg) "simulcast") 0) "ssrcs" in
  simulcast_ssrc (media (hs_session st))
    = uint32 (json_integer_value (json_object_get ssrcs "ssrc-0")) /\
  (forall items, ssrcs = Some (json_array items) ->
                 simulcast_ssrc (media (hs_session st)) = 0).
Proof.
  intros Hrun Hg Hok Hsize ssrcs.
  apply janus_nosip_handler_response in Hrun
    as (o & st0 & Hhandle & -> & _ & _ & Hcode & _).
  rewrite Hcode in Hok. destruct o as [result localjsep | code cause]; [| discriminate].
  destruct (handle_request_shared fuel msg (Build_handler_state s g w [] []) "generate" Hg)
    as (text & Heq & Hflag); [auto |].
  rewrite Heq in Hhandle.
  pose proof (shared_branch_simulcast fuel msg text (Build_handler_state s g w [] [])) as Hsim.
  rewrite Hhandle in Hsim. specialize (Hsim Hflag Hsize). fold ssrcs in Hsim.
  split; [exact Hsim |].
  intros items Hitems. rewrite Hsim, Hitems. reflexivity.
Qed.

End SimulcastFacts.

(** [generate_simulcast_ssrc] for an offer with the SSRCs 1111 and 2222 in
    an array: the simulcast SSRC stays 0. *)
Lemma generate_simulcast_ssrc_witness :
  exists st,
    janus_nosip_handler (K := sim_kernel) (L := sim_libs sample_descriptions) 100
      simulcast_message (janus_nosip_create_session 1) default_globals (free_world [] 9)
      = Some st /\
    result_event_of (pushed st) = Some "generated" /\
    let ssrcs := json_object_get
                   (json_array_get (json_object_get (jsep simulcast_message) "simulcast") 0)
                   "ssrcs" in
    simulcast_ssrc (media (hs_session st))
      = uint32 (json_integer_value (json_object_get ssrcs "ssrc-0")) /\
    (forall items, ssrcs = Some (json_array items) ->
                   simulcast_ssrc (media (hs_session st)) = 0).
Proof.
  eexists. split; [vm_compute; reflexivity |].
  split; [reflexivity |].
  apply (generate_simulcast_ssrc (K := sim_kernel) (L := sim_libs sample_descriptions) 100
           simulcast_message (janus_nosip_create_session 1) default_globals (free_world [] 9)).
  - vm_compute; reflexivity.
  - reflexivity.
  - reflexivity.
  - reflexivity.
Defined.
